(** * Agentic-MAS: the orchestration engine

    A shallow embedding of the planner graph
    ([services/planner/agent_langgraph.py]) and of the verifier pipeline
    ([services/verifier/*.py], [shared/schemas/*.py]), and the properties of
    the specification that were checked against it.

    Conventions of the embedding.
    - A Python [str] is a [string] of ASCII characters.
    - A Python [float] is a rational number ([Q]): the decimal that Python
      prints for it, which stands for the binary64 value nearest to it.
      Where the code computes a float (from a text, by a sum, a product or
      a quotient), the model rounds to the nearest binary64, ties to even,
      and writes the result with the fewest digits that denote it
      ([Py.as_float]); values beyond the finite range are outside the
      model but in [float(text)], where they are infinities.  Comparisons
      [>=], [>] become [Qle_bool], [Qlt] on the rationals.  Two kinds of
      numbers are kept as exact fractions: the quotient of two counts that
      is compared with a threshold and reported (an agreement rate, a
      stability rate), and the score by which the static directory orders
      its agents.
    - A Python [dict] is an association list in insertion order (iteration
      order decides ties in [max(d, key=d.get)]).
    - [Dict[str, Any]] values are drawn from [pyval].
    - Library code outside the repository (float formatting, [json.loads]
      with pydantic validation) is an interface, [Platform]; the directory,
      the agents, the language model and the clock are oracles ([World]). *)

From Stdlib Require Import List String Ascii ZArith QArith Bool Lia Lqa.
From Stdlib Require Import Qround Qpower Sorted Permutation.
Import ListNotations.
Close Scope Q_scope.
Open Scope string_scope.

(** ** Python values and built-ins *)

Module Py.

(** [str.isspace] on ASCII: TAB, LF, VT, FF, CR, FS, GS, RS, US, space. *)
Definition is_space (c : ascii) : bool :=
  let n := nat_of_ascii c in
  ((9 <=? n) && (n <=? 13) || (28 <=? n) && (n <=? 32))%nat.

Fixpoint rev_onto (s acc : string) : string :=
  match s with
  | EmptyString => acc
  | String c r => rev_onto r (String c acc)
  end.

Definition reversed (s : string) : string := rev_onto s "".

Fixpoint lstrip (s : string) : string :=
  match s with
  | EmptyString => ""
  | String c r => if is_space c then lstrip r else s
  end.

Definition rstrip (s : string) : string := reversed (lstrip (reversed s)).

(** [s.strip()] *)
Definition strip (s : string) : string := rstrip (lstrip s).

(** [s.startswith(p)] *)
Definition startswith (s p : string) : bool := String.prefix p s.

(** [s.split(sep)] for a one-character separator: never empty. *)
Fixpoint split (sep : ascii) (s : string) : list string :=
  match s with
  | EmptyString => [""]
  | String c r =>
      if Ascii.eqb c sep then "" :: split sep r
      else match split sep r with
           | h :: t => String c h :: t
           | [] => [String c ""]
           end
  end.

(** [s.split(sep, 1)]: at most one cut, at the first separator. *)
Fixpoint split1 (sep : ascii) (s : string) : list string :=
  match s with
  | EmptyString => [""]
  | String c r =>
      if Ascii.eqb c sep then [""; r]
      else match split1 sep r with
           | h :: t => String c h :: t
           | [] => [String c ""]
           end
  end.

(** [sep.join(l)] *)
Fixpoint join (sep : string) (l : list string) : string :=
  match l with
  | [] => ""
  | [x] => x
  | x :: r => x ++ sep ++ join sep r
  end.

(** *** Decimal output: [str(n)] for an [int] *)

Definition digit_char (n : nat) : ascii := ascii_of_nat (48 + n).

Fixpoint str_pos (fuel : nat) (n : nat) (acc : string) : string :=
  match fuel with
  | O => acc
  | S f =>
      let acc' := String (digit_char (n mod 10)) acc in
      if (n <? 10)%nat then acc' else str_pos f (n / 10) acc'
  end.

Definition str_nat (n : nat) : string := str_pos (S n) n "".

Definition str_int (z : Z) : string :=
  match z with
  | Zneg p => "-" ++ str_nat (Pos.to_nat p)
  | _ => str_nat (Z.to_nat z)
  end.

(** *** [repr] of strings, lists and dicts *)

Definition hex_char (n : nat) : ascii :=
  if (n <? 10)%nat then ascii_of_nat (48 + n) else ascii_of_nat (87 + n).

Fixpoint contains_char (c : ascii) (s : string) : bool :=
  match s with
  | EmptyString => false
  | String d r => Ascii.eqb c d || contains_char c r
  end.

Definition backslash : ascii := "092".
Definition double_quote : ascii := "034".

Definition escape_char (quote c : ascii) : string :=
  let n := nat_of_ascii c in
  if Ascii.eqb c backslash then String backslash (String backslash "")
  else if Ascii.eqb c quote then String backslash (String c "")
  else if Ascii.eqb c "009" then String backslash "t"
  else if Ascii.eqb c "010" then String backslash "n"
  else if Ascii.eqb c "013" then String backslash "r"
  else if ((n <? 32) || (n =? 127))%nat
       then String backslash (String "x" (String (hex_char (n / 16))
                                            (String (hex_char (n mod 16)) "")))
  else String c "".

Fixpoint escape (quote : ascii) (s : string) : string :=
  match s with
  | EmptyString => ""
  | String c r => escape_char quote c ++ escape quote r
  end.

(** [repr(s)]: single quotes, unless [s] has a single quote and no double
    quote. *)
Definition repr_str (s : string) : string :=
  let q : ascii :=
    if contains_char "'" s && negb (contains_char double_quote s)
    then double_quote else "'"%char in
  String q (escape q s ++ String q "").

Definition repr_list (l : list string) : string :=
  "[" ++ join ", " (map repr_str l) ++ "]".

(** *** Insertion-ordered dictionaries *)

Definition dict (V : Type) : Type := list (string * V).

Fixpoint get {V} (d : dict V) (k : string) : option V :=
  match d with
  | [] => None
  | (k', v) :: r => if String.eqb k' k then Some v else get r k
  end.

(** [d[k] = v]: overwrite in place, or append a new key at the end. *)
Fixpoint set {V} (d : dict V) (k : string) (v : V) : dict V :=
  match d with
  | [] => [(k, v)]
  | (k', v') :: r =>
      if String.eqb k' k then (k', v) :: r else (k', v') :: set r k v
  end.

Definition keys {V} (d : dict V) : list string := map fst d.
Definition values {V} (d : dict V) : list V := map snd d.

Definition repr_votes (d : dict nat) : string :=
  "{" ++ join ", " (map (fun kv => repr_str (fst kv) ++ ": " ++ str_nat (snd kv)) d)
      ++ "}".

(** [max(l)] over naturals, [None] for the [ValueError] on an empty
    sequence. *)
Definition max_nat (l : list nat) : option nat :=
  match l with
  | [] => None
  | x :: r => Some (fold_left Nat.max r x)
  end.

(** [max(d, key=d.get)]: the first key, in iteration order, whose value
    is not exceeded; [None] for an empty dict. *)
Fixpoint max_key_from (best : string) (bv : nat) (d : dict nat) : string :=
  match d with
  | [] => best
  | (k, v) :: r =>
      if (bv <? v)%nat then max_key_from k v r else max_key_from best bv r
  end.

Definition max_key (d : dict nat) : option string :=
  match d with
  | [] => None
  | (k, v) :: r => Some (max_key_from k v r)
  end.

(** *** Floats

    [binary64 x] is the value of the binary64 float nearest to the
    rational [x]: 53 bits of mantissa, exponents from -1022 on (so that the
    subnormal numbers are included), a tie going to the even mantissa.
    The exponent is not bounded above. *)

(** The integer nearest to a rational, a tie going to the even one. *)
Definition round_half_even (x : Q) : Z :=
  let f := Qfloor x in
  match (x - inject_Z f ?= 1 # 2)%Q with
  | Lt => f
  | Gt => (f + 1)%Z
  | Eq => if Z.even f then f else (f + 1)%Z
  end.

(** The binade of a positive rational [x]: the [e] with
    [2 ^ e <= x < 2 ^ (e + 1)]. *)
Definition binade (x : Q) : Z :=
  let e := (Z.log2 (Qnum x) - Z.log2 (Zpos (Qden x)))%Z in
  if Qle_bool (2 ^ e) x then e else (e - 1)%Z.

(** The float nearest to a positive rational [a]: the mantissa is the
    integer nearest to [a * 2 ^ shift], where the shift leaves 53 bits
    before the point, and fewer below the least normal exponent. *)
Definition nearest (a : Q) : Q :=
  let shift := (52 - Z.max (binade a) (-1022))%Z in
  (inject_Z (round_half_even (a * 2 ^ shift)) * 2 ^ (- shift))%Q.

Definition binary64 (x : Q) : Q :=
  match Qnum x with
  | Z0 => 0%Q
  | Zpos _ => Qred (nearest x)
  | Zneg _ => (- Qred (nearest (- x)))%Q
  end.

(** The decade of a positive rational [x]: the [d] with
    [10 ^ d <= x < 10 ^ (d + 1)], sought from [d] upwards and downwards. *)
Fixpoint decade_from (fuel : nat) (d : Z) (x : Q) : Z :=
  match fuel with
  | O => d
  | S fuel' =>
      if Qle_bool (10 ^ (d + 1)) x then decade_from fuel' (d + 1)%Z x
      else if Qle_bool (10 ^ d) x then d
      else decade_from fuel' (d - 1)%Z x
  end.

Definition decade (x : Q) : Z := decade_from 400 0 x.

(** The decimal of [digits] significant digits that denotes the positive
    float [f], if there is one: of the two decimals next to [f], from
    below and from above, the one that rounds to [f]; the nearer if both
    do. *)
Definition shortest_at (f : Q) (d digits : Z) : option Q :=
  let scale := (10 ^ (digits - 1 - d))%Q in
  let lo := Qfloor (f * scale) in
  let below := Qred (inject_Z lo / scale) in
  let above := Qred (inject_Z (lo + 1) / scale) in
  match Qeq_bool (binary64 below) f, Qeq_bool (binary64 above) f with
  | true, true =>
      Some match (f - below ?= above - f)%Q with
           | Lt => below
           | Gt => above
           | Eq => if Z.even lo then below else above
           end
  | true, false => Some below
  | false, true => Some above
  | false, false => None
  end.

Fixpoint shortest_from (fuel : nat) (digits : Z) (f : Q) (d : Z) : Q :=
  match fuel with
  | O => f
  | S fuel' =>
      match shortest_at f d digits with
      | Some c => c
      | None => shortest_from fuel' (digits + 1)%Z f d
      end
  end.

(** The number that [repr] writes for the float [f]: the decimal of the
    fewest significant digits that denotes it (17 always do). *)
Definition shortest (f : Q) : Q :=
  match Qnum f with
  | Z0 => 0%Q
  | Zpos _ => shortest_from 17 1 f (decade f)
  | Zneg _ => (- shortest_from 17 1 (- f) (decade (- f)))%Q
  end.

(** The float nearest to [x], as Python writes it. *)
Definition as_float (x : Q) : Q := shortest (binary64 x).

(** [a + b], [a - b], [a * b] and [a / b] on floats. *)
Definition fadd (a b : Q) : Q := as_float (binary64 a + binary64 b).
Definition fsub (a b : Q) : Q := as_float (binary64 a - binary64 b).
Definition fmul (a b : Q) : Q := as_float (binary64 a * binary64 b).
Definition fdiv (a b : Q) : Q := as_float (binary64 a / binary64 b).

(** [sum(l)] and [sum(l) / len(l)] over floats: [sum] adds from the left,
    starting from 0, and rounds every sum (as [+] does, and [sum] up to
    Python 3.11; later versions compensate the rounding errors of the
    additions); the division raises [ZeroDivisionError] on an empty
    list. *)
Definition sum (l : list Q) : Q := fold_left fadd l 0%Q.

Definition mean (l : list Q) : option Q :=
  match l with
  | [] => None
  | _ => Some (fdiv (sum l) (inject_Z (Z.of_nat (List.length l))))
  end.

(** *** [float(s)] *)

Inductive pyfloat : Type :=
| Finite (q : Q)
| Infinite (negative : bool)
| NotANumber.

Definition digit_val (c : ascii) : option Z :=
  let n := nat_of_ascii c in
  if ((48 <=? n) && (n <=? 57))%nat then Some (Z.of_nat (n - 48)) else None.

(** The rest of a [digitpart] once a digit was read: digits, each
    optionally preceded by one underscore.  Returns the value, the number
    of digits and the unread text. *)
Fixpoint digits_rest (s : string) (acc : Z) (n : nat) : Z * nat * string :=
  match s with
  | EmptyString => (acc, n, s)
  | String c r =>
      match digit_val c with
      | Some d => digits_rest r (10 * acc + d)%Z (S n)
      | None =>
          if Ascii.eqb c "_" then
            match r with
            | String c2 r2 =>
                match digit_val c2 with
                | Some d2 => digits_rest r2 (10 * acc + d2)%Z (S n)
                | None => (acc, n, s)
                end
            | EmptyString => (acc, n, s)
            end
          else (acc, n, s)
      end
  end.

(** [digitpart ::= digit (["_"] digit)*] *)
Definition digitpart (s : string) : option (Z * nat * string) :=
  match s with
  | String c r =>
      match digit_val c with
      | Some d => Some (digits_rest r d 1%nat)
      | None => None
      end
  | EmptyString => None
  end.

Definition take_sign (s : string) : bool * string :=
  match s with
  | String "-" r => (true, r)
  | String "+" r => (false, r)
  | _ => (false, s)
  end.

(** [number ::= [digitpart] "." digitpart | digitpart ["."]]: the
    mantissa as an integer, the number of fraction digits, the rest. *)
Definition number (s : string) : option (Z * nat * string) :=
  match digitpart s with
  | Some (ip, _, String "." r) =>
      match digitpart r with
      | Some (fp, fn, r') => Some ((ip * 10 ^ Z.of_nat fn + fp)%Z, fn, r')
      | None => Some (ip, O, r)
      end
  | Some (ip, _, r) => Some (ip, O, r)
  | None =>
      match s with
      | String "." r =>
          match digitpart r with
          | Some (fp, fn, r') => Some (fp, fn, r')
          | None => None
          end
      | _ => None
      end
  end.

(** [exponent ::= ("e" | "E") [sign] digitpart], up to the end of the
    text; no exponent is exponent 0. *)
Definition exponent (s : string) : option Z :=
  match s with
  | EmptyString => Some 0%Z
  | String c r =>
      if Ascii.eqb c "e" || Ascii.eqb c "E" then
        let (neg, r') := take_sign r in
        match digitpart r' with
        | Some (e, _, EmptyString) => Some (if neg then (- e)%Z else e)
        | _ => None
        end
      else None
  end.

Definition lower_char (c : ascii) : ascii :=
  let n := nat_of_ascii c in
  if ((65 <=? n) && (n <=? 90))%nat then ascii_of_nat (n + 32) else c.

Fixpoint lower (s : string) : string :=
  match s with
  | EmptyString => ""
  | String c r => String (lower_char c) (lower r)
  end.

(** [float(s)], [None] for [ValueError]: the float nearest to the number
    that the text writes, and an infinity when that number rounds beyond
    the finite range. *)
Definition float (s : string) : option pyfloat :=
  let (neg, body) := take_sign (strip s) in
  let l := lower body in
  if String.eqb l "inf" || String.eqb l "infinity" then Some (Infinite neg)
  else if String.eqb l "nan" then Some NotANumber
  else
    match number body with
    | Some (m, fn, r) =>
        match exponent r with
        | Some e =>
            let q := Qred (inject_Z m * Qpower (inject_Z 10) (e - Z.of_nat fn))%Q in
            if Qle_bool (2 ^ 1024) (binary64 q) then Some (Infinite neg)
            else Some (Finite (as_float (if neg then Qopp q else q)))
        | None => None
        end
    | None => None
    end.

End Py.

(** ** Exceptions

    A call either returns or raises; [Raised] carries [str(e)]. *)

Inductive attempt (A : Type) : Type :=
| Returned (a : A)
| Raised (msg : string).
Arguments Returned {A} a.
Arguments Raised {A} msg.

Definition bind {A B} (x : attempt A) (k : A -> attempt B) : attempt B :=
  match x with
  | Returned a => k a
  | Raised m => Raised m
  end.

Notation "x <- e ;; k" := (bind e (fun x => k))
  (at level 61, e at next level, right associativity).

Definition of_option {A} (msg : string) (o : option A) : attempt A :=
  match o with
  | Some a => Returned a
  | None => Raised msg
  end.

(** ** Schemas ([shared/schemas]) *)

Module VerificationStatus.
Inductive t : Type := PASS | FAIL | INCONCLUSIVE.
Definition value (s : t) : string :=
  match s with
  | PASS => "PASS"
  | FAIL => "FAIL"
  | INCONCLUSIVE => "INCONCLUSIVE"
  end.
End VerificationStatus.

Module VerificationTestResult.
Inductive t : Type := PASS | FAIL | SKIP.
Definition eqb (a b : t) : bool :=
  match a, b with
  | PASS, PASS | FAIL, FAIL | SKIP, SKIP => true
  | _, _ => false
  end.
End VerificationTestResult.

Module VerificationRecommendation.
Inductive t : Type :=
| ACCEPT | REPLAN_ENSEMBLE | REPLAN_DIFFERENT_AGENTS | HUMAN_REVIEW | ABORT.
Definition value (r : t) : string :=
  match r with
  | ACCEPT => "accept"
  | REPLAN_ENSEMBLE => "replan_ensemble"
  | REPLAN_DIFFERENT_AGENTS => "replan_different_agents"
  | HUMAN_REVIEW => "human_review"
  | ABORT => "abort"
  end.
Definition eqb (a b : t) : bool := String.eqb (value a) (value b).
End VerificationRecommendation.

(** The values stored under [Dict[str, Any]]. *)
#[warnings="-register-all"]
Inductive pyval : Type :=
| VNone
| VBool (b : bool)
| VInt (z : Z)
| VFloat (q : Q)
| VStr (s : string)
| VEnum (r : VerificationRecommendation.t)
| VList (l : list pyval)
| VDict (d : list (string * pyval)).

(** [bool(v)] *)
Definition truthy (v : pyval) : bool :=
  match v with
  | VNone => false
  | VBool b => b
  | VInt z => negb (z =? 0)%Z
  | VFloat q => negb (Qeq_bool q 0)
  | VStr s => negb (String.eqb s "")
  | VEnum _ => true
  | VList l => match l with [] => false | _ => true end
  | VDict d => match d with [] => false | _ => true end
  end.

(** [member == v] for a member of the [str]-mixin enum: equal to itself and
    to its string value. *)
Definition enum_eq (r : VerificationRecommendation.t) (v : pyval) : bool :=
  match v with
  | VEnum r' => VerificationRecommendation.eqb r r'
  | VStr s => String.eqb (VerificationRecommendation.value r) s
  | _ => false
  end.

(** [member in l] *)
Definition enum_in (r : VerificationRecommendation.t) (l : list pyval) : bool :=
  existsb (enum_eq r) l.

Module TopKPrediction.
Record t : Type := { label : string; confidence : Q; rank : Z }.
End TopKPrediction.

Module ClassificationResult.
Record t : Type := {
  request_id : string;
  agent_id : string;
  label : string;
  confidence : Q;
  top_k : list TopKPrediction.t;
  latency_ms : Z;
  mcp_enhanced : bool;
  reasoning : option string
}.

(** [model_copy(deep=True)] followed by the three attribute
    assignments of [get_ensemble_result]. *)
Definition with_vote (r : t) (l : string) (c : Q) (a : string) : t :=
  {| request_id := request_id r; agent_id := a; label := l; confidence := c;
     top_k := top_k r; latency_ms := latency_ms r;
     mcp_enhanced := mcp_enhanced r; reasoning := reasoning r |}.
End ClassificationResult.

Module ImageSource.
Record t : Type := { url : option string; presigned_url : option string }.
End ImageSource.

Module ClassificationConstraints.
Record t : Type := {
  timeout_ms : Z;
  min_confidence : Q;
  return_top_k : Z;
  require_verification : bool;
  preferred_domains : option (list string)
}.
End ClassificationConstraints.

Module ClassificationRequest.
Record t : Type := {
  request_id : string;
  image : ImageSource.t;
  prompt : string;
  constraints : ClassificationConstraints.t
}.
End ClassificationRequest.

Module VerificationTest.
Record t : Type := {
  test_name : string;
  result : VerificationTestResult.t;
  details : Py.dict pyval
}.
End VerificationTest.

Module DisagreementAnalysis.
Record t : Type := {
  agreement_rate : Q;
  conflicting_labels : list string;
  vote_distribution : Py.dict nat
}.

(** The constructor validates [agreement_rate] ([ge=0, le=1]). *)
Definition make (rate : Q) (labels : list string) (votes : Py.dict nat)
  : attempt t :=
  if Qle_bool 0 rate && Qle_bool rate 1
  then Returned {| agreement_rate := rate; conflicting_labels := labels;
                   vote_distribution := votes |}
  else Raised "ValidationError".
End DisagreementAnalysis.

Module VerificationReport.
Record t : Type := {
  request_id : string;
  status : VerificationStatus.t;
  tests_performed : list VerificationTest.t;
  primary_result : option ClassificationResult.t;
  ensemble_results : option (list ClassificationResult.t);
  disagreement_analysis : option DisagreementAnalysis.t;
  recommendation : VerificationRecommendation.t;
  notes : string
}.
End VerificationReport.

Module VerificationConfig.
Record t : Type := {
  enable_augmentation_test : bool;
  enable_ensemble_voting : bool;
  confidence_threshold : Q;
  augmentation_stability_threshold : Q;
  ensemble_agreement_threshold : Q
}.

(** [VerificationConfig()] *)
Definition default : t :=
  {| enable_augmentation_test := true;
     enable_ensemble_voting := false;
     confidence_threshold := 0.75%Q;
     augmentation_stability_threshold := 0.67%Q;
     ensemble_agreement_threshold := 0.67%Q |}.
End VerificationConfig.

(** ** Code outside the repository *)

Class Platform : Type := {
  (** [format(x, spec)] for a float [x]; the empty [spec] is [str(x)]. *)
  format_float : string -> Q -> string;
  (** [json.loads(text)] unpacked into the [ClassificationResult]
      constructor, with its validation. *)
  json_classification_result : string -> attempt ClassificationResult.t;
  (** [apply_transforms_to_url(url, names)]: the image download and the
      PIL transforms, as (base64 image, transform name) pairs. *)
  apply_transforms_to_url :
    option string -> list string -> attempt (list (string * string))
}.

(** The SLIM client handed to the stability test: [send_task(url, task)]. *)
Record SlimClient : Type := {
  send_task : string -> Py.dict pyval -> attempt (Py.dict pyval)
}.

(** ** The verifier ([services/verifier]) *)

Module ConfidenceGate.
Import VerificationTest.

Record t : Type := { pass_threshold : Q; uncertain_threshold : Q }.

(** [ConfidenceGate(pass_threshold=0.75, uncertain_threshold=0.6)] *)
Definition init (pass : Q) : t :=
  {| pass_threshold := pass; uncertain_threshold := 0.6%Q |}.
Definition default : t := init 0.75%Q.

Section WithPlatform.
Context `{Platform}.

Definition verify (self : t) (result : ClassificationResult.t)
  : VerificationTest.t :=
  let confidence := ClassificationResult.confidence result in
  if Qle_bool (pass_threshold self) confidence then
    {| test_name := "confidence_threshold";
       result := VerificationTestResult.PASS;
       details :=
         [ ("threshold", VFloat (pass_threshold self));
           ("actual", VFloat confidence);
           ("recommendation", VEnum VerificationRecommendation.ACCEPT) ] |}
  else if Qle_bool (uncertain_threshold self) confidence then
    {| test_name := "confidence_threshold";
       result := VerificationTestResult.FAIL;
       details :=
         [ ("threshold", VFloat (pass_threshold self));
           ("actual", VFloat confidence);
           ("recommendation",
             VEnum VerificationRecommendation.REPLAN_ENSEMBLE);
           ("reason",
             VStr ("Confidence " ++ format_float ".3f" confidence
                   ++ " below threshold "
                   ++ format_float "" (pass_threshold self)
                   ++ ". Suggest ensemble.")) ] |}
  else
    {| test_name := "confidence_threshold";
       result := VerificationTestResult.FAIL;
       details :=
         [ ("threshold", VFloat (pass_threshold self));
           ("actual", VFloat confidence);
           ("recommendation",
             VEnum VerificationRecommendation.HUMAN_REVIEW);
           ("reason",
             VStr ("Very low confidence "
                   ++ format_float ".3f" confidence
                   ++ ". Manual review required.")) ] |}.
End WithPlatform.
End ConfidenceGate.

Module EnsembleVoter.
Import VerificationTest.

Record t : Type := { agreement_threshold : Q }.

(** [EnsembleVoter(agreement_threshold=0.67)] *)
Definition default : t := {| agreement_threshold := 0.67%Q |}.

Definition votes_of (d : Py.dict nat) (l : string) : nat :=
  match Py.get d l with Some n => n | None => O end.

Definition confidences_of (d : Py.dict (list Q)) (l : string) : list Q :=
  match Py.get d l with Some c => c | None => [] end.

(** One turn of the counting loop: [label_votes[label] =
    label_votes.get(label, 0) + 1], and the confidence appended to the
    label's list, which is created empty at the first sight of the
    label. *)
Definition count_vote (acc : Py.dict nat * Py.dict (list Q))
  (r : ClassificationResult.t) : Py.dict nat * Py.dict (list Q) :=
  let label := ClassificationResult.label r in
  (Py.set (fst acc) label (votes_of (fst acc) label + 1),
   Py.set (snd acc) label
     (confidences_of (snd acc) label
        ++ [ClassificationResult.confidence r])%list).

Definition count_votes (results : list ClassificationResult.t)
  : Py.dict nat * Py.dict (list Q) :=
  fold_left count_vote results ([], []).

(** [a / b] on two [int]s. *)
Definition true_div (a b : nat) : attempt Q :=
  match b with
  | O => Raised "division by zero"
  | _ => Returned (inject_Z (Z.of_nat a) / inject_Z (Z.of_nat b))%Q
  end.

(** [sum(l) / len(l)] *)
Definition average (l : list Q) : attempt Q :=
  of_option "division by zero" (Py.mean l).

Definition votes_value (d : Py.dict nat) : pyval :=
  VDict (map (fun kv => (fst kv, VInt (Z.of_nat (snd kv)))) d).

Definition verify (self : t) (results : list ClassificationResult.t)
  : attempt (VerificationTest.t * option DisagreementAnalysis.t) :=
  if (List.length results <? 2)%nat then
    Returned
      ({| test_name := "ensemble_voting";
          result := VerificationTestResult.SKIP;
          details :=
            [ ("reason",
                VStr "Less than 2 results, ensemble not applicable") ] |},
       None)
  else
    let (label_votes, label_confidences) := count_votes results in
    let total_votes := List.length results in
    max_votes <- of_option "max() arg is an empty sequence"
                   (Py.max_nat (Py.values label_votes)) ;;
    agreement_rate <- true_div max_votes total_votes ;;
    majority_label <- of_option "max() arg is an empty sequence"
                        (Py.max_key label_votes) ;;
    disagreement <- DisagreementAnalysis.make agreement_rate
                      (Py.keys label_votes) label_votes ;;
    if Qle_bool (agreement_threshold self) agreement_rate then
      confs <- of_option "KeyError"
                 (Py.get label_confidences majority_label) ;;
      avg_confidence <- average confs ;;
      Returned
        ({| test_name := "ensemble_voting";
            result := VerificationTestResult.PASS;
            details :=
              [ ("agreement_rate", VFloat agreement_rate);
                ("agreement_threshold", VFloat (agreement_threshold self));
                ("majority_label", VStr majority_label);
                ("votes",
                  VStr (Py.str_nat max_votes ++ "/"
                        ++ Py.str_nat total_votes));
                ("avg_confidence", VFloat avg_confidence);
                ("recommendation",
                  VEnum VerificationRecommendation.ACCEPT);
                ("note",
                  VStr (Py.str_nat max_votes ++ "/"
                        ++ Py.str_nat total_votes ++ " agents agreed on '"
                        ++ majority_label ++ "'")) ] |},
         Some disagreement)
    else
      Returned
        ({| test_name := "ensemble_voting";
            result := VerificationTestResult.FAIL;
            details :=
              [ ("agreement_rate", VFloat agreement_rate);
                ("agreement_threshold", VFloat (agreement_threshold self));
                ("vote_distribution", votes_value label_votes);
                ("recommendation",
                  VEnum VerificationRecommendation.HUMAN_REVIEW);
                ("reason",
                  VStr ("No majority. Disagreement: "
                        ++ Py.repr_votes label_votes)) ] |},
         Some disagreement).

Definition get_ensemble_result (self : t)
  (results : list ClassificationResult.t) : attempt ClassificationResult.t :=
  let (label_votes, label_confidences) := count_votes results in
  majority_label <- of_option "max() arg is an empty sequence"
                      (Py.max_key label_votes) ;;
  confs <- of_option "KeyError" (Py.get label_confidences majority_label) ;;
  avg_confidence <- average confs ;;
  first <- of_option "list index out of range" (hd_error results) ;;
  Returned
    (ClassificationResult.with_vote first majority_label avg_confidence
       "ensemble").
End EnsembleVoter.

Module AugmentationStabilityTester.
Import VerificationTest.

Record t : Type := { stability_threshold : Q }.

(** [ImageTransformer.get_standard_augmentations()] *)
Definition get_standard_augmentations : list string :=
  ["rotate_15"; "blur_sigma1"; "brightness_1.1"].

Definition get_or_none (d : Py.dict pyval) (k : string) : pyval :=
  match Py.get d k with Some v => v | None => VNone end.

(** [v == s] for a string [s]. *)
Definition eq_str (v : pyval) (s : string) : bool :=
  match v with
  | VStr s' => String.eqb s' s
  | VEnum r => String.eqb (VerificationRecommendation.value r) s
  | _ => false
  end.

Definition task_for (result : ClassificationResult.t)
  (b64_image transform_name : string) : Py.dict pyval :=
  [ ("request_id",
      VStr (ClassificationResult.request_id result ++ "-aug-"
            ++ transform_name));
    ("image", VDict [("bytes", VStr b64_image); ("format", VStr "jpeg")]);
    ("prompt", VStr "Classify image");
    ("constraints",
      VDict [("timeout_ms", VInt 5000); ("return_top_k", VInt 1)]) ].

(** One turn of the re-classification loop over
    [(stable_count, results)]; a failed call is logged and skipped. *)
Definition reclassify (slim_client : SlimClient) (agent_url : string)
  (result : ClassificationResult.t) (acc : nat * list pyval)
  (image : string * string) : nat * list pyval :=
  let (b64_image, transform_name) := image in
  match send_task slim_client agent_url
          (task_for result b64_image transform_name) with
  | Returned aug_result =>
      let entry :=
        VDict [ ("transform", VStr transform_name);
                ("label", get_or_none aug_result "label");
                ("confidence", get_or_none aug_result "confidence") ] in
      ((if eq_str (get_or_none aug_result "label")
             (ClassificationResult.label result)
        then S (fst acc) else fst acc),
       (snd acc ++ [entry])%list)
  | Raised _ => acc
  end.

Section WithPlatform.
Context `{Platform}.

Definition verify (self : t) (result : ClassificationResult.t)
  (agent_url : string) (image_presigned_url : option string)
  (slim_client : option SlimClient) : VerificationTest.t :=
  match slim_client with
  | None =>
      {| test_name := "augmentation_stability";
         result := VerificationTestResult.SKIP;
         details :=
           [ ("reason",
               VStr "Augmentation test not configured (requires SLIM client)");
             ("recommendation",
               VEnum VerificationRecommendation.ACCEPT) ] |}
  | Some client =>
      let transform_names := get_standard_augmentations in
      match apply_transforms_to_url image_presigned_url transform_names with
      | Raised e =>
          {| test_name := "augmentation_stability";
             result := VerificationTestResult.FAIL;
             details :=
               [ ("error", VStr e);
                 ("recommendation",
                   VEnum VerificationRecommendation.ACCEPT) ] |}
      | Returned transformed_images =>
          let (stable_count, results) :=
            fold_left (reclassify client agent_url result)
              transformed_images (O, []) in
          let n := List.length transform_names in
          let stability_rate : Q :=
            match n with
            | O => 0%Q
            | _ => (inject_Z (Z.of_nat stable_count)
                    / inject_Z (Z.of_nat n))%Q
            end in
          let ratio := Py.str_nat stable_count ++ "/" ++ Py.str_nat n in
          if Qle_bool (stability_threshold self) stability_rate then
            {| test_name := "augmentation_stability";
               result := VerificationTestResult.PASS;
               details :=
                 [ ("stability_rate", VFloat stability_rate);
                   ("stability_threshold",
                     VFloat (stability_threshold self));
                   ("stable_count", VStr ratio);
                   ("transforms_applied",
                     VList (map VStr transform_names));
                   ("results", VList results);
                   ("recommendation",
                     VEnum VerificationRecommendation.ACCEPT);
                   ("note",
                     VStr ("Label '" ++ ClassificationResult.label result
                           ++ "' stable under " ++ ratio
                           ++ " transforms")) ] |}
          else
            {| test_name := "augmentation_stability";
               result := VerificationTestResult.FAIL;
               details :=
                 [ ("stability_rate", VFloat stability_rate);
                   ("stability_threshold",
                     VFloat (stability_threshold self));
                   ("stable_count", VStr ratio);
                   ("results", VList results);
                   ("recommendation",
                     VEnum
                       VerificationRecommendation.REPLAN_DIFFERENT_AGENTS);
                   ("reason",
                     VStr ("Unstable predictions. Only " ++ ratio
                           ++ " preserved label.")) ] |}
      end
  end.
End WithPlatform.
End AugmentationStabilityTester.

Module Verifier.
Import VerificationTest.

Record t : Type := {
  config : VerificationConfig.t;
  confidence_gate : ConfidenceGate.t;
  ensemble_voter : EnsembleVoter.t;
  augmentation_tester : AugmentationStabilityTester.t
}.

(** [Verifier(config)]; [None] takes [VerificationConfig()]. *)
Definition init (config : option VerificationConfig.t) : t :=
  let c := match config with
           | Some c => c
           | None => VerificationConfig.default
           end in
  {| config := c;
     confidence_gate :=
       ConfidenceGate.init (VerificationConfig.confidence_threshold c);
     ensemble_voter :=
       {| EnsembleVoter.agreement_threshold :=
            VerificationConfig.ensemble_agreement_threshold c |};
     augmentation_tester :=
       {| AugmentationStabilityTester.stability_threshold :=
            VerificationConfig.augmentation_stability_threshold c |} |}.

Definition is_fail (t : VerificationTest.t) : bool :=
  VerificationTestResult.eqb (result t) VerificationTestResult.FAIL.
Definition is_pass (t : VerificationTest.t) : bool :=
  VerificationTestResult.eqb (result t) VerificationTestResult.PASS.

(** The loop collecting [test.details.get("recommendation")] of the failed
    tests, when truthy. *)
Fixpoint collect_recommendations (failed_tests : list VerificationTest.t)
  : list pyval :=
  match failed_tests with
  | [] => []
  | test :: r =>
      match Py.get (details test) "recommendation" with
      | Some rec =>
          if truthy rec then rec :: collect_recommendations r
          else collect_recommendations r
      | None => collect_recommendations r
      end
  end.

Definition _aggregate_results (tests : list VerificationTest.t)
  : VerificationStatus.t * VerificationRecommendation.t * string :=
  let failed_tests := filter is_fail tests in
  let passed_tests := filter is_pass tests in
  match failed_tests with
  | [] =>
      (VerificationStatus.PASS, VerificationRecommendation.ACCEPT,
       "All " ++ Py.str_nat (List.length passed_tests)
         ++ " verification tests passed.")
  | _ =>
      let recommendations := collect_recommendations failed_tests in
      let final_recommendation :=
        if enum_in VerificationRecommendation.HUMAN_REVIEW recommendations
        then VerificationRecommendation.HUMAN_REVIEW
        else if enum_in VerificationRecommendation.REPLAN_ENSEMBLE
                  recommendations
        then VerificationRecommendation.REPLAN_ENSEMBLE
        else if enum_in VerificationRecommendation.REPLAN_DIFFERENT_AGENTS
                  recommendations
        then VerificationRecommendation.REPLAN_DIFFERENT_AGENTS
        else VerificationRecommendation.ABORT in
      let notes :=
        Py.str_nat (List.length failed_tests) ++ " test(s) failed: "
          ++ Py.repr_list (map test_name failed_tests) in
      (VerificationStatus.FAIL, final_recommendation, notes)
  end.

Definition nonempty_str (s : option string) : option string :=
  match s with
  | Some u => if String.eqb u "" then None else Some u
  | None => None
  end.

Section WithPlatform.
Context `{Platform}.

Definition verify (self : t) (results : list ClassificationResult.t)
  (request : ClassificationRequest.t) (agent_url : option string)
  (slim_client : option SlimClient) : attempt VerificationReport.t :=
  match results with
  | [] =>
      Returned
        {| VerificationReport.request_id :=
             ClassificationRequest.request_id request;
           VerificationReport.status := VerificationStatus.FAIL;
           VerificationReport.tests_performed := [];
           VerificationReport.primary_result := None;
           VerificationReport.ensemble_results := None;
           VerificationReport.disagreement_analysis := None;
           VerificationReport.recommendation :=
             VerificationRecommendation.ABORT;
           VerificationReport.notes := "No results to verify" |}
  | primary_result :: _ =>
      (* Test 1: confidence gating (always run) *)
      let conf_test :=
        ConfidenceGate.verify (confidence_gate self) primary_result in
      let tests_performed := [conf_test] in
      (* Test 2: ensemble voting (if multiple results) *)
      voted <-
        (if (1 <? List.length results)%nat
            && VerificationConfig.enable_ensemble_voting (config self)
         then
           r <- EnsembleVoter.verify (ensemble_voter self) results ;;
           Returned ((tests_performed ++ [fst r])%list, snd r)
         else Returned (tests_performed, None)) ;;
      let tests_performed := fst voted in
      let disagreement_analysis := snd voted in
      (* Test 3: augmentation stability (if enabled) *)
      let tests_performed :=
        match VerificationConfig.enable_augmentation_test (config self),
              nonempty_str agent_url, slim_client with
        | true, Some url, Some client =>
            (tests_performed
               ++ [AugmentationStabilityTester.verify
                     (augmentation_tester self) primary_result url
                     (ImageSource.presigned_url
                        (ClassificationRequest.image request))
                     (Some client)])%list
        | _, _, _ => tests_performed
        end in
      let '(status, recommendation, notes) :=
        _aggregate_results tests_performed in
      Returned
        {| VerificationReport.request_id :=
             ClassificationRequest.request_id request;
           VerificationReport.status := status;
           VerificationReport.tests_performed := tests_performed;
           VerificationReport.primary_result := Some primary_result;
           VerificationReport.ensemble_results :=
             if (1 <? List.length results)%nat then Some results
             else None;
           VerificationReport.disagreement_analysis :=
             disagreement_analysis;
           VerificationReport.recommendation := recommendation;
           VerificationReport.notes := notes |}
  end.

Definition get_ensemble_result (self : t)
  (results : list ClassificationResult.t)
  : attempt ClassificationResult.t :=
  EnsembleVoter.get_ensemble_result (ensemble_voter self) results.
End WithPlatform.
End Verifier.

(** ** Routing and discovery schemas *)

Module AgentRecord.
Record t : Type := {
  agent_id : string;
  name : string;
  description : string;
  organization : string;
  url : string
}.
End AgentRecord.

Module DiscoveryQuery.
Record t : Type := {
  skill_id : option string;
  tags : list string;
  min_success_rate : Q;
  max_latency_ms : option Z;
  limit : Z
}.
End DiscoveryQuery.

Module AgentRole.
Inductive t : Type := PRIMARY | SECONDARY | ENSEMBLE.
End AgentRole.

Module ExecutionStrategy.
Inductive t : Type := SINGLE_BEST | PARALLEL_ENSEMBLE | SEQUENTIAL_FALLBACK.
Definition value (s : t) : string :=
  match s with
  | SINGLE_BEST => "single_best"
  | PARALLEL_ENSEMBLE => "parallel_ensemble"
  | SEQUENTIAL_FALLBACK => "sequential_fallback"
  end.
End ExecutionStrategy.

Module SelectedAgent.
Record t : Type := {
  agent_id : string;
  name : string;
  url : string;
  role : AgentRole.t;
  selection_score : Q;
  selection_reason : string
}.
End SelectedAgent.

Module RouteDecision.
Record t : Type := {
  request_id : string;
  selected_agents : list SelectedAgent.t;
  strategy : ExecutionStrategy.t
}.
End RouteDecision.

(** Structured outputs of the language model. *)
Module AgentSelection.
Record t : Type := {
  selected_agent_ids : list string;
  reasoning : string;
  confidence : Q
}.
End AgentSelection.

Module ShouldContinue.
Record t : Type := {
  should_continue : bool;
  reason : string;
  mismatch_detected : bool
}.
End ShouldContinue.

(** ** The world around one planner

    Every oracle takes the number of the graph step at which it is asked,
    so that the same question may be answered differently later on. *)

(** What the A2A client hands back: the texts of [result.parts] (a part
    without [text] is [None]) and the error of the response. *)
Module A2AResponse.
Record t : Type := {
  parts : option (list (option string));
  error : option string
}.
End A2AResponse.

Record World : Type := {
  (** [self.llm] was created by the constructor. *)
  llm : bool;
  (** [AgentDiscovery.discover(query)], awaited with its timeout. *)
  discover : nat -> DiscoveryQuery.t -> attempt (list AgentRecord.t);
  (** The agent-selection call of the language model. *)
  select_agents :
    nat -> list AgentRecord.t -> string -> attempt AgentSelection.t;
  (** [client.send_message] to the agent card (name, url) at a position of
      the dispatch. *)
  send_message :
    nat -> nat -> string * string -> string -> attempt A2AResponse.t;
  (** The reflection call of the language model; [None] is an answer
      without [should_continue]. *)
  reflect :
    nat -> list ClassificationResult.t -> attempt (option ShouldContinue.t);
  (** [str(uuid4())] at a step, by the place that asks for it: twice the
      position of an agent for its parsed result, and one more for its
      parse_error result. *)
  uuid4 : nat -> nat -> string;
  (** [datetime.utcnow().timestamp()] *)
  utcnow : nat -> Q
}.

(** ** The planner ([services/planner]) *)

Module Planner.

Definition MAX_REPLANS : Z := 3.

(** [PlannerState]; [mismatch_warning] is the one key that the initial
    state does not hold ([None]). *)
Record PlannerState : Type := {
  request : ClassificationRequest.t;
  request_id : string;
  iteration : Z;
  start_time : Q;
  intent : Py.dict pyval;
  discovered_agents : list AgentRecord.t;
  route_decision : option RouteDecision.t;
  results : list ClassificationResult.t;
  verification_status : string;
  verification_report : Py.dict pyval;
  verification_recommendation : string;
  mismatch_warning : option string;
  final_response : Py.dict pyval;
  messages : list string;
  error : string
}.

(** [state[key] = v] *)
Definition set_iteration (s : PlannerState) (v : Z) : PlannerState :=
  {| request := request s;
     request_id := request_id s;
     iteration := v;
     start_time := start_time s;
     intent := intent s;
     discovered_agents := discovered_agents s;
     route_decision := route_decision s;
     results := results s;
     verification_status := verification_status s;
     verification_report := verification_report s;
     verification_recommendation := verification_recommendation s;
     mismatch_warning := mismatch_warning s;
     final_response := final_response s;
     messages := messages s;
     error := error s |}.
Definition set_intent (s : PlannerState) (v : Py.dict pyval) : PlannerState :=
  {| request := request s;
     request_id := request_id s;
     iteration := iteration s;
     start_time := start_time s;
     intent := v;
     discovered_agents := discovered_agents s;
     route_decision := route_decision s;
     results := results s;
     verification_status := verification_status s;
     verification_report := verification_report s;
     verification_recommendation := verification_recommendation s;
     mismatch_warning := mismatch_warning s;
     final_response := final_response s;
     messages := messages s;
     error := error s |}.
Definition set_discovered_agents (s : PlannerState) (v : list AgentRecord.t) : PlannerState :=
  {| request := request s;
     request_id := request_id s;
     iteration := iteration s;
     start_time := start_time s;
     intent := intent s;
     discovered_agents := v;
     route_decision := route_decision s;
     results := results s;
     verification_status := verification_status s;
     verification_report := verification_report s;
     verification_recommendation := verification_recommendation s;
     mismatch_warning := mismatch_warning s;
     final_response := final_response s;
     messages := messages s;
     error := error s |}.
Definition set_route_decision (s : PlannerState) (v : option RouteDecision.t) : PlannerState :=
  {| request := request s;
     request_id := request_id s;
     iteration := iteration s;
     start_time := start_time s;
     intent := intent s;
     discovered_agents := discovered_agents s;
     route_decision := v;
     results := results s;
     verification_status := verification_status s;
     verification_report := verification_report s;
     verification_recommendation := verification_recommendation s;
     mismatch_warning := mismatch_warning s;
     final_response := final_response s;
     messages := messages s;
     error := error s |}.
Definition set_results (s : PlannerState) (v : list ClassificationResult.t) : PlannerState :=
  {| request := request s;
     request_id := request_id s;
     iteration := iteration s;
     start_time := start_time s;
     intent := intent s;
     discovered_agents := discovered_agents s;
     route_decision := route_decision s;
     results := v;
     verification_status := verification_status s;
     verification_report := verification_report s;
     verification_recommendation := verification_recommendation s;
     mismatch_warning := mismatch_warning s;
     final_response := final_response s;
     messages := messages s;
     error := error s |}.
Definition set_verification_status (s : PlannerState) (v : string) : PlannerState :=
  {| request := request s;
     request_id := request_id s;
     iteration := iteration s;
     start_time := start_time s;
     intent := intent s;
     discovered_agents := discovered_agents s;
     route_decision := route_decision s;
     results := results s;
     verification_status := v;
     verification_report := verification_report s;
     verification_recommendation := verification_recommendation s;
     mismatch_warning := mismatch_warning s;
     final_response := final_response s;
     messages := messages s;
     error := error s |}.
Definition set_verification_report (s : PlannerState) (v : Py.dict pyval) : PlannerState :=
  {| request := request s;
     request_id := request_id s;
     iteration := iteration s;
     start_time := start_time s;
     intent := intent s;
     discovered_agents := discovered_agents s;
     route_decision := route_decision s;
     results := results s;
     verification_status := verification_status s;
     verification_report := v;
     verification_recommendation := verification_recommendation s;
     mismatch_warning := mismatch_warning s;
     final_response := final_response s;
     messages := messages s;
     error := error s |}.
Definition set_verification_recommendation (s : PlannerState) (v : string) : PlannerState :=
  {| request := request s;
     request_id := request_id s;
     iteration := iteration s;
     start_time := start_time s;
     intent := intent s;
     discovered_agents := discovered_agents s;
     route_decision := route_decision s;
     results := results s;
     verification_status := verification_status s;
     verification_report := verification_report s;
     verification_recommendation := v;
     mismatch_warning := mismatch_warning s;
     final_response := final_response s;
     messages := messages s;
     error := error s |}.
Definition set_mismatch_warning (s : PlannerState) (v : option string) : PlannerState :=
  {| request := request s;
     request_id := request_id s;
     iteration := iteration s;
     start_time := start_time s;
     intent := intent s;
     discovered_agents := discovered_agents s;
     route_decision := route_decision s;
     results := results s;
     verification_status := verification_status s;
     verification_report := verification_report s;
     verification_recommendation := verification_recommendation s;
     mismatch_warning := v;
     final_response := final_response s;
     messages := messages s;
     error := error s |}.
Definition set_final_response (s : PlannerState) (v : Py.dict pyval) : PlannerState :=
  {| request := request s;
     request_id := request_id s;
     iteration := iteration s;
     start_time := start_time s;
     intent := intent s;
     discovered_agents := discovered_agents s;
     route_decision := route_decision s;
     results := results s;
     verification_status := verification_status s;
     verification_report := verification_report s;
     verification_recommendation := verification_recommendation s;
     mismatch_warning := mismatch_warning s;
     final_response := v;
     messages := messages s;
     error := error s |}.
Definition set_messages (s : PlannerState) (v : list string) : PlannerState :=
  {| request := request s;
     request_id := request_id s;
     iteration := iteration s;
     start_time := start_time s;
     intent := intent s;
     discovered_agents := discovered_agents s;
     route_decision := route_decision s;
     results := results s;
     verification_status := verification_status s;
     verification_report := verification_report s;
     verification_recommendation := verification_recommendation s;
     mismatch_warning := mismatch_warning s;
     final_response := final_response s;
     messages := v;
     error := error s |}.
Definition set_error (s : PlannerState) (v : string) : PlannerState :=
  {| request := request s;
     request_id := request_id s;
     iteration := iteration s;
     start_time := start_time s;
     intent := intent s;
     discovered_agents := discovered_agents s;
     route_decision := route_decision s;
     results := results s;
     verification_status := verification_status s;
     verification_report := verification_report s;
     verification_recommendation := verification_recommendation s;
     mismatch_warning := mismatch_warning s;
     final_response := final_response s;
     messages := messages s;
     error := v |}.

(** [state["messages"].append(AIMessage(content=m))] *)
Definition say (s : PlannerState) (m : string) : PlannerState :=
  set_messages s (messages s ++ [m])%list.

(** *** [tools.py] *)

Definition enumerate {A} (l : list A) : list (nat * A) :=
  combine (seq 0 (List.length l)) l.

(** The loop over [result.parts]: the text of the first part that has
    one. *)
Fixpoint first_text_of (parts : list (option string)) : option string :=
  match parts with
  | [] => None
  | Some text :: _ => Some text
  | None :: rest => first_text_of rest
  end.

Definition first_text (parts : option (list (option string)))
  : option string :=
  match parts with
  | Some l => first_text_of l
  | None => None
  end.

(** [send_message_to_agent]: every failure leaves as [A2AAgentError]. *)
Definition send_message_to_agent (w : World) (step pos : nat)
  (agent_card : string * string) (prompt : string)
  : attempt (Py.dict pyval) :=
  let name := fst agent_card in
  let failed (e : string) : attempt (Py.dict pyval) :=
    Raised ("Failed to communicate with " ++ name ++ ": " ++ e) in
  match send_message w step pos agent_card prompt with
  | Raised e => failed e
  | Returned response =>
      match first_text (A2AResponse.parts response) with
      | Some text =>
          Returned [ ("status", VStr "success"); ("response", VStr text);
                     ("agent", VStr name) ]
      | None =>
          match A2AResponse.error response with
          | Some e => failed e
          | None =>
              Returned [ ("status", VStr "error");
                         ("error", VStr "No valid response");
                         ("agent", VStr name) ]
          end
      end
  end.

(** [broadcast_message_to_agents]: one answer per card, an exception
    turned into an error answer. *)
Definition broadcast_message_to_agents (w : World) (step : nat)
  (agent_cards : list (string * string)) (prompt : string)
  : list (Py.dict pyval) :=
  map (fun ic =>
         match send_message_to_agent w step (fst ic) (snd ic) prompt with
         | Returned r => r
         | Raised e =>
             [ ("status", VStr "error"); ("error", VStr e);
               ("agent", VStr (fst (snd ic))) ]
         end)
      (enumerate agent_cards).

(** *** Response parsing *)

Definition parse_error_result (fresh agent_id : string)
  : ClassificationResult.t :=
  {| ClassificationResult.request_id := fresh;
     ClassificationResult.agent_id := agent_id;
     ClassificationResult.label := "parse_error";
     ClassificationResult.confidence := 0%Q;
     ClassificationResult.top_k :=
       [ {| TopKPrediction.label := "parse_error";
            TopKPrediction.confidence := 0%Q;
            TopKPrediction.rank := 1 |} ];
     ClassificationResult.latency_ms := 0;
     ClassificationResult.mcp_enhanced := false;
     ClassificationResult.reasoning := None |}.

(** The field constraint [ge=0, le=1] on a confidence, which is the
    float that [float] read. *)
Definition valid_confidence (c : Py.pyfloat) : attempt Q :=
  match c with
  | Py.Finite q =>
      if Qle_bool 0 q && Qle_bool q 1 then Returned q
      else Raised "ValidationError"
  | _ => Raised "ValidationError"
  end.

(** [line.split(":", 1)[1].strip()] *)
Definition after_colon (line : string) : attempt string :=
  match Py.split1 ":" line with
  | _ :: x :: _ => Returned (Py.strip x)
  | _ => Raised "list index out of range"
  end.

(** One line of the text format, over [(label, confidence)]; a
    confidence that [float] rejects is passed over. *)
Definition parse_line (acc : string * Py.pyfloat) (line : string)
  : attempt (string * Py.pyfloat) :=
  if Py.startswith line "Label:" then
    label <- after_colon line ;;
    Returned (label, snd acc)
  else if Py.startswith line "Confidence:" then
    text <- after_colon line ;;
    match Py.float text with
    | Some c => Returned (fst acc, c)
    | None => Returned acc
    end
  else Returned acc.

Fixpoint parse_lines (acc : string * Py.pyfloat) (lines : list string)
  : attempt (string * Py.pyfloat) :=
  match lines with
  | [] => Returned acc
  | line :: r => acc' <- parse_line acc line ;; parse_lines acc' r
  end.

Definition newline : ascii := "010".

Section WithPlatform.
Context `{Platform}.

(** The body of the [try] of [_parse_classification_result]. *)
Definition parse_body (response : Py.dict pyval) (agent_id fresh : string)
  : attempt ClassificationResult.t :=
  match (match Py.get response "response" with
         | Some v => v
         | None => VStr ""
         end) with
  | VStr response_text =>
      if Py.startswith response_text "{" then
        json_classification_result response_text
      else
        acc <- parse_lines (Py.strip response_text, Py.Finite 0.8%Q)
                 (Py.split newline response_text) ;;
        confidence <- valid_confidence (snd acc) ;;
        Returned
          {| ClassificationResult.request_id := fresh;
             ClassificationResult.agent_id := agent_id;
             ClassificationResult.label := fst acc;
             ClassificationResult.confidence := confidence;
             ClassificationResult.top_k :=
               [ {| TopKPrediction.label := fst acc;
                    TopKPrediction.confidence := confidence;
                    TopKPrediction.rank := 1 |} ];
             ClassificationResult.latency_ms := 0;
             ClassificationResult.mcp_enhanced := false;
             ClassificationResult.reasoning := None |}
  | _ => Raised "AttributeError"
  end.

(** [_parse_classification_result]; [fresh] is the identifier that
    [uuid4] delivers for the result of the text format, and [fresh'] the
    one that it delivers for the parse_error result.  (The code draws the
    second only when the parse raises; where the parse raises before the
    text format draws the first, it is the first that [uuid4] delivers.) *)
Definition _parse_classification_result (response : Py.dict pyval)
  (agent_id fresh fresh' : string) : ClassificationResult.t :=
  match parse_body response agent_id fresh with
  | Returned r => r
  | Raised _ => parse_error_result fresh' agent_id
  end.
End WithPlatform.

(** *** Graph nodes *)

(** [self.verifier = Verifier()] *)
Definition verifier : Verifier.t := Verifier.init None.

Definition intent_value (domain : string) (confidence : Q)
  (reasoning : string) : Py.dict pyval :=
  [ ("domain", VStr domain); ("confidence", VFloat confidence);
    ("reasoning", VStr reasoning) ].

(** [kw in text] *)
Definition contains (text kw : string) : bool :=
  match String.index 0 kw text with
  | Some _ => true
  | None => false
  end.

Definition _fallback_intent_classification (prompt : string)
  : Py.dict pyval :=
  let prompt_lower := Py.lower prompt in
  if existsb (contains prompt_lower)
       ["xray"; "x-ray"; "ct"; "mri"; "medical"; "pneumonia"; "diagnosis"]
  then intent_value "medical" 0.7%Q "Keyword match: medical terms"
  else if existsb (contains prompt_lower)
            ["satellite"; "aerial"; "landsat"; "urban"; "forest"]
  then intent_value "satellite" 0.7%Q "Keyword match: satellite terms"
  else intent_value "general" 0.5%Q "Default fallback".

(** [AgentDiscovery.discover_all(limit)] *)
Definition discover_all (w : World) (step : nat) (limit : Z)
  : attempt (list AgentRecord.t) :=
  discover w step
    {| DiscoveryQuery.skill_id := None; DiscoveryQuery.tags := [];
       DiscoveryQuery.min_success_rate := 0%Q;
       DiscoveryQuery.max_latency_ms := None;
       DiscoveryQuery.limit := limit |}.

(** The agents of the catalogue named by the model, in its order. *)
Definition pick_agents (ids : list string) (all_agents : list AgentRecord.t)
  : list AgentRecord.t :=
  flat_map
    (fun agent_id =>
       match find (fun a => String.eqb (AgentRecord.agent_id a) agent_id)
               all_agents with
       | Some a => [a]
       | None => []
       end)
    ids.

Definition _supervisor_node (w : World) (step : nat) (state : PlannerState)
  : PlannerState :=
  let prompt := ClassificationRequest.prompt (request state) in
  let all_agents :=
    match discover_all w step 10 with
    | Returned l => l
    | Raised _ => []
    end in
  let fallback :=
    set_discovered_agents
      (set_intent state (_fallback_intent_classification prompt)) [] in
  match all_agents with
  | [] =>
      set_discovered_agents
        (set_intent (set_error state "NO_AGENTS_AVAILABLE")
           (intent_value "unknown" 0%Q "No agents found"))
        []
  | _ =>
      if llm w then
        match select_agents w step all_agents prompt with
        | Returned result =>
            let picked :=
              pick_agents (AgentSelection.selected_agent_ids result)
                all_agents in
            let selected_agents :=
              match picked with [] => all_agents | _ => picked end in
            say
              (set_intent (set_discovered_agents state selected_agents)
                 (intent_value "llm_selected"
                    (AgentSelection.confidence result)
                    (AgentSelection.reasoning result)))
              ("Selected " ++ Py.str_nat (List.length selected_agents)
                 ++ " agents: "
                 ++ Py.repr_list (map AgentRecord.agent_id selected_agents)
                 ++ " - " ++ AgentSelection.reasoning result)
        | Raised _ => fallback
        end
      else fallback
  end.

Definition domain_to_tags (domain : pyval) : list string :=
  match domain with
  | VStr d =>
      if String.eqb d "medical" then ["medical"; "xray"; "diagnosis"]
      else if String.eqb d "satellite"
      then ["satellite"; "geospatial"; "aerial"]
      else if String.eqb d "general" then ["general"; "objects"; "scenes"]
      else ["general"]
  | _ => ["general"]
  end.

Definition _discover_agents_node (w : World) (step : nat)
  (state : PlannerState) : attempt PlannerState :=
  match discovered_agents state with
  | _ :: _ => Returned state
  | [] =>
      domain <- of_option "'domain'" (Py.get (intent state) "domain") ;;
      let constraints := ClassificationRequest.constraints (request state) in
      let tags :=
        match ClassificationConstraints.preferred_domains constraints with
        | Some (d :: ds) => (domain_to_tags domain ++ d :: ds)%list
        | _ => domain_to_tags domain
        end in
      let query :=
        {| DiscoveryQuery.skill_id := Some "image_classification";
           DiscoveryQuery.tags := tags;
           DiscoveryQuery.min_success_rate := 0.7%Q;
           DiscoveryQuery.max_latency_ms :=
             Some (ClassificationConstraints.timeout_ms constraints * 2)%Z;
           DiscoveryQuery.limit := 5 |} in
      match discover w step query with
      | Returned discovered =>
          let state :=
            say (set_discovered_agents state discovered)
              ("Fallback: Discovered "
                 ++ Py.str_nat (List.length discovered)
                 ++ " agents for tags: " ++ Py.repr_list tags) in
          Returned
            match discovered with
            | [] => set_error state "NO_AGENTS_AVAILABLE"
            | _ => state
            end
      | Raised e => Returned (set_discovered_agents (set_error state e) [])
      end
  end.

Definition _route_decision_node (state : PlannerState) : PlannerState :=
  let min_confidence :=
    ClassificationConstraints.min_confidence
      (ClassificationRequest.constraints (request state)) in
  let agents := discovered_agents state in
  let reason :=
    if (1 <? iteration state)%Z
    then "Previous attempt failed, using ensemble for reliability"
    else if negb (Qle_bool min_confidence 0.85%Q)
    then "High confidence required, using ensemble"
    else if (3 <=? List.length agents)%nat
    then "Multiple agents available, single_best is efficient"
    else "First attempt, using single_best for speed" in
  say state ("Routing: rule-based decision - " ++ reason).

Definition select (role : AgentRole.t) (score : Q) (reason : string)
  (agent : AgentRecord.t) : SelectedAgent.t :=
  {| SelectedAgent.agent_id := AgentRecord.agent_id agent;
     SelectedAgent.name := AgentRecord.name agent;
     SelectedAgent.url := AgentRecord.url agent;
     SelectedAgent.role := role;
     SelectedAgent.selection_score := score;
     SelectedAgent.selection_reason := reason |}.

Definition _route_simple_node (state : PlannerState) : PlannerState :=
  let agents := discovered_agents state in
  let primary :=
    match agents with
    | a :: _ =>
        [select AgentRole.PRIMARY 0.95%Q
           "LLM selected: Highest ranked from discovery" a]
    | [] => []
    end in
  let secondary :=
    match agents with
    | _ :: b :: _ => [select AgentRole.SECONDARY 0.85%Q "Fallback agent" b]
    | _ => []
    end in
  let selected_agents := (primary ++ secondary)%list in
  say
    (set_route_decision state
       (Some {| RouteDecision.request_id :=
                  ClassificationRequest.request_id (request state);
                RouteDecision.selected_agents := selected_agents;
                RouteDecision.strategy := ExecutionStrategy.SINGLE_BEST |}))
    ("Simple route: " ++ Py.str_nat (List.length selected_agents)
       ++ " agents selected").

Definition _route_ensemble_node (state : PlannerState) : PlannerState :=
  let agents := discovered_agents state in
  let selected_agents :=
    map (fun ia =>
           select AgentRole.ENSEMBLE
             (Py.fsub 0.9%Q
                (Py.fmul (inject_Z (Z.of_nat (fst ia))) 0.1%Q))
             ("LLM ensemble: Agent " ++ Py.str_nat (fst ia + 1))
             (snd ia))
        (enumerate (firstn 3 agents)) in
  say
    (set_route_decision state
       (Some {| RouteDecision.request_id :=
                  ClassificationRequest.request_id (request state);
                RouteDecision.selected_agents := selected_agents;
                RouteDecision.strategy :=
                  ExecutionStrategy.PARALLEL_ENSEMBLE |}))
    ("Ensemble route: " ++ Py.str_nat (List.length selected_agents)
       ++ " agents in parallel").

(** [agent.name or agent.agent_id], and the url, for [_make_agent_card]. *)
Definition card_of (a : SelectedAgent.t) : string * string :=
  (if String.eqb (SelectedAgent.name a) "" then SelectedAgent.agent_id a
   else SelectedAgent.name a,
   SelectedAgent.url a).

(** [result.get("status") == "success"] *)
Definition is_success (result : Py.dict pyval) : bool :=
  AugmentationStabilityTester.eq_str
    (AugmentationStabilityTester.get_or_none result "status") "success".

(** [model_dump()] of a result (the timestamp is left out). *)
Definition model_dump (r : ClassificationResult.t) : pyval :=
  VDict
    [ ("request_id", VStr (ClassificationResult.request_id r));
      ("agent_id", VStr (ClassificationResult.agent_id r));
      ("label", VStr (ClassificationResult.label r));
      ("confidence", VFloat (ClassificationResult.confidence r));
      ("top_k",
        VList
          (map (fun k =>
                  VDict [ ("label", VStr (TopKPrediction.label k));
                          ("confidence", VFloat (TopKPrediction.confidence k));
                          ("rank", VInt (TopKPrediction.rank k)) ])
               (ClassificationResult.top_k r)));
      ("evidence", VNone);
      ("latency_ms", VInt (ClassificationResult.latency_ms r));
      ("mcp_enhanced", VBool (ClassificationResult.mcp_enhanced r));
      ("reasoning",
        match ClassificationResult.reasoning r with
        | Some t => VStr t
        | None => VNone
        end) ].

(** [int(x)] for a float: the value of the float, truncated towards
    zero. *)
Definition int_of (x : Q) : Z :=
  let f := Py.binary64 x in Z.quot (Qnum f) (Zpos (Qden f)).

(** [max(l)] over floats: the first of the greatest; the start value
    stands for the first element. *)
Definition max_from (x : Q) (l : list Q) : Q :=
  fold_left (fun m c => if Qle_bool c m then m else c) l x.

Section WithPlatform.
Context `{Platform}.

Definition parsed (w : World) (step pos : nat) (result : Py.dict pyval)
  (agent_id : string) : ClassificationResult.t :=
  _parse_classification_result result agent_id
    (uuid4 w step (2 * pos)) (uuid4 w step (2 * pos + 1)).

(** The loop over [enumerate(batch_results)]. *)
Fixpoint collect (w : World) (step : nat)
  (selected_agents : list SelectedAgent.t)
  (batch : list (nat * Py.dict pyval))
  (results : list ClassificationResult.t)
  : attempt (list ClassificationResult.t) :=
  match batch with
  | [] => Returned results
  | (i, result) :: r =>
      if is_success result then
        agent <- of_option "list index out of range"
                   (nth_error selected_agents i) ;;
        collect w step selected_agents r
          (results
             ++ [parsed w step i result (SelectedAgent.agent_id agent)])%list
      else collect w step selected_agents r results
  end.

(** The body of the [try] of [_execute_tasks_node]. *)
Definition dispatch (w : World) (step : nat)
  (route_decision : option RouteDecision.t) (prompt : string)
  : attempt (list ClassificationResult.t) :=
  route <- of_option "'NoneType' object has no attribute 'strategy'"
             route_decision ;;
  let selected_agents := RouteDecision.selected_agents route in
  match RouteDecision.strategy route with
  | ExecutionStrategy.SINGLE_BEST =>
      primary <- of_option "list index out of range"
                   (hd_error selected_agents) ;;
      match send_message_to_agent w step 0 (card_of primary) prompt with
      | Returned result =>
          Returned
            (if is_success result
             then [parsed w step 0 result (SelectedAgent.agent_id primary)]
             else [])
      | Raised _ =>
          match selected_agents with
          | _ :: secondary :: _ =>
              match send_message_to_agent w step 1 (card_of secondary)
                      prompt with
              | Returned result =>
                  Returned
                    (if is_success result
                     then [parsed w step 1 result
                             (SelectedAgent.agent_id secondary)]
                     else [])
              | Raised _ => Returned []
              end
          | _ => Returned []
          end
      end
  | ExecutionStrategy.PARALLEL_ENSEMBLE =>
      let batch_results :=
        broadcast_message_to_agents w step (map card_of selected_agents)
          prompt in
      collect w step selected_agents (enumerate batch_results) []
  | ExecutionStrategy.SEQUENTIAL_FALLBACK => Returned []
  end.

Definition _execute_tasks_node (w : World) (step : nat)
  (state : PlannerState) : PlannerState :=
  match dispatch w step (route_decision state)
          (ClassificationRequest.prompt (request state)) with
  | Returned results =>
      let state :=
        say (set_results state results)
          ("Execution complete: " ++ Py.str_nat (List.length results)
             ++ " results via A2A") in
      match results with
      | [] => set_error state "ALL_AGENTS_FAILED"
      | _ => state
      end
  | Raised e => set_results (set_error state e) []
  end.

Definition _fallback_reflection (state : PlannerState)
  (results : list ClassificationResult.t)
  (request : ClassificationRequest.t)
  (verification_report : option VerificationReport.t) : PlannerState :=
  let max_confidence :=
    match map ClassificationResult.confidence results with
    | c :: r => max_from c r
    | [] => 0%Q
    end in
  let verifier_passed :=
    match verification_report with
    | Some report =>
        String.eqb
          (VerificationStatus.value (VerificationReport.status report))
          "PASS"
    | None => false
    end in
  if Qle_bool
       (ClassificationConstraints.min_confidence
          (ClassificationRequest.constraints request))
       max_confidence
     || verifier_passed
  then
    say
      (set_verification_recommendation
         (set_verification_status state "PASS") "success")
      ("Reflection (fallback): PASS - confidence "
         ++ format_float ".2f" max_confidence)
  else
    say
      (set_verification_recommendation
         (set_verification_status state "FAIL") "replan")
      ("Reflection (fallback): FAIL - confidence "
         ++ format_float ".2f" max_confidence ++ " below threshold").

Definition _reflection_node (w : World) (step : nat)
  (state : PlannerState) : PlannerState :=
  let results := results state in
  let request := request state in
  match results with
  | [] =>
      say
        (set_verification_report
           (set_verification_recommendation
              (set_verification_status state "FAIL") "replan")
           [])
        "Reflection: No results to verify"
  | _ =>
      (* Step 1: the verifier *)
      let verified := Verifier.verify verifier results request None None in
      let verification_report :=
        match verified with
        | Returned report => Some report
        | Raised _ => None
        end in
      let state :=
        set_verification_report state
          match verified with
          | Returned report =>
              [ ("results_count", VInt (Z.of_nat (List.length results)));
                ("status",
                  VStr (VerificationStatus.value
                          (VerificationReport.status report)));
                ("tests",
                  VList (map (fun t => VStr (VerificationTest.test_name t))
                           (VerificationReport.tests_performed report)));
                ("notes", VStr (VerificationReport.notes report)) ]
          | Raised e => [ ("error", VStr e) ]
          end in
      (* Step 2: the language model *)
      if llm w then
        match reflect w step results with
        | Returned (Some response) =>
            let state :=
              if ShouldContinue.mismatch_detected response then
                set_mismatch_warning
                  (set_verification_recommendation
                     (set_verification_status state "PASS") "success")
                  (Some (ShouldContinue.reason response))
              else if ShouldContinue.should_continue response
                      && (iteration state <? MAX_REPLANS)%Z then
                set_verification_recommendation
                  (set_verification_status state "FAIL") "replan"
              else
                set_verification_recommendation
                  (set_verification_status state "PASS") "success" in
            say state
              ("Reflection: "
                 ++ (if ShouldContinue.mismatch_detected response
                     then "Mismatch"
                     else if ShouldContinue.should_continue response
                     then "Continue" else "Complete")
                 ++ " - " ++ ShouldContinue.reason response)
        | Returned None =>
            _fallback_reflection state results request verification_report
        | Raised _ =>
            _fallback_reflection state results request verification_report
        end
      else _fallback_reflection state results request verification_report
  end.
End WithPlatform.

Definition _check_status_node (state : PlannerState) : PlannerState :=
  let status := verification_status state in
  let recommendation := verification_recommendation state in
  let iteration := iteration state in
  if String.eqb status "PASS" then say state "Status: SUCCESS"
  else if String.eqb recommendation "human_review"
  then say state "Status: NEEDS_HUMAN_REVIEW"
  else if (MAX_REPLANS <=? iteration)%Z
  then say state "Status: MAX_REPLANS_EXCEEDED"
  else
    set_iteration
      (say state
         ("Status: REPLAN (iteration " ++ Py.str_int (iteration + 1) ++ ")"))
      (iteration + 1).

Definition workflow_messages (state : PlannerState) : pyval :=
  VList (map VStr (messages state)).

(** [response['status']] inside the closing message. *)
Definition status_of (response : Py.dict pyval) : string :=
  match Py.get response "status" with
  | Some (VStr s) => s
  | _ => ""
  end.

Definition _finalize_response_node (w : World) (step : nat)
  (state : PlannerState) : attempt PlannerState :=
  let status := verification_status state in
  let results := results state in
  let verification_report := verification_report state in
  let iteration := iteration state in
  let total_latency :=
    Py.fmul (Py.fsub (utcnow w step) (start_time state)) 1000%Q in
  response <-
    (if String.eqb status "PASS"
        && match results with [] => false | _ => true end
     then
       final_result <-
         match results with
         | [r] => Returned r
         | _ => Verifier.get_ensemble_result verifier results
         end ;;
       let response :=
         [ ("status", VStr "COMPLETED");
           ("result", model_dump final_result);
           ("intent", VDict (intent state));
           ("verification",
             VDict [ ("status", VStr status); ("tests", VList []);
                     ("notes", VStr "LLM-verified") ]);
           ("iterations", VInt iteration);
           ("total_latency_ms", VInt (int_of total_latency));
           ("workflow_messages", workflow_messages state) ] in
       (* Add mismatch warning if detected *)
       Returned
         match mismatch_warning state with
         | Some warning =>
             if String.eqb warning "" then response
             else
               Py.set
                 (Py.set response "mismatch_warning" (VStr warning))
                 "status" (VStr "COMPLETED_WITH_WARNING")
         | None => response
         end
     else if String.eqb (verification_recommendation state) "human_review"
     then
       Returned
         [ ("status", VStr "NEEDS_REVIEW");
           ("result",
             match results with
             | r :: _ => model_dump r
             | [] => VNone
             end);
           ("intent", VDict (intent state));
           ("verification", VDict verification_report);
           ("iterations", VInt iteration);
           ("message", VStr "LLM reflection: Human review required.");
           ("workflow_messages", workflow_messages state) ]
     else if (MAX_REPLANS <=? iteration)%Z then
       Returned
         [ ("status", VStr "INCONCLUSIVE");
           ("error", VStr "MAX_REPLANS_EXCEEDED");
           ("intent", VDict (intent state));
           ("message",
             VStr ("Failed to get verified result after "
                   ++ Py.str_int MAX_REPLANS ++ " attempts"));
           ("iterations", VInt iteration);
           ("workflow_messages", workflow_messages state) ]
     else
       Returned
         [ ("status", VStr "FAILED");
           ("error", VStr (error state));
           ("intent", VDict (intent state));
           ("iterations", VInt iteration);
           ("workflow_messages", workflow_messages state) ]) ;;
  Returned
    (say (set_final_response state response)
       ("Response finalized: " ++ status_of response)).

Definition _handle_error_node (state : PlannerState) : PlannerState :=
  set_final_response state
    [ ("status", VStr "FAILED");
      ("error", VStr (error state));
      ("intent", VDict (intent state));
      ("iterations", VInt (iteration state));
      ("workflow_messages", workflow_messages state) ].

(** *** Conditional edges *)

Module Route.
Inductive t : Type := simple | ensemble | error.
End Route.

Module Action.
Inductive t : Type := success | replan | human_review | max_replans | error.
End Action.

Definition _should_use_ensemble (state : PlannerState) : Route.t :=
  if negb (String.eqb (error state) "") then Route.error
  else
    match discovered_agents state with
    | [] => Route.error
    | agents =>
        if (1 <? iteration state)%Z
           || negb (Qle_bool
                      (ClassificationConstraints.min_confidence
                         (ClassificationRequest.constraints (request state)))
                      0.85%Q)
           || (3 <=? List.length agents)%nat
        then Route.ensemble
        else Route.simple
    end.

Definition _decide_next_action (state : PlannerState) : Action.t :=
  if negb (String.eqb (error state) "") then Action.error
  else if String.eqb (verification_status state) "PASS" then Action.success
  else if String.eqb (verification_recommendation state) "human_review"
  then Action.human_review
  else if (MAX_REPLANS <=? iteration state)%Z then Action.max_replans
  else Action.replan.

(** *** The graph of [_build_graph] *)

Module Node.
Inductive t : Type :=
| supervisor | discover_agents | route_decision | route_simple
| route_ensemble | execute_tasks | reflection | check_status
| finalize_response | handle_error.
End Node.

(** The edge leaving a node once it has run; [None] is [END]. *)
Definition next (node : Node.t) (state : PlannerState) : option Node.t :=
  match node with
  | Node.supervisor => Some Node.discover_agents
  | Node.discover_agents => Some Node.route_decision
  | Node.route_decision =>
      Some match _should_use_ensemble state with
           | Route.simple => Node.route_simple
           | Route.ensemble => Node.route_ensemble
           | Route.error => Node.handle_error
           end
  | Node.route_simple => Some Node.execute_tasks
  | Node.route_ensemble => Some Node.execute_tasks
  | Node.execute_tasks => Some Node.reflection
  | Node.reflection => Some Node.check_status
  | Node.check_status =>
      Some match _decide_next_action state with
           | Action.success => Node.finalize_response
           | Action.replan => Node.supervisor
           | Action.human_review => Node.finalize_response
           | Action.max_replans => Node.finalize_response
           | Action.error => Node.handle_error
           end
  | Node.finalize_response => None
  | Node.handle_error => None
  end.

(** The default [recursion_limit] of a compiled graph. *)
Definition recursion_limit : nat := 25.

Section WithPlatform.
Context `{Platform}.

Definition exec (w : World) (step : nat) (node : Node.t)
  (state : PlannerState) : attempt PlannerState :=
  match node with
  | Node.supervisor => Returned (_supervisor_node w step state)
  | Node.discover_agents => _discover_agents_node w step state
  | Node.route_decision => Returned (_route_decision_node state)
  | Node.route_simple => Returned (_route_simple_node state)
  | Node.route_ensemble => Returned (_route_ensemble_node state)
  | Node.execute_tasks => Returned (_execute_tasks_node w step state)
  | Node.reflection => Returned (_reflection_node w step state)
  | Node.check_status => Returned (_check_status_node state)
  | Node.finalize_response => _finalize_response_node w step state
  | Node.handle_error => Returned (_handle_error_node state)
  end.

(** Running the graph from a node: one node per step, until [END] or
    until the step budget is spent ([GraphRecursionError]). *)
Fixpoint run (w : World) (budget step : nat) (node : Node.t)
  (state : PlannerState) : attempt PlannerState :=
  match budget with
  | O => Raised "Recursion limit reached without hitting a stop condition"
  | S budget' =>
      state' <- exec w step node state ;;
      match next node state' with
      | Some node' => run w budget' (S step) node' state'
      | None => Returned state'
      end
  end.

(** [self.graph.ainvoke(initial_state)] *)
Definition ainvoke (w : World) (initial_state : PlannerState)
  : attempt PlannerState :=
  run w recursion_limit 1 Node.supervisor initial_state.

Definition initial_state (w : World) (request : ClassificationRequest.t)
  : PlannerState :=
  {| request := request;
     request_id := ClassificationRequest.request_id request;
     iteration := 1;
     start_time := utcnow w 0;
     intent := [];
     discovered_agents := [];
     route_decision := None;
     results := [];
     verification_status := "";
     verification_report := [];
     verification_recommendation := "";
     mismatch_warning := None;
     final_response := [];
     messages := [ClassificationRequest.prompt request];
     error := "" |}.

(** The [try] around the graph: the response to each outcome of
    [ainvoke]. *)
Definition respond (outcome : attempt PlannerState) : Py.dict pyval :=
  match outcome with
  | Returned final_state => final_response final_state
  | Raised e =>
      [ ("status", VStr "FAILED"); ("error", VStr e);
        ("iterations", VInt 1) ]
  end.

Definition plan_and_execute (w : World)
  (request : ClassificationRequest.t) : Py.dict pyval :=
  respond (ainvoke w (initial_state w request)).
End WithPlatform.
End Planner.

(** ** Sample inputs

    A platform, the results of the end-to-end scenario of the
    specification, and worlds in which every agent gives the same answer
    in the text format. *)

Module Sample.

(** Rounding to the nearest integer, halves to the even one. *)
Definition round_half_even (q : Q) : Z :=
  let d := Zpos (Qden q) in
  let f := (Qnum q / d)%Z in
  let r := (2 * (Qnum q - f * d))%Z in
  if (r <? d)%Z then f
  else if (d <? r)%Z then (f + 1)%Z
  else if Z.even f then f else (f + 1)%Z.

Fixpoint zeros (n : nat) : string :=
  match n with
  | O => ""
  | S n' => "0" ++ zeros n'
  end.

(** [q] with [digits] decimals. *)
Definition fixed (digits : nat) (q : Q) : string :=
  let unit_ := (10 ^ Z.of_nat digits)%Z in
  let scaled := round_half_even (q * inject_Z unit_)%Q in
  let fraction := Py.str_int (Z.abs scaled mod unit_) in
  (if (scaled <? 0)%Z then "-" else "")
    ++ Py.str_int (Z.abs scaled / unit_) ++ "."
    ++ zeros (digits - String.length fraction) ++ fraction.

(** The least number of decimals, from one to [fuel], that writes [q]
    exactly. *)
Fixpoint decimals (fuel digits : nat) (q : Q) : nat :=
  match fuel with
  | O => digits
  | S fuel' =>
      if Qeq_bool
           (inject_Z (round_half_even (q * inject_Z (10 ^ Z.of_nat digits))))
           (q * inject_Z (10 ^ Z.of_nat digits))
      then digits
      else decimals fuel' (S digits) q
  end.

(** A platform without JSON support or network; a float is written with
    the decimals that its format asks for, and with the least that are
    exact (at most 17) when it asks for none. *)
Definition platform : Platform :=
  {| format_float := fun spec q =>
       if String.eqb spec ".2f" then fixed 2 q
       else if String.eqb spec ".3f" then fixed 3 q
       else fixed (decimals 16 1 q) q;
     json_classification_result := fun _ => Raised "JSONDecodeError";
     apply_transforms_to_url := fun _ _ => Raised "ClientConnectorError" |}.

Definition result_of (agent label : string) (confidence : Q)
  : ClassificationResult.t :=
  {| ClassificationResult.request_id := "req-1";
     ClassificationResult.agent_id := agent;
     ClassificationResult.label := label;
     ClassificationResult.confidence := confidence;
     ClassificationResult.top_k :=
       [ {| TopKPrediction.label := label;
            TopKPrediction.confidence := confidence;
            TopKPrediction.rank := 1 |} ];
     ClassificationResult.latency_ms := 0;
     ClassificationResult.mcp_enhanced := false;
     ClassificationResult.reasoning := None |}.

Definition pneumonia_votes : list ClassificationResult.t :=
  [ result_of "a" "pneumonia" 0.8%Q;
    result_of "b" "pneumonia" 0.75%Q;
    result_of "c" "normal" 0.6%Q ].

Definition request_with (min_confidence : Q) : ClassificationRequest.t :=
  {| ClassificationRequest.request_id := "req-1";
     ClassificationRequest.image :=
       {| ImageSource.url := None;
          ImageSource.presigned_url := Some "http://store/img" |};
     ClassificationRequest.prompt := "Classify this chest X-ray";
     ClassificationRequest.constraints :=
       {| ClassificationConstraints.timeout_ms := 5000;
          ClassificationConstraints.min_confidence := min_confidence;
          ClassificationConstraints.return_top_k := 3;
          ClassificationConstraints.require_verification := true;
          ClassificationConstraints.preferred_domains := None |} |}.

Definition request : ClassificationRequest.t := request_with 0.75%Q.

Definition agent (n : string) : AgentRecord.t :=
  {| AgentRecord.agent_id := n; AgentRecord.name := n;
     AgentRecord.description := "classifier"; AgentRecord.organization := "org";
     AgentRecord.url := "http://" ++ n |}.

Definition agents (n : nat) : list AgentRecord.t :=
  firstn n [agent "a"; agent "b"; agent "c"; agent "d"; agent "e"].

Definition text_reply (text : string) : attempt A2AResponse.t :=
  Returned {| A2AResponse.parts := Some [Some text];
              A2AResponse.error := None |}.

(** A world with [n] agents, each answering [reply]; the language model
    selects nothing by name and judges every result set with [verdict]. *)
Definition world (n : nat) (reply : string)
  (verdict : attempt (option ShouldContinue.t)) : World :=
  {| llm := true;
     discover := fun _ _ => Returned (agents n);
     select_agents := fun _ _ _ =>
       Returned {| AgentSelection.selected_agent_ids := [];
                   AgentSelection.reasoning := "all";
                   AgentSelection.confidence := 0.9%Q |};
     send_message := fun _ _ _ _ => text_reply reply;
     reflect := fun _ _ => verdict;
     uuid4 := fun _ _ => "uuid";
     utcnow := fun step => inject_Z (Z.of_nat step) |}.

Definition judged (should_continue mismatch : bool) (reason : string)
  : attempt (option ShouldContinue.t) :=
  Returned (Some {| ShouldContinue.should_continue := should_continue;
                    ShouldContinue.reason := reason;
                    ShouldContinue.mismatch_detected := mismatch |}).

Definition cat_reply : string :=
  "Label: cat" ++ String Planner.newline "Confidence: 0.91".

(** The state in which the route is chosen on a first iteration with
    five agents and a required confidence of 0.5. *)
Definition routing_state : Planner.PlannerState :=
  Planner.set_discovered_agents
    (Planner.initial_state
       (world 5 cat_reply (judged false false "fine")) (request_with 0.5%Q))
    (agents 5).

Definition reply_dict (text : string) : Py.dict pyval :=
  [ ("status", VStr "success"); ("response", VStr text);
    ("agent", VStr "a") ].

End Sample.

(** ** What a caller reads off a test, a report and a response *)

Module Observe.

(** The recommendation a test carries in its details. *)
Definition recommendation (t : VerificationTest.t) : option pyval :=
  Py.get (VerificationTest.details t) "recommendation".

(** The test carries the recommendation [r]: the enum member or its value. *)
Definition recommends (t : VerificationTest.t)
  (r : VerificationRecommendation.t) : Prop :=
  exists v, recommendation t = Some v /\ enum_eq r v = true.

Definition failed (t : VerificationTest.t) : Prop :=
  VerificationTest.result t = VerificationTestResult.FAIL.

(** A test of that name was performed. *)
Definition performed (name : string) (report : VerificationReport.t) : Prop :=
  exists t, In t (VerificationReport.tests_performed report)
            /\ VerificationTest.test_name t = name.

(** The labels of a result list, the votes a label received and the
    confidences given with it, in the order of the results. *)
Definition labels (results : list ClassificationResult.t) : list string :=
  map ClassificationResult.label results.

Definition has_label (l : string) (r : ClassificationResult.t) : bool :=
  String.eqb (ClassificationResult.label r) l.

Definition votes (l : string) (results : list ClassificationResult.t) : nat :=
  List.length (filter (has_label l) results).

Definition confidences (l : string) (results : list ClassificationResult.t)
  : list Q :=
  map ClassificationResult.confidence (filter (has_label l) results).

(** [majority] is the mode of the votes, the first seen among the labels
    that share the greatest count: no label has more votes, and every
    result before the first one labelled [majority] has a label with
    fewer. *)
Definition first_mode (majority : string)
  (results : list ClassificationResult.t) : Prop :=
  (forall l, (votes l results <= votes majority results)%nat)
  /\ exists pre r post,
       results = (pre ++ r :: post)%list
       /\ ClassificationResult.label r = majority
       /\ forall r', In r' pre ->
            (votes (ClassificationResult.label r') results
             < votes majority results)%nat.

(** [max_votes / total_votes] *)
Definition rate (max_votes total_votes : nat) : Q :=
  (inject_Z (Z.of_nat max_votes) / inject_Z (Z.of_nat total_votes))%Q.

(** [status] and [iterations] of a final response. *)
Definition status (response : Py.dict pyval) : option pyval :=
  Py.get response "status".

Definition iterations (response : Py.dict pyval) : option pyval :=
  Py.get response "iterations".

(** The five statuses of a final response. *)
Definition final_statuses : list string :=
  ["COMPLETED"; "COMPLETED_WITH_WARNING"; "NEEDS_REVIEW"; "INCONCLUSIVE";
   "FAILED"].

End Observe.

(** ** Invariants *)

Module Invariant.

(** The two dictionaries of the counting loop after the results [seen]:
    every label seen, and no other, has its votes and its confidences. *)
Definition tallied (seen : list ClassificationResult.t)
  (acc : Py.dict nat * Py.dict (list Q)) : Prop :=
  (forall l, EnsembleVoter.votes_of (fst acc) l = Observe.votes l seen)
  /\ (forall l,
        EnsembleVoter.confidences_of (snd acc) l = Observe.confidences l seen)
  /\ (forall l, In l (Py.keys (fst acc)) <-> In l (Observe.labels seen))
  /\ (forall l, In l (Py.keys (snd acc)) <-> In l (Observe.labels seen))
  /\ NoDup (Py.keys (fst acc)).

(** An entry [(k, v)] of a dictionary that is greater than every entry
    before it and not less than any entry after it. *)
Definition first_greatest (d : Py.dict nat) (k : string) (v : nat) : Prop :=
  exists d1 d2,
    d = (d1 ++ (k, v) :: d2)%list
    /\ (forall k' v', In (k', v') d1 -> (v' < v)%nat)
    /\ (forall k' v', In (k', v') d2 -> (v' <= v)%nat).

(** The place of a node within one pass over the graph. *)
Definition offset (node : Planner.Node.t) : Z :=
  match node with
  | Planner.Node.supervisor => 1
  | Planner.Node.discover_agents => 2
  | Planner.Node.route_decision => 3
  | Planner.Node.route_simple => 4
  | Planner.Node.route_ensemble => 4
  | Planner.Node.execute_tasks => 5
  | Planner.Node.reflection => 6
  | Planner.Node.check_status => 7
  | Planner.Node.finalize_response => 8
  | Planner.Node.handle_error => 8
  end.

Definition closing (node : Planner.Node.t) : bool :=
  match node with
  | Planner.Node.finalize_response | Planner.Node.handle_error => true
  | _ => false
  end.

(** Where a run stands when it enters [node] with [state] at [step]: in
    its first or second pass, at the step that the pass and the node
    give, and at most at step 15 when it closes; the routes and the
    dispatch are entered without an error, and results are reflected on
    without one. *)
Definition on_track (step : nat) (node : Planner.Node.t)
  (state : Planner.PlannerState) : Prop :=
  let i := Planner.iteration state in
  (if closing node
   then (1 <= i <= 3)%Z /\ (step <= 15)%nat
   else (i = 1 \/ i = 2)%Z /\ Z.of_nat step = (7 * (i - 1) + offset node)%Z)
  /\ match node with
     | Planner.Node.discover_agents =>
         Py.get (Planner.intent state) "domain" <> None
     | Planner.Node.route_simple | Planner.Node.route_ensemble
     | Planner.Node.execute_tasks =>
         Planner.error state = ""
     | Planner.Node.reflection =>
         Planner.results state <> [] -> Planner.error state = ""
     | _ => True
     end.

Section Runs.
Context `{Platform}.

(** The run of the graph on [request] enters [node] with [state] at
    [step]. *)
Inductive reaches (w : World) (request : ClassificationRequest.t)
  : nat -> Planner.Node.t -> Planner.PlannerState -> Prop :=
| reaches_start :
    reaches w request 1 Planner.Node.supervisor (Planner.initial_state w request)
| reaches_next (step : nat) (node node' : Planner.Node.t)
    (state state' : Planner.PlannerState) :
    reaches w request step node state ->
    Planner.exec w step node state = Returned state' ->
    Planner.next node state' = Some node' ->
    reaches w request (S step) node' state'.

End Runs.

End Invariant.

(** ** Sets, slices and sorting *)

Module Pyset.

(** [set(l)]: the elements of [l], each once. *)
Definition of_list (l : list string) : list string := nodup string_dec l.

(** [x in s] *)
Definition mem (x : string) (s : list string) : bool :=
  existsb (String.eqb x) s.

(** [a.intersection(b)] *)
Definition intersection (a b : list string) : list string :=
  filter (fun x => mem x b) a.

End Pyset.

Module Pylist.

(** [l[:n]]: a negative [n] counts from the end. *)
Definition upto {A : Type} (n : Z) (l : list A) : list A :=
  if (n <? 0)%Z then firstn (Z.to_nat (Z.of_nat (List.length l) + n)) l
  else firstn (Z.to_nat n) l.

(** The place of [x] in a list sorted from the greatest key down: before
    the first element whose key is not greater. *)
Fixpoint insert_by {A : Type} (key : A -> Q) (x : A) (l : list A) : list A :=
  match l with
  | [] => [x]
  | y :: r =>
      if Qle_bool (key y) (key x) then x :: y :: r
      else y :: insert_by key x r
  end.

(** [l.sort(key=key, reverse=True)]: equal keys keep their order. *)
Definition sort_reverse {A : Type} (key : A -> Q) (l : list A) : list A :=
  fold_right (insert_by key) [] l.

End Pylist.

(** ** The static directory ([shared/discovery/static_discovery.py]) *)

Module AgentSkill.
Record t : Type := {
  id : string;
  name : string;
  description : string;
  tags : list string;
  input_modes : list string
}.
End AgentSkill.

Module AgentPerformanceMetrics.
Record t : Type := {
  avg_latency_ms : Q;
  p95_latency_ms : Q;
  success_rate : Q;
  throughput_rps : Q
}.
End AgentPerformanceMetrics.

Module AgentCapabilities.
Record t : Type := { skills : list AgentSkill.t }.
End AgentCapabilities.

(** An [AgentRecord] as the directory holds it: the fields that the
    planner reads, with the capabilities and the metrics. *)
Module AgentListing.
Record t : Type := {
  record : AgentRecord.t;
  capabilities : AgentCapabilities.t;
  performance_metrics : option AgentPerformanceMetrics.t
}.
End AgentListing.

Module StaticAgentDiscovery.

Record t : Type := { agents : list AgentListing.t }.

Definition listing (agent_id name description organization url : string)
  (skill_name skill_description : string) (tags input_modes : list string)
  (avg_latency_ms p95_latency_ms success_rate throughput_rps : Q)
  : AgentListing.t :=
  {| AgentListing.record :=
       {| AgentRecord.agent_id := agent_id;
          AgentRecord.name := name;
          AgentRecord.description := description;
          AgentRecord.organization := organization;
          AgentRecord.url := url |};
     AgentListing.capabilities :=
       {| AgentCapabilities.skills :=
            [ {| AgentSkill.id := "image_classification";
                 AgentSkill.name := skill_name;
                 AgentSkill.description := skill_description;
                 AgentSkill.tags := tags;
                 AgentSkill.input_modes := input_modes |} ] |};
     AgentListing.performance_metrics :=
       Some {| AgentPerformanceMetrics.avg_latency_ms := avg_latency_ms;
               AgentPerformanceMetrics.p95_latency_ms := p95_latency_ms;
               AgentPerformanceMetrics.success_rate := success_rate;
               AgentPerformanceMetrics.throughput_rps := throughput_rps |} |}.

(** [StaticAgentDiscovery()]: the four agents of [_initialize_agents]. *)
Definition init : t :=
  {| agents :=
       [ listing "org-a-medical-clf-001"
           "Medical Image Classifier - Organization A"
           "An AI agent specialized in classifying medical images including X-rays, CT scans, and MRI images for diagnostic assistance"
           "hospital-a" "http://localhost:9001"
           "Medical Image Classification"
           "Classify medical images (X-ray, CT, MRI) for diagnosis"
           ["medical"; "xray"; "ct_scan"; "pneumonia"; "tuberculosis";
            "diagnosis"]
           ["image/jpeg"; "image/png"; "image/dicom"]
           1200 2500 0.92 50;
         listing "org-b-satellite-clf-001"
           "Satellite Image Classifier - Organization B"
           "An AI agent specialized in classifying satellite and aerial imagery for landcover analysis, urban planning, and geospatial applications"
           "geo-analytics-b" "http://localhost:9002"
           "Satellite Image Classification"
           "Classify satellite and aerial imagery for landcover analysis"
           ["satellite"; "geospatial"; "landcover"; "urban"; "forest";
            "water"]
           ["image/jpeg"; "image/png"; "image/tiff"]
           1500 3000 0.88 30;
         listing "org-c-general-clf-001"
           "General Image Classifier - Organization C"
           "An AI agent for general-purpose image classification, covering objects, scenes, activities, and everyday imagery"
           "ai-services-c" "http://localhost:9003"
           "General Image Classification"
           "Classify general images: objects, scenes, activities"
           ["general"; "objects"; "scenes"; "imagenet"]
           ["image/jpeg"; "image/png"]
           1000 2000 0.85 100;
         listing "org-d-langgraph-clf-001"
           "LangGraph Classifier - Organization D"
           "LangGraph-based multi-step workflow for general image classification including animals, vehicles, food, and objects"
           "ai-research-d" "http://localhost:9004"
           "LangGraph Image Classification"
           "LangGraph-based multi-step workflow for image classification"
           ["langgraph"; "stateful"; "workflow"; "general"; "animals";
            "vehicles"; "food"; "objects"]
           ["image/jpeg"; "image/png"]
           1800 3500 0.90 40 ] |}.

(** [skill.id == query.skill_id] *)
Definition has_id (skill_id : option string) (skill : AgentSkill.t) : bool :=
  match skill_id with
  | Some i => String.eqb (AgentSkill.id skill) i
  | None => false
  end.

(** The tags of the agent's skills that carry the queried id. *)
Definition agent_tags (query : DiscoveryQuery.t) (agent : AgentListing.t)
  : list string :=
  Pyset.of_list
    (flat_map
       (fun skill =>
          if has_id (DiscoveryQuery.skill_id query) skill
          then AgentSkill.tags skill else [])
       (AgentCapabilities.skills (AgentListing.capabilities agent))).

Definition query_tags (query : DiscoveryQuery.t) : list string :=
  Pyset.of_list (DiscoveryQuery.tags query).

Definition tag_match_score (query : DiscoveryQuery.t)
  (agent : AgentListing.t) : Q :=
  match query_tags query with
  | [] => 1%Q
  | tags =>
      let matching_tags := Pyset.intersection (agent_tags query agent) tags in
      (inject_Z (Z.of_nat (List.length matching_tags))
       / inject_Z (Z.of_nat (List.length tags)))%Q
  end.

(** [max(a, b)] on floats: the first of the greatest. *)
Definition max2 (a b : Q) : Q := if Qle_bool b a then a else b.

(** [tag_match * success_rate / max(latency_penalty, 0.1)] *)
Definition score (query : DiscoveryQuery.t) (agent : AgentListing.t) : Q :=
  let success_rate :=
    match AgentListing.performance_metrics agent with
    | Some m => AgentPerformanceMetrics.success_rate m
    | None => 0.5%Q
    end in
  let avg_latency :=
    match AgentListing.performance_metrics agent with
    | Some m => AgentPerformanceMetrics.avg_latency_ms m
    | None => 1000%Q
    end in
  let latency_penalty := (avg_latency / 1000)%Q in
  (tag_match_score query agent * success_rate
   / max2 latency_penalty 0.1)%Q.

(** The agent is passed over: no tag matches and the query has tags. *)
Definition skipped (query : DiscoveryQuery.t) (agent : AgentListing.t)
  : bool :=
  Qeq_bool (tag_match_score query agent) 0
  && match query_tags query with [] => false | _ => true end.

(** The loop over [self.agents]. *)
Definition candidates (self : t) (query : DiscoveryQuery.t)
  : list (Q * AgentListing.t) :=
  map (fun agent => (score query agent, agent))
    (filter (fun agent => negb (skipped query agent)) (agents self)).

Definition discover (self : t) (query : DiscoveryQuery.t)
  : list AgentListing.t :=
  map snd
    (Pylist.upto (DiscoveryQuery.limit query)
       (Pylist.sort_reverse fst (candidates self query))).

(** [AgentDiscovery.discover_all(limit)] on this directory. *)
Definition discover_all (self : t) (limit : Z) : list AgentListing.t :=
  discover self
    {| DiscoveryQuery.skill_id := None; DiscoveryQuery.tags := [];
       DiscoveryQuery.min_success_rate := 0%Q;
       DiscoveryQuery.max_latency_ms := None;
       DiscoveryQuery.limit := limit |}.

End StaticAgentDiscovery.

(** ** Image transforms ([shared/utils/image_transforms.py]) *)

(** PIL and the download, outside the repository. *)
Class Imaging : Type := {
  image : Type;
  (** [image.size] *)
  size : image -> Z * Z;
  (** [image.rotate(degrees, expand=True, fillcolor=(0, 0, 0))] *)
  pil_rotate : image -> Q -> attempt image;
  (** [image.filter(ImageFilter.GaussianBlur(radius))] *)
  pil_gaussian_blur : image -> Q -> attempt image;
  (** [ImageEnhance.Brightness(image).enhance(factor)] *)
  pil_brightness : image -> Q -> attempt image;
  (** [image.crop((left, top, right, bottom))] *)
  pil_crop : image -> Z * Z * Z * Z -> attempt image;
  (** [image.resize(size, Image.Resampling.LANCZOS)] *)
  pil_resize : image -> Z * Z -> attempt image;
  (** [image.save(buffer, format)] and the base64 text of the buffer *)
  pil_save_base64 : image -> string -> attempt string;
  (** The download of the url and [Image.open] on its bytes *)
  open_url : option string -> attempt image
}.

Module ImageTransforms.

(** The box of [center_crop_and_resize]: left, top, right, bottom. *)
Definition crop_box (width height : Z) (crop_ratio : Q) : Z * Z * Z * Z :=
  let new_width := Planner.int_of (Py.fmul (inject_Z width) crop_ratio) in
  let new_height := Planner.int_of (Py.fmul (inject_Z height) crop_ratio) in
  let left_ := ((width - new_width) / 2)%Z in
  let top := ((height - new_height) / 2)%Z in
  let right_ := (left_ + new_width)%Z in
  let bottom := (top + new_height)%Z in
  (left_, top, right_, bottom).

(** [get_standard_augmentations()] *)
Definition get_standard_augmentations : list string :=
  ["rotate_15"; "blur_sigma1"; "brightness_1.1"].

(** The keys of the [transforms] table. *)
Definition transform_names : list string :=
  ["rotate_15"; "rotate_neg15"; "blur_sigma1"; "brightness_1.1";
   "brightness_0.9"; "center_crop_90"].

Section WithImaging.
Context `{Imaging}.

Definition rotate (img : image) (degrees : Q) : attempt image :=
  pil_rotate img degrees.

Definition gaussian_blur (img : image) (sigma : Q) : attempt image :=
  pil_gaussian_blur img sigma.

Definition adjust_brightness (img : image) (factor : Q) : attempt image :=
  pil_brightness img factor.

Definition center_crop_and_resize (img : image) (crop_ratio : Q)
  : attempt image :=
  let original_size := size img in
  let (width, height) := original_size in
  cropped <- pil_crop img (crop_box width height crop_ratio) ;;
  pil_resize cropped original_size.

Definition image_to_base64 (img : image) : attempt string :=
  pil_save_base64 img "JPEG".

Definition apply_transform (img : image) (transform_name : string)
  : attempt image :=
  if String.eqb transform_name "rotate_15" then rotate img 15
  else if String.eqb transform_name "rotate_neg15" then rotate img (-15)
  else if String.eqb transform_name "blur_sigma1" then gaussian_blur img 1
  else if String.eqb transform_name "brightness_1.1"
  then adjust_brightness img 1.1
  else if String.eqb transform_name "brightness_0.9"
  then adjust_brightness img 0.9
  else if String.eqb transform_name "center_crop_90"
  then center_crop_and_resize img 0.9
  else Raised ("Unknown transform: " ++ transform_name).

(** The loop of [apply_transforms_to_url] over the transform names. *)
Fixpoint transform_all (img : image) (names : list string)
  : attempt (list (string * string)) :=
  match names with
  | [] => Returned []
  | transform_name :: rest =>
      transformed <- apply_transform img transform_name ;;
      b64 <- image_to_base64 transformed ;;
      results <- transform_all img rest ;;
      Returned ((b64, transform_name) :: results)
  end.

Definition apply_transforms_to_url (image_url : option string)
  (names : list string) : attempt (list (string * string)) :=
  img <- open_url image_url ;;
  transform_all img names.

(** The platform whose transforms are the repository's. *)
Definition platform (base : Platform) : Platform :=
  Build_Platform (@format_float base) (@json_classification_result base)
    apply_transforms_to_url.

End WithImaging.
End ImageTransforms.

(** ** Measures of votes, texts and traces *)

Module Tally.

(** The elements of a list, each at its first place. *)
Fixpoint distinct (l : list string) : list string :=
  match l with
  | [] => []
  | x :: r => x :: filter (fun y => negb (String.eqb x y)) (distinct r)
  end.

(** All results carry the same label. *)
Definition unanimous (results : list ClassificationResult.t) : Prop :=
  forall r r', In r results -> In r' results ->
    ClassificationResult.label r = ClassificationResult.label r'.

(** The transformed image is classified, by the agent at [agent_url], with
    the label of [result]; a call that raises does not count. *)
Definition stable (slim_client : SlimClient) (agent_url : string)
  (result : ClassificationResult.t) (image : string * string) : bool :=
  match send_task slim_client agent_url
          (AugmentationStabilityTester.task_for result (fst image)
             (snd image)) with
  | Returned aug_result =>
      AugmentationStabilityTester.eq_str
        (AugmentationStabilityTester.get_or_none aug_result "label")
        (ClassificationResult.label result)
  | Raised _ => false
  end.

Definition stable_count (slim_client : SlimClient) (agent_url : string)
  (result : ClassificationResult.t) (images : list (string * string)) : nat :=
  List.length (filter (stable slim_client agent_url result) images).

End Tally.

Module Text.

(** [kw] stands somewhere in [text]. *)
Definition occurs (kw text : string) : Prop :=
  exists before after, text = before ++ kw ++ after.

Definition occurs_any (kws : list string) (text : string) : Prop :=
  exists kw, In kw kws /\ occurs kw text.

Definition medical_terms : list string :=
  ["xray"; "x-ray"; "ct"; "mri"; "medical"; "pneumonia"; "diagnosis"].

Definition satellite_terms : list string :=
  ["satellite"; "aerial"; "landsat"; "urban"; "forest"].

(** No newline in the text. *)
Definition one_line (text : string) : Prop :=
  Py.contains_char Planner.newline text = false.

End Text.

Module Trace.

(** The agent called at a place of the dispatch gave no text. *)
Definition silent (w : World) (step : nat) : Prop :=
  forall (pos : nat) (card : string * string) (prompt : string),
    match send_message w step pos card prompt with
    | Returned response =>
        Planner.first_text (A2AResponse.parts response) = None
    | Raised _ => True
    end.

(** What a node leaves alone when it is not the reflection: the request
    and the verdict; and the messages only grow. *)
Definition keeps (s s' : Planner.PlannerState) : Prop :=
  Planner.request s' = Planner.request s
  /\ Planner.verification_status s' = Planner.verification_status s
  /\ Planner.verification_recommendation s'
     = Planner.verification_recommendation s
  /\ exists said, Planner.messages s' = (Planner.messages s ++ said)%list.

(** What a state of a run holds when the run enters [node] with it: the
    request, a recommendation that the reflection wrote, results behind a
    verification that passed, the prompt at the head of the messages, agents
    to route to, a route to dispatch on, and the reason for which the run
    closes. *)
Definition sound (request : ClassificationRequest.t) (node : Planner.Node.t)
  (s : Planner.PlannerState) : Prop :=
  Planner.request s = request
  /\ In (Planner.verification_recommendation s) [""; "replan"; "success"]
  /\ (Planner.verification_status s = "PASS" ->
      Planner.results s <> []
      /\ (node = Planner.Node.check_status
          \/ Invariant.closing node = true))
  /\ (exists said,
        Planner.messages s = ClassificationRequest.prompt request :: said)
  /\ match node with
     | Planner.Node.route_simple | Planner.Node.route_ensemble =>
         Planner.discovered_agents s <> []
     | Planner.Node.execute_tasks =>
         exists route primary others,
           Planner.route_decision s = Some route
           /\ RouteDecision.selected_agents route = primary :: others
           /\ RouteDecision.strategy route
              <> ExecutionStrategy.SEQUENTIAL_FALLBACK
     | Planner.Node.finalize_response =>
         Planner.error s = ""
         /\ (Planner.verification_status s = "PASS"
             \/ (Planner.MAX_REPLANS <= Planner.iteration s)%Z)
     | Planner.Node.handle_error =>
         Planner.error s <> "" \/ Planner.discovered_agents s = []
     | _ => True
     end.

End Trace.

(** ** More sample inputs *)

Module Example.

(** Images that are their sizes; every transform keeps the size but the
    crop and the resize, and the url must be given. *)
Definition imaging : Imaging :=
  {| image := Z * Z;
     size := fun img => img;
     pil_rotate := fun img _ => Returned img;
     pil_gaussian_blur := fun img _ => Returned img;
     pil_brightness := fun img _ => Returned img;
     pil_crop := fun _ box =>
       let '(left_, top, right_, bottom) := box in
       Returned ((right_ - left_)%Z, (bottom - top)%Z);
     pil_resize := fun _ size => Returned size;
     pil_save_base64 := fun img format =>
       Returned (format ++ ":" ++ Py.str_int (fst img) ++ "x"
                   ++ Py.str_int (snd img));
     open_url := fun url =>
       match url with
       | Some _ => Returned (100%Z, 80%Z)
       | None => Raised "InvalidURL"
       end |}.

(** A client whose agent keeps the label "cat" under every transform but
    the blur, on which it fails. *)
Definition slim_client : SlimClient :=
  {| send_task := fun _ task =>
       match Py.get task "request_id" with
       | Some (VStr id) =>
           if Planner.contains id "blur" then Raised "timeout"
           else Returned [("label", VStr "cat"); ("confidence", VFloat 0.9)]
       | _ => Raised "bad task"
       end |}.

(** A platform that delivers three transformed images. *)
Definition platform : Platform :=
  ImageTransforms.platform (H := imaging) Sample.platform.

(** A world without a language model and with the static directory; every
    agent answers [reply]. *)
Definition static_world (reply : attempt A2AResponse.t) : World :=
  {| llm := false;
     discover := fun _ query =>
       Returned (map AgentListing.record
                   (StaticAgentDiscovery.discover StaticAgentDiscovery.init
                      query));
     select_agents := fun _ _ _ => Raised "no model";
     send_message := fun _ _ _ _ => reply;
     reflect := fun _ _ => Raised "no model";
     uuid4 := fun _ _ => "uuid";
     utcnow := fun step => inject_Z (Z.of_nat step) |}.

(** A world with [n] agents whose language model names the agents
    [ids]. *)
Definition naming_world (n : nat) (ids : list string) : World :=
  {| llm := true;
     discover := fun _ _ => Returned (Sample.agents n);
     select_agents := fun _ _ _ =>
       Returned {| AgentSelection.selected_agent_ids := ids;
                   AgentSelection.reasoning := "named";
                   AgentSelection.confidence := 0.9%Q |};
     send_message := fun _ _ _ _ => Sample.text_reply Sample.cat_reply;
     reflect := fun _ _ => Sample.judged false false "fine";
     uuid4 := fun _ _ => "uuid";
     utcnow := fun step => inject_Z (Z.of_nat step) |}.

(** A world with [n] agents of which those at the places [down] of a
    dispatch raise, and the others answer "cat". *)
Definition flaky_world (n : nat) (down : nat -> bool) : World :=
  {| llm := true;
     discover := fun _ _ => Returned (Sample.agents n);
     select_agents := fun _ _ _ => Raised "no selection";
     send_message := fun _ pos _ _ =>
       if down pos then Raised "timeout"
       else Sample.text_reply Sample.cat_reply;
     reflect := fun _ _ => Sample.judged false false "fine";
     uuid4 := fun _ _ => "uuid";
     utcnow := fun step => inject_Z (Z.of_nat step) |}.

(** The state after the routing of [n] agents on a first pass. *)
Definition routed (w : World) (n : nat) (ensemble : bool)
  : Planner.PlannerState :=
  let s :=
    Planner.set_discovered_agents
      (Planner.initial_state w Sample.request) (Sample.agents n) in
  if ensemble then Planner._route_ensemble_node s
  else Planner._route_simple_node s.

(** A world whose directory is empty. *)
Definition empty_world : World :=
  {| llm := true;
     discover := fun _ _ => Returned [];
     select_agents := fun _ _ _ => Raised "no agents";
     send_message := fun _ _ _ _ => Raised "unreachable";
     reflect := fun _ _ => Raised "no results";
     uuid4 := fun _ _ => "uuid";
     utcnow := fun step => inject_Z (Z.of_nat step) |}.

End Example.

(** ** Proof steps *)

(** Case analysis on everything that the goal matches on. *)
Ltac split_cases :=
  repeat match goal with
         | |- context [match ?x with _ => _ end] => destruct x
         end.

(** * Properties *)

(** ** Comparisons on confidences *)

Lemma Qle_bool_false (a b : Q) : Qle_bool a b = false <-> (b < a)%Q.
Proof.
  split; intro Hc.
  - apply Qnot_le_lt. intro Hle. apply Qle_bool_iff in Hle. congruence.
  - destruct (Qle_bool a b) eqn:E; [|reflexivity].
    apply Qle_bool_iff in E. exfalso. exact (Qlt_not_le _ _ Hc E).
Qed.

Lemma Qle_bool_true (a b : Q) : Qle_bool a b = true <-> (a <= b)%Q.
Proof. apply Qle_bool_iff. Qed.

(** ** Rounding to binary64 *)

Lemma round_half_even_floor (x : Q) :
  (Qfloor x <= Py.round_half_even x <= Qfloor x + 1)%Z.
Proof.
  unfold Py.round_half_even.
  destruct (x - inject_Z (Qfloor x) ?= 1 # 2)%Q; [destruct (Z.even _)| |]; lia.
Qed.

Lemma round_half_even_le (x : Q) (n : Z) :
  (x <= inject_Z n)%Q -> (Py.round_half_even x <= n)%Z.
Proof.
  intro Hx.
  pose proof (Qfloor_le x) as Hfloor.
  assert (Hfn : (Qfloor x <= n)%Z).
  { rewrite Zle_Qle. lra. }
  destruct (Z.eq_dec (Qfloor x) n) as [Heq|Hne].
  - unfold Py.round_half_even. rewrite Heq.
    assert (Hlt : (x - inject_Z n ?= 1 # 2)%Q = Lt).
    { rewrite <- Qlt_alt. rewrite Heq in Hfloor. lra. }
    rewrite Hlt. lia.
  - pose proof (round_half_even_floor x). lia.
Qed.

Lemma round_half_even_ge (x : Q) (n : Z) :
  (inject_Z n <= x)%Q -> (n <= Py.round_half_even x)%Z.
Proof.
  intro Hx.
  pose proof (Qfloor_resp_le _ _ Hx) as Hn. rewrite Qfloor_Z in Hn.
  pose proof (round_half_even_floor x). lia.
Qed.

Lemma round_half_even_mono (x y : Q) :
  (x <= y)%Q -> (Py.round_half_even x <= Py.round_half_even y)%Z.
Proof.
  intro Hxy.
  pose proof (Qfloor_resp_le _ _ Hxy) as Hfloor.
  destruct (Z.eq_dec (Qfloor x) (Qfloor y)) as [Heq|Hne].
  - unfold Py.round_half_even. rewrite <- Heq.
    destruct (x - inject_Z (Qfloor x) ?= 1 # 2)%Q eqn:Ex;
      destruct (y - inject_Z (Qfloor x) ?= 1 # 2)%Q eqn:Ey;
      try (destruct (Z.even (Qfloor x))); try lia; exfalso;
      try (apply Qeq_alt in Ex); try (apply Qeq_alt in Ey);
      try (rewrite <- Qlt_alt in Ex); try (rewrite <- Qlt_alt in Ey);
      try (rewrite <- Qgt_alt in Ex); try (rewrite <- Qgt_alt in Ey); lra.
  - pose proof (round_half_even_floor x).
    pose proof (round_half_even_floor y). lia.
Qed.

Lemma pow2_pos (e : Z) : (0 < 2 ^ e)%Q.
Proof. apply Qpower_0_lt. reflexivity. Qed.

Lemma pow2_plus (a b : Z) : (2 ^ (a + b) == 2 ^ a * 2 ^ b)%Q.
Proof. apply Qpower_plus. discriminate. Qed.

Lemma pow2_succ (a : Z) : (2 ^ (a + 1) == 2 * 2 ^ a)%Q.
Proof. rewrite pow2_plus. change (2 ^ 1)%Q with 2%Q. ring. Qed.

Lemma pow2_le (a b : Z) : (a <= b)%Z -> (2 ^ a <= 2 ^ b)%Q.
Proof. intro H. apply Qpower_le_compat_l; [exact H|]. discriminate. Qed.

Lemma pow2_inject (a : Z) : (0 <= a)%Z -> (inject_Z (2 ^ a) == 2 ^ a)%Q.
Proof. intro H. apply (Zpower_Qpower 2 a H). Qed.

(** The binade of a positive rational. *)
Lemma binade_spec (x : Q) :
  (0 < x)%Q -> (2 ^ Py.binade x <= x)%Q /\ (x < 2 ^ (Py.binade x + 1))%Q.
Proof.
  intro Hx. unfold Py.binade.
  destruct x as [n d]. cbn [Qnum Qden].
  assert (Hn : (0 < n)%Z).
  { unfold Qlt in Hx. cbn in Hx. lia. }
  set (a := Z.log2 n). set (b := Z.log2 (Z.pos d)).
  destruct (Z.log2_spec n Hn) as [Ha1 Ha2]. fold a in Ha1, Ha2.
  destruct (Z.log2_spec (Z.pos d) (Pos2Z.is_pos d)) as [Hb1 Hb2].
  fold b in Hb1, Hb2.
  assert (Ha0 : (0 <= a)%Z) by apply Z.log2_nonneg.
  assert (Hb0 : (0 <= b)%Z) by apply Z.log2_nonneg.
  pose proof (pow2_pos a) as Pa. pose proof (pow2_pos b) as Pb.
  assert (Qa1 : (2 ^ a <= inject_Z n)%Q).
  { rewrite <- pow2_inject by exact Ha0. rewrite <- Zle_Qle. exact Ha1. }
  assert (Qa2 : (inject_Z n < 2 * 2 ^ a)%Q).
  { rewrite <- pow2_succ, <- pow2_inject by lia. rewrite <- Zlt_Qlt.
    rewrite <- Z.add_1_r in Ha2. exact Ha2. }
  assert (Qb1 : (2 ^ b <= inject_Z (Z.pos d))%Q).
  { rewrite <- pow2_inject by exact Hb0. rewrite <- Zle_Qle. exact Hb1. }
  assert (Qb2 : (inject_Z (Z.pos d) < 2 * 2 ^ b)%Q).
  { rewrite <- pow2_succ, <- pow2_inject by lia. rewrite <- Zlt_Qlt.
    rewrite <- Z.add_1_r in Hb2. exact Hb2. }
  assert (Hx' : (n # d == inject_Z n / inject_Z (Z.pos d))%Q)
    by apply Qmake_Qdiv.
  assert (Hd : (0 < inject_Z (Z.pos d))%Q).
  { change 0%Q with (inject_Z 0). rewrite <- Zlt_Qlt. apply Pos2Z.is_pos. }
  assert (He : (2 ^ (a - b) == 2 ^ a / 2 ^ b)%Q)
    by (apply Qpower_minus; discriminate).
  assert (Hup : (n # d < 2 * 2 ^ (a - b))%Q).
  { rewrite Hx', He. apply Qlt_shift_div_r; [exact Hd|].
    unfold Qdiv. 
    assert (H1 : (2 * (2 ^ a * / 2 ^ b) * inject_Z (Z.pos d)
                  == 2 * 2 ^ a * (inject_Z (Z.pos d) / 2 ^ b))%Q)
      by (unfold Qdiv; ring).
    rewrite H1.
    assert (H2 : (1 <= inject_Z (Z.pos d) / 2 ^ b)%Q).
    { apply Qle_shift_div_l; [exact Pb|]. lra. }
    nra. }
  assert (Hdown : (2 ^ (a - b) < 2 * (n # d))%Q).
  { rewrite Hx', He. apply Qlt_shift_div_r; [exact Pb|].
    unfold Qdiv.
    assert (H1 : (2 * (inject_Z n * / inject_Z (Z.pos d)) * 2 ^ b
                  == inject_Z n * (2 * 2 ^ b / inject_Z (Z.pos d)))%Q)
      by (unfold Qdiv; ring).
    rewrite H1.
    assert (H2 : (1 < 2 * 2 ^ b / inject_Z (Z.pos d))%Q).
    { apply Qlt_shift_div_l; [exact Hd|]. lra. }
    nra. }
  destruct (Qle_bool (2 ^ (a - b)) (n # d)) eqn:E.
  - apply Qle_bool_iff in E. split; [exact E|].
    rewrite pow2_succ. exact Hup.
  - assert (Hlt : (n # d < 2 ^ (a - b))%Q).
    { apply Qnot_le_lt. intro Hle. apply Qle_bool_iff in Hle. congruence. }
    replace (a - b - 1 + 1)%Z with (a - b)%Z by lia.
    split; [|exact Hlt].
    assert (Hs : (2 ^ (a - b) == 2 * 2 ^ (a - b - 1))%Q).
    { rewrite <- pow2_succ. replace (a - b - 1 + 1)%Z with (a - b)%Z by lia.
      reflexivity. }
    lra.
Qed.

Lemma binade_mono (x y : Q) :
  (0 < x)%Q -> (x <= y)%Q -> (Py.binade x <= Py.binade y)%Z.
Proof.
  intros Hx Hxy.
  destruct (binade_spec x Hx) as [Hx1 _].
  destruct (binade_spec y) as [_ Hy2]; [lra|].
  assert (Hlt : (2 ^ Py.binade x < 2 ^ (Py.binade y + 1))%Q) by lra.
  apply Qpower_lt_compat_l_inv in Hlt; [lia|reflexivity].
Qed.

(** The float nearest to a positive rational lies between the powers of
    two around it. *)
Lemma nearest_bounds (x : Q) :
  (0 < x)%Q ->
  let e := Z.max (Py.binade x) (-1022) in
  (x < 2 ^ (e + 1))%Q
  /\ (Py.nearest x <= 2 ^ (e + 1))%Q
  /\ (0 <= Py.nearest x)%Q
  /\ ((-1022 <= Py.binade x)%Z -> (2 ^ e <= Py.nearest x)%Q).
Proof.
  intros Hx e.
  destruct (binade_spec x Hx) as [H1 H2].
  assert (Hup : (x < 2 ^ (e + 1))%Q).
  { eapply Qlt_le_trans; [exact H2|]. apply pow2_le. lia. }
  unfold Py.nearest. fold e.
  set (shift := (52 - e)%Z).
  pose proof (pow2_pos shift) as Ps. pose proof (pow2_pos (- shift)) as Pn.
  assert (Hinv : (2 ^ shift * 2 ^ (- shift) == 1)%Q).
  { rewrite <- pow2_plus. replace (shift + - shift)%Z with 0%Z by lia.
    reflexivity. }
  split; [exact Hup|]. split; [|split].
  - assert (Hm : (Py.round_half_even (x * 2 ^ shift) <= 2 ^ 53)%Z).
    { apply round_half_even_le. rewrite pow2_inject by lia.
      assert (He : (2 ^ 53 == 2 ^ (e + 1) * 2 ^ shift)%Q).
      { rewrite <- pow2_plus. unfold shift.
        replace (e + 1 + (52 - e))%Z with 53%Z by lia. reflexivity. }
      rewrite He. apply Qmult_le_compat_r; lra. }
    rewrite Zle_Qle in Hm. rewrite pow2_inject in Hm by lia.
    assert (He : (2 ^ (e + 1) == 2 ^ 53 * 2 ^ (- shift))%Q).
    { rewrite <- pow2_plus. unfold shift.
      replace (53 + - (52 - e))%Z with (e + 1)%Z by lia. reflexivity. }
    rewrite He. apply Qmult_le_compat_r; lra.
  - apply Qmult_le_0_compat; [|lra].
    change 0%Q with (inject_Z 0). rewrite <- Zle_Qle.
    apply round_half_even_ge. change (inject_Z 0) with 0%Q.
    apply Qmult_le_0_compat; lra.
  - intro Hnormal.
    assert (Ee : e = Py.binade x) by (unfold e; lia).
    assert (Hm : (2 ^ 52 <= Py.round_half_even (x * 2 ^ shift))%Z).
    { apply round_half_even_ge. rewrite pow2_inject by lia.
      assert (He : (2 ^ 52 == 2 ^ e * 2 ^ shift)%Q).
      { rewrite <- pow2_plus. unfold shift.
        replace (e + (52 - e))%Z with 52%Z by lia. reflexivity. }
      rewrite He. apply Qmult_le_compat_r; [|lra]. rewrite Ee. exact H1. }
    rewrite Zle_Qle in Hm. rewrite pow2_inject in Hm by lia.
    assert (He : (2 ^ e == 2 ^ 52 * 2 ^ (- shift))%Q).
    { rewrite <- pow2_plus. unfold shift.
      replace (52 + - (52 - e))%Z with e by lia. reflexivity. }
    rewrite He. apply Qmult_le_compat_r; lra.
Qed.

Lemma nearest_mono (x y : Q) :
  (0 < x)%Q -> (x <= y)%Q -> (Py.nearest x <= Py.nearest y)%Q.
Proof.
  intros Hx Hxy.
  assert (Hy : (0 < y)%Q) by lra.
  pose proof (binade_mono x y Hx Hxy) as Hb.
  destruct (Z.eq_dec (Z.max (Py.binade x) (-1022))
              (Z.max (Py.binade y) (-1022))) as [Heq|Hne].
  - unfold Py.nearest. rewrite Heq.
    set (shift := (52 - Z.max (Py.binade y) (-1022))%Z).
    pose proof (pow2_pos shift) as Ps. pose proof (pow2_pos (- shift)) as Pn.
    apply Qmult_le_compat_r; [|lra].
    rewrite <- Zle_Qle. apply round_half_even_mono.
    apply Qmult_le_compat_r; lra.
  - destruct (nearest_bounds x Hx) as (_ & Hxu & _ & _).
    destruct (nearest_bounds y Hy) as (_ & _ & _ & Hyl).
    cbv zeta in Hxu, Hyl.
    assert (Hnormal : (-1022 <= Py.binade y)%Z) by lia.
    specialize (Hyl Hnormal).
    eapply Qle_trans; [exact Hxu|].
    eapply Qle_trans; [|exact Hyl].
    apply pow2_le. lia.
Qed.

(** [binary64] by the sign of its argument. *)
Lemma binary64_pos (x : Q) :
  (0 < x)%Q -> (Py.binary64 x == Py.nearest x)%Q.
Proof.
  intro Hx. unfold Py.binary64. destruct x as [[|p|p] d].
  - unfold Qlt in Hx. cbn in Hx. lia.
  - cbn [Qnum]. apply Qred_correct.
  - unfold Qlt in Hx. cbn in Hx. lia.
Qed.

Lemma binary64_neg (x : Q) :
  (x < 0)%Q -> (Py.binary64 x == - Py.nearest (- x))%Q.
Proof.
  intro Hx. unfold Py.binary64. destruct x as [[|p|p] d].
  - unfold Qlt in Hx. cbn in Hx. lia.
  - unfold Qlt in Hx. cbn in Hx. lia.
  - cbn [Qnum]. rewrite Qred_correct. reflexivity.
Qed.

Lemma binary64_zero (x : Q) : (x == 0)%Q -> Py.binary64 x = 0%Q.
Proof.
  intro Hx. unfold Py.binary64. destruct x as [[|p|p] d].
  - reflexivity.
  - unfold Qeq in Hx. cbn in Hx. lia.
  - unfold Qeq in Hx. cbn in Hx. lia.
Qed.

(** Rounding keeps the order. *)
Lemma binary64_mono (x y : Q) :
  (x <= y)%Q -> (Py.binary64 x <= Py.binary64 y)%Q.
Proof.
  intro Hxy.
  destruct (Q_dec x 0) as [[Hx|Hx]|Hx], (Q_dec y 0) as [[Hy|Hy]|Hy].
  - rewrite (binary64_neg x Hx), (binary64_neg y Hy).
    apply Qopp_le_compat. apply nearest_mono; lra.
  - rewrite (binary64_neg x Hx), (binary64_pos y Hy).
    destruct (nearest_bounds (- x)) as (_ & _ & H0 & _); [lra|].
    destruct (nearest_bounds y Hy) as (_ & _ & H0' & _). lra.
  - rewrite (binary64_neg x Hx), (binary64_zero y Hy).
    destruct (nearest_bounds (- x)) as (_ & _ & H0 & _); [lra|]. lra.
  - lra.
  - rewrite (binary64_pos x Hx), (binary64_pos y Hy).
    apply nearest_mono; assumption.
  - lra.
  - rewrite (binary64_zero x Hx), (binary64_neg y Hy). lra.
  - rewrite (binary64_zero x Hx), (binary64_pos y Hy).
    destruct (nearest_bounds y Hy) as (_ & _ & H0' & _). lra.
  - rewrite (binary64_zero x Hx), (binary64_zero y Hy). lra.
Qed.

Lemma binary64_comp (x y : Q) :
  (x == y)%Q -> (Py.binary64 x == Py.binary64 y)%Q.
Proof.
  intro Hxy. apply Qle_antisym; apply binary64_mono; lra.
Qed.

(** An integer of at most 53 bits is a float. *)
Lemma binary64_int (n : Z) :
  (0 <= n <= 2 ^ 53)%Z -> (Py.binary64 (inject_Z n) == inject_Z n)%Q.
Proof.
  intros [H0 H53].
  destruct (Z.eq_dec n 0) as [->|Hne]; [reflexivity|].
  assert (Hpos : (0 < inject_Z n)%Q).
  { change 0%Q with (inject_Z 0). rewrite <- Zlt_Qlt. lia. }
  rewrite (binary64_pos _ Hpos). unfold Py.nearest.
  destruct (binade_spec _ Hpos) as [Hb1 Hb2].
  set (b := Py.binade (inject_Z n)) in *.
  assert (Hb0 : (0 <= b)%Z).
  { assert (H1 : (1 < 2 ^ (b + 1))%Q).
    { eapply Qle_lt_trans; [|exact Hb2].
      change 1%Q with (inject_Z 1). rewrite <- Zle_Qle. lia. }
    apply (Qpower_lt_compat_l_inv 2 0 (b + 1)) in H1; [lia|reflexivity]. }
  assert (Hb53 : (b <= 53)%Z).
  { assert (H1 : (2 ^ b <= 2 ^ 53)%Q).
    { eapply Qle_trans; [exact Hb1|].
      rewrite <- pow2_inject by lia. rewrite <- Zle_Qle. exact H53. }
    apply Qpower_le_compat_l_inv in H1; [exact H1|reflexivity]. }
  replace (Z.max b (-1022)) with b by lia.
  set (shift := (52 - b)%Z).
  pose proof (pow2_pos shift) as Ps. pose proof (pow2_pos (- shift)) as Pn.
  assert (Hinv : (2 ^ shift * 2 ^ (- shift) == 1)%Q).
  { rewrite <- pow2_plus. replace (shift + - shift)%Z with 0%Z by lia.
    reflexivity. }
  assert (Hint : exists k, (inject_Z n * 2 ^ shift == inject_Z k)%Q).
  { destruct (Z.eq_dec b 53) as [E53|N53].
    - (* n = 2 ^ 53 *)
      assert (En : n = (2 ^ 53)%Z).
      { apply Z.le_antisymm; [exact H53|].
        rewrite Zle_Qle, pow2_inject by lia. rewrite <- E53. exact Hb1. }
      exists (2 ^ 52)%Z. unfold shift. rewrite E53, En. reflexivity.
    - exists (n * 2 ^ shift)%Z.
      rewrite inject_Z_mult, pow2_inject by (unfold shift; lia).
      reflexivity. }
  destruct Hint as [k Hk].
  assert (Hr : Py.round_half_even (inject_Z n * 2 ^ shift) = k).
  { apply Z.le_antisymm.
    - apply round_half_even_le. rewrite Hk. apply Qle_refl.
    - apply round_half_even_ge. rewrite Hk. apply Qle_refl. }
  rewrite Hr, <- Hk.
  rewrite <- Qmult_assoc, Hinv. ring.
Qed.

(** ** The decimal of a float *)

Lemma binary64_opp (x : Q) : (Py.binary64 (- x) == - Py.binary64 x)%Q.
Proof.
  destruct x as [[|p|p] d]; try reflexivity.
  unfold Py.binary64. cbn [Qnum Qopp Z.opp].
  change (- (Z.neg p # d))%Q with (Z.pos p # d)%Q. ring.
Qed.

Lemma binary64_reduced (x : Q) : Qred (Py.binary64 x) = Py.binary64 x.
Proof.
  unfold Py.binary64. destruct (Qnum x).
  - reflexivity.
  - apply Qred_complete, Qred_correct.
  - rewrite Qred_opp. f_equal. apply Qred_complete, Qred_correct.
Qed.

(** A float that equals an integer of at most 53 bits is that integer. *)
Lemma binary64_is_int (x : Q) (n : Z) :
  (Py.binary64 x == inject_Z n)%Q -> Py.binary64 x = inject_Z n.
Proof.
  intro Heq. rewrite <- binary64_reduced.
  rewrite (Qred_complete _ _ Heq).
  unfold inject_Z, Qred.
  pose proof (Z.ggcd_gcd n 1) as Hg.
  pose proof (Z.ggcd_correct_divisors n 1) as Hd.
  destruct (Z.ggcd n 1) as [g [aa bb]]. cbn [fst snd] in *.
  rewrite Z.gcd_1_r in Hg. subst g. destruct Hd as [Ha Hb].
  replace aa with n by lia. replace bb with 1%Z by lia. reflexivity.
Qed.

(** What [shortest] returns denotes the float, or is the float itself. *)
Lemma shortest_at_spec (f : Q) (d digits : Z) (c : Q) :
  Py.shortest_at f d digits = Some c -> (Py.binary64 c == f)%Q.
Proof.
  unfold Py.shortest_at.
  set (below := Qred _). set (above := Qred _).
  destruct (Qeq_bool (Py.binary64 below) f) eqn:Eb;
    destruct (Qeq_bool (Py.binary64 above) f) eqn:Ea;
    intro Hc; inversion Hc; subst c; clear Hc.
  - apply Qeq_bool_iff in Eb, Ea.
    destruct (f - below ?= above - f)%Q; [destruct (Z.even _)| |];
      assumption.
  - apply Qeq_bool_iff. exact Eb.
  - apply Qeq_bool_iff. exact Ea.
Qed.

Lemma shortest_from_spec (fuel : nat) (f : Q) (d : Z) :
  forall digits,
    (Py.binary64 (Py.shortest_from fuel digits f d) == f)%Q
    \/ Py.shortest_from fuel digits f d = f.
Proof.
  induction fuel as [|fuel IH]; intro digits; cbn [Py.shortest_from].
  - right. reflexivity.
  - destruct (Py.shortest_at f d digits) as [c|] eqn:E.
    + left. exact (shortest_at_spec f d digits c E).
    + apply IH.
Qed.

Lemma shortest_spec (f : Q) :
  (Py.binary64 (Py.shortest f) == f)%Q \/ (Py.shortest f == f)%Q.
Proof.
  unfold Py.shortest. destruct f as [[|p|p] d]; cbn [Qnum].
  - right. reflexivity.
  - destruct (shortest_from_spec 17 (Z.pos p # d)%Q
                (Py.decade (Z.pos p # d)%Q) 1)
      as [H|H]; [left; exact H|right; rewrite H; reflexivity].
  - destruct (shortest_from_spec 17 (- (Z.neg p # d))%Q
                (Py.decade (- (Z.neg p # d))%Q) 1) as [H|H].
    + left. rewrite binary64_opp, H. 
      unfold Qeq, Qopp. cbn [Qnum Qden]. reflexivity.
    + right. rewrite H. unfold Qeq, Qopp. cbn [Qnum Qden]. reflexivity.
Qed.

(** The float that a computed float denotes lies between the integers
    (of at most 53 bits) that the exact value lies between. *)
Lemma as_float_between (x : Q) (lo hi : Z) :
  (0 <= lo)%Z -> (hi <= 2 ^ 53)%Z ->
  (inject_Z lo <= x)%Q -> (x <= inject_Z hi)%Q ->
  (inject_Z lo <= Py.binary64 (Py.as_float x))%Q
  /\ (Py.binary64 (Py.as_float x) <= inject_Z hi)%Q.
Proof.
  intros Hlo Hhi Hx1 Hx2.
  assert (Hle : (lo <= hi)%Z).
  { rewrite Zle_Qle. lra. }
  pose proof (binary64_int lo ltac:(lia)) as Elo.
  pose proof (binary64_int hi ltac:(lia)) as Ehi.
  pose proof (binary64_mono _ _ Hx1) as H1. rewrite Elo in H1.
  pose proof (binary64_mono _ _ Hx2) as H2. rewrite Ehi in H2.
  unfold Py.as_float.
  destruct (shortest_spec (Py.binary64 x)) as [H|H].
  - rewrite H. split; assumption.
  - rewrite (binary64_comp _ _ H).
    pose proof (binary64_mono _ _ H1) as H1'. rewrite Elo in H1'.
    pose proof (binary64_mono _ _ H2) as H2'. rewrite Ehi in H2'.
    split; assumption.
Qed.

(** A computed float of a value between 0 and 1 is written between 0 and
    1. *)
Lemma as_float_unit (x : Q) :
  (0 <= x)%Q -> (x <= 1)%Q ->
  (0 <= Py.as_float x)%Q /\ (Py.as_float x <= 1)%Q.
Proof.
  intros H0 H1.
  pose proof (binary64_mono _ _ H0) as F0.
  pose proof (binary64_mono _ _ H1) as F1.
  change (Py.binary64 0) with 0%Q in F0.
  change (Py.binary64 1) with 1%Q in F1.
  unfold Py.as_float.
  set (f := Py.binary64 x) in *.
  destruct (shortest_spec f) as [H|H]; [|rewrite H; split; assumption].
  split.
  - destruct (Qlt_le_dec (Py.shortest f) 0) as [Hneg|Hpos]; [|exact Hpos].
    exfalso.
    destruct (Qeq_dec f 0) as [Ez|Nz].
    + assert (Ef : f = 0%Q) by (apply (binary64_is_int x 0); exact Ez).
      rewrite Ef in Hneg. vm_compute in Hneg. discriminate.
    + assert (Hb : (Py.binary64 (Py.shortest f) <= Py.binary64 0)%Q)
        by (apply binary64_mono; lra).
      change (Py.binary64 0) with 0%Q in Hb.
      apply Nz, Qle_antisym; lra.
  - destruct (Qlt_le_dec 1 (Py.shortest f)) as [Hgt|Hle]; [|exact Hle].
    exfalso.
    assert (Hb : (Py.binary64 1 <= Py.binary64 (Py.shortest f))%Q)
      by (apply binary64_mono; lra).
    change (Py.binary64 1) with 1%Q in Hb.
    assert (Ef : f = 1%Q).
    { apply (binary64_is_int x 1). change (inject_Z 1) with 1%Q.
      apply Qle_antisym; [exact F1|]. fold f. lra. }
    rewrite Ef in Hgt. vm_compute in Hgt. discriminate.
Qed.

(** [int] of a float that lies between two integers. *)
Lemma int_of_between (x : Q) (lo hi : Z) :
  (0 <= lo)%Z ->
  (inject_Z lo <= Py.binary64 x)%Q -> (Py.binary64 x <= inject_Z hi)%Q ->
  (lo <= Planner.int_of x <= hi)%Z.
Proof.
  intros Hlo H1 H2. unfold Planner.int_of. cbv zeta.
  destruct (Py.binary64 x) as [n d].
  unfold Qle in H1, H2. cbn [Qnum Qden inject_Z] in H1, H2.
  rewrite Z.mul_1_r in H1, H2.
  assert (Hn : (0 <= n)%Z) by nia.
  cbn [Qnum Qden]. rewrite Z.quot_div_nonneg by lia.
  split.
  - apply Z.div_le_lower_bound; lia.
  - apply Z.div_le_upper_bound; lia.
Qed.

(** ** Sums and means of floats *)

Lemma binary64_unit (x : Q) :
  (0 <= x)%Q -> (x <= 1)%Q ->
  (0 <= Py.binary64 x)%Q /\ (Py.binary64 x <= 1)%Q.
Proof.
  intros H0 H1.
  pose proof (binary64_mono _ _ H0) as F0.
  pose proof (binary64_mono _ _ H1) as F1.
  split; assumption.
Qed.

(** The sum of [n] floats between 0 and 1, added to a float between 0 and
    [k], is a float between 0 and [k + n]. *)
Lemma sum_from_unit (l : list Q) :
  (forall x, In x l -> (0 <= x)%Q /\ (x <= 1)%Q) ->
  forall (acc : Q) (k : Z),
    (0 <= k)%Z -> (k + Z.of_nat (List.length l) <= 2 ^ 53)%Z ->
    (0 <= Py.binary64 acc)%Q -> (Py.binary64 acc <= inject_Z k)%Q ->
    (0 <= Py.binary64 (fold_left Py.fadd l acc))%Q
    /\ (Py.binary64 (fold_left Py.fadd l acc)
        <= inject_Z (k + Z.of_nat (List.length l)))%Q.
Proof.
  induction l as [|x r IH]; intros Hall acc k Hk Hlen H0 H1.
  - cbn [fold_left List.length]. rewrite Z.add_0_r. split; assumption.
  - cbn [fold_left]. cbn [List.length] in Hlen |- *.
    destruct (Hall x (or_introl eq_refl)) as [Hx0 Hx1].
    destruct (binary64_unit x Hx0 Hx1) as [Bx0 Bx1].
    destruct (as_float_between (Py.binary64 acc + Py.binary64 x) 0 (k + 1))
      as [S0 S1]; [lia|lia| |rewrite inject_Z_plus|].
    + change (inject_Z 0) with 0%Q. lra.
    + change (inject_Z 1) with 1%Q. lra.
    + change (inject_Z 0) with 0%Q in S0.
      destruct (IH (fun y Hy => Hall y (or_intror Hy)) (Py.fadd acc x)
                  (k + 1)%Z) as [R0 R1]; [lia|lia|exact S0|exact S1|].
      replace (k + Z.of_nat (S (List.length r)))%Z
        with (k + 1 + Z.of_nat (List.length r))%Z by lia.
      split; assumption.
Qed.

(** The mean of floats between 0 and 1 is a float between 0 and 1. *)
Lemma mean_unit (l : list Q) (avg : Q) :
  (forall x, In x l -> (0 <= x)%Q /\ (x <= 1)%Q) ->
  (Z.of_nat (List.length l) <= 2 ^ 53)%Z ->
  Py.mean l = Some avg ->
  (0 <= avg)%Q /\ (avg <= 1)%Q.
Proof.
  intros Hall Hlen Hmean.
  destruct l as [|x r]; [discriminate|].
  unfold Py.mean in Hmean. inversion Hmean as [Havg]. clear Hmean Havg.
  set (n := Z.of_nat (List.length (x :: r))) in *.
  assert (Hn : (1 <= n)%Z) by (unfold n; cbn [List.length]; lia).
  destruct (sum_from_unit (x :: r) Hall 0%Q 0%Z) as [S0 S1];
    [lia|exact Hlen|apply Qle_refl|apply Qle_refl|].
  rewrite Z.add_0_l in S1. fold n in S1. fold (Py.sum (x :: r)) in S0, S1.
  unfold Py.fdiv.
  pose proof (binary64_int n ltac:(lia)) as Hb.
  assert (Hq : (0 < inject_Z n)%Q).
  { change 0%Q with (inject_Z 0). rewrite <- Zlt_Qlt. lia. }
  set (b := Py.binary64 (inject_Z n)) in *.
  set (total := Py.binary64 (Py.sum (x :: r))) in *.
  assert (Hb0 : (0 < b)%Q) by (rewrite Hb; exact Hq).
  assert (Htotal : (total <= b)%Q) by (rewrite Hb; exact S1).
  apply as_float_unit.
  - apply Qle_shift_div_l; [exact Hb0|]. rewrite Qmult_0_l. exact S0.
  - apply Qle_shift_div_r; [exact Hb0|]. rewrite Qmult_1_l. exact Htotal.
Qed.

(** ** The confidence gate *)

Section GateProperties.
Context `{Platform}.

Lemma gate_pass (g : ConfidenceGate.t) (r : ClassificationResult.t) :
  (ConfidenceGate.pass_threshold g <= ClassificationResult.confidence r)%Q ->
  VerificationTest.result (ConfidenceGate.verify g r)
    = VerificationTestResult.PASS
  /\ Observe.recommendation (ConfidenceGate.verify g r)
     = Some (VEnum VerificationRecommendation.ACCEPT).
Proof.
  intro Hc. apply Qle_bool_true in Hc.
  unfold ConfidenceGate.verify. rewrite Hc. split; reflexivity.
Qed.

Lemma gate_uncertain (g : ConfidenceGate.t) (r : ClassificationResult.t) :
  (ConfidenceGate.uncertain_threshold g <= ClassificationResult.confidence r)%Q ->
  (ClassificationResult.confidence r < ConfidenceGate.pass_threshold g)%Q ->
  VerificationTest.result (ConfidenceGate.verify g r)
    = VerificationTestResult.FAIL
  /\ Observe.recommendation (ConfidenceGate.verify g r)
     = Some (VEnum VerificationRecommendation.REPLAN_ENSEMBLE).
Proof.
  intros Hu Hp. apply Qle_bool_true in Hu. apply Qle_bool_false in Hp.
  unfold ConfidenceGate.verify. rewrite Hp, Hu. split; reflexivity.
Qed.

Lemma gate_low (g : ConfidenceGate.t) (r : ClassificationResult.t) :
  (ClassificationResult.confidence r < ConfidenceGate.uncertain_threshold g)%Q ->
  (ClassificationResult.confidence r < ConfidenceGate.pass_threshold g)%Q ->
  VerificationTest.result (ConfidenceGate.verify g r)
    = VerificationTestResult.FAIL
  /\ Observe.recommendation (ConfidenceGate.verify g r)
     = Some (VEnum VerificationRecommendation.HUMAN_REVIEW).
Proof.
  intros Hu Hp. apply Qle_bool_false in Hu. apply Qle_bool_false in Hp.
  unfold ConfidenceGate.verify. rewrite Hp, Hu. split; reflexivity.
Qed.

(** C5.  The confidence gate with thresholds 0.75 and 0.6 reads nothing of a
    result but its confidence [c]: [c >= 0.75] gives PASS and accept,
    [0.6 <= c < 0.75] gives FAIL and replan_ensemble, [c < 0.6] gives FAIL
    and human_review; so 0.9 passes, 0.65 fails towards the ensemble and
    0.3 fails towards human review. *)
Theorem confidence_gate_rule :
  (forall (g : ConfidenceGate.t) (r r' : ClassificationResult.t),
      ClassificationResult.confidence r = ClassificationResult.confidence r' ->
      ConfidenceGate.verify g r = ConfidenceGate.verify g r')
  /\ (forall r : ClassificationResult.t,
        let c := ClassificationResult.confidence r in
        let t := ConfidenceGate.verify ConfidenceGate.default r in
        ((0.75 <= c)%Q ->
         VerificationTest.result t = VerificationTestResult.PASS
         /\ Observe.recommendation t
            = Some (VEnum VerificationRecommendation.ACCEPT))
        /\ ((0.6 <= c)%Q /\ (c < 0.75)%Q ->
            VerificationTest.result t = VerificationTestResult.FAIL
            /\ Observe.recommendation t
               = Some (VEnum VerificationRecommendation.REPLAN_ENSEMBLE))
        /\ ((c < 0.6)%Q ->
            VerificationTest.result t = VerificationTestResult.FAIL
            /\ Observe.recommendation t
               = Some (VEnum VerificationRecommendation.HUMAN_REVIEW)))
  /\ (forall r : ClassificationResult.t,
        let t := ConfidenceGate.verify ConfidenceGate.default r in
        (ClassificationResult.confidence r = 0.9%Q ->
         VerificationTest.result t = VerificationTestResult.PASS
         /\ Observe.recommendation t
            = Some (VEnum VerificationRecommendation.ACCEPT))
        /\ (ClassificationResult.confidence r = 0.65%Q ->
            VerificationTest.result t = VerificationTestResult.FAIL
            /\ Observe.recommendation t
               = Some (VEnum VerificationRecommendation.REPLAN_ENSEMBLE))
        /\ (ClassificationResult.confidence r = 0.3%Q ->
            VerificationTest.result t = VerificationTestResult.FAIL
            /\ Observe.recommendation t
               = Some (VEnum VerificationRecommendation.HUMAN_REVIEW))).
Proof.
  split; [|split].
  - intros g r r' Heq. unfold ConfidenceGate.verify. rewrite Heq. reflexivity.
  - intros r c t. subst c t. split; [|split].
    + intro Hc. apply gate_pass. exact Hc.
    + intros [Hlow Hhigh]. apply gate_uncertain; assumption.
    + intro Hlow. apply gate_low; [exact Hlow|].
      eapply Qlt_trans; [exact Hlow|reflexivity].
  - intros r t. subst t. split; [|split]; intro Hc.
    + apply gate_pass. rewrite Hc. discriminate.
    + apply gate_uncertain; rewrite Hc; [discriminate|reflexivity].
    + apply gate_low; rewrite Hc; reflexivity.
Qed.

End GateProperties.

(** The gate at the three confidences 0.9, 0.65 and 0.3. *)
Lemma confidence_gate_rule_witness :
  let gate c :=
    ConfidenceGate.verify (H := Sample.platform) ConfidenceGate.default
      (Sample.result_of "a" "cat" c) in
  (VerificationTest.result (gate 0.9%Q) = VerificationTestResult.PASS
   /\ Observe.recommendation (gate 0.9%Q)
      = Some (VEnum VerificationRecommendation.ACCEPT))
  /\ (VerificationTest.result (gate 0.65%Q) = VerificationTestResult.FAIL
      /\ Observe.recommendation (gate 0.65%Q)
         = Some (VEnum VerificationRecommendation.REPLAN_ENSEMBLE))
  /\ (VerificationTest.result (gate 0.3%Q) = VerificationTestResult.FAIL
      /\ Observe.recommendation (gate 0.3%Q)
         = Some (VEnum VerificationRecommendation.HUMAN_REVIEW)).
Proof.
  intro gate.
  pose proof (@confidence_gate_rule Sample.platform) as [_ [Hrule _]].
  split; [|split].
  - apply (proj1 (Hrule (Sample.result_of "a" "cat" 0.9%Q))).
    simpl. discriminate.
  - apply (proj1 (proj2 (Hrule (Sample.result_of "a" "cat" 0.65%Q)))).
    simpl. split; [discriminate|reflexivity].
  - apply (proj2 (proj2 (Hrule (Sample.result_of "a" "cat" 0.3%Q)))).
    simpl. reflexivity.
Defined.

(** ** Insertion-ordered dictionaries *)

Section DictFacts.
Context {V : Type}.
Implicit Types (d : Py.dict V) (k : string) (v : V).

Lemma get_set_same d k v : Py.get (Py.set d k v) k = Some v.
Proof.
  induction d as [|[k' v'] d IH]; simpl.
  - rewrite String.eqb_refl. reflexivity.
  - destruct (String.eqb k' k) eqn:E; simpl; rewrite E; auto.
Qed.

Lemma get_set_other d k k' v :
  k <> k' -> Py.get (Py.set d k v) k' = Py.get d k'.
Proof.
  intro Hne. induction d as [|[k0 v0] d IH]; simpl.
  - apply String.eqb_neq in Hne. rewrite Hne. reflexivity.
  - destruct (String.eqb k0 k) eqn:E; simpl.
    + apply String.eqb_eq in E. subst k0.
      apply String.eqb_neq in Hne. rewrite Hne. reflexivity.
    + destruct (String.eqb k0 k'); auto.
Qed.

Lemma get_none_iff d k : Py.get d k = None <-> ~ In k (Py.keys d).
Proof.
  induction d as [|[k' v'] d IH]; simpl.
  - tauto.
  - destruct (String.eqb k' k) eqn:E.
    + apply String.eqb_eq in E. split; [discriminate|tauto].
    + apply String.eqb_neq in E. tauto.
Qed.

Lemma keys_set d k v :
  Py.keys (Py.set d k v)
  = match Py.get d k with
    | Some _ => Py.keys d
    | None => (Py.keys d ++ [k])%list
    end.
Proof.
  unfold Py.keys.
  induction d as [|[k' v'] d IH]; simpl; [reflexivity|].
  destruct (String.eqb k' k) eqn:E; simpl; [reflexivity|].
  rewrite IH. destruct (Py.get d k); reflexivity.
Qed.

Lemma get_in d k v : Py.get d k = Some v -> In (k, v) d.
Proof.
  induction d as [|[k' v'] d IH]; simpl; [discriminate|].
  destruct (String.eqb k' k) eqn:E.
  - apply String.eqb_eq in E. intro Hv. left. congruence.
  - auto.
Qed.

Lemma in_get d k v : NoDup (Py.keys d) -> In (k, v) d -> Py.get d k = Some v.
Proof.
  induction d as [|[k' v'] d IH]; simpl; [tauto|].
  intros Hnd [Heq|Hin].
  - inversion Heq; subst. rewrite String.eqb_refl. reflexivity.
  - inversion Hnd as [|? ? Hout Hnd']; subst.
    destruct (String.eqb k' k) eqn:E.
    + apply String.eqb_eq in E. subst k'. exfalso. apply Hout.
      change (In (fst (k, v)) (map fst d)). apply in_map. exact Hin.
    + auto.
Qed.

Lemma nodup_keys_set d k v : NoDup (Py.keys d) -> NoDup (Py.keys (Py.set d k v)).
Proof.
  intro Hnd. rewrite keys_set. destruct (Py.get d k) eqn:E; [exact Hnd|].
  apply get_none_iff in E.
  apply NoDup_app; [exact Hnd|repeat constructor; simpl; tauto|].
  intros x Hx [Hk|[]]. subst. contradiction.
Qed.

End DictFacts.

(** A list that continues [c] and in which [k] comes after [a]: what
    stands in [c] without being [k] stands in [a]. *)
Lemma before_in_prefix {A : Type} (k x : A) :
  forall (c a b e : list A),
    (a ++ k :: b = c ++ e)%list -> ~ In k c -> In x c -> In x a.
Proof.
  induction c as [|y c IH]; intros a b e Heq Hk Hx; [destruct Hx|].
  destruct a as [|y' a]; simpl in Heq; inversion Heq; subst.
  - exfalso. apply Hk. left. reflexivity.
  - destruct Hx as [Hx|Hx]; [left; exact Hx|right].
    eapply IH; eauto. intro Hin. apply Hk. right. exact Hin.
Qed.

(** The first occurrence of a label among the results. *)
Lemma first_with_label (l : string) :
  forall results : list ClassificationResult.t,
    In l (Observe.labels results) ->
    exists pre r post,
      results = (pre ++ r :: post)%list
      /\ ClassificationResult.label r = l
      /\ ~ In l (Observe.labels pre).
Proof.
  induction results as [|r results IH]; simpl; [tauto|].
  intro Hin.
  destruct (string_dec (ClassificationResult.label r) l) as [Heq|Hne].
  - exists [], r, results. simpl. tauto.
  - destruct Hin as [Heq|Hin]; [contradiction|].
    destruct (IH Hin) as (pre & r' & post & Hsplit & Hl & Hout).
    exists (r :: pre), r', post. simpl. rewrite Hsplit.
    repeat split; auto. tauto.
Qed.

(** ** The counting loop of the ensemble vote *)

Lemma votes_snoc (l : string) (seen : list ClassificationResult.t)
  (r : ClassificationResult.t) :
  Observe.votes l (seen ++ [r])
  = (Observe.votes l seen + if Observe.has_label l r then 1 else 0)%nat.
Proof.
  unfold Observe.votes. rewrite filter_app, length_app. simpl.
  destruct (Observe.has_label l r); reflexivity.
Qed.

Lemma confidences_snoc (l : string) (seen : list ClassificationResult.t)
  (r : ClassificationResult.t) :
  Observe.confidences l (seen ++ [r])
  = (Observe.confidences l seen
       ++ if Observe.has_label l r then [ClassificationResult.confidence r]
          else [])%list.
Proof.
  unfold Observe.confidences. rewrite filter_app, map_app. simpl.
  destruct (Observe.has_label l r); reflexivity.
Qed.

Lemma labels_snoc (seen : list ClassificationResult.t)
  (r : ClassificationResult.t) :
  Observe.labels (seen ++ [r])
  = (Observe.labels seen ++ [ClassificationResult.label r])%list.
Proof. unfold Observe.labels. rewrite map_app. reflexivity. Qed.

Lemma in_keys_set {V : Type} (d : Py.dict V) (k l : string) (v : V) :
  In l (Py.keys (Py.set d k v)) <-> In l (Py.keys d) \/ l = k.
Proof.
  rewrite keys_set. destruct (Py.get d k) eqn:E.
  - split; [tauto|]. intros [Hin|Heq]; [exact Hin|]. subst l.
    destruct (in_dec string_dec k (Py.keys d)) as [Hin|Hout]; [exact Hin|].
    apply get_none_iff in Hout. congruence.
  - rewrite in_app_iff. simpl. intuition congruence.
Qed.

Lemma tallied_nil : Invariant.tallied [] ([], []).
Proof.
  repeat split; simpl; try tauto. constructor.
Qed.

Lemma tallied_step (seen : list ClassificationResult.t)
  (acc : Py.dict nat * Py.dict (list Q)) (r : ClassificationResult.t) :
  Invariant.tallied seen acc ->
  Invariant.tallied (seen ++ [r]) (EnsembleVoter.count_vote acc r).
Proof.
  intros (Hv & Hc & Hk & Hk' & Hnd).
  unfold Invariant.tallied, EnsembleVoter.count_vote. simpl.
  repeat split.
  - intro l. rewrite votes_snoc, <- (Hv l). unfold Observe.has_label.
    unfold EnsembleVoter.votes_of.
    destruct (String.eqb (ClassificationResult.label r) l) eqn:E.
    + apply String.eqb_eq in E. rewrite <- E, get_set_same. reflexivity.
    + apply String.eqb_neq in E. rewrite get_set_other by exact E. lia.
  - intro l. rewrite confidences_snoc, <- (Hc l). unfold Observe.has_label.
    unfold EnsembleVoter.confidences_of.
    destruct (String.eqb (ClassificationResult.label r) l) eqn:E.
    + apply String.eqb_eq in E. rewrite <- E, get_set_same. reflexivity.
    + apply String.eqb_neq in E. rewrite get_set_other by exact E.
      rewrite app_nil_r. reflexivity.
  - rewrite in_keys_set, labels_snoc, in_app_iff, Hk. simpl. intuition.
  - rewrite in_keys_set, labels_snoc, in_app_iff, Hk. simpl. intuition.
  - rewrite in_keys_set, labels_snoc, in_app_iff, Hk'. simpl. intuition.
  - rewrite in_keys_set, labels_snoc, in_app_iff, Hk'. simpl. intuition.
  - apply nodup_keys_set. exact Hnd.
Qed.

Lemma tallied_fold (rest seen : list ClassificationResult.t)
  (acc : Py.dict nat * Py.dict (list Q)) :
  Invariant.tallied seen acc ->
  Invariant.tallied (seen ++ rest)
    (fold_left EnsembleVoter.count_vote rest acc).
Proof.
  revert seen acc.
  induction rest as [|r rest IH]; intros seen acc Ht; simpl.
  - rewrite app_nil_r. exact Ht.
  - replace (seen ++ r :: rest)%list with ((seen ++ [r]) ++ rest)%list
      by (rewrite <- app_assoc; reflexivity).
    apply IH. apply tallied_step. exact Ht.
Qed.

Lemma tallied_count_votes (results : list ClassificationResult.t) :
  Invariant.tallied results (EnsembleVoter.count_votes results).
Proof. exact (tallied_fold results [] ([], []) tallied_nil). Qed.

(** The keys only grow at the end. *)
Lemma keys_grow (rest : list ClassificationResult.t) :
  forall acc : Py.dict nat * Py.dict (list Q),
  exists extra,
    Py.keys (fst (fold_left EnsembleVoter.count_vote rest acc))
    = (Py.keys (fst acc) ++ extra)%list.
Proof.
  induction rest as [|r rest IH]; intro acc; simpl.
  - exists []. rewrite app_nil_r. reflexivity.
  - destruct (IH (EnsembleVoter.count_vote acc r)) as [extra Hex].
    rewrite Hex. unfold EnsembleVoter.count_vote; simpl. rewrite keys_set.
    destruct (Py.get (fst acc) (ClassificationResult.label r)).
    + exists extra. reflexivity.
    + exists (ClassificationResult.label r :: extra).
      rewrite <- app_assoc. reflexivity.
Qed.

(** ** [max] over a dictionary *)

Lemma max_key_from_spec (rest : Py.dict nat) :
  forall (d1 mid : Py.dict nat) (bk : string) (bv : nat),
    (forall k' v', In (k', v') d1 -> (v' < bv)%nat) ->
    (forall k' v', In (k', v') mid -> (v' <= bv)%nat) ->
    exists v,
      Invariant.first_greatest (d1 ++ (bk, bv) :: mid ++ rest)%list
        (Py.max_key_from bk bv rest) v.
Proof.
  induction rest as [|[k v] rest IH]; intros d1 mid bk bv H1 H2; simpl.
  - exists bv, d1, mid. rewrite app_nil_r. auto.
  - destruct (bv <? v)%nat eqn:E.
    + apply Nat.ltb_lt in E.
      destruct (IH (d1 ++ (bk, bv) :: mid)%list [] k v) as [v' Hv'].
      * intros k' w Hin. apply in_app_iff in Hin.
        destruct Hin as [Hin|[Heq|Hin]].
        -- specialize (H1 _ _ Hin). lia.
        -- inversion Heq; subst. exact E.
        -- specialize (H2 _ _ Hin). lia.
      * intros k' w [].
      * exists v'. simpl in Hv'. rewrite <- app_assoc in Hv'. exact Hv'.
    + apply Nat.ltb_ge in E.
      destruct (IH d1 (mid ++ [(k, v)])%list bk bv H1) as [v' Hv'].
      * intros k' w Hin. apply in_app_iff in Hin.
        destruct Hin as [Hin|[Heq|[]]]; [eauto|]. inversion Heq; subst. exact E.
      * exists v'. rewrite <- app_assoc in Hv'. exact Hv'.
Qed.

Lemma max_key_spec (d : Py.dict nat) :
  d <> [] ->
  exists k v, Py.max_key d = Some k /\ Invariant.first_greatest d k v.
Proof.
  destruct d as [|[k0 v0] d]; [congruence|]. intros _. simpl.
  destruct (max_key_from_spec d [] [] k0 v0) as [v Hv].
  - intros k' v' [].
  - intros k' v' [].
  - exists (Py.max_key_from k0 v0 d), v. split; [reflexivity|exact Hv].
Qed.

Lemma fold_max_spec (l : list nat) :
  forall x : nat,
    (forall y, In y (x :: l) -> (y <= fold_left Nat.max l x)%nat)
    /\ In (fold_left Nat.max l x) (x :: l).
Proof.
  induction l as [|a l IH]; intro x; simpl.
  - split; [intros y [Hy|[]]; lia | left; reflexivity].
  - destruct (IH (Nat.max x a)) as [Hle Hin]. split.
    + intros y [Hy|[Hy|Hy]].
      * subst. specialize (Hle (Nat.max y a) (or_introl eq_refl)). lia.
      * subst. specialize (Hle (Nat.max x y) (or_introl eq_refl)). lia.
      * apply Hle. right. exact Hy.
    + destruct Hin as [Hin|Hin]; [|right; right; exact Hin].
      rewrite <- Hin. destruct (Nat.max_spec x a) as [[_ Hm]|[_ Hm]];
        rewrite Hm; [right; left|left]; reflexivity.
Qed.

Lemma max_nat_first_greatest (d : Py.dict nat) (k : string) (v : nat) :
  Invariant.first_greatest d k v -> Py.max_nat (Py.values d) = Some v.
Proof.
  intros (d1 & d2 & Hd & H1 & H2).
  assert (Hall : forall w, In w (Py.values d) -> (w <= v)%nat).
  { intros w Hw. unfold Py.values in Hw. apply in_map_iff in Hw.
    destruct Hw as [[k' w'] [Heq Hin]]. simpl in Heq. subst w' d.
    apply in_app_iff in Hin. destruct Hin as [Hin|[Hin|Hin]].
    - specialize (H1 _ _ Hin). lia.
    - inversion Hin. lia.
    - exact (H2 _ _ Hin). }
  assert (Hv : In v (Py.values d)).
  { unfold Py.values. apply in_map_iff. exists (k, v). split; [reflexivity|].
    subst d. apply in_app_iff. right. left. reflexivity. }
  destruct (Py.values d) as [|x l] eqn:E; [destruct Hv|]. simpl. f_equal.
  destruct (fold_max_spec l x) as [Hle Hin].
  specialize (Hle v Hv). specialize (Hall _ Hin). lia.
Qed.

(** ** The majority label *)

Lemma votes_positive (l : string) (results : list ClassificationResult.t) :
  In l (Observe.labels results) -> (0 < Observe.votes l results)%nat.
Proof.
  unfold Observe.labels, Observe.votes. intro Hin.
  apply in_map_iff in Hin. destruct Hin as (r & Hl & Hr).
  assert (Hf : In r (filter (Observe.has_label l) results)).
  { apply filter_In. split; [exact Hr|].
    unfold Observe.has_label. apply String.eqb_eq. exact Hl. }
  destruct (filter (Observe.has_label l) results); [destruct Hf|simpl; lia].
Qed.

Lemma votes_unseen (l : string) (results : list ClassificationResult.t) :
  ~ In l (Observe.labels results) -> Observe.votes l results = O.
Proof.
  unfold Observe.labels, Observe.votes. intro Hout.
  destruct (filter (Observe.has_label l) results) as [|r f] eqn:E;
    [reflexivity|]. exfalso. apply Hout.
  assert (Hr : In r (filter (Observe.has_label l) results))
    by (rewrite E; left; reflexivity).
  apply filter_In in Hr. destruct Hr as [Hr Hl].
  apply String.eqb_eq in Hl. apply in_map_iff. exists r. tauto.
Qed.

Lemma votes_le_length (l : string) (results : list ClassificationResult.t) :
  (Observe.votes l results <= List.length results)%nat.
Proof. unfold Observe.votes. apply filter_length_le. Qed.

Lemma in_keys_entry {V : Type} (d : Py.dict V) (k : string) :
  In k (Py.keys d) -> exists v, In (k, v) d.
Proof.
  unfold Py.keys. intro Hin. apply in_map_iff in Hin.
  destruct Hin as ([k' v] & Hk & Hin). simpl in Hk. subst k'.
  exists v. exact Hin.
Qed.

Lemma majority_spec (results : list ClassificationResult.t) :
  results <> [] ->
  exists majority,
    Py.max_key (fst (EnsembleVoter.count_votes results)) = Some majority
    /\ Py.max_nat (Py.values (fst (EnsembleVoter.count_votes results)))
       = Some (Observe.votes majority results)
    /\ In majority (Observe.labels results)
    /\ Observe.first_mode majority results
    /\ Py.get (snd (EnsembleVoter.count_votes results)) majority
       = Some (Observe.confidences majority results)
    /\ Observe.confidences majority results <> [].
Proof.
  intro Hne.
  destruct (tallied_count_votes results) as (Hv & Hc & Hk & Hk' & Hnd).
  set (d := fst (EnsembleVoter.count_votes results)) in *.
  assert (Hd : d <> []).
  { destruct results as [|r0 results0]; [congruence|].
    assert (Hin : In (ClassificationResult.label r0) (Py.keys d))
      by (apply Hk; left; reflexivity).
    intro Hnil. rewrite Hnil in Hin. exact Hin. }
  destruct (max_key_spec d Hd) as (k & v & Hmax & Hfg).
  pose proof (max_nat_first_greatest d k v Hfg) as Hmaxv.
  destruct Hfg as (d1 & d2 & Hsplit & H1 & H2).
  assert (Hcount : forall l w, In (l, w) d -> w = Observe.votes l results).
  { intros l w Hin. apply (in_get d l w Hnd) in Hin.
    rewrite <- Hv. unfold EnsembleVoter.votes_of. rewrite Hin. reflexivity. }
  assert (Hkv : In (k, v) d)
    by (rewrite Hsplit; apply in_app_iff; right; left; reflexivity).
  pose proof (Hcount k v Hkv) as Hvk.
  assert (Hkin : In k (Observe.labels results)).
  { apply Hk. unfold Py.keys.
    change k with (fst (k, v)). apply in_map. exact Hkv. }
  exists k. rewrite <- Hvk. repeat split; auto.
  - (* no label has more votes *)
    intro l.
    destruct (in_dec string_dec l (Observe.labels results)) as [Hl|Hl].
    + apply Hk in Hl. destruct (in_keys_entry d l Hl) as [w Hw].
      rewrite <- (Hcount l w Hw). rewrite Hsplit in Hw.
      apply in_app_iff in Hw. destruct Hw as [Hw|[Hw|Hw]].
      * specialize (H1 _ _ Hw). lia.
      * inversion Hw as [[Hkl Hvw]]. rewrite <- Hkl. lia.
      * specialize (H2 _ _ Hw). lia.
    + rewrite (votes_unseen l results Hl). lia.
  - (* the first seen among the greatest *)
    destruct (first_with_label k results Hkin)
      as (pre & r & post & Hres & Hlab & Hout).
    exists pre, r, post. repeat split; auto.
    intros r' Hr'.
    assert (Hl' : In (ClassificationResult.label r') (Observe.labels pre))
      by (unfold Observe.labels; apply in_map; exact Hr').
    destruct (tallied_count_votes pre) as (_ & _ & Hkp & _ & _).
    destruct (keys_grow (r :: post) (EnsembleVoter.count_votes pre))
      as [extra Hextra].
    assert (Hfold : fold_left EnsembleVoter.count_vote (r :: post)
                      (EnsembleVoter.count_votes pre)
                    = EnsembleVoter.count_votes results).
    { unfold EnsembleVoter.count_votes. rewrite Hres, fold_left_app.
      reflexivity. }
    rewrite Hfold in Hextra. fold d in Hextra.
    assert (Hkeys : Py.keys d = (Py.keys d1 ++ k :: Py.keys d2)%list).
    { rewrite Hsplit. unfold Py.keys. rewrite map_app. reflexivity. }
    rewrite Hkeys in Hextra.
    assert (Hin1 : In (ClassificationResult.label r') (Py.keys d1)).
    { eapply before_in_prefix; [exact Hextra| |].
      - intro Hin. apply Hkp in Hin. contradiction.
      - apply Hkp. exact Hl'. }
    destruct (in_keys_entry d1 _ Hin1) as [w Hw].
    assert (Hwd : In (ClassificationResult.label r', w) d)
      by (rewrite Hsplit; apply in_app_iff; left; exact Hw).
    rewrite <- (Hcount _ _ Hwd). specialize (H1 _ _ Hw). lia.
  - (* the confidences of the majority label *)
    apply Hk' in Hkin.
    destruct (Py.get (snd (EnsembleVoter.count_votes results)) k) as [c|] eqn:E.
    + specialize (Hc k). unfold EnsembleVoter.confidences_of in Hc.
      rewrite E in Hc. congruence.
    + apply get_none_iff in E. contradiction.
  - intro Hnil. pose proof (votes_positive k results Hkin) as Hpos.
    unfold Observe.confidences in Hnil. unfold Observe.votes in Hpos.
    apply map_eq_nil in Hnil. rewrite Hnil in Hpos. simpl in Hpos. lia.
Qed.

(** ** The agreement rate *)

Lemma rate_bounds (m t : nat) :
  (m <= t)%nat -> (0 < t)%nat ->
  (0 <= Observe.rate m t)%Q /\ (Observe.rate m t <= 1)%Q.
Proof.
  intros Hle Hpos. unfold Observe.rate.
  assert (Ht : (0 < inject_Z (Z.of_nat t))%Q).
  { change 0%Q with (inject_Z 0). rewrite <- Zlt_Qlt. lia. }
  split.
  - apply Qle_shift_div_l; [exact Ht|]. rewrite Qmult_0_l.
    change 0%Q with (inject_Z 0). rewrite <- Zle_Qle. lia.
  - apply Qle_shift_div_r; [exact Ht|]. rewrite Qmult_1_l.
    rewrite <- Zle_Qle. lia.
Qed.

Lemma true_div_rate (m t : nat) :
  (0 < t)%nat -> EnsembleVoter.true_div m t = Returned (Observe.rate m t).
Proof. destruct t; [lia|reflexivity]. Qed.

Lemma disagreement_made (m t : nat) (labels : list string)
  (votes : Py.dict nat) :
  (m <= t)%nat -> (0 < t)%nat ->
  DisagreementAnalysis.make (Observe.rate m t) labels votes
  = Returned {| DisagreementAnalysis.agreement_rate := Observe.rate m t;
                DisagreementAnalysis.conflicting_labels := labels;
                DisagreementAnalysis.vote_distribution := votes |}.
Proof.
  intros Hle Hpos. destruct (rate_bounds m t Hle Hpos) as [H0 H1].
  apply Qle_bool_true in H0, H1. unfold DisagreementAnalysis.make.
  rewrite H0, H1. reflexivity.
Qed.

(** What [EnsembleVoter.verify] returns on two results or more, from the
    label that [max] finds in the vote count. *)
Lemma ensemble_verify_at (self : EnsembleVoter.t)
  (results : list ClassificationResult.t) (majority : string) (avg : Q) :
  (2 <= List.length results)%nat ->
  Py.max_key (fst (EnsembleVoter.count_votes results)) = Some majority ->
  Py.max_nat (Py.values (fst (EnsembleVoter.count_votes results)))
  = Some (Observe.votes majority results) ->
  Py.get (snd (EnsembleVoter.count_votes results)) majority
  = Some (Observe.confidences majority results) ->
  Py.mean (Observe.confidences majority results) = Some avg ->
  let label_votes := fst (EnsembleVoter.count_votes results) in
let max_votes := Observe.votes majority results in
let total_votes := List.length results in
let agreement_rate := Observe.rate max_votes total_votes in
let disagreement :=
  {| DisagreementAnalysis.agreement_rate := agreement_rate;
     DisagreementAnalysis.conflicting_labels := Py.keys label_votes;
     DisagreementAnalysis.vote_distribution := label_votes |} in
EnsembleVoter.verify self results
= Returned
    (if Qle_bool (EnsembleVoter.agreement_threshold self) agreement_rate
     then
       {| VerificationTest.test_name := "ensemble_voting";
          VerificationTest.result := VerificationTestResult.PASS;
          VerificationTest.details :=
            [ ("agreement_rate", VFloat agreement_rate);
              ("agreement_threshold",
                VFloat (EnsembleVoter.agreement_threshold self));
              ("majority_label", VStr majority);
              ("votes",
                VStr (Py.str_nat max_votes ++ "/"
                      ++ Py.str_nat total_votes));
              ("avg_confidence", VFloat avg);
              ("recommendation",
                VEnum VerificationRecommendation.ACCEPT);
              ("note",
                VStr (Py.str_nat max_votes ++ "/"
                      ++ Py.str_nat total_votes
                      ++ " agents agreed on '" ++ majority ++ "'")) ] |}
     else
       {| VerificationTest.test_name := "ensemble_voting";
          VerificationTest.result := VerificationTestResult.FAIL;
          VerificationTest.details :=
            [ ("agreement_rate", VFloat agreement_rate);
              ("agreement_threshold",
                VFloat (EnsembleVoter.agreement_threshold self));
              ("vote_distribution",
                EnsembleVoter.votes_value label_votes);
              ("recommendation",
                VEnum VerificationRecommendation.HUMAN_REVIEW);
              ("reason",
                VStr ("No majority. Disagreement: "
                      ++ Py.repr_votes label_votes)) ] |},
     Some disagreement).
Proof.
  intros Hlen Hkey Hmax Hconf Hmean.
  cbv zeta. unfold EnsembleVoter.verify.
  assert (Hlt : (List.length results <? 2)%nat = false)
    by (apply Nat.ltb_ge; exact Hlen).
  rewrite Hlt.
  destruct (EnsembleVoter.count_votes results) as [label_votes label_confidences].
  simpl fst in *. simpl snd in *.
  rewrite Hmax. simpl of_option. cbv beta iota delta [bind].
  rewrite true_div_rate by lia.
  rewrite Hkey. simpl of_option. cbv beta iota.
  rewrite disagreement_made by (try apply votes_le_length; lia).
  cbv beta iota.
  destruct (Qle_bool (EnsembleVoter.agreement_threshold self)
              (Observe.rate (Observe.votes majority results)
                 (List.length results))); [|reflexivity].
  rewrite Hconf. simpl of_option. cbv beta iota.
  unfold EnsembleVoter.average. rewrite Hmean. reflexivity.
Qed.

(** What [get_ensemble_result] returns, from the same label. *)
Lemma ensemble_result_at (self : EnsembleVoter.t)
  (first : ClassificationResult.t) (rest : list ClassificationResult.t)
  (majority : string) (avg : Q) :
  Py.max_key (fst (EnsembleVoter.count_votes (first :: rest)))
  = Some majority ->
  Py.get (snd (EnsembleVoter.count_votes (first :: rest))) majority
  = Some (Observe.confidences majority (first :: rest)) ->
  Py.mean (Observe.confidences majority (first :: rest)) = Some avg ->
  EnsembleVoter.get_ensemble_result self (first :: rest)
  = Returned (ClassificationResult.with_vote first majority avg "ensemble").
Proof.
  intros Hkey Hconf Hmean.
  unfold EnsembleVoter.get_ensemble_result.
  destruct (EnsembleVoter.count_votes (first :: rest))
    as [label_votes label_confidences].
  simpl fst in *. simpl snd in *.
  rewrite Hkey. simpl of_option. cbv beta iota delta [bind].
  rewrite Hconf. simpl of_option. cbv beta iota.
  unfold EnsembleVoter.average. rewrite Hmean. reflexivity.
Qed.

(** The mean of confidences is defined when there are any. *)
Lemma mean_defined (l : list Q) : l <> [] -> exists avg, Py.mean l = Some avg.
Proof.
  destruct l as [|x r]; [congruence|]. intros _. eexists. reflexivity.
Qed.

(** What [EnsembleVoter.verify] returns on two results or more. *)
Lemma ensemble_verify_spec (self : EnsembleVoter.t)
  (results : list ClassificationResult.t) :
  (2 <= List.length results)%nat ->
  exists majority avg,
    In majority (Observe.labels results)
    /\ Observe.first_mode majority results
    /\ Py.mean (Observe.confidences majority results) = Some avg
    /\ let label_votes := fst (EnsembleVoter.count_votes results) in
       let max_votes := Observe.votes majority results in
       let total_votes := List.length results in
       let agreement_rate := Observe.rate max_votes total_votes in
       let disagreement :=
         {| DisagreementAnalysis.agreement_rate := agreement_rate;
            DisagreementAnalysis.conflicting_labels := Py.keys label_votes;
            DisagreementAnalysis.vote_distribution := label_votes |} in
       EnsembleVoter.verify self results
       = Returned
           (if Qle_bool (EnsembleVoter.agreement_threshold self) agreement_rate
            then
              {| VerificationTest.test_name := "ensemble_voting";
                 VerificationTest.result := VerificationTestResult.PASS;
                 VerificationTest.details :=
                   [ ("agreement_rate", VFloat agreement_rate);
                     ("agreement_threshold",
                       VFloat (EnsembleVoter.agreement_threshold self));
                     ("majority_label", VStr majority);
                     ("votes",
                       VStr (Py.str_nat max_votes ++ "/"
                             ++ Py.str_nat total_votes));
                     ("avg_confidence", VFloat avg);
                     ("recommendation",
                       VEnum VerificationRecommendation.ACCEPT);
                     ("note",
                       VStr (Py.str_nat max_votes ++ "/"
                             ++ Py.str_nat total_votes
                             ++ " agents agreed on '" ++ majority ++ "'")) ] |}
            else
              {| VerificationTest.test_name := "ensemble_voting";
                 VerificationTest.result := VerificationTestResult.FAIL;
                 VerificationTest.details :=
                   [ ("agreement_rate", VFloat agreement_rate);
                     ("agreement_threshold",
                       VFloat (EnsembleVoter.agreement_threshold self));
                     ("vote_distribution",
                       EnsembleVoter.votes_value label_votes);
                     ("recommendation",
                       VEnum VerificationRecommendation.HUMAN_REVIEW);
                     ("reason",
                       VStr ("No majority. Disagreement: "
                             ++ Py.repr_votes label_votes)) ] |},
            Some disagreement).
Proof.
  intro Hlen.
  assert (Hne : results <> []) by (destruct results; simpl in Hlen; [lia|congruence]).
  destruct (majority_spec results Hne)
    as (majority & Hkey & Hmax & Hin & Hmode & Hconf & Hcne).
  destruct (mean_defined _ Hcne) as [avg Hmean].
  exists majority, avg.
  split; [exact Hin|]. split; [exact Hmode|]. split; [exact Hmean|].
  exact (ensemble_verify_at self results majority avg Hlen Hkey Hmax Hconf
           Hmean).
Qed.

Lemma ensemble_verify_named (self : EnsembleVoter.t)
  (results : list ClassificationResult.t) :
  exists test disagreement,
    EnsembleVoter.verify self results = Returned (test, disagreement)
    /\ VerificationTest.test_name test = "ensemble_voting".
Proof.
  destruct (le_lt_dec 2 (List.length results)) as [Hlen|Hlen].
  - destruct (ensemble_verify_spec self results Hlen)
      as (majority & avg & _ & _ & _ & Hv). cbv zeta in Hv. rewrite Hv.
    eexists. eexists. split; [reflexivity|].
    destruct (Qle_bool _ _); reflexivity.
  - unfold EnsembleVoter.verify.
    assert (Hlt : (List.length results <? 2)%nat = true)
      by (apply Nat.ltb_lt; exact Hlen).
    rewrite Hlt. eexists. eexists. split; reflexivity.
Qed.


(** What [get_ensemble_result] returns on a result list that is not
    empty. *)
Lemma ensemble_result_spec (self : EnsembleVoter.t)
  (first : ClassificationResult.t) (rest : list ClassificationResult.t) :
  exists majority avg,
    Observe.first_mode majority (first :: rest)
    /\ Py.mean (Observe.confidences majority (first :: rest)) = Some avg
    /\ EnsembleVoter.get_ensemble_result self (first :: rest)
       = Returned
           (ClassificationResult.with_vote first majority avg "ensemble").
Proof.
  assert (Hne : first :: rest <> []) by congruence.
  destruct (majority_spec (first :: rest) Hne)
    as (majority & Hkey & _ & _ & Hmode & Hconf & Hcne).
  destruct (Py.mean (Observe.confidences majority (first :: rest)))
    as [avg|] eqn:Hmean.
  2:{ unfold Py.mean in Hmean.
      destruct (Observe.confidences majority (first :: rest));
        [congruence|discriminate]. }
  exists majority, avg. split; [exact Hmode|]. split; [exact Hmean|].
  unfold EnsembleVoter.get_ensemble_result.
  destruct (EnsembleVoter.count_votes (first :: rest))
    as [label_votes label_confidences].
  simpl fst in *. simpl snd in *.
  rewrite Hkey. simpl of_option. cbv beta iota delta [bind].
  rewrite Hconf. simpl of_option. cbv beta iota.
  unfold EnsembleVoter.average. rewrite Hmean. reflexivity.
Qed.

(** ** The ensemble vote *)



(** ** The verifier pipeline *)

Section VerifierProperties.
Context `{Platform}.

(** C10.  [Verifier.verify] on an empty result list returns, for every
    configuration, a report with status FAIL, recommendation abort, no test
    performed, the notes "No results to verify" and the request's id. *)
Theorem verify_no_results (v : Verifier.t) (request : ClassificationRequest.t)
  (agent_url : option string) (slim_client : option SlimClient) :
  exists report,
    Verifier.verify v [] request agent_url slim_client = Returned report
    /\ VerificationReport.status report = VerificationStatus.FAIL
    /\ VerificationReport.recommendation report
       = VerificationRecommendation.ABORT
    /\ VerificationReport.tests_performed report = []
    /\ VerificationReport.notes report = "No results to verify"
    /\ VerificationReport.request_id report
       = ClassificationRequest.request_id request.
Proof.
  eexists. split; [reflexivity|]. repeat split.
Qed.

Lemma gate_test_name (g : ConfidenceGate.t) (r : ClassificationResult.t) :
  VerificationTest.test_name (ConfidenceGate.verify g r)
  = "confidence_threshold".
Proof.
  unfold ConfidenceGate.verify.
  destruct (Qle_bool _ _); [reflexivity|].
  destruct (Qle_bool _ _); reflexivity.
Qed.

Lemma stability_test_name (a : AugmentationStabilityTester.t)
  (r : ClassificationResult.t) (url : string) (image : option string)
  (slim_client : option SlimClient) :
  VerificationTest.test_name
    (AugmentationStabilityTester.verify a r url image slim_client)
  = "augmentation_stability".
Proof.
  unfold AugmentationStabilityTester.verify.
  destruct slim_client; [|reflexivity].
  destruct (apply_transforms_to_url _ _); [|reflexivity].
  destruct (fold_left _ _ _). destruct (Qle_bool _ _); reflexivity.
Qed.

(** The tests of a report on a result list that is not empty: the
    confidence gate, then the ensemble vote when there are two results or
    more and the configuration enables it, then the stability test when it
    is enabled and was given an agent and a client. *)
Lemma verify_tests (v : Verifier.t) (primary : ClassificationResult.t)
  (others : list ClassificationResult.t) (request : ClassificationRequest.t)
  (agent_url : option string) (slim_client : option SlimClient) :
  exists report vote stability,
    Verifier.verify v (primary :: others) request agent_url slim_client
    = Returned report
    /\ VerificationReport.tests_performed report
       = (ConfidenceGate.verify (Verifier.confidence_gate v) primary
            :: vote ++ stability)%list
    /\ (forall t, In t vote ->
          VerificationTest.test_name t = "ensemble_voting")
    /\ (vote <> [] <->
        (2 <= List.length (primary :: others))%nat
        /\ VerificationConfig.enable_ensemble_voting (Verifier.config v)
           = true)
    /\ (forall t, In t stability ->
          VerificationTest.test_name t = "augmentation_stability").
Proof.
  unfold Verifier.verify.
  set (results := primary :: others).
  destruct (ensemble_verify_named (Verifier.ensemble_voter v) results)
    as (test & disagreement & Hvote & Hname).
  rewrite Hvote. cbv beta iota delta [bind].
  assert (Hstab :
    forall tests : list VerificationTest.t,
    exists stability,
      match VerificationConfig.enable_augmentation_test (Verifier.config v),
            Verifier.nonempty_str agent_url, slim_client with
      | true, Some url, Some client =>
          (tests
             ++ [AugmentationStabilityTester.verify
                   (Verifier.augmentation_tester v) primary url
                   (ImageSource.presigned_url
                      (ClassificationRequest.image request))
                   (Some client)])%list
      | _, _, _ => tests
      end = (tests ++ stability)%list
      /\ forall t, In t stability ->
           VerificationTest.test_name t = "augmentation_stability").
  { intro tests.
    destruct (VerificationConfig.enable_augmentation_test (Verifier.config v)),
      (Verifier.nonempty_str agent_url), slim_client;
      try (exists []; rewrite app_nil_r; split; [reflexivity|intros t []]).
    eexists [_]. split; [reflexivity|].
    intros t [Ht|[]]. subst t. apply stability_test_name. }
  destruct ((1 <? List.length results)%nat
            && VerificationConfig.enable_ensemble_voting (Verifier.config v))
    eqn:Hcond.
  - cbv beta iota. simpl fst. simpl snd.
    destruct (Hstab [ConfidenceGate.verify (Verifier.confidence_gate v) primary;
                     test]) as (stability & Hs & Hsn).
    rewrite Hs. destruct (Verifier._aggregate_results _) as [[status rec] notes].
    eexists. exists [test], stability. split; [reflexivity|].
    split; [reflexivity|]. split.
    { intros t [Ht|[]]. subst t. exact Hname. }
    split; [|exact Hsn]. split; [intros _|intros _; congruence].
    apply andb_true_iff in Hcond. destruct Hcond as [Hl He].
    apply Nat.ltb_lt in Hl. split; [lia|exact He].
  - cbv beta iota. simpl fst. simpl snd.
    destruct (Hstab [ConfidenceGate.verify (Verifier.confidence_gate v) primary])
      as (stability & Hs & Hsn).
    rewrite Hs. destruct (Verifier._aggregate_results _) as [[status rec] notes].
    eexists. exists [], stability. split; [reflexivity|].
    split; [reflexivity|]. split; [intros t []|].
    split; [|exact Hsn]. split; [congruence|]. intros [Hl He].
    apply andb_false_iff in Hcond. destruct Hcond as [Hc|Hc].
    + apply Nat.ltb_ge in Hc. lia.
    + congruence.
Qed.

(** The vote of a report: with two results or more and the vote enabled,
    the second test of the report is the test that the voter returns on
    the whole result list, and the analysis of the report is the voter's. *)
Lemma vote_in_report (v : Verifier.t) (primary : ClassificationResult.t)
  (others : list ClassificationResult.t) (request : ClassificationRequest.t)
  (agent_url : option string) (slim_client : option SlimClient) :
  (2 <= List.length (primary :: others))%nat ->
  VerificationConfig.enable_ensemble_voting (Verifier.config v) = true ->
  exists report test disagreement stability,
    Verifier.verify v (primary :: others) request agent_url slim_client
    = Returned report
    /\ EnsembleVoter.verify (Verifier.ensemble_voter v) (primary :: others)
       = Returned (test, disagreement)
    /\ VerificationReport.tests_performed report
       = (ConfidenceGate.verify (Verifier.confidence_gate v) primary
            :: test :: stability)%list
    /\ (forall t, In t stability ->
          VerificationTest.test_name t = "augmentation_stability")
    /\ VerificationReport.disagreement_analysis report = disagreement.
Proof.
  intros Hlen Hflag.
  destruct (ensemble_verify_named (Verifier.ensemble_voter v)
              (primary :: others)) as (test & disagreement & Hvote & _).
  unfold Verifier.verify. rewrite Hvote, Hflag.
  assert (Hcond : (1 <? List.length (primary :: others))%nat = true)
    by (apply Nat.ltb_lt; lia).
  rewrite Hcond. cbn [andb bind fst snd].
  assert (Hstab :
    exists stability,
      match VerificationConfig.enable_augmentation_test (Verifier.config v),
            Verifier.nonempty_str agent_url, slim_client with
      | true, Some url, Some client =>
          (([ConfidenceGate.verify (Verifier.confidence_gate v) primary]
              ++ [test])
             ++ [AugmentationStabilityTester.verify
                   (Verifier.augmentation_tester v) primary url
                   (ImageSource.presigned_url
                      (ClassificationRequest.image request))
                   (Some client)])%list
      | _, _, _ =>
          ([ConfidenceGate.verify (Verifier.confidence_gate v) primary]
             ++ [test])%list
      end
      = (ConfidenceGate.verify (Verifier.confidence_gate v) primary
           :: test :: stability)%list
      /\ forall x, In x stability ->
           VerificationTest.test_name x = "augmentation_stability").
  { destruct (VerificationConfig.enable_augmentation_test (Verifier.config v)),
      (Verifier.nonempty_str agent_url), slim_client;
      try (exists []; split; [reflexivity|intros x []]).
    eexists [_]. split; [reflexivity|].
    intros x [Hx|[]]. subst x. apply stability_test_name. }
  destruct Hstab as (stability & Hs & Hsn).
  rewrite Hs.
  destruct (Verifier._aggregate_results _) as [[status rec] notes].
  eexists. exists test, disagreement, stability.
  split; [reflexivity|]. split; [reflexivity|].
  split; [reflexivity|]. split; [exact Hsn|reflexivity].
Qed.

(** C7, as the code has it.  The ensemble-voting test is performed, and
    stands among the tests of the report, exactly when the result list has
    two results or more and the configuration enables ensemble voting; with
    fewer than two results, or with the flag unset (as in the default
    configuration), it is not performed.  The test that is performed is
    the one that the voter of the verifier returns on the whole result
    list: it stands second in the report, after the confidence gate, no
    other test bears its name, and the disagreement analysis of the report
    is the voter's; without the test the report has no analysis. *)
Theorem ensemble_test_when_enabled (v : Verifier.t)
  (results : list ClassificationResult.t) (request : ClassificationRequest.t)
  (agent_url : option string) (slim_client : option SlimClient) :
  exists report,
    Verifier.verify v results request agent_url slim_client = Returned report
    /\ (Observe.performed "ensemble_voting" report <->
        (2 <= List.length results)%nat
        /\ VerificationConfig.enable_ensemble_voting (Verifier.config v)
           = true)
    /\ ((2 <= List.length results)%nat ->
        VerificationConfig.enable_ensemble_voting (Verifier.config v)
        = true ->
        exists test disagreement,
          EnsembleVoter.verify (Verifier.ensemble_voter v) results
          = Returned (test, disagreement)
          /\ nth_error (VerificationReport.tests_performed report) 1
             = Some test
          /\ (forall t,
                In t (VerificationReport.tests_performed report) ->
                VerificationTest.test_name t = "ensemble_voting" ->
                t = test)
          /\ VerificationReport.disagreement_analysis report = disagreement)
    /\ (~ Observe.performed "ensemble_voting" report ->
        VerificationReport.disagreement_analysis report = None).
Proof.
  destruct results as [|primary others].
  - eexists. split; [reflexivity|]. unfold Observe.performed.
    cbn [VerificationReport.tests_performed
         VerificationReport.disagreement_analysis List.length].
    split; [split; [intros (t & [] & _)|intros [Hl _]; lia]|].
    split; [intros Hl; lia|reflexivity].
  - destruct (verify_tests v primary others request agent_url slim_client)
      as (report & vote & stability & Hv & Ht & Hvn & Hvote & Hsn).
    exists report. split; [exact Hv|].
    assert (Hperf :
      Observe.performed "ensemble_voting" report <->
      (2 <= List.length (primary :: others))%nat
      /\ VerificationConfig.enable_ensemble_voting (Verifier.config v)
         = true).
    { rewrite <- Hvote. unfold Observe.performed. rewrite Ht. split.
      + intros (t & Hin & Hname). destruct Hin as [Hin|Hin].
        * subst t. rewrite gate_test_name in Hname. discriminate.
        * apply in_app_iff in Hin. destruct Hin as [Hin|Hin].
          -- intro Hnil. rewrite Hnil in Hin. exact Hin.
          -- rewrite (Hsn t Hin) in Hname. discriminate.
      + intro Hne. destruct vote as [|t vote]; [congruence|].
        exists t. split; [right; apply in_app_iff; left; left; reflexivity|].
        apply Hvn. left. reflexivity. }
    split; [exact Hperf|]. split.
    + intros Hlen Hflag.
      destruct (vote_in_report v primary others request agent_url
                  slim_client Hlen Hflag)
        as (report' & test & disagreement & stability' & Hv' & Hvoter & Ht'
            & Hsn' & Hd).
      assert (report' = report) by congruence. subst report'.
      exists test, disagreement. split; [exact Hvoter|].
      rewrite Ht'. split; [reflexivity|]. split; [|exact Hd].
      intros t [Hin|[Hin|Hin]] Hname.
      * subst t. rewrite gate_test_name in Hname. discriminate.
      * symmetry. exact Hin.
      * rewrite (Hsn' t Hin) in Hname. discriminate.
    + intro Hnot.
      assert (Hcond :
        (1 <? List.length (primary :: others))%nat
        && VerificationConfig.enable_ensemble_voting (Verifier.config v)
        = false).
      { destruct ((1 <? List.length (primary :: others))%nat
                  && VerificationConfig.enable_ensemble_voting
                       (Verifier.config v)) eqn:Hc; [|reflexivity].
        exfalso. apply Hnot, Hperf.
        apply andb_true_iff in Hc. destruct Hc as [Hl He].
        apply Nat.ltb_lt in Hl. split; [lia|exact He]. }
      revert Hv. unfold Verifier.verify. rewrite Hcond.
      cbn [bind fst snd].
      destruct (Verifier._aggregate_results _) as [[status rec] notes].
      intro Hv. inversion Hv. reflexivity.
Qed.

End VerifierProperties.

(** C7, as stated, fails: the default verifier, on the three results of the
    scenario, performs the confidence gate alone. *)
Lemma ensemble_test_not_performed :
  exists report,
    Verifier.verify (H := Sample.platform) (Verifier.init None)
      Sample.pneumonia_votes Sample.request None None = Returned report
    /\ (2 <= List.length Sample.pneumonia_votes)%nat
    /\ map VerificationTest.test_name
         (VerificationReport.tests_performed report)
       = ["confidence_threshold"]
    /\ ~ Observe.performed "ensemble_voting" report.
Proof.
  eexists. split; [reflexivity|]. split; [simpl; lia|].
  split; [reflexivity|].
  intros (t & Hin & Hname). simpl in Hin.
  destruct Hin as [Hin|[]]. subst t. discriminate.
Qed.

(** ** Aggregation *)

Lemma is_fail_iff (t : VerificationTest.t) :
  Verifier.is_fail t = true <-> Observe.failed t.
Proof.
  unfold Verifier.is_fail, Observe.failed.
  destruct (VerificationTest.result t); simpl; split; congruence.
Qed.

Lemma enum_eq_truthy (r : VerificationRecommendation.t) (v : pyval) :
  enum_eq r v = true -> truthy v = true.
Proof.
  destruct v; simpl; try discriminate; [|reflexivity].
  intro Heq. apply String.eqb_eq in Heq. subst s. destruct r; reflexivity.
Qed.

Lemma collected_iff (r : VerificationRecommendation.t)
  (failed_tests : list VerificationTest.t) :
  enum_in r (Verifier.collect_recommendations failed_tests) = true
  <-> exists t, In t failed_tests /\ Observe.recommends t r.
Proof.
  unfold enum_in, Observe.recommends, Observe.recommendation.
  induction failed_tests as [|t ts IH]; simpl.
  - split; [discriminate|intros (t & [] & _)].
  - destruct (Py.get (VerificationTest.details t) "recommendation")
      as [rec|] eqn:E.
    + destruct (truthy rec) eqn:Ht; simpl.
      * rewrite orb_true_iff, IH. split.
        -- intros [Hr|(t' & Hin & Hrec)].
           ++ exists t. split; [left; reflexivity|]. exists rec. tauto.
           ++ exists t'. tauto.
        -- intros (t' & [Heq|Hin] & v & Hv & Hr).
           ++ subst t'. left. congruence.
           ++ right. exists t'. split; [exact Hin|]. exists v. tauto.
      * rewrite IH. split.
        -- intros (t' & Hin & Hrec). exists t'. tauto.
        -- intros (t' & [Heq|Hin] & v & Hv & Hr).
           ++ subst t'. apply enum_eq_truthy in Hr. congruence.
           ++ exists t'. split; [exact Hin|]. exists v. tauto.
    + rewrite IH. split.
      * intros (t' & Hin & Hrec). exists t'. tauto.
      * intros (t' & [Heq|Hin] & v & Hv & Hr).
        -- subst t'. congruence.
        -- exists t'. split; [exact Hin|]. exists v. tauto.
Qed.

(** C8, as the code has it.  Without a failed test the aggregate is PASS
    and accept.  With one, the aggregate is FAIL, the notes give the number
    and the names of the failed tests, and the recommendation is the first
    of human_review, replan_ensemble, replan_different_agents that a
    failed test recommends.  Abort is what is left when no failed test
    recommends one of the three: it is not read off the tests, and is
    given also when the failed tests recommend accept or nothing. *)
Theorem aggregation_rule (tests : list VerificationTest.t) :
  let failed_tests := filter Verifier.is_fail tests in
  let recommended r :=
    exists t, In t tests /\ Observe.failed t /\ Observe.recommends t r in
  (forall t, In t failed_tests <-> In t tests /\ Observe.failed t)
  /\ ((forall t, In t tests -> ~ Observe.failed t) ->
      Verifier._aggregate_results tests
      = (VerificationStatus.PASS, VerificationRecommendation.ACCEPT,
         "All " ++ Py.str_nat (List.length (filter Verifier.is_pass tests))
           ++ " verification tests passed."))
  /\ ((exists t, In t tests /\ Observe.failed t) ->
      exists recommendation,
        Verifier._aggregate_results tests
        = (VerificationStatus.FAIL, recommendation,
           Py.str_nat (List.length failed_tests) ++ " test(s) failed: "
             ++ Py.repr_list (map VerificationTest.test_name failed_tests))
        /\ (recommended VerificationRecommendation.HUMAN_REVIEW ->
            recommendation = VerificationRecommendation.HUMAN_REVIEW)
        /\ (~ recommended VerificationRecommendation.HUMAN_REVIEW ->
            recommended VerificationRecommendation.REPLAN_ENSEMBLE ->
            recommendation = VerificationRecommendation.REPLAN_ENSEMBLE)
        /\ (~ recommended VerificationRecommendation.HUMAN_REVIEW ->
            ~ recommended VerificationRecommendation.REPLAN_ENSEMBLE ->
            recommended VerificationRecommendation.REPLAN_DIFFERENT_AGENTS ->
            recommendation
            = VerificationRecommendation.REPLAN_DIFFERENT_AGENTS)
        /\ (~ recommended VerificationRecommendation.HUMAN_REVIEW ->
            ~ recommended VerificationRecommendation.REPLAN_ENSEMBLE ->
            ~ recommended VerificationRecommendation.REPLAN_DIFFERENT_AGENTS ->
            recommendation = VerificationRecommendation.ABORT)).
Proof.
  intros failed_tests recommended.
  assert (Hfailed : forall t, In t failed_tests <-> In t tests /\ Observe.failed t).
  { intro t. unfold failed_tests. rewrite filter_In, is_fail_iff. tauto. }
  assert (Hrec : forall r,
             enum_in r (Verifier.collect_recommendations failed_tests) = true
             <-> recommended r).
  { intro r. rewrite collected_iff. unfold recommended. split.
    - intros (t & Hin & Hr). apply Hfailed in Hin. exists t. tauto.
    - intros (t & Hin & Hf & Hr). exists t. split; [apply Hfailed; tauto|exact Hr]. }
  split; [exact Hfailed|]. split.
  - intro Hnone. unfold Verifier._aggregate_results. fold failed_tests.
    destruct failed_tests as [|t ts]; [reflexivity|]. exfalso.
    destruct (proj1 (Hfailed t) (or_introl eq_refl)) as [Hin Hf].
    exact (Hnone t Hin Hf).
  - intros (t & Hin & Hf). unfold Verifier._aggregate_results.
    fold failed_tests.
    assert (Hne : failed_tests <> []).
    { intro Hnil. assert (Ht : In t failed_tests) by (apply Hfailed; tauto).
      rewrite Hnil in Ht. exact Ht. }
    destruct failed_tests as [|t0 ts] eqn:Eft; [congruence|].
    eexists. split; [reflexivity|].
    destruct (enum_in VerificationRecommendation.HUMAN_REVIEW _) eqn:E1.
    { apply Hrec in E1. repeat split; tauto. }
    destruct (enum_in VerificationRecommendation.REPLAN_ENSEMBLE _) eqn:E2.
    { apply Hrec in E2.
      assert (N1 : ~ recommended VerificationRecommendation.HUMAN_REVIEW)
        by (intro Hr; apply Hrec in Hr; congruence).
      repeat split; tauto. }
    destruct (enum_in VerificationRecommendation.REPLAN_DIFFERENT_AGENTS _)
      eqn:E3.
    { apply Hrec in E3.
      assert (N1 : ~ recommended VerificationRecommendation.HUMAN_REVIEW)
        by (intro Hr; apply Hrec in Hr; congruence).
      assert (N2 : ~ recommended VerificationRecommendation.REPLAN_ENSEMBLE)
        by (intro Hr; apply Hrec in Hr; congruence).
      repeat split; tauto. }
    assert (N1 : ~ recommended VerificationRecommendation.HUMAN_REVIEW)
      by (intro Hr; apply Hrec in Hr; congruence).
    assert (N2 : ~ recommended VerificationRecommendation.REPLAN_ENSEMBLE)
      by (intro Hr; apply Hrec in Hr; congruence).
    assert (N3 : ~ recommended
                   VerificationRecommendation.REPLAN_DIFFERENT_AGENTS)
      by (intro Hr; apply Hrec in Hr; congruence).
    repeat split; tauto.
Qed.

(** A low first confidence and a split vote: both tests fail, and human
    review outranks the re-planning that the gate asks for. *)
Lemma aggregation_rule_witness :
  let tests :=
    [ ConfidenceGate.verify (H := Sample.platform) ConfidenceGate.default
        (Sample.result_of "a" "pneumonia" 0.65%Q);
      {| VerificationTest.test_name := "ensemble_voting";
         VerificationTest.result := VerificationTestResult.FAIL;
         VerificationTest.details :=
           [ ("recommendation",
               VEnum VerificationRecommendation.HUMAN_REVIEW) ] |} ] in
  Verifier._aggregate_results tests
  = (VerificationStatus.FAIL, VerificationRecommendation.HUMAN_REVIEW,
     "2 test(s) failed: ['confidence_threshold', 'ensemble_voting']").
Proof.
  intro tests.
  destruct (proj2 (proj2 (aggregation_rule tests)))
    as (recommendation & Hagg & Hhr & _).
  - eexists. split; [right; left; reflexivity|]. split; reflexivity.
  - rewrite Hagg. rewrite Hhr; [reflexivity|].
    eexists. split; [right; left; reflexivity|].
    split; [reflexivity|]. eexists. split; reflexivity.
Defined.

(** C8, as stated, fails: the recommendation is not always one that a
    failed test gave.  The report on a confident result whose stability
    test cannot load its images has one failed test, which recommends
    accept, and the aggregate recommends abort. *)
Lemma abort_is_not_a_failed_recommendation :
  let result := Sample.result_of "a" "pneumonia" 0.9%Q in
  let client := {| send_task := fun _ _ => Raised "unused" |} in
  let tests :=
    [ ConfidenceGate.verify (H := Sample.platform) ConfidenceGate.default
        result;
      AugmentationStabilityTester.verify (H := Sample.platform)
        {| AugmentationStabilityTester.stability_threshold := 0.67%Q |}
        result "http://a"
        (ImageSource.presigned_url
           (ClassificationRequest.image Sample.request))
        (Some client) ] in
  (exists report,
     Verifier.verify (H := Sample.platform)
       (Verifier.init (Some VerificationConfig.default)) [result]
       Sample.request (Some "http://a") (Some client)
     = Returned report
     /\ VerificationReport.tests_performed report = tests
     /\ VerificationReport.recommendation report
        = VerificationRecommendation.ABORT)
  /\ Verifier._aggregate_results tests
     = (VerificationStatus.FAIL, VerificationRecommendation.ABORT,
        "1 test(s) failed: ['augmentation_stability']")
  /\ (forall t, In t tests -> Observe.failed t ->
        Observe.recommendation t
        = Some (VEnum VerificationRecommendation.ACCEPT))
  /\ ~ (exists t, In t tests /\ Observe.failed t
                  /\ Observe.recommends t VerificationRecommendation.ABORT).
Proof.
  intros result client tests.
  assert (Hfailed : forall t, In t tests -> Observe.failed t ->
            Observe.recommendation t
            = Some (VEnum VerificationRecommendation.ACCEPT)).
  { intros t [Ht|[Ht|[]]] Hf; subst t.
    - vm_compute in Hf. discriminate.
    - reflexivity. }
  split; [eexists; split; [reflexivity|split; reflexivity]|].
  split; [reflexivity|]. split; [exact Hfailed|].
  intros (t & Hin & Hf & v & Hv & Heq).
  rewrite (Hfailed t Hin Hf) in Hv. inversion Hv. subst v.
  vm_compute in Heq. discriminate.
Qed.

(** ** Response parsing *)

Section ParsingProperties.
Context `{Platform}.

Lemma parse_lines_plain (lines : list string) (acc : string * Py.pyfloat) :
  (forall line, In line lines ->
     Py.startswith line "Label:" = false
     /\ Py.startswith line "Confidence:" = false) ->
  Planner.parse_lines acc lines = Returned acc.
Proof.
  induction lines as [|line lines IH]; intro Hplain; simpl; [reflexivity|].
  destruct (Hplain line (or_introl eq_refl)) as [Hl Hc].
  unfold Planner.parse_line. rewrite Hl, Hc. simpl.
  apply IH. intros l Hin. apply Hplain. right. exact Hin.
Qed.

(** C4, as the code has it.  Parsing always returns a result.  The text
    "Label: cat" / "Confidence: 0.91" gives label cat and confidence 0.91.
    A text that does not begin with a brace and has no line beginning with
    "Label:" or "Confidence:" is taken whole: its stripped text is the
    label, with the default confidence 0.8; so is "not a valid response".
    The result labelled parse_error with confidence 0 is what every
    exception of the parse gives, and a text that begins with a brace gives
    it when the JSON reading raises. *)
Theorem parse_rule :
  (forall agent_id fresh fresh',
      let r := Planner._parse_classification_result
                 (Sample.reply_dict Sample.cat_reply) agent_id fresh fresh' in
      ClassificationResult.label r = "cat"
      /\ ClassificationResult.confidence r = 0.91%Q)
  /\ (forall response text agent_id fresh fresh',
        Py.get response "response" = Some (VStr text) ->
        Py.startswith text "{" = false ->
        (forall line, In line (Py.split Planner.newline text) ->
           Py.startswith line "Label:" = false
           /\ Py.startswith line "Confidence:" = false) ->
        let r := Planner._parse_classification_result response agent_id
                   fresh fresh' in
        ClassificationResult.label r = Py.strip text
        /\ ClassificationResult.confidence r = 0.8%Q)
  /\ (forall agent_id fresh fresh',
        let r := Planner._parse_classification_result
                   (Sample.reply_dict "not a valid response") agent_id
                   fresh fresh' in
        ClassificationResult.label r = "not a valid response"
        /\ ClassificationResult.confidence r = 0.8%Q)
  /\ (forall response agent_id fresh fresh' msg,
        Planner.parse_body response agent_id fresh = Raised msg ->
        let r := Planner._parse_classification_result response agent_id
                   fresh fresh' in
        r = Planner.parse_error_result fresh' agent_id
        /\ ClassificationResult.label r = "parse_error"
        /\ ClassificationResult.confidence r = 0%Q)
  /\ (forall response text agent_id fresh fresh' msg,
        Py.get response "response" = Some (VStr text) ->
        Py.startswith text "{" = true ->
        json_classification_result text = Raised msg ->
        let r := Planner._parse_classification_result response agent_id
                   fresh fresh' in
        ClassificationResult.label r = "parse_error"
        /\ ClassificationResult.confidence r = 0%Q).
Proof.
  split; [|split; [|split; [|split]]].
  - intros agent_id fresh fresh'. split; reflexivity.
  - intros response text agent_id fresh fresh' Hget Hbrace Hplain.
    unfold Planner._parse_classification_result, Planner.parse_body.
    rewrite Hget, Hbrace, (parse_lines_plain _ _ Hplain). simpl.
    split; reflexivity.
  - intros agent_id fresh fresh'. split; reflexivity.
  - intros response agent_id fresh fresh' msg Hraised.
    unfold Planner._parse_classification_result. rewrite Hraised.
    repeat split.
  - intros response text agent_id fresh fresh' msg Hget Hbrace Hjson.
    unfold Planner._parse_classification_result, Planner.parse_body.
    rewrite Hget, Hbrace, Hjson. split; reflexivity.
Qed.

End ParsingProperties.

(** C4, as stated, fails: "not a valid response" is parsed into a result
    with that text as its label and confidence 0.8, not into the
    parse_error result. *)
Lemma malformed_text_is_a_label :
  let r := Planner._parse_classification_result (H := Sample.platform)
             (Sample.reply_dict "not a valid response") "a" "u1" "u2" in
  ClassificationResult.label r = "not a valid response"
  /\ ClassificationResult.confidence r = 0.8%Q
  /\ ClassificationResult.label r <> "parse_error"
  /\ ~ (ClassificationResult.confidence r == 0)%Q.
Proof.
  cbv zeta. split; [reflexivity|]. split; [reflexivity|].
  split; discriminate.
Qed.

(** A text of one plain line, and a brace that opens no JSON. *)
Lemma parse_rule_witness :
  (let r := Planner._parse_classification_result (H := Sample.platform)
              (Sample.reply_dict "  tabby cat ") "a" "u1" "u2" in
   ClassificationResult.label r = "tabby cat"
   /\ ClassificationResult.confidence r = 0.8%Q)
  /\ (let r := Planner._parse_classification_result (H := Sample.platform)
                 (Sample.reply_dict "{oops") "a" "u1" "u2" in
      ClassificationResult.label r = "parse_error"
      /\ ClassificationResult.confidence r = 0%Q).
Proof.
  pose proof (@parse_rule Sample.platform) as (_ & Hplain & _ & _ & Hjson).
  split.
  - apply (Hplain (Sample.reply_dict "  tabby cat ") "  tabby cat ");
      [reflexivity|reflexivity|].
    intros line [Hl|[]]. subst line. split; reflexivity.
  - apply (Hjson (Sample.reply_dict "{oops") "{oops" "a" "u1" "u2"
             "JSONDecodeError"); reflexivity.
Defined.

(** ** Routing *)

(** C3, on the code.  Without an error and with at least one agent the
    route is a function of the iteration, the required confidence and the
    number of agents: a later iteration, a confidence above 0.85 and three
    agents or more each give the ensemble route, and only what is left
    gives the simple one.  On the first iteration, with a required
    confidence of 0.5 and five agents, the routing message announces
    single_best and the edge taken is the ensemble route, whose decision
    carries the strategy parallel_ensemble. *)
Theorem route_with_three_agents_is_ensemble :
  (forall state : Planner.PlannerState,
      Planner.error state = "" ->
      Planner.discovered_agents state <> [] ->
      let min_confidence :=
        ClassificationConstraints.min_confidence
          (ClassificationRequest.constraints (Planner.request state)) in
      let agent_count := List.length (Planner.discovered_agents state) in
      ((1 < Planner.iteration state)%Z ->
       Planner._should_use_ensemble state = Planner.Route.ensemble)
      /\ ((0.85 < min_confidence)%Q ->
          Planner._should_use_ensemble state = Planner.Route.ensemble)
      /\ ((3 <= agent_count)%nat ->
          Planner._should_use_ensemble state = Planner.Route.ensemble)
      /\ ((Planner.iteration state <= 1)%Z -> (min_confidence <= 0.85)%Q ->
          (agent_count < 3)%nat ->
          Planner._should_use_ensemble state = Planner.Route.simple))
  /\ Planner.iteration Sample.routing_state = 1%Z
  /\ ClassificationConstraints.min_confidence
       (ClassificationRequest.constraints
          (Planner.request Sample.routing_state)) = 0.5%Q
  /\ List.length (Planner.discovered_agents Sample.routing_state) = 5%nat
  /\ last (Planner.messages (Planner._route_decision_node Sample.routing_state))
          ""
     = "Routing: rule-based decision - Multiple agents available, single_best is efficient"
  /\ Planner._should_use_ensemble Sample.routing_state
     = Planner.Route.ensemble
  /\ Planner.next Planner.Node.route_decision
       (Planner._route_decision_node Sample.routing_state)
     = Some Planner.Node.route_ensemble
  /\ option_map RouteDecision.strategy
       (Planner.route_decision
          (Planner._route_ensemble_node
             (Planner._route_decision_node Sample.routing_state)))
     = Some ExecutionStrategy.PARALLEL_ENSEMBLE.
Proof.
  split.
  - intros state Herr Hagents min_confidence agent_count.
    unfold Planner._should_use_ensemble. rewrite Herr. simpl negb.
    cbv iota.
    destruct (Planner.discovered_agents state) as [|a agents] eqn:Ea;
      [congruence|].
    fold min_confidence. subst agent_count.
    repeat split.
    + intro Hi. apply Z.ltb_lt in Hi. rewrite Hi. reflexivity.
    + intro Hc. apply Qle_bool_false in Hc. rewrite Hc.
      rewrite orb_true_r. reflexivity.
    + intro Hn. apply Nat.leb_le in Hn. rewrite Hn.
      rewrite orb_true_r. reflexivity.
    + intros Hi Hc Hn. apply Z.ltb_ge in Hi. apply Qle_bool_true in Hc.
      apply Nat.leb_gt in Hn. rewrite Hi, Hc, Hn. reflexivity.
  - repeat split.
Qed.

(** ** The nodes of the graph *)

Section PlannerProperties.
Context `{Platform}.

Lemma supervisor_frame (w : World) (step : nat) (s : Planner.PlannerState) :
  Planner.iteration (Planner._supervisor_node w step s) = Planner.iteration s
  /\ Py.get (Planner.intent (Planner._supervisor_node w step s)) "domain"
     <> None.
Proof.
  unfold Planner._supervisor_node, Planner._fallback_intent_classification.
  split_cases; simpl; split; solve [reflexivity | discriminate].
Qed.

Lemma discover_frame (w : World) (step : nat) (s s' : Planner.PlannerState) :
  Planner._discover_agents_node w step s = Returned s' ->
  Planner.iteration s' = Planner.iteration s.
Proof.
  unfold Planner._discover_agents_node.
  destruct (Planner.discovered_agents s); [|intro Hr; congruence].
  destruct (Py.get (Planner.intent s) "domain"); simpl; [|discriminate].
  split_cases; intro Hr; inversion Hr; reflexivity.
Qed.

Lemma discover_returns (w : World) (step : nat) (s : Planner.PlannerState) :
  Py.get (Planner.intent s) "domain" <> None ->
  exists s', Planner._discover_agents_node w step s = Returned s'.
Proof.
  intro Hdomain. unfold Planner._discover_agents_node.
  destruct (Planner.discovered_agents s); [|eexists; reflexivity].
  destruct (Py.get (Planner.intent s) "domain"); [|congruence]. simpl.
  split_cases; eexists; reflexivity.
Qed.

Lemma route_decision_frame (s : Planner.PlannerState) :
  Planner.iteration (Planner._route_decision_node s) = Planner.iteration s
  /\ Planner.error (Planner._route_decision_node s) = Planner.error s
  /\ Planner.discovered_agents (Planner._route_decision_node s)
     = Planner.discovered_agents s
  /\ Planner.request (Planner._route_decision_node s) = Planner.request s.
Proof. repeat split. Qed.

Lemma route_simple_frame (s : Planner.PlannerState) :
  Planner.iteration (Planner._route_simple_node s) = Planner.iteration s
  /\ Planner.error (Planner._route_simple_node s) = Planner.error s.
Proof. split; reflexivity. Qed.

Lemma route_ensemble_frame (s : Planner.PlannerState) :
  Planner.iteration (Planner._route_ensemble_node s) = Planner.iteration s
  /\ Planner.error (Planner._route_ensemble_node s) = Planner.error s.
Proof. split; reflexivity. Qed.

Lemma execute_frame (w : World) (step : nat) (s : Planner.PlannerState) :
  Planner.iteration (Planner._execute_tasks_node w step s)
  = Planner.iteration s
  /\ (Planner.results (Planner._execute_tasks_node w step s) <> [] ->
      Planner.error (Planner._execute_tasks_node w step s) = Planner.error s).
Proof.
  unfold Planner._execute_tasks_node.
  destruct (Planner.dispatch w step _ _) as [[|r results]|e]; simpl;
    split; solve [reflexivity | congruence].
Qed.

Lemma fallback_reflection_frame (s : Planner.PlannerState)
  (results : list ClassificationResult.t) (request : ClassificationRequest.t)
  (report : option VerificationReport.t) :
  let s' := Planner._fallback_reflection s results request report in
  Planner.iteration s' = Planner.iteration s
  /\ Planner.error s' = Planner.error s
  /\ Planner.results s' = Planner.results s
  /\ Planner.mismatch_warning s' = Planner.mismatch_warning s.
Proof.
  unfold Planner._fallback_reflection.
  destruct (_ || _); repeat split.
Qed.

Lemma reflection_frame (w : World) (step : nat) (s : Planner.PlannerState) :
  let s' := Planner._reflection_node w step s in
  Planner.iteration s' = Planner.iteration s
  /\ Planner.error s' = Planner.error s
  /\ Planner.results s' = Planner.results s.
Proof.
  unfold Planner._reflection_node.
  destruct (Planner.results s) eqn:Er; [rewrite <- Er; repeat split|].
  rewrite <- Er.
  destruct (llm w);
    [destruct (reflect w step _) as [[response|]|e]|];
    try match goal with
        | |- context [Planner._fallback_reflection ?a ?b ?c ?d] =>
            destruct (fallback_reflection_frame a b c d) as (Hi & He & Hr & _);
            cbv zeta; rewrite Hi, He, Hr; repeat split
        end.
  destruct (ShouldContinue.mismatch_detected response);
    [|destruct (_ && _)]; repeat split.
Qed.

Lemma check_status_spec (s : Planner.PlannerState) :
  let s' := Planner._check_status_node s in
  Planner.error s' = Planner.error s
  /\ Planner.verification_status s' = Planner.verification_status s
  /\ Planner.verification_recommendation s'
     = Planner.verification_recommendation s
  /\ (Planner.iteration s' = Planner.iteration s
      \/ (Planner.verification_status s <> "PASS"
          /\ Planner.verification_recommendation s <> "human_review"
          /\ (Planner.iteration s < Planner.MAX_REPLANS)%Z
          /\ Planner.iteration s' = (Planner.iteration s + 1)%Z))
  /\ (Planner.verification_status s <> "PASS" ->
      Planner.verification_recommendation s <> "human_review" ->
      (Planner.iteration s < Planner.MAX_REPLANS)%Z ->
      Planner.iteration s' = (Planner.iteration s + 1)%Z).
Proof.
  unfold Planner._check_status_node.
  destruct (String.eqb (Planner.verification_status s) "PASS") eqn:Es.
  { apply String.eqb_eq in Es. repeat split; tauto. }
  destruct (String.eqb (Planner.verification_recommendation s) "human_review")
    eqn:Er.
  { apply String.eqb_eq in Er. repeat split; tauto. }
  destruct (Planner.MAX_REPLANS <=? Planner.iteration s)%Z eqn:Ei.
  { apply Z.leb_le in Ei. repeat split; [left; reflexivity|].
    intros _ _ Hlt. exfalso. apply (Z.lt_irrefl (Planner.iteration s)).
    eapply Z.lt_le_trans; eassumption. }
  apply String.eqb_neq in Es, Er. apply Z.leb_gt in Ei.
  repeat split. right. simpl. tauto.
Qed.

Lemma final_status_in (status : string) :
  In status Observe.final_statuses <->
  status = "COMPLETED" \/ status = "COMPLETED_WITH_WARNING"
  \/ status = "NEEDS_REVIEW" \/ status = "INCONCLUSIVE" \/ status = "FAILED".
Proof. unfold Observe.final_statuses. simpl. intuition. Qed.

Lemma finalize_spec (w : World) (step : nat) (s s' : Planner.PlannerState) :
  Planner._finalize_response_node w step s = Returned s' ->
  Planner.iteration s' = Planner.iteration s
  /\ Observe.iterations (Planner.final_response s')
     = Some (VInt (Planner.iteration s))
  /\ exists status,
       Observe.status (Planner.final_response s') = Some (VStr status)
       /\ In status Observe.final_statuses.
Proof.
  unfold Planner._finalize_response_node.
  destruct (String.eqb (Planner.verification_status s) "PASS"
            && match Planner.results s with [] => false | _ => true end).
  - destruct (match Planner.results s with
              | [r] => Returned r
              | _ => Verifier.get_ensemble_result Planner.verifier
                       (Planner.results s)
              end) as [final_result|e]; simpl; [|discriminate].
    destruct (Planner.mismatch_warning s) as [warning|];
      [destruct (String.eqb warning "")|];
      intro Hr; inversion Hr; simpl; repeat split;
      eexists; (split; [reflexivity|]); apply final_status_in; tauto.
  - destruct (String.eqb (Planner.verification_recommendation s) "human_review");
      [|destruct (Planner.MAX_REPLANS <=? Planner.iteration s)%Z];
      simpl; intro Hr; inversion Hr; simpl; repeat split;
      eexists; (split; [reflexivity|]); apply final_status_in; tauto.
Qed.

Lemma handle_error_spec (s : Planner.PlannerState) :
  Planner.iteration (Planner._handle_error_node s) = Planner.iteration s
  /\ Observe.iterations (Planner.final_response (Planner._handle_error_node s))
     = Some (VInt (Planner.iteration s))
  /\ Observe.status (Planner.final_response (Planner._handle_error_node s))
     = Some (VStr "FAILED").
Proof. repeat split. Qed.

(** A node changes the iteration counter only in the replan branch of the
    status check. *)
Lemma exec_iteration (w : World) (step : nat) (node : Planner.Node.t)
  (s s' : Planner.PlannerState) :
  Planner.exec w step node s = Returned s' ->
  Planner.iteration s' = Planner.iteration s
  \/ (node = Planner.Node.check_status
      /\ Planner.verification_status s <> "PASS"
      /\ Planner.verification_recommendation s <> "human_review"
      /\ (Planner.iteration s < Planner.MAX_REPLANS)%Z
      /\ Planner.iteration s' = (Planner.iteration s + 1)%Z).
Proof.
  destruct node; simpl; intro Hr; try (inversion Hr; subst s').
  - left. apply supervisor_frame.
  - left. eapply discover_frame; eassumption.
  - left. reflexivity.
  - left. reflexivity.
  - left. reflexivity.
  - left. apply execute_frame.
  - left. apply reflection_frame.
  - destruct (check_status_spec s) as (_ & _ & _ & [Hi|Hi] & _);
      [left; exact Hi|right; tauto].
  - left. eapply finalize_spec; eassumption.
  - left. reflexivity.
Qed.

Lemma exec_bounds (w : World) (step : nat) (node : Planner.Node.t)
  (s s' : Planner.PlannerState) :
  Planner.exec w step node s = Returned s' ->
  (1 <= Planner.iteration s <= Planner.MAX_REPLANS)%Z ->
  (1 <= Planner.iteration s' <= Planner.MAX_REPLANS)%Z.
Proof.
  intros Hexec Hb. destruct (exec_iteration w step node s s' Hexec)
    as [Hi|(_ & _ & _ & Hlt & Hi)]; rewrite Hi; lia.
Qed.

(** A run that returns has closed with a response that carries one of the
    five statuses and the iteration counter. *)
Lemma run_closes (w : World) :
  forall (budget step : nat) (node : Planner.Node.t)
         (s s' : Planner.PlannerState),
    (1 <= Planner.iteration s <= Planner.MAX_REPLANS)%Z ->
    Planner.run w budget step node s = Returned s' ->
    (1 <= Planner.iteration s' <= Planner.MAX_REPLANS)%Z
    /\ Observe.iterations (Planner.final_response s')
       = Some (VInt (Planner.iteration s'))
    /\ exists status,
         Observe.status (Planner.final_response s') = Some (VStr status)
         /\ In status Observe.final_statuses.
Proof.
  induction budget as [|budget IH]; intros step node s s' Hb; simpl;
    [discriminate|].
  destruct (Planner.exec w step node s) as [s1|e] eqn:Hexec; simpl;
    [|discriminate].
  pose proof (exec_bounds w step node s s1 Hexec Hb) as Hb1.
  destruct (Planner.next node s1) as [node'|] eqn:Hnext.
  - apply IH. exact Hb1.
  - intro Hr. inversion Hr; subst s'. split; [exact Hb1|].
    destruct node; simpl in Hnext; try discriminate; simpl in Hexec.
    + destruct (finalize_spec w step s s1 Hexec) as (Hi & Hit & Hst).
      rewrite Hi. tauto.
    + inversion Hexec; subst s1.
      destruct (handle_error_spec s) as (Hi & Hit & Hst).
      rewrite Hi. split; [exact Hit|]. exists "FAILED".
      split; [exact Hst|]. apply final_status_in. tauto.
Qed.

(** The selection stage is entered again from the status check alone, on
    the replan decision, with an iteration below the maximum. *)
Lemma next_supervisor (node : Planner.Node.t) (s : Planner.PlannerState) :
  Planner.next node s = Some Planner.Node.supervisor ->
  node = Planner.Node.check_status
  /\ Planner._decide_next_action s = Planner.Action.replan
  /\ (Planner.iteration s < Planner.MAX_REPLANS)%Z.
Proof.
  destruct node; simpl; try discriminate.
  - destruct (Planner._should_use_ensemble s); discriminate.
  - unfold Planner._decide_next_action.
    destruct (negb _); [discriminate|].
    destruct (String.eqb _ "PASS"); [discriminate|].
    destruct (String.eqb _ "human_review"); [discriminate|].
    destruct (Planner.MAX_REPLANS <=? Planner.iteration s)%Z eqn:Ei;
      [discriminate|].
    apply Z.leb_gt in Ei. tauto.
Qed.

(** ** Runs of the graph *)

Lemma route_without_error (s : Planner.PlannerState) :
  Planner._should_use_ensemble s <> Planner.Route.error ->
  Planner.error s = "".
Proof.
  unfold Planner._should_use_ensemble.
  destruct (String.eqb (Planner.error s) "") eqn:E; simpl; [|congruence].
  intros _. apply String.eqb_eq. exact E.
Qed.

Lemma on_track_next (w : World) (step : nat) (node node' : Planner.Node.t)
  (s s' : Planner.PlannerState) :
  Invariant.on_track step node s ->
  Planner.exec w step node s = Returned s' ->
  Planner.next node s' = Some node' ->
  Invariant.on_track (S step) node' s'.
Proof.
  unfold Invariant.on_track. intros [Hpass Hfact] Hexec Hnext.
  destruct node;
    cbv beta iota delta [Invariant.closing Invariant.offset] in Hpass;
    simpl in Hfact, Hexec, Hnext; try discriminate.
  - (* supervisor *)
    inversion Hexec; subst s'. inversion Hnext; subst node'.
    cbv beta iota delta [Invariant.closing Invariant.offset].
    destruct (supervisor_frame w step s) as [Hi Hd]. rewrite Hi.
    split; [split; [tauto|lia]|exact Hd].
  - (* discover_agents *)
    inversion Hnext; subst node'.
    cbv beta iota delta [Invariant.closing Invariant.offset].
    rewrite (discover_frame w step s s' Hexec).
    split; [split; [tauto|lia]|exact I].
  - (* route_decision *)
    inversion Hexec; subst s'.
    pose proof (route_without_error (Planner._route_decision_node s)) as Herr.
    destruct (route_decision_frame s) as (Hi & _).
    destruct (Planner._should_use_ensemble (Planner._route_decision_node s));
      inversion Hnext; subst node';
      cbv beta iota delta [Invariant.closing Invariant.offset]; rewrite Hi.
    + split; [split; [tauto|lia]|]. apply Herr. discriminate.
    + split; [split; [tauto|lia]|]. apply Herr. discriminate.
    + split; [split; lia|exact I].
  - (* route_simple *)
    inversion Hexec; subst s'. inversion Hnext; subst node'.
    cbv beta iota delta [Invariant.closing Invariant.offset].
    destruct (route_simple_frame s) as [Hi He]. rewrite Hi, He.
    split; [split; [tauto|lia]|exact Hfact].
  - (* route_ensemble *)
    inversion Hexec; subst s'. inversion Hnext; subst node'.
    cbv beta iota delta [Invariant.closing Invariant.offset].
    destruct (route_ensemble_frame s) as [Hi He]. rewrite Hi, He.
    split; [split; [tauto|lia]|exact Hfact].
  - (* execute_tasks *)
    inversion Hexec; subst s'. inversion Hnext; subst node'.
    cbv beta iota delta [Invariant.closing Invariant.offset].
    destruct (execute_frame w step s) as [Hi He]. rewrite Hi.
    split; [split; [tauto|lia]|]. intro Hres. rewrite (He Hres). exact Hfact.
  - (* reflection *)
    inversion Hexec; subst s'. inversion Hnext; subst node'.
    cbv beta iota delta [Invariant.closing Invariant.offset].
    destruct (reflection_frame w step s) as (Hi & _ & _). rewrite Hi.
    split; [split; [tauto|lia]|exact I].
  - (* check_status *)
    inversion Hexec; subst s'.
    destruct (check_status_spec s) as (_ & Hs & Hr & Hi & Hinc).
    set (s1 := Planner._check_status_node s) in *.
    unfold Planner._decide_next_action in Hnext.
    unfold Planner.MAX_REPLANS in *.
    destruct (negb (String.eqb (Planner.error s1) ""));
      [inversion Hnext; subst node';
       cbv beta iota delta [Invariant.closing Invariant.offset];
       split; [destruct Hi as [Hi|(_ & _ & Hlt & Hi)]; lia|exact I]|].
    rewrite Hs, Hr in Hnext.
    destruct (String.eqb (Planner.verification_status s) "PASS") eqn:Es.
    { inversion Hnext; subst node'.
      cbv beta iota delta [Invariant.closing Invariant.offset].
      split; [|exact I].
      apply String.eqb_eq in Es. destruct Hi as [Hi|Hi]; [lia|tauto]. }
    destruct (String.eqb (Planner.verification_recommendation s) "human_review")
      eqn:Er.
    { inversion Hnext; subst node'.
      cbv beta iota delta [Invariant.closing Invariant.offset].
      split; [|exact I].
      apply String.eqb_eq in Er. destruct Hi as [Hi|Hi]; [lia|tauto]. }
    destruct (3 <=? Planner.iteration s1)%Z eqn:Ei;
      inversion Hnext; subst node';
      cbv beta iota delta [Invariant.closing Invariant.offset];
      (split; [|exact I]).
    + destruct Hi as [Hi|(_ & _ & Hlt & Hi)]; lia.
    + apply Z.leb_gt in Ei. apply String.eqb_neq in Es, Er.
      assert (Hlt : (Planner.iteration s < 3)%Z) by lia.
      specialize (Hinc Es Er Hlt). lia.
Qed.

Lemma reaches_on_track (w : World) (request : ClassificationRequest.t)
  (step : nat) (node : Planner.Node.t) (s : Planner.PlannerState) :
  Invariant.reaches w request step node s -> Invariant.on_track step node s.
Proof.
  induction 1 as [|step node node' s s' _ IH Hexec Hnext].
  - unfold Invariant.on_track.
    cbv beta iota delta [Invariant.closing Invariant.offset].
    split; [split; [left; reflexivity|reflexivity]|exact I].
  - eapply on_track_next; eassumption.
Qed.

Lemma on_track_step (step : nat) (node : Planner.Node.t)
  (s : Planner.PlannerState) :
  Invariant.on_track step node s -> (step <= 15)%nat.
Proof.
  unfold Invariant.on_track. intros [Hpass _].
  destruct node;
    cbv beta iota delta [Invariant.closing Invariant.offset] in Hpass; lia.
Qed.

(** The run of the entry point passes through every state that it
    reaches, with what is left of its step budget. *)
Lemma run_from_reached (w : World) (request : ClassificationRequest.t)
  (step : nat) (node : Planner.Node.t) (s : Planner.PlannerState) :
  Invariant.reaches w request step node s ->
  Planner.ainvoke w (Planner.initial_state w request)
  = Planner.run w (S Planner.recursion_limit - step) step node s.
Proof.
  induction 1 as [|step node node' s s' Hreach IH Hexec Hnext].
  - reflexivity.
  - rewrite IH.
    pose proof (on_track_step _ _ _ (reaches_on_track _ _ _ _ _ Hreach)) as Hs.
    unfold Planner.recursion_limit in *.
    replace (26 - step)%nat with (S (26 - S step))%nat by lia.
    simpl Planner.run. rewrite Hexec. simpl. rewrite Hnext. reflexivity.
Qed.

(** ** The mismatch verdict *)

Lemma check_status_keeps (s : Planner.PlannerState) :
  Planner.results (Planner._check_status_node s) = Planner.results s
  /\ Planner.mismatch_warning (Planner._check_status_node s)
     = Planner.mismatch_warning s.
Proof.
  unfold Planner._check_status_node.
  destruct (String.eqb _ "PASS"); [split; reflexivity|].
  destruct (String.eqb _ "human_review"); [split; reflexivity|].
  destruct (_ <=? _)%Z; split; reflexivity.
Qed.

(** What the reflection leaves in the state when the judge flags a
    mismatch. *)
Lemma reflection_mismatch (w : World) (step : nat) (s : Planner.PlannerState)
  (response : ShouldContinue.t) :
  Planner.results s <> [] ->
  llm w = true ->
  reflect w step (Planner.results s) = Returned (Some response) ->
  ShouldContinue.mismatch_detected response = true ->
  let s' := Planner._reflection_node w step s in
  Planner.verification_status s' = "PASS"
  /\ Planner.verification_recommendation s' = "success"
  /\ Planner.mismatch_warning s' = Some (ShouldContinue.reason response).
Proof.
  intros Hres Hllm Hreflect Hmismatch.
  unfold Planner._reflection_node.
  destruct (Planner.results s) eqn:Er; [congruence|].
  rewrite Hllm, Hreflect, Hmismatch. repeat split.
Qed.

(** The response to a verification that passed with results. *)
Lemma finalize_accepts (w : World) (step : nat) (s : Planner.PlannerState) :
  Planner.verification_status s = "PASS" ->
  Planner.results s <> [] ->
  exists s',
    Planner._finalize_response_node w step s = Returned s'
    /\ match Planner.mismatch_warning s with
       | Some warning =>
           if String.eqb warning "" then
             Observe.status (Planner.final_response s')
             = Some (VStr "COMPLETED")
             /\ Py.get (Planner.final_response s') "mismatch_warning" = None
           else
             Observe.status (Planner.final_response s')
             = Some (VStr "COMPLETED_WITH_WARNING")
             /\ Py.get (Planner.final_response s') "mismatch_warning"
                = Some (VStr warning)
       | None =>
           Observe.status (Planner.final_response s')
           = Some (VStr "COMPLETED")
           /\ Py.get (Planner.final_response s') "mismatch_warning" = None
       end.
Proof.
  intros Hpass Hres. unfold Planner._finalize_response_node.
  rewrite Hpass. simpl String.eqb.
  destruct (Planner.results s) as [|first rest] eqn:Er; [congruence|].
  cbv beta iota delta [andb].
  assert (Hfinal : exists final_result,
             match first :: rest with
             | [r] => Returned r
             | _ => Verifier.get_ensemble_result Planner.verifier
                      (first :: rest)
             end = Returned final_result).
  { destruct rest as [|second rest]; [eexists; reflexivity|].
    destruct (ensemble_result_spec
                (Verifier.ensemble_voter Planner.verifier) first
                (second :: rest)) as (majority & avg & _ & _ & Hens).
    eexists. exact Hens. }
  destruct Hfinal as [final_result Hfinal]. rewrite Hfinal.
  cbv beta iota delta [bind].
  destruct (Planner.mismatch_warning s) as [warning|];
    [destruct (String.eqb warning "")|];
    eexists; (split; [reflexivity|]); split; reflexivity.
Qed.

(** The response to the decision that the replans are exhausted. *)
Lemma finalize_exhausted (w : World) (step : nat) (s : Planner.PlannerState) :
  Planner._decide_next_action s = Planner.Action.max_replans ->
  exists s',
    Planner._finalize_response_node w step s = Returned s'
    /\ Observe.status (Planner.final_response s')
       = Some (VStr "INCONCLUSIVE")
    /\ Py.get (Planner.final_response s') "error"
       = Some (VStr "MAX_REPLANS_EXCEEDED")
    /\ Py.get (Planner.final_response s') "mismatch_warning" = None.
Proof.
  unfold Planner._decide_next_action, Planner._finalize_response_node.
  destruct (negb _); [discriminate|].
  destruct (String.eqb (Planner.verification_status s) "PASS");
    [discriminate|].
  destruct (String.eqb (Planner.verification_recommendation s) "human_review");
    [discriminate|].
  destruct (Planner.MAX_REPLANS <=? Planner.iteration s)%Z; [|discriminate].
  intros _. simpl. eexists. split; [reflexivity|]. repeat split.
Qed.

(** From the reflection on which the judge flags a mismatch the run goes
    through the status check to the final response. *)
Lemma mismatch_closes (w : World) (step budget : nat)
  (s : Planner.PlannerState) (response : ShouldContinue.t) :
  Planner.results s <> [] ->
  Planner.error s = "" ->
  llm w = true ->
  reflect w step (Planner.results s) = Returned (Some response) ->
  ShouldContinue.mismatch_detected response = true ->
  Planner._decide_next_action
    (Planner._check_status_node (Planner._reflection_node w step s))
  = Planner.Action.success
  /\ exists s',
       Planner.run w (3 + budget) step Planner.Node.reflection s = Returned s'
       /\ if String.eqb (ShouldContinue.reason response) "" then
            Observe.status (Planner.final_response s')
            = Some (VStr "COMPLETED")
            /\ Py.get (Planner.final_response s') "mismatch_warning" = None
          else
            Observe.status (Planner.final_response s')
            = Some (VStr "COMPLETED_WITH_WARNING")
            /\ Py.get (Planner.final_response s') "mismatch_warning"
               = Some (VStr (ShouldContinue.reason response)).
Proof.
  intros Hres Herr Hllm Hreflect Hmismatch.
  destruct (reflection_mismatch w step s response Hres Hllm Hreflect Hmismatch)
    as (Hstatus & Hrec & Hwarn).
  destruct (reflection_frame w step s) as (_ & Herr1 & Hres1).
  set (s1 := Planner._reflection_node w step s) in *.
  destruct (check_status_spec s1) as (Herr2 & Hstatus2 & _).
  destruct (check_status_keeps s1) as (Hres2 & Hwarn2).
  set (s2 := Planner._check_status_node s1) in *.
  assert (Hdecide : Planner._decide_next_action s2 = Planner.Action.success).
  { unfold Planner._decide_next_action.
    rewrite Herr2, Herr1, Herr, Hstatus2, Hstatus. reflexivity. }
  split; [exact Hdecide|].
  destruct (finalize_accepts w (S (S step)) s2) as (s3 & Hfin & Hresp).
  { rewrite Hstatus2. exact Hstatus. }
  { rewrite Hres2, Hres1. exact Hres. }
  exists s3. split.
  - change (3 + budget)%nat with (S (S (S budget))).
    simpl Planner.run. fold s1. simpl bind. fold s2.
    rewrite Hdecide. simpl. rewrite Hfin. reflexivity.
  - rewrite Hwarn2, Hwarn in Hresp. exact Hresp.
Qed.

(** ** Termination *)

Lemma finalize_returns (w : World) (step : nat) (s : Planner.PlannerState) :
  exists s', Planner._finalize_response_node w step s = Returned s'.
Proof.
  destruct (String.eqb (Planner.verification_status s) "PASS") eqn:Es.
  - destruct (Planner.results s) as [|first rest] eqn:Er.
    + unfold Planner._finalize_response_node. rewrite Es, Er.
      cbv beta iota delta [andb].
      destruct (String.eqb _ "human_review");
        [|destruct (_ <=? _)%Z]; eexists; reflexivity.
    + apply String.eqb_eq in Es.
      destruct (finalize_accepts w step s Es) as (s' & Hs' & _);
        [congruence|]. exists s'. exact Hs'.
  - unfold Planner._finalize_response_node. rewrite Es.
    cbv beta iota delta [andb].
    destruct (String.eqb _ "human_review");
      [|destruct (_ <=? _)%Z]; eexists; reflexivity.
Qed.

Lemma exec_returns (w : World) (step : nat) (node : Planner.Node.t)
  (s : Planner.PlannerState) :
  Invariant.on_track step node s ->
  exists s', Planner.exec w step node s = Returned s'.
Proof.
  intros [_ Hfact]. destruct node; simpl; try (eexists; reflexivity).
  - apply discover_returns. exact Hfact.
  - apply finalize_returns.
Qed.

(** A run that is on track returns within the steps that are left up to
    step 15. *)
Lemma run_returns (w : World) :
  forall (budget step : nat) (node : Planner.Node.t) (s : Planner.PlannerState),
    Invariant.on_track step node s ->
    (16 - step <= budget)%nat ->
    exists s', Planner.run w budget step node s = Returned s'.
Proof.
  induction budget as [|budget IH]; intros step node s Htrack Hbudget.
  - apply on_track_step in Htrack. lia.
  - destruct (exec_returns w step node s Htrack) as [s1 Hexec].
    simpl. rewrite Hexec. simpl.
    destruct (Planner.next node s1) as [node'|] eqn:Hnext;
      [|eexists; reflexivity].
    apply IH; [|lia]. eapply on_track_next; eassumption.
Qed.

Lemma graph_returns (w : World) (request : ClassificationRequest.t) :
  exists final_state,
    Planner.ainvoke w (Planner.initial_state w request)
    = Returned final_state.
Proof.
  apply run_returns.
  - exact (reaches_on_track w request _ _ _ (Invariant.reaches_start w request)).
  - unfold Planner.recursion_limit. lia.
Qed.

(** ** The orchestration loop *)

(** On a run the selection stage is entered at the start, and after that
    only from a status check that decided to replan. *)
Lemma selection_entered (w : World) (request : ClassificationRequest.t)
  (step : nat) (s : Planner.PlannerState) :
  Invariant.reaches w request step Planner.Node.supervisor s ->
  (step = 1%nat /\ s = Planner.initial_state w request)
  \/ exists step0 s0,
       step = S step0
       /\ Invariant.reaches w request step0 Planner.Node.check_status s0
       /\ s = Planner._check_status_node s0
       /\ Planner._decide_next_action s = Planner.Action.replan
       /\ (Planner.iteration s < Planner.MAX_REPLANS)%Z.
Proof.
  intro Hreach. inversion Hreach as [|step0 node node' s0 s' Hprev Hexec Hnext];
    subst; [left; split; reflexivity|right].
  destruct (next_supervisor node s Hnext) as (Hnode & Hdecide & Hbound).
  subst node. simpl in Hexec. inversion Hexec; subst s.
  exists step0, s0. repeat split; assumption.
Qed.

(** C1.  The iteration counter starts at 1.  A node leaves it as it is,
    except the status check in its replan branch (the verification has not
    passed, no human review is asked for, the counter is below
    MAX_REPLANS), which adds one.  The selection stage is entered again
    only from the status check, on the replan decision and with a counter
    below MAX_REPLANS: a run enters the selection at its start and, after
    that, only in this way.  Every final response reports an iteration
    count between 0 and MAX_REPLANS. *)
Theorem replanning_is_bounded :
  Planner.MAX_REPLANS = 3%Z
  /\ (forall w request,
        Planner.iteration (Planner.initial_state w request) = 1%Z)
  /\ (forall w step node s s',
        Planner.exec w step node s = Returned s' ->
        Planner.iteration s' = Planner.iteration s
        \/ (node = Planner.Node.check_status
            /\ Planner.verification_status s <> "PASS"
            /\ Planner.verification_recommendation s <> "human_review"
            /\ (Planner.iteration s < Planner.MAX_REPLANS)%Z
            /\ Planner.iteration s' = (Planner.iteration s + 1)%Z))
  /\ (forall node s,
        Planner.next node s = Some Planner.Node.supervisor ->
        node = Planner.Node.check_status
        /\ Planner._decide_next_action s = Planner.Action.replan
        /\ (Planner.iteration s < Planner.MAX_REPLANS)%Z)
  /\ (forall w request step s,
        Invariant.reaches w request step Planner.Node.supervisor s ->
        (step = 1%nat /\ s = Planner.initial_state w request)
        \/ exists step0 s0,
             step = S step0
             /\ Invariant.reaches w request step0 Planner.Node.check_status s0
             /\ s = Planner._check_status_node s0
             /\ Planner._decide_next_action s = Planner.Action.replan
             /\ (Planner.iteration s < Planner.MAX_REPLANS)%Z)
  /\ (forall w request,
        exists i,
          Observe.iterations (Planner.plan_and_execute w request)
          = Some (VInt i)
          /\ (0 <= i <= Planner.MAX_REPLANS)%Z).
Proof.
  split; [reflexivity|]. split; [reflexivity|].
  split; [exact exec_iteration|]. split; [exact next_supervisor|].
  split; [exact selection_entered|].
  intros w request.
  unfold Planner.plan_and_execute, Planner.respond, Planner.ainvoke.
  destruct (Planner.run w Planner.recursion_limit 1 Planner.Node.supervisor
              (Planner.initial_state w request)) as [final_state|e] eqn:Hrun.
  - apply run_closes in Hrun; [|simpl; unfold Planner.MAX_REPLANS; lia].
    destruct Hrun as (Hb & Hit & _).
    exists (Planner.iteration final_state). split; [exact Hit|lia].
  - exists 1%Z. split; [reflexivity|unfold Planner.MAX_REPLANS; lia].
Qed.

(** C2.  The entry point returns, for every request and whatever the
    directory, the agents and the language model do, a response whose
    status is one of COMPLETED, COMPLETED_WITH_WARNING, NEEDS_REVIEW,
    INCONCLUSIVE and FAILED.  The graph absorbs the failures of the
    discovery, of the agents and of the parsing: it returns a final state,
    within its recursion limit, whose response is the one handed back; and
    an exception that would leave the graph is answered with FAILED. *)
Theorem final_status_is_one_of_five :
  (forall w request,
      exists status,
        Observe.status (Planner.plan_and_execute w request)
        = Some (VStr status)
        /\ In status Observe.final_statuses)
  /\ (forall w request,
        exists final_state,
          Planner.ainvoke w (Planner.initial_state w request)
          = Returned final_state
          /\ Planner.plan_and_execute w request
             = Planner.final_response final_state)
  /\ (forall e,
        Observe.status (Planner.respond (Raised e)) = Some (VStr "FAILED")).
Proof.
  split; [|split].
  - intros w request.
    unfold Planner.plan_and_execute, Planner.respond, Planner.ainvoke.
    destruct (Planner.run w Planner.recursion_limit 1 Planner.Node.supervisor
                (Planner.initial_state w request)) as [final_state|e] eqn:Hrun.
    + apply run_closes in Hrun; [|simpl; unfold Planner.MAX_REPLANS; lia].
      destruct Hrun as (_ & _ & Hstatus). exact Hstatus.
    + exists "FAILED". split; [reflexivity|]. apply final_status_in. tauto.
  - intros w request. destruct (graph_returns w request) as [final_state Hrun].
    exists final_state. split; [exact Hrun|].
    unfold Planner.plan_and_execute, Planner.respond. rewrite Hrun.
    reflexivity.
  - intro e. reflexivity.
Qed.

(** ** The semantic overlay *)

(** A status check of the run that decides that the replans are exhausted
    is followed by the INCONCLUSIVE response. *)
Lemma exhausted_closes (w : World) (request : ClassificationRequest.t)
  (step : nat) (s : Planner.PlannerState) :
  Invariant.reaches w request step Planner.Node.check_status s ->
  Planner._decide_next_action (Planner._check_status_node s)
  = Planner.Action.max_replans ->
  Observe.status (Planner.plan_and_execute w request)
  = Some (VStr "INCONCLUSIVE")
  /\ Py.get (Planner.plan_and_execute w request) "mismatch_warning" = None.
Proof.
  intros Hreach Hdecide.
  pose proof (run_from_reached w request _ _ _ Hreach) as Hrun.
  destruct (reaches_on_track w request _ _ _ Hreach) as [[_ Hstep] _].
  cbv beta iota delta [Invariant.closing Invariant.offset] in Hstep.
  destruct (finalize_exhausted w (S step) _ Hdecide)
    as (s' & Hfin & Hstatus & _ & Hwarn).
  assert (Hbudget : exists budget,
             (S Planner.recursion_limit - step = 2 + budget)%nat).
  { exists (24 - step)%nat. unfold Planner.recursion_limit.
    destruct (reaches_on_track w request _ _ _ Hreach) as [[[Hi|Hi] _] _];
      rewrite Hi in Hstep; lia. }
  destruct Hbudget as [budget Hbudget]. rewrite Hbudget in Hrun.
  unfold Planner.plan_and_execute, Planner.respond. rewrite Hrun.
  change (2 + budget)%nat with (S (S budget)).
  simpl Planner.run. simpl bind. rewrite Hdecide. simpl. rewrite Hfin.
  simpl. split; assumption.
Qed.

(** C9 where the code keeps it.  When the judge flags a mismatch on a
    reflection of the run, with a reason that is not empty, the decision
    after the status check is success whatever the confidences are, and
    the final response has the status COMPLETED_WITH_WARNING and carries
    the reason as its mismatch warning.  The judge is asked only while the
    iteration is below MAX_REPLANS, and the response to exhausted replans
    is INCONCLUSIVE without a mismatch warning, whatever the state holds:
    so ends every run whose status check decides that they are
    exhausted. *)
Theorem mismatch_forces_accept :
  (forall w request step s response,
      Invariant.reaches w request step Planner.Node.reflection s ->
      Planner.results s <> [] ->
      llm w = true ->
      reflect w step (Planner.results s) = Returned (Some response) ->
      ShouldContinue.mismatch_detected response = true ->
      ShouldContinue.reason response <> "" ->
      Planner._decide_next_action
        (Planner._check_status_node (Planner._reflection_node w step s))
      = Planner.Action.success
      /\ Observe.status (Planner.plan_and_execute w request)
         = Some (VStr "COMPLETED_WITH_WARNING")
      /\ Py.get (Planner.plan_and_execute w request) "mismatch_warning"
         = Some (VStr (ShouldContinue.reason response)))
  /\ (forall w request step s,
        Invariant.reaches w request step Planner.Node.reflection s ->
        (Planner.iteration s < Planner.MAX_REPLANS)%Z)
  /\ (forall w step s,
        Planner._decide_next_action s = Planner.Action.max_replans ->
        exists s',
          Planner._finalize_response_node w step s = Returned s'
          /\ Observe.status (Planner.final_response s')
             = Some (VStr "INCONCLUSIVE")
          /\ Py.get (Planner.final_response s') "mismatch_warning" = None)
  /\ (forall w request step s,
        Invariant.reaches w request step Planner.Node.check_status s ->
        Planner._decide_next_action (Planner._check_status_node s)
        = Planner.Action.max_replans ->
        Observe.status (Planner.plan_and_execute w request)
        = Some (VStr "INCONCLUSIVE")
        /\ Py.get (Planner.plan_and_execute w request) "mismatch_warning"
           = None).
Proof.
  split; [|split; [|split; [|exact exhausted_closes]]].
  - intros w request step s response Hreach Hres Hllm Hreflect Hmis Hreason.
    pose proof (reaches_on_track w request _ _ _ Hreach) as Htrack.
    pose proof (run_from_reached w request _ _ _ Hreach) as Hrun.
    destruct Htrack as [[Hi Hstep] Herr].
    cbv beta iota delta [Invariant.closing Invariant.offset] in Hi, Hstep.
    simpl in Herr. specialize (Herr Hres).
    assert (Hbudget : exists budget,
               (S Planner.recursion_limit - step = 3 + budget)%nat).
    { exists (23 - step)%nat. unfold Planner.recursion_limit. lia. }
    destruct Hbudget as [budget Hbudget]. rewrite Hbudget in Hrun.
    destruct (mismatch_closes w step budget s response Hres Herr Hllm
                Hreflect Hmis) as (Hdecide & s' & Hclose & Hresp).
    split; [exact Hdecide|].
    unfold Planner.plan_and_execute, Planner.respond. rewrite Hrun, Hclose.
    apply String.eqb_neq in Hreason. rewrite Hreason in Hresp. exact Hresp.
  - intros w request step s Hreach.
    destruct (reaches_on_track w request _ _ _ Hreach) as [[Hi _] _].
    cbv beta iota delta [Invariant.closing] in Hi.
    unfold Planner.MAX_REPLANS. lia.
  - intros w step s Hdecide.
    destruct (finalize_exhausted w step s Hdecide)
      as (s' & Hfin & Hstatus & _ & Hwarn).
    exists s'. tauto.
Qed.

End PlannerProperties.

(** A failed verification on the first iteration: the status check adds
    one to the counter and the graph goes back to the selection. *)
Lemma replanning_is_bounded_witness :
  let failed :=
    Planner.set_verification_recommendation
      (Planner.set_verification_status
         (Planner.initial_state
            (Sample.world 2 "Label: cat" (Sample.judged true false "again"))
            Sample.request)
         "FAIL")
      "replan" in
  Planner.iteration (Planner._check_status_node failed) = 2%Z
  /\ Planner._decide_next_action (Planner._check_status_node failed)
     = Planner.Action.replan
  /\ (Planner.iteration (Planner._check_status_node failed)
      < Planner.MAX_REPLANS)%Z.
Proof.
  intro failed. split; [reflexivity|].
  pose proof (@replanning_is_bounded Sample.platform)
    as (_ & _ & _ & Hnext & _ & _).
  destruct (Hnext Planner.Node.check_status (Planner._check_status_node failed))
    as (_ & Hdecide & Hbound); [reflexivity|].
  split; [exact Hdecide|exact Hbound].
Defined.

(** C9 at its failing input: a judge that flags a mismatch and gives an
    empty reason.  The reflection accepts the results and records the
    reason, empty as it is, as the mismatch warning of the state; yet the
    response is COMPLETED and carries no mismatch warning, because the
    final node reads the warning by its truth value, which an empty text
    does not have. *)
Lemma mismatch_without_reason :
  let w := Sample.world 2 "Label: cat" (Sample.judged false true "") in
  llm w = true
  /\ (forall step results,
        exists response,
          reflect w step results = Returned (Some response)
          /\ ShouldContinue.mismatch_detected response = true)
  /\ (exists s,
        Invariant.reaches (H := Sample.platform) w Sample.request 6
          Planner.Node.reflection s
        /\ Planner.mismatch_warning
             (Planner._reflection_node (H := Sample.platform) w 6 s)
           = Some ""
        /\ Planner.verification_recommendation
             (Planner._reflection_node (H := Sample.platform) w 6 s)
           = "success")
  /\ Observe.status
       (Planner.plan_and_execute (H := Sample.platform) w Sample.request)
     = Some (VStr "COMPLETED")
  /\ Py.get (Planner.plan_and_execute (H := Sample.platform) w Sample.request)
       "mismatch_warning" = None.
Proof.
  intro w. split; [reflexivity|]. split.
  - intros step results. eexists. split; reflexivity.
  - split.
    + eexists. split.
      * eapply Invariant.reaches_next;
          [eapply Invariant.reaches_next;
            [eapply Invariant.reaches_next;
              [eapply Invariant.reaches_next;
                [eapply Invariant.reaches_next;
                  [apply Invariant.reaches_start|reflexivity|reflexivity]
                |reflexivity|reflexivity]
              |reflexivity|reflexivity]
            |reflexivity|reflexivity]
          |reflexivity|reflexivity].
      * split; vm_compute; reflexivity.
    + split; vm_compute; reflexivity.
Qed.

(** A judge that flags a mismatch on one result of confidence 0.8. *)
Lemma mismatch_forces_accept_witness :
  let w := Sample.world 2 "Label: cat" (Sample.judged false true "not medical") in
  Observe.status
    (Planner.plan_and_execute (H := Sample.platform) w Sample.request)
  = Some (VStr "COMPLETED_WITH_WARNING")
  /\ Py.get (Planner.plan_and_execute (H := Sample.platform) w Sample.request)
       "mismatch_warning" = Some (VStr "not medical").
Proof.
  intro w.
  pose proof (@mismatch_forces_accept Sample.platform) as (Hflag & _).
  eapply proj2.
  eapply (Hflag w Sample.request 6%nat _
            {| ShouldContinue.should_continue := false;
               ShouldContinue.reason := "not medical";
               ShouldContinue.mismatch_detected := true |}).
  - eapply Invariant.reaches_next;
      [eapply Invariant.reaches_next;
        [eapply Invariant.reaches_next;
          [eapply Invariant.reaches_next;
            [eapply Invariant.reaches_next;
              [apply Invariant.reaches_start|reflexivity|reflexivity]
            |reflexivity|reflexivity]
          |reflexivity|reflexivity]
        |reflexivity|reflexivity]
      |reflexivity|reflexivity].
  - vm_compute. discriminate.
  - reflexivity.
  - reflexivity.
  - reflexivity.
  - simpl. discriminate.
Defined.

(** ** The verifier of the planner *)

Section VerifierReports.
Context `{Platform}.

(** The report of a verifier that neither votes nor tests stability: the
    gate on the first result, aggregated. *)
Lemma gate_only_report (v : Verifier.t) (primary : ClassificationResult.t)
  (others : list ClassificationResult.t) (request : ClassificationRequest.t) :
  VerificationConfig.enable_ensemble_voting (Verifier.config v) = false ->
  let test := ConfidenceGate.verify (Verifier.confidence_gate v) primary in
  Verifier.verify v (primary :: others) request None None
  = Returned
      {| VerificationReport.request_id :=
           ClassificationRequest.request_id request;
         VerificationReport.status :=
           fst (fst (Verifier._aggregate_results [test]));
         VerificationReport.tests_performed := [test];
         VerificationReport.primary_result := Some primary;
         VerificationReport.ensemble_results :=
           if (1 <? List.length (primary :: others))%nat
           then Some (primary :: others) else None;
         VerificationReport.disagreement_analysis := None;
         VerificationReport.recommendation :=
           snd (fst (Verifier._aggregate_results [test]));
         VerificationReport.notes :=
           snd (Verifier._aggregate_results [test]) |}.
Proof.
  intros Hvote test.
  unfold Verifier.verify.
  rewrite Hvote, Bool.andb_false_r.
  cbn [bind fst snd].
  assert (Hskip :
    match VerificationConfig.enable_augmentation_test (Verifier.config v),
          Verifier.nonempty_str None, @None SlimClient with
    | true, Some url, Some client =>
        ([test] ++ [AugmentationStabilityTester.verify
                      (Verifier.augmentation_tester v) primary url
                      (ImageSource.presigned_url
                         (ClassificationRequest.image request))
                      (Some client)])%list
    | _, _, _ => [test]
    end = [test]).
  { destruct (VerificationConfig.enable_augmentation_test (Verifier.config v));
      reflexivity. }
  fold test.
  rewrite Hskip.
  destruct (Verifier._aggregate_results [test]) as [[status recommendation] notes].
  reflexivity.
Qed.

(** X1.  The verifier that the planner builds reads, of a result list that
    is not empty, the confidence of the first result alone: it performs the
    confidence gate and nothing else, and its report passes and accepts from
    0.75 on, fails towards the ensemble from 0.6 to 0.75 and fails towards
    human review below 0.6, whatever the other results are. *)
Theorem planner_verifier_reads_first_confidence
  (primary : ClassificationResult.t) (others : list ClassificationResult.t)
  (request : ClassificationRequest.t) :
  exists report,
    Verifier.verify Planner.verifier (primary :: others) request None None
    = Returned report
    /\ VerificationReport.tests_performed report
       = [ConfidenceGate.verify ConfidenceGate.default primary]
    /\ VerificationReport.primary_result report = Some primary
    /\ VerificationReport.disagreement_analysis report = None
    /\ let c := ClassificationResult.confidence primary in
       ((0.75 <= c)%Q ->
        VerificationReport.status report = VerificationStatus.PASS
        /\ VerificationReport.recommendation report
           = VerificationRecommendation.ACCEPT
        /\ VerificationReport.notes report
           = "All 1 verification tests passed.")
       /\ ((0.6 <= c)%Q /\ (c < 0.75)%Q ->
           VerificationReport.status report = VerificationStatus.FAIL
           /\ VerificationReport.recommendation report
              = VerificationRecommendation.REPLAN_ENSEMBLE
           /\ VerificationReport.notes report
              = "1 test(s) failed: ['confidence_threshold']")
       /\ ((c < 0.6)%Q ->
           VerificationReport.status report = VerificationStatus.FAIL
           /\ VerificationReport.recommendation report
              = VerificationRecommendation.HUMAN_REVIEW
           /\ VerificationReport.notes report
              = "1 test(s) failed: ['confidence_threshold']").
Proof.
  eexists. split.
  { apply (gate_only_report Planner.verifier primary others request).
    reflexivity. }
  cbn [VerificationReport.tests_performed VerificationReport.primary_result
       VerificationReport.disagreement_analysis VerificationReport.status
       VerificationReport.recommendation VerificationReport.notes].
  change (Verifier.confidence_gate Planner.verifier)
    with ConfidenceGate.default.
  repeat (split; [reflexivity|]).
  unfold ConfidenceGate.verify.
  change (ConfidenceGate.pass_threshold ConfidenceGate.default) with 0.75%Q.
  change (ConfidenceGate.uncertain_threshold ConfidenceGate.default)
    with 0.6%Q.
  split; [|split].
  - intro Hc. apply Qle_bool_true in Hc. rewrite Hc.
    repeat split; reflexivity.
  - intros [Hlow Hhigh].
    apply Qle_bool_true in Hlow. apply Qle_bool_false in Hhigh.
    rewrite Hhigh, Hlow. repeat split; reflexivity.
  - intro Hc.
    assert (Hhigh : (ClassificationResult.confidence primary < 0.75)%Q).
    { eapply Qlt_trans; [exact Hc|]. reflexivity. }
    apply Qle_bool_false in Hc. apply Qle_bool_false in Hhigh.
    rewrite Hhigh, Hc. repeat split; reflexivity.
Qed.

End VerifierReports.

Section VerifierTests.
Context `{Platform}.

Lemma gate_not_skipped (g : ConfidenceGate.t) (r : ClassificationResult.t) :
  VerificationTest.result (ConfidenceGate.verify g r)
  <> VerificationTestResult.SKIP.
Proof.
  unfold ConfidenceGate.verify.
  destruct (Qle_bool (ConfidenceGate.pass_threshold g)
              (ClassificationResult.confidence r));
    [|destruct (Qle_bool (ConfidenceGate.uncertain_threshold g)
                  (ClassificationResult.confidence r))];
    discriminate.
Qed.

Lemma vote_not_skipped (self : EnsembleVoter.t)
  (results : list ClassificationResult.t) (t : VerificationTest.t)
  (d : option DisagreementAnalysis.t) :
  (2 <= List.length results)%nat ->
  EnsembleVoter.verify self results = Returned (t, d) ->
  VerificationTest.result t <> VerificationTestResult.SKIP.
Proof.
  intros Hlen Hv.
  destruct (ensemble_verify_spec self results Hlen)
    as (majority & avg & _ & _ & _ & Heq).
  cbv zeta in Heq. rewrite Heq in Hv.
  inversion Hv as [[Ht Hd]].
  destruct (Qle_bool _ _); discriminate.
Qed.

Lemma stability_not_skipped (a : AugmentationStabilityTester.t)
  (r : ClassificationResult.t) (url : string) (image : option string)
  (client : SlimClient) :
  VerificationTest.result
    (AugmentationStabilityTester.verify a r url image (Some client))
  <> VerificationTestResult.SKIP.
Proof.
  unfold AugmentationStabilityTester.verify.
  destruct (apply_transforms_to_url image _) as [images|e];
    [|discriminate].
  destruct (fold_left _ images _) as [stable_count results].
  destruct (Qle_bool _ _); discriminate.
Qed.

(** X2.  No test of a report was skipped: the verifier asks for the vote
    only on two results or more and for the stability test only with a
    client, so that the SKIP outcomes of the two never reach a report, and
    every test performed has passed or failed. *)
Theorem report_tests_pass_or_fail (v : Verifier.t)
  (results : list ClassificationResult.t) (request : ClassificationRequest.t)
  (agent_url : option string) (slim_client : option SlimClient) :
  exists report,
    Verifier.verify v results request agent_url slim_client = Returned report
    /\ forall t, In t (VerificationReport.tests_performed report) ->
         VerificationTest.result t = VerificationTestResult.PASS
         \/ VerificationTest.result t = VerificationTestResult.FAIL.
Proof.
  assert (Hcases : forall t : VerificationTest.t,
            VerificationTest.result t <> VerificationTestResult.SKIP ->
            VerificationTest.result t = VerificationTestResult.PASS
            \/ VerificationTest.result t = VerificationTestResult.FAIL).
  { intros t Ht. destruct (VerificationTest.result t); auto.
    now destruct Ht. }
  destruct results as [|primary others].
  { eexists. split; [reflexivity|]. intros t []. }
  unfold Verifier.verify.
  set (gate := ConfidenceGate.verify (Verifier.confidence_gate v) primary).
  assert (Hvote : exists vote d,
    (if (1 <? List.length (primary :: others))%nat
        && VerificationConfig.enable_ensemble_voting (Verifier.config v)
     then
       r <- EnsembleVoter.verify (Verifier.ensemble_voter v)
              (primary :: others) ;;
       Returned (([gate] ++ [fst r])%list, snd r)
     else Returned ([gate], None))
    = Returned ((gate :: vote)%list, d)
    /\ forall t, In t vote ->
         VerificationTest.result t <> VerificationTestResult.SKIP).
  { destruct ((1 <? List.length (primary :: others))%nat
              && VerificationConfig.enable_ensemble_voting (Verifier.config v))
      eqn:Hon.
    - apply Bool.andb_true_iff in Hon. destruct Hon as [Hlen _].
      apply Nat.ltb_lt in Hlen.
      destruct (ensemble_verify_named (Verifier.ensemble_voter v)
                  (primary :: others)) as (t & d & Heq & _).
      exists [t], d. rewrite Heq. split; [reflexivity|].
      intros t' [<-|[]].
      eapply vote_not_skipped; [|exact Heq]. lia.
    - exists [], None. split; [reflexivity|]. intros t []. }
  destruct Hvote as (vote & d & -> & Hvote).
  cbn [bind fst snd].
  set (tests :=
    match VerificationConfig.enable_augmentation_test (Verifier.config v),
          Verifier.nonempty_str agent_url, slim_client with
    | true, Some url, Some client => _
    | _, _, _ => _
    end).
  assert (Htests : forall t, In t tests ->
            VerificationTest.result t <> VerificationTestResult.SKIP).
  { subst tests. intros t Hin.
    assert (Hbase : forall t, In t (gate :: vote) ->
              VerificationTest.result t <> VerificationTestResult.SKIP).
    { intros t' [<-|Hin']; [apply gate_not_skipped|auto]. }
    destruct (VerificationConfig.enable_augmentation_test (Verifier.config v));
      [|auto].
    destruct (Verifier.nonempty_str agent_url); [|auto].
    destruct slim_client; [|auto].
    apply in_app_or in Hin. destruct Hin as [Hin|[<-|[]]]; [auto|].
    apply stability_not_skipped. }
  destruct (Verifier._aggregate_results tests) as [[status recommendation] notes].
  eexists. split; [reflexivity|].
  cbn [VerificationReport.tests_performed]. auto.
Qed.

End VerifierTests.

(** ** The stability test *)

Section StabilityProperties.
Context `{Platform}.

(** The re-classification loop counts the images that keep the label. *)
Lemma reclassify_counts (client : SlimClient) (agent_url : string)
  (result : ClassificationResult.t) (images : list (string * string)) :
  forall acc : nat * list pyval,
    fst (fold_left
           (AugmentationStabilityTester.reclassify client agent_url result)
           images acc)
    = (fst acc + Tally.stable_count client agent_url result images)%nat.
Proof.
  unfold Tally.stable_count.
  induction images as [|[b64 name] rest IH]; intro acc.
  - simpl. lia.
  - cbn [fold_left filter]. rewrite IH.
    assert (Hone :
      fst (AugmentationStabilityTester.reclassify client agent_url result acc
             (b64, name))
      = (fst acc
         + if Tally.stable client agent_url result (b64, name)
           then 1 else 0)%nat).
    { unfold AugmentationStabilityTester.reclassify, Tally.stable.
      cbn [fst snd].
      destruct (send_task client agent_url _) as [aug|e];
        [|cbv iota; lia].
      destruct (AugmentationStabilityTester.eq_str _ _); simpl fst; lia. }
    rewrite Hone.
    destruct (Tally.stable client agent_url result (b64, name));
      cbn [List.length]; lia.
Qed.

Lemma stability_rate_threshold (k : nat) :
  Qle_bool 0.67 (inject_Z (Z.of_nat k) / inject_Z 3) = true <-> (3 <= k)%nat.
Proof.
  rewrite Qle_bool_true.
  unfold Qle, Qdiv, Qmult, Qinv, inject_Z. simpl.
  lia.
Qed.

(** X3.  With a client and transformed images, the stability test counts
    the images for which the agent returns the label of the result, a call
    that raises counting as a change of label, and compares the count over
    the three standard transforms with its threshold: at or above it the
    test passes and recommends accept, below it the test fails and
    recommends other agents.  With the threshold 0.67 the test passes only
    when three images keep the label: two out of three fail it. *)
Theorem stability_counts_kept_labels (self : AugmentationStabilityTester.t)
  (result : ClassificationResult.t) (agent_url : string)
  (image_url : option string) (client : SlimClient)
  (images : list (string * string)) :
  apply_transforms_to_url image_url
    AugmentationStabilityTester.get_standard_augmentations
  = Returned images ->
  let test :=
    AugmentationStabilityTester.verify self result agent_url image_url
      (Some client) in
  let kept := Tally.stable_count client agent_url result images in
  let rate := (inject_Z (Z.of_nat kept) / inject_Z 3)%Q in
  Py.get (VerificationTest.details test) "stable_count"
  = Some (VStr (Py.str_nat kept ++ "/3"))
  /\ Py.get (VerificationTest.details test) "stability_rate"
     = Some (VFloat rate)
  /\ ((AugmentationStabilityTester.stability_threshold self <= rate)%Q ->
      VerificationTest.result test = VerificationTestResult.PASS
      /\ Observe.recommendation test
         = Some (VEnum VerificationRecommendation.ACCEPT))
  /\ ((rate < AugmentationStabilityTester.stability_threshold self)%Q ->
      VerificationTest.result test = VerificationTestResult.FAIL
      /\ Observe.recommendation test
         = Some (VEnum VerificationRecommendation.REPLAN_DIFFERENT_AGENTS))
  /\ (AugmentationStabilityTester.stability_threshold self = 0.67%Q ->
      (VerificationTest.result test = VerificationTestResult.PASS
       <-> (3 <= kept)%nat)).
Proof.
  intros Himages test kept rate.
  subst test. unfold AugmentationStabilityTester.verify.
  rewrite Himages.
  pose proof (reclassify_counts client agent_url result images (O, []))
    as Hcount.
  destruct (fold_left _ images (O, [])) as [stable_count results].
  cbn [fst] in Hcount. rewrite Nat.add_0_l in Hcount. fold kept in Hcount.
  subst stable_count.
  change (List.length AugmentationStabilityTester.get_standard_augmentations)
    with 3%nat.
  cbv iota beta.
  change (inject_Z (Z.of_nat 3)) with (inject_Z 3).
  fold rate.
  change (Py.str_nat 3) with "3".
  destruct (Qle_bool (AugmentationStabilityTester.stability_threshold self)
              rate) eqn:Hrate.
  - apply Qle_bool_true in Hrate as Hle.
    split; [reflexivity|]. split; [reflexivity|].
    split; [intros _; split; reflexivity|].
    split.
    + intro Hlt. exfalso. apply Qlt_not_le in Hlt. contradiction.
    + intro Hthr. split; [intros _|reflexivity].
      apply stability_rate_threshold. rewrite Hthr in Hrate. exact Hrate.
  - apply Qle_bool_false in Hrate as Hlt.
    split; [reflexivity|]. split; [reflexivity|].
    split.
    + intro Hle. exfalso. apply Qlt_not_le in Hlt. contradiction.
    + split; [intros _; split; reflexivity|].
      intro Hthr. split; [discriminate|].
      intro Hk. apply stability_rate_threshold in Hk.
      rewrite Hthr in Hrate. fold rate in Hk. congruence.
Qed.

(** X4.  A stability test that cannot produce its images (the download or
    a transform raises) fails, with the error in its details and with the
    recommendation accept, which the aggregation does not read: when the
    confidence gate passes and no vote is taken, the report holds the
    passed gate and the failed stability test, and is FAIL with the
    recommendation abort. *)
Theorem transform_error_aborts (config : VerificationConfig.t)
  (primary : ClassificationResult.t) (others : list ClassificationResult.t)
  (request : ClassificationRequest.t) (agent_url e : string)
  (client : SlimClient) :
  VerificationConfig.enable_augmentation_test config = true ->
  VerificationConfig.enable_ensemble_voting config = false ->
  agent_url <> "" ->
  (VerificationConfig.confidence_threshold config
   <= ClassificationResult.confidence primary)%Q ->
  apply_transforms_to_url
    (ImageSource.presigned_url (ClassificationRequest.image request))
    AugmentationStabilityTester.get_standard_augmentations
  = Raised e ->
  exists report,
    Verifier.verify (Verifier.init (Some config)) (primary :: others) request
      (Some agent_url) (Some client)
    = Returned report
    /\ map VerificationTest.test_name
         (VerificationReport.tests_performed report)
       = ["confidence_threshold"; "augmentation_stability"]
    /\ VerificationReport.status report = VerificationStatus.FAIL
    /\ VerificationReport.recommendation report
       = VerificationRecommendation.ABORT
    /\ VerificationReport.notes report
       = "1 test(s) failed: ['augmentation_stability']"
    /\ exists gate stability,
         VerificationReport.tests_performed report = [gate; stability]
         /\ VerificationTest.result gate = VerificationTestResult.PASS
         /\ VerificationTest.result stability = VerificationTestResult.FAIL
         /\ Py.get (VerificationTest.details stability) "error"
            = Some (VStr e)
         /\ Observe.recommendation stability
            = Some (VEnum VerificationRecommendation.ACCEPT).
Proof.
  intros Haug Hvote Hurl Hconf Herr.
  unfold Verifier.verify, Verifier.init.
  cbn [Verifier.config Verifier.confidence_gate Verifier.ensemble_voter
       Verifier.augmentation_tester].
  rewrite Hvote, Haug, Bool.andb_false_r.
  cbn [bind fst snd].
  assert (Hs : Verifier.nonempty_str (Some agent_url) = Some agent_url).
  { unfold Verifier.nonempty_str.
    destruct (String.eqb agent_url "") eqn:E; [|reflexivity].
    apply String.eqb_eq in E. contradiction. }
  rewrite Hs.
  unfold AugmentationStabilityTester.verify. rewrite Herr.
  unfold ConfidenceGate.verify, ConfidenceGate.init.
  cbn [ConfidenceGate.pass_threshold ConfidenceGate.uncertain_threshold].
  apply Qle_bool_true in Hconf. rewrite Hconf.
  eexists. split; [reflexivity|].
  split; [reflexivity|]. split; [reflexivity|]. split; [reflexivity|].
  split; [reflexivity|].
  eexists. eexists. split; [reflexivity|].
  repeat split; reflexivity.
Qed.

End StabilityProperties.

(** A download that fails behind a confident result. *)
Lemma transform_error_aborts_witness :
  exists report,
    Verifier.verify (H := Sample.platform)
      (Verifier.init (Some VerificationConfig.default))
      [Sample.result_of "a" "cat" 0.9%Q] Sample.request
      (Some "http://a") (Some Example.slim_client)
    = Returned report
    /\ VerificationReport.status report = VerificationStatus.FAIL
    /\ VerificationReport.recommendation report
       = VerificationRecommendation.ABORT
    /\ exists gate stability,
         VerificationReport.tests_performed report = [gate; stability]
         /\ Observe.recommendation stability
            = Some (VEnum VerificationRecommendation.ACCEPT).
Proof.
  destruct (transform_error_aborts (H := Sample.platform)
              VerificationConfig.default (Sample.result_of "a" "cat" 0.9%Q)
              [] Sample.request "http://a" "ClientConnectorError"
              Example.slim_client)
    as (report & Hv & _ & Hs & Hr & _ & gate & stability & Ht & _ & _ & _
        & Hrec).
  - reflexivity.
  - reflexivity.
  - discriminate.
  - vm_compute. discriminate.
  - reflexivity.
  - exists report. split; [exact Hv|]. split; [exact Hs|].
    split; [exact Hr|]. exists gate, stability. split; assumption.
Defined.

(** Three images of which the agent keeps the label on two. *)
Lemma stability_counts_kept_labels_witness :
  let test :=
    AugmentationStabilityTester.verify (H := Example.platform)
      {| AugmentationStabilityTester.stability_threshold := 0.67%Q |}
      (Sample.result_of "a" "cat" 0.9%Q) "http://a" (Some "http://store/img")
      (Some Example.slim_client) in
  Py.get (VerificationTest.details test) "stable_count" = Some (VStr "2/3")
  /\ VerificationTest.result test = VerificationTestResult.FAIL.
Proof.
  destruct (stability_counts_kept_labels (H := Example.platform)
              {| AugmentationStabilityTester.stability_threshold := 0.67%Q |}
              (Sample.result_of "a" "cat" 0.9%Q) "http://a"
              (Some "http://store/img") Example.slim_client
              [ ("JPEG:100x80", "rotate_15"); ("JPEG:100x80", "blur_sigma1");
                ("JPEG:100x80", "brightness_1.1") ] eq_refl)
    as (Hcount & _ & _ & Hfail & _).
  split.
  - exact Hcount.
  - apply Hfail. vm_compute. reflexivity.
Defined.

(** ** More on the ensemble vote *)

Lemma in_confidences (l : string) (results : list ClassificationResult.t)
  (c : Q) :
  In c (Observe.confidences l results) ->
  exists r, In r results /\ ClassificationResult.confidence r = c.
Proof.
  unfold Observe.confidences. intro Hin.
  apply in_map_iff in Hin. destruct Hin as (r & Hc & Hr).
  apply filter_In in Hr. destruct Hr as [Hr _].
  exists r. auto.
Qed.

Lemma confidences_length (l : string)
  (results : list ClassificationResult.t) :
  (List.length (Observe.confidences l results) <= List.length results)%nat.
Proof.
  unfold Observe.confidences. rewrite length_map. apply filter_length_le.
Qed.

(** X5.  The ensemble result of an empty list is an exception.  On a list
    that is not empty it is the first result with three fields written
    over: the agent "ensemble", the majority label, which is a label of
    the list and the first seen of its modes, and the mean of the
    confidences given with that label, as the floats give it; the request
    id, the top-k list and the latency stay those of the first result.  The
    mean is assigned without validation; when the confidences of the list
    lie between 0 and 1 (and the list has at most 2^53 results), it lies
    between 0 and 1 too.  It need not lie within the votes that it
    averages: three votes of 0.7 give 0.6999999999999998. *)
Theorem ensemble_result_stays_valid (self : EnsembleVoter.t) :
  EnsembleVoter.get_ensemble_result self []
  = Raised "max() arg is an empty sequence"
  /\ (forall (first : ClassificationResult.t)
        (rest : list ClassificationResult.t),
        exists r majority avg,
          EnsembleVoter.get_ensemble_result self (first :: rest) = Returned r
          /\ Observe.first_mode majority (first :: rest)
          /\ In majority (Observe.labels (first :: rest))
          /\ Py.mean (Observe.confidences majority (first :: rest))
             = Some avg
          /\ ClassificationResult.agent_id r = "ensemble"
          /\ ClassificationResult.label r = majority
          /\ ClassificationResult.confidence r = avg
          /\ ClassificationResult.request_id r
             = ClassificationResult.request_id first
          /\ ClassificationResult.top_k r = ClassificationResult.top_k first
          /\ ClassificationResult.latency_ms r
             = ClassificationResult.latency_ms first
          /\ ((forall r', In r' (first :: rest) ->
                 (0 <= ClassificationResult.confidence r')%Q
                 /\ (ClassificationResult.confidence r' <= 1)%Q) ->
              (Z.of_nat (List.length (first :: rest)) <= 2 ^ 53)%Z ->
              (0 <= ClassificationResult.confidence r)%Q
              /\ (ClassificationResult.confidence r <= 1)%Q))
  /\ (exists r,
        EnsembleVoter.get_ensemble_result self
          [ Sample.result_of "a" "cat" 0.7%Q;
            Sample.result_of "b" "cat" 0.7%Q;
            Sample.result_of "c" "cat" 0.7%Q ]
        = Returned r
        /\ (ClassificationResult.confidence r == 0.6999999999999998)%Q
        /\ (ClassificationResult.confidence r < 0.7)%Q).
Proof.
  split; [reflexivity|]. split.
  - intros first rest.
    assert (Hne : first :: rest <> []) by congruence.
    destruct (majority_spec (first :: rest) Hne)
      as (majority & Hkey & _ & Hin & Hmode & Hconf & Hcne).
    destruct (mean_defined _ Hcne) as [avg Hmean].
    eexists. exists majority, avg.
    split; [exact (ensemble_result_at self first rest majority avg Hkey
                     Hconf Hmean)|].
    split; [exact Hmode|]. split; [exact Hin|]. split; [exact Hmean|].
    cbn [ClassificationResult.with_vote ClassificationResult.agent_id
         ClassificationResult.label ClassificationResult.confidence
         ClassificationResult.request_id ClassificationResult.top_k
         ClassificationResult.latency_ms].
    repeat (split; [reflexivity|]).
    intros Hall Hlen.
    apply (mean_unit (Observe.confidences majority (first :: rest)) avg);
      [|pose proof (confidences_length majority (first :: rest)); lia
       |exact Hmean].
    intros c Hc. apply in_confidences in Hc.
    destruct Hc as (r & Hr & <-). apply Hall. exact Hr.
  - eexists. split; [reflexivity|]. split; vm_compute; reflexivity.
Qed.

(** The mean of the two pneumonia votes of the scenario. *)
Lemma ensemble_result_stays_valid_witness :
  exists r,
    EnsembleVoter.get_ensemble_result EnsembleVoter.default
      Sample.pneumonia_votes = Returned r
    /\ (0 <= ClassificationResult.confidence r)%Q
    /\ (ClassificationResult.confidence r <= 1)%Q.
Proof.
  destruct (ensemble_result_stays_valid EnsembleVoter.default)
    as (_ & Hall & _).
  destruct (Hall (Sample.result_of "a" "pneumonia" 0.8%Q)
              [ Sample.result_of "b" "pneumonia" 0.75%Q;
                Sample.result_of "c" "normal" 0.6%Q ])
    as (r & majority & avg & Hr & _ & _ & _ & _ & _ & _ & _ & _ & _ & Hunit).
  exists r. split; [exact Hr|]. apply Hunit.
  - intros r' [<-|[<-|[<-|[]]]]; split; apply Qle_bool_true; reflexivity.
  - vm_compute. discriminate.
Defined.

Lemma distinct_snoc (l : list string) (x : string) :
  Tally.distinct (l ++ [x])
  = if in_dec string_dec x l then Tally.distinct l
    else (Tally.distinct l ++ [x])%list.
Proof.
  induction l as [|y l IH].
  - reflexivity.
  - cbn [app Tally.distinct]. rewrite IH.
    destruct (in_dec string_dec x l) as [Hin|Hout].
    + destruct (in_dec string_dec x (y :: l)) as [_|Hn]; [reflexivity|].
      exfalso. apply Hn. right. exact Hin.
    + rewrite filter_app. cbn [filter].
      destruct (String.eqb y x) eqn:E.
      * apply String.eqb_eq in E. subst y. cbn [negb].
        rewrite app_nil_r.
        destruct (in_dec string_dec x (x :: l)) as [_|Hn]; [reflexivity|].
        exfalso. apply Hn. left. reflexivity.
      * cbn [negb].
        destruct (in_dec string_dec x (y :: l)) as [[Heq|Hin]|_].
        -- subst y. rewrite String.eqb_refl in E. discriminate.
        -- contradiction.
        -- reflexivity.
Qed.

(** The keys of the vote count are the labels in the order of their first
    appearance. *)
Lemma keys_first_seen (rest : list ClassificationResult.t) :
  forall (seen : list ClassificationResult.t)
         (acc : Py.dict nat * Py.dict (list Q)),
    Invariant.tallied seen acc ->
    Py.keys (fst acc) = Tally.distinct (Observe.labels seen) ->
    Py.keys (fst (fold_left EnsembleVoter.count_vote rest acc))
    = Tally.distinct (Observe.labels (seen ++ rest)).
Proof.
  induction rest as [|r rest IH]; intros seen acc Htal Hkeys.
  - rewrite app_nil_r. exact Hkeys.
  - cbn [fold_left].
    replace (seen ++ r :: rest)%list with ((seen ++ [r]) ++ rest)%list
      by (rewrite <- app_assoc; reflexivity).
    apply IH; [apply tallied_step; exact Htal|].
    rewrite labels_snoc, distinct_snoc.
    unfold EnsembleVoter.count_vote. cbn [fst].
    rewrite keys_set.
    destruct Htal as (_ & _ & Hk & _).
    destruct (Py.get (fst acc) (ClassificationResult.label r)) eqn:Hget.
    + destruct (in_dec string_dec (ClassificationResult.label r)
                  (Observe.labels seen)) as [_|Hn]; [exact Hkeys|].
      exfalso. apply Hn. apply Hk. apply get_in in Hget.
      unfold Py.keys. apply in_map_iff.
      exists (ClassificationResult.label r, n). auto.
    + destruct (in_dec string_dec (ClassificationResult.label r)
                  (Observe.labels seen)) as [Hin|_].
      * exfalso. apply Hk in Hin. apply get_none_iff in Hget. contradiction.
      * rewrite Hkeys. reflexivity.
Qed.

Lemma sum_after_vote (d : Py.dict nat) (k : string) :
  list_sum (Py.values (Py.set d k (EnsembleVoter.votes_of d k + 1)))
  = (list_sum (Py.values d) + 1)%nat.
Proof.
  unfold EnsembleVoter.votes_of, Py.values.
  induction d as [|[k' v'] d IH].
  - reflexivity.
  - cbn [Py.set Py.get].
    destruct (String.eqb k' k).
    + unfold list_sum. cbn [map snd fold_right]. lia.
    + unfold list_sum in *. cbn [map snd fold_right]. rewrite IH. lia.
Qed.

Lemma votes_sum (rest : list ClassificationResult.t) :
  forall acc : Py.dict nat * Py.dict (list Q),
    list_sum (Py.values (fst (fold_left EnsembleVoter.count_vote rest acc)))
    = (list_sum (Py.values (fst acc)) + List.length rest)%nat.
Proof.
  induction rest as [|r rest IH]; intro acc.
  - cbn [fold_left List.length]. lia.
  - cbn [fold_left List.length]. rewrite IH.
    unfold EnsembleVoter.count_vote. cbn [fst].
    rewrite sum_after_vote. lia.
Qed.

(** X6.  The vote on fewer than two results is skipped and gives no
    analysis.  On two results or more the analysis lists, as conflicting
    labels and as the keys of the vote distribution, every label of the
    results once, in the order of first appearance (the majority label
    among them, also when the vote is unanimous); the votes of the
    distribution add up to the number of results; and the agreement rate
    is greater than 0 and at most 1. *)
Theorem vote_bookkeeping (self : EnsembleVoter.t)
  (results : list ClassificationResult.t) :
  ((List.length results < 2)%nat ->
   exists test,
     EnsembleVoter.verify self results = Returned (test, None)
     /\ VerificationTest.result test = VerificationTestResult.SKIP)
  /\ ((2 <= List.length results)%nat ->
      exists test disagreement,
        EnsembleVoter.verify self results
        = Returned (test, Some disagreement)
        /\ DisagreementAnalysis.conflicting_labels disagreement
           = Tally.distinct (Observe.labels results)
        /\ Py.keys (DisagreementAnalysis.vote_distribution disagreement)
           = Tally.distinct (Observe.labels results)
        /\ list_sum
             (Py.values (DisagreementAnalysis.vote_distribution disagreement))
           = List.length results
        /\ (0 < DisagreementAnalysis.agreement_rate disagreement)%Q
        /\ (DisagreementAnalysis.agreement_rate disagreement <= 1)%Q).
Proof.
  split.
  - intro Hlen. unfold EnsembleVoter.verify.
    apply Nat.ltb_lt in Hlen. rewrite Hlen.
    eexists. split; reflexivity.
  - intro Hlen.
    destruct (ensemble_verify_spec self results Hlen)
      as (majority & avg & Hin & Hmode & _ & Heq).
    cbv zeta in Heq.
    eexists. eexists. split; [exact Heq|].
    cbn [DisagreementAnalysis.conflicting_labels
         DisagreementAnalysis.vote_distribution
         DisagreementAnalysis.agreement_rate].
    assert (Hkeys :
      Py.keys (fst (EnsembleVoter.count_votes results))
      = Tally.distinct (Observe.labels results)).
    { unfold EnsembleVoter.count_votes.
      apply (keys_first_seen results [] ([], []));
        [apply tallied_nil|reflexivity]. }
    split; [exact Hkeys|]. split; [exact Hkeys|].
    split.
    { unfold EnsembleVoter.count_votes. rewrite votes_sum. reflexivity. }
    pose proof (votes_positive majority results Hin) as Hpos.
    pose proof (votes_le_length majority results) as Hle.
    split.
    + unfold Observe.rate. apply Qlt_shift_div_l.
      * change 0%Q with (inject_Z 0). rewrite <- Zlt_Qlt. lia.
      * rewrite Qmult_0_l. change 0%Q with (inject_Z 0).
        rewrite <- Zlt_Qlt. lia.
    + apply rate_bounds; lia.
Qed.

(** The vote on pneumonia, pneumonia, normal. *)
Lemma vote_bookkeeping_witness :
  exists test disagreement,
    EnsembleVoter.verify EnsembleVoter.default Sample.pneumonia_votes
    = Returned (test, Some disagreement)
    /\ DisagreementAnalysis.conflicting_labels disagreement
       = ["pneumonia"; "normal"]
    /\ list_sum
         (Py.values (DisagreementAnalysis.vote_distribution disagreement))
       = 3%nat.
Proof.
  destruct (vote_bookkeeping EnsembleVoter.default Sample.pneumonia_votes)
    as [_ Hvote].
  destruct Hvote as (test & d & Hv & Hl & _ & Hs & _).
  - simpl. lia.
  - exists test, d. split; [exact Hv|]. split; [exact Hl|exact Hs].
Defined.

Lemma all_votes_iff (l : string) (results : list ClassificationResult.t) :
  Observe.votes l results = List.length results
  <-> forall r, In r results -> ClassificationResult.label r = l.
Proof.
  unfold Observe.votes.
  induction results as [|x results IH].
  - split; [intros _ r []|reflexivity].
  - cbn [filter]. unfold Observe.has_label at 1.
    pose proof (filter_length_le (Observe.has_label l) results) as Hle.
    destruct (String.eqb (ClassificationResult.label x) l) eqn:E.
    + apply String.eqb_eq in E. cbn [List.length]. split.
      * intros Hlen r [<-|Hin]; [exact E|].
        apply IH; [lia|exact Hin].
      * intro Hall. f_equal. apply IH. intros r Hin. apply Hall.
        right. exact Hin.
    + apply String.eqb_neq in E. cbn [List.length]. split.
      * intro Hlen. lia.
      * intro Hall. exfalso. apply E. apply Hall. left. reflexivity.
Qed.

(** X7.  With the agreement threshold 0.67, a vote of two or of three
    results passes exactly when all of them carry the same label: one
    label against one, and two against one, both fail it. *)
Theorem small_vote_passes_when_unanimous
  (results : list ClassificationResult.t) :
  (2 <= List.length results <= 3)%nat ->
  exists test disagreement,
    EnsembleVoter.verify EnsembleVoter.default results
    = Returned (test, Some disagreement)
    /\ (VerificationTest.result test = VerificationTestResult.PASS
        <-> Tally.unanimous results).
Proof.
  intros [Hlow Hhigh].
  destruct (ensemble_verify_spec EnsembleVoter.default results Hlow)
    as (majority & avg & Hin & Hmode & _ & Heq).
  cbv zeta in Heq.
  eexists. eexists. split; [exact Heq|].
  pose proof (votes_positive majority results Hin) as Hpos.
  pose proof (votes_le_length majority results) as Hle.
  pose proof (all_votes_iff majority results) as Hall.
  assert (Hun : Tally.unanimous results
                <-> Observe.votes majority results = List.length results).
  { rewrite Hall. unfold Tally.unanimous. split.
    - intros Hu r Hr.
      unfold Observe.labels in Hin. apply in_map_iff in Hin.
      destruct Hin as (m & Hm & Hmin). rewrite <- Hm. apply Hu; assumption.
    - intros Hl r r' Hr Hr'. rewrite (Hl r Hr), (Hl r' Hr'). reflexivity. }
  rewrite Hun.
  change (EnsembleVoter.agreement_threshold EnsembleVoter.default)
    with 0.67%Q.
  unfold Observe.rate.
  assert (Hcases :
    (List.length results = 2 \/ List.length results = 3)%nat) by lia.
  destruct Hcases as [Hn|Hn]; rewrite Hn in *.
  - assert (Hv : (Observe.votes majority results = 1
                  \/ Observe.votes majority results = 2)%nat) by lia.
    destruct Hv as [Hv|Hv]; rewrite Hv; cbn; split;
      try discriminate; try reflexivity; intro; lia.
  - assert (Hv : (Observe.votes majority results = 1
                  \/ Observe.votes majority results = 2
                  \/ Observe.votes majority results = 3)%nat) by lia.
    destruct Hv as [Hv|[Hv|Hv]]; rewrite Hv; cbn; split;
      try discriminate; try reflexivity; intro; lia.
Qed.

(** Two votes against one. *)
Lemma small_vote_passes_when_unanimous_witness :
  exists test disagreement,
    EnsembleVoter.verify EnsembleVoter.default Sample.pneumonia_votes
    = Returned (test, Some disagreement)
    /\ VerificationTest.result test <> VerificationTestResult.PASS.
Proof.
  destruct (small_vote_passes_when_unanimous Sample.pneumonia_votes)
    as (test & d & Hv & Hpass).
  - simpl. lia.
  - exists test, d. split; [exact Hv|].
    intro Hp. apply Hpass in Hp.
    specialize (Hp (Sample.result_of "a" "pneumonia" 0.8%Q)
                  (Sample.result_of "c" "normal" 0.6%Q)).
    simpl in Hp.
    assert (Hne : "pneumonia" = "normal") by (apply Hp; auto).
    discriminate Hne.
Defined.

(** ** More on response parsing *)

Lemma split_one_line (a : string) :
  Text.one_line a -> Py.split Planner.newline a = [a].
Proof.
  unfold Text.one_line.
  induction a as [|c a IH]; intro Hline.
  - reflexivity.
  - cbn [Py.contains_char] in Hline.
    apply Bool.orb_false_iff in Hline. destruct Hline as [Hc Ha].
    cbn [Py.split]. rewrite Ascii.eqb_sym, Hc, (IH Ha). reflexivity.
Qed.

Lemma split_after_line (a b : string) :
  Text.one_line a ->
  Py.split Planner.newline (a ++ String Planner.newline b)
  = a :: Py.split Planner.newline b.
Proof.
  unfold Text.one_line.
  induction a as [|c a IH]; intro Hline.
  - cbn [append Py.split]. rewrite Ascii.eqb_refl. reflexivity.
  - cbn [Py.contains_char] in Hline.
    apply Bool.orb_false_iff in Hline. destruct Hline as [Hc Ha].
    cbn [append Py.split]. rewrite Ascii.eqb_sym, Hc, (IH Ha). reflexivity.
Qed.

Section ParsingMore.
Context `{Platform}.

(** X8.  A reply of the two lines "Label:" and "Confidence:" is read as
    follows.  The label is the text after the first colon, stripped.  A
    confidence text that [float] rejects leaves the default 0.8; one that it
    reads as a float from 0 to 1 is the confidence; and one that it reads
    as a float outside that range, as an infinity or as not-a-number makes
    the whole result the parse_error result with confidence 0.  The float
    is the one nearest to the number of the text: a text such as
    1.0000000000000001, which rounds to 1, is within the range. *)
Theorem two_line_reply (response : Py.dict pyval)
  (l c agent_id fresh fresh' : string) :
  Text.one_line l -> Text.one_line c ->
  Py.get response "response"
  = Some (VStr ("Label:" ++ l
                ++ String Planner.newline ("Confidence:" ++ c))) ->
  let r := Planner._parse_classification_result response agent_id fresh
             fresh' in
  match Py.float (Py.strip c) with
  | None =>
      ClassificationResult.label r = Py.strip l
      /\ ClassificationResult.confidence r = 0.8%Q
  | Some (Py.Finite q) =>
      if Qle_bool 0 q && Qle_bool q 1
      then ClassificationResult.label r = Py.strip l
           /\ ClassificationResult.confidence r = q
      else r = Planner.parse_error_result fresh' agent_id
  | Some _ => r = Planner.parse_error_result fresh' agent_id
  end.
Proof.
  intros Hl Hc Hget r.
  set (made := fun (label : string) (confidence : Q) =>
    {| ClassificationResult.request_id := fresh;
       ClassificationResult.agent_id := agent_id;
       ClassificationResult.label := label;
       ClassificationResult.confidence := confidence;
       ClassificationResult.top_k :=
         [ {| TopKPrediction.label := label;
              TopKPrediction.confidence := confidence;
              TopKPrediction.rank := 1 |} ];
       ClassificationResult.latency_ms := 0;
       ClassificationResult.mcp_enhanced := false;
       ClassificationResult.reasoning := None |}).
  assert (Hparse :
    r = match Py.float (Py.strip c) with
        | None => made (Py.strip l) 0.8%Q
        | Some (Py.Finite q) =>
            if Qle_bool 0 q && Qle_bool q 1 then made (Py.strip l) q
            else Planner.parse_error_result fresh' agent_id
        | Some _ => Planner.parse_error_result fresh' agent_id
        end).
  { subst r.
    unfold Planner._parse_classification_result, Planner.parse_body.
    rewrite Hget.
    change (Py.startswith
              ("Label:" ++ l ++ String Planner.newline ("Confidence:" ++ c))
              "{") with false.
    cbv iota.
    change ("Label:" ++ l ++ String Planner.newline ("Confidence:" ++ c))
      with (("Label:" ++ l) ++ String Planner.newline ("Confidence:" ++ c))
      at 2.
    assert (Hl' : Text.one_line ("Label:" ++ l)) by exact Hl.
    assert (Hc' : Text.one_line ("Confidence:" ++ c)) by exact Hc.
    rewrite (split_after_line _ _ Hl'), (split_one_line _ Hc').
    cbn [Planner.parse_lines].
    assert (H1 : forall acc,
      Planner.parse_line acc ("Label:" ++ l)
      = Returned (Py.strip l, snd acc)).
    { intro acc. unfold Planner.parse_line.
      replace (Py.startswith ("Label:" ++ l) "Label:") with true
        by (unfold Py.startswith; cbn; destruct l; reflexivity).
      reflexivity. }
    assert (H2 : forall acc,
      Planner.parse_line acc ("Confidence:" ++ c)
      = match Py.float (Py.strip c) with
        | Some x => Returned (fst acc, x)
        | None => Returned acc
        end).
    { intro acc. unfold Planner.parse_line.
      change (Py.startswith ("Confidence:" ++ c) "Label:") with false.
      replace (Py.startswith ("Confidence:" ++ c) "Confidence:") with true
        by (unfold Py.startswith; cbn; destruct c; reflexivity).
      reflexivity. }
    rewrite H1. cbn [bind]. rewrite H2.
    destruct (Py.float (Py.strip c)) as [[q|neg|]|];
      cbn [bind fst snd Planner.valid_confidence]; try reflexivity.
    destruct (Qle_bool 0 q && Qle_bool q 1); reflexivity. }
  rewrite Hparse.
  destruct (Py.float (Py.strip c)) as [[q|neg|]|]; try reflexivity.
  - destruct (Qle_bool 0 q && Qle_bool q 1); [split; reflexivity|reflexivity].
  - split; reflexivity.
Qed.

(** X9.  A reply that is not read as JSON always gives a well-formed
    result: the confidence lies between 0 and 1, the top-k list holds the
    one prediction of the result's own label and confidence at rank 1, the
    agent is the one that was asked and the latency is 0.  This covers a
    response without a text (the label is then empty) and a text whose
    value is not a string (the parse_error result). *)
Theorem text_results_are_well_formed (response : Py.dict pyval)
  (agent_id fresh fresh' : string) :
  (forall text,
     Py.get response "response" = Some (VStr text) ->
     Py.startswith text "{" = false) ->
  let r := Planner._parse_classification_result response agent_id fresh
             fresh' in
  (0 <= ClassificationResult.confidence r)%Q
  /\ (ClassificationResult.confidence r <= 1)%Q
  /\ ClassificationResult.top_k r
     = [ {| TopKPrediction.label := ClassificationResult.label r;
            TopKPrediction.confidence := ClassificationResult.confidence r;
            TopKPrediction.rank := 1 |} ]
  /\ ClassificationResult.agent_id r = agent_id
  /\ ClassificationResult.latency_ms r = 0%Z
  /\ (Py.get response "response" = None ->
      ClassificationResult.label r = ""
      /\ ClassificationResult.confidence r = 0.8%Q).
Proof.
  intros Htext r. subst r.
  assert (Herr : forall f,
    let e := Planner.parse_error_result f agent_id in
    (0 <= ClassificationResult.confidence e)%Q
    /\ (ClassificationResult.confidence e <= 1)%Q
    /\ ClassificationResult.top_k e
       = [ {| TopKPrediction.label := ClassificationResult.label e;
              TopKPrediction.confidence := ClassificationResult.confidence e;
              TopKPrediction.rank := 1 |} ]
    /\ ClassificationResult.agent_id e = agent_id
    /\ ClassificationResult.latency_ms e = 0%Z).
  { intro f. cbn. repeat split; discriminate. }
  assert (Hbody : forall text,
    Py.startswith text "{" = false ->
    let r :=
      match
        (if Py.startswith text "{" then json_classification_result text
         else
           acc <- Planner.parse_lines (Py.strip text, Py.Finite 0.8%Q)
                    (Py.split Planner.newline text) ;;
           confidence <- Planner.valid_confidence (snd acc) ;;
           Returned
             {| ClassificationResult.request_id := fresh;
                ClassificationResult.agent_id := agent_id;
                ClassificationResult.label := fst acc;
                ClassificationResult.confidence := confidence;
                ClassificationResult.top_k :=
                  [ {| TopKPrediction.label := fst acc;
                       TopKPrediction.confidence := confidence;
                       TopKPrediction.rank := 1 |} ];
                ClassificationResult.latency_ms := 0;
                ClassificationResult.mcp_enhanced := false;
                ClassificationResult.reasoning := None |})
      with
      | Returned r => r
      | Raised _ => Planner.parse_error_result fresh' agent_id
      end in
    (0 <= ClassificationResult.confidence r)%Q
    /\ (ClassificationResult.confidence r <= 1)%Q
    /\ ClassificationResult.top_k r
       = [ {| TopKPrediction.label := ClassificationResult.label r;
              TopKPrediction.confidence := ClassificationResult.confidence r;
              TopKPrediction.rank := 1 |} ]
    /\ ClassificationResult.agent_id r = agent_id
    /\ ClassificationResult.latency_ms r = 0%Z).
  { intros text Hs. rewrite Hs.
    destruct (Planner.parse_lines _ _) as [acc|e]; [|apply Herr].
    cbn [bind].
    destruct (snd acc) as [q|neg|]; cbn [Planner.valid_confidence];
      try apply Herr.
    destruct (Qle_bool 0 q && Qle_bool q 1) eqn:Hrange; [|apply Herr].
    apply Bool.andb_true_iff in Hrange. destruct Hrange as [H0 H1].
    apply Qle_bool_true in H0. apply Qle_bool_true in H1.
    cbn. repeat split; assumption. }
  unfold Planner._parse_classification_result, Planner.parse_body.
  destruct (Py.get response "response") as [v|] eqn:Hget.
  - destruct v as [|b|z|q|text|e|l|d];
      try (destruct (Herr fresh') as (A & B & C & D & E);
           repeat split; try assumption; congruence).
    specialize (Hbody text (Htext text eq_refl)).
    destruct Hbody as (A & B & C & D & E).
    repeat split; try assumption; congruence.
  - specialize (Hbody "" eq_refl).
    destruct Hbody as (A & B & C & D & E).
    repeat split; try assumption; reflexivity.
Qed.

End ParsingMore.

(** A confidence above 1, one that is no number, and one that rounds
    to 1. *)
Lemma two_line_reply_witness :
  let reply c :=
    Planner._parse_classification_result (H := Sample.platform)
      (Sample.reply_dict
         ("Label: dog" ++ String Planner.newline ("Confidence:" ++ c)))
      "a" "u1" "u2" in
  reply " 1.5" = Planner.parse_error_result "u2" "a"
  /\ (ClassificationResult.label (reply " high") = "dog"
      /\ ClassificationResult.confidence (reply " high") = 0.8%Q)
  /\ (ClassificationResult.label (reply " 1.0000000000000001") = "dog"
      /\ ClassificationResult.confidence (reply " 1.0000000000000001")
         = 1%Q).
Proof.
  split; [|split].
  - exact (two_line_reply (H := Sample.platform)
             (Sample.reply_dict
                ("Label: dog" ++ String Planner.newline "Confidence: 1.5"))
             " dog" " 1.5" "a" "u1" "u2" eq_refl eq_refl eq_refl).
  - exact (two_line_reply (H := Sample.platform)
             (Sample.reply_dict
                ("Label: dog" ++ String Planner.newline "Confidence: high"))
             " dog" " high" "a" "u1" "u2" eq_refl eq_refl eq_refl).
  - exact (two_line_reply (H := Sample.platform)
             (Sample.reply_dict
                ("Label: dog"
                 ++ String Planner.newline "Confidence: 1.0000000000000001"))
             " dog" " 1.0000000000000001" "a" "u1" "u2" eq_refl eq_refl
             eq_refl).
Defined.

(** A reply without a text. *)
Lemma text_results_are_well_formed_witness :
  let r := Planner._parse_classification_result (H := Sample.platform)
             [("status", VStr "success")] "a" "u1" "u2" in
  ClassificationResult.label r = ""
  /\ ClassificationResult.confidence r = 0.8%Q.
Proof.
  apply (text_results_are_well_formed (H := Sample.platform)
           [("status", VStr "success")] "a" "u1" "u2").
  - intros text Hget. discriminate Hget.
  - reflexivity.
Defined.

(** ** Messages to the agents *)

Lemma nth_error_enumerate_from {A : Type} (l : list A) :
  forall (a i : nat),
    nth_error (combine (seq a (List.length l)) l) i
    = option_map (fun x => ((a + i)%nat, x)) (nth_error l i).
Proof.
  induction l as [|x l IH]; intros a i.
  - destruct i; reflexivity.
  - cbn [List.length seq combine]. destruct i as [|i].
    + cbn. rewrite Nat.add_0_r. reflexivity.
    + cbn [nth_error]. rewrite IH. rewrite Nat.add_succ_r. reflexivity.
Qed.

Lemma nth_error_enumerate {A : Type} (l : list A) (i : nat) :
  nth_error (Planner.enumerate l) i
  = option_map (fun x => (i, x)) (nth_error l i).
Proof.
  unfold Planner.enumerate. rewrite nth_error_enumerate_from. reflexivity.
Qed.

Lemma enumerate_length {A : Type} (l : list A) :
  List.length (Planner.enumerate l) = List.length l.
Proof.
  unfold Planner.enumerate.
  rewrite length_combine, length_seq. apply Nat.min_id.
Qed.

(** X10.  A broadcast returns one answer per agent card, in the order of
    the cards, and never raises.  The answer at a place names the agent of
    the card at that place.  It is the success answer with the first text
    of the reply when the reply has a text; otherwise it is an error
    answer, and when the call raised, its error names the agent and the
    exception. *)
Theorem broadcast_answers_every_card (w : World) (step : nat)
  (agent_cards : list (string * string)) (prompt : string) :
  let answers :=
    Planner.broadcast_message_to_agents w step agent_cards prompt in
  List.length answers = List.length agent_cards
  /\ forall (i : nat) (card : string * string),
       nth_error agent_cards i = Some card ->
       exists answer,
         nth_error answers i = Some answer
         /\ Py.get answer "agent" = Some (VStr (fst card))
         /\ match send_message w step i card prompt with
            | Returned response =>
                match Planner.first_text (A2AResponse.parts response) with
                | Some text =>
                    answer = [ ("status", VStr "success");
                               ("response", VStr text);
                               ("agent", VStr (fst card)) ]
                | None => Planner.is_success answer = false
                end
            | Raised e =>
                Planner.is_success answer = false
                /\ Py.get answer "error"
                   = Some (VStr ("Failed to communicate with " ++ fst card
                                 ++ ": " ++ e))
            end.
Proof.
  intro answers. subst answers.
  unfold Planner.broadcast_message_to_agents.
  split.
  - rewrite length_map. apply enumerate_length.
  - intros i card Hcard.
    rewrite nth_error_map, nth_error_enumerate, Hcard.
    cbn [option_map fst snd].
    eexists. split; [reflexivity|].
    unfold Planner.send_message_to_agent.
    destruct (send_message w step i card prompt) as [response|e].
    + destruct (Planner.first_text (A2AResponse.parts response)) as [text|].
      * split; reflexivity.
      * destruct (A2AResponse.error response) as [e|]; split; reflexivity.
    + split; [reflexivity|]. split; reflexivity.
Qed.

(** ** The routes *)

(** X11.  Both routes select a prefix of the discovered agents, in the
    order of the discovery, with the id, the name and the url of each.  The
    simple route takes the first two at most, as primary and secondary with
    the scores 0.95 and 0.85, under the strategy single_best; the ensemble
    route takes the first three at most, all in the ensemble role, with the
    scores 0.9, 0.8 and 0.7, under the strategy parallel_ensemble.  Neither
    touches the discovered agents, the error or the results. *)
Theorem routes_select_a_prefix (s : Planner.PlannerState) :
  let agents := Planner.discovered_agents s in
  let selected (a : AgentRecord.t) (x : SelectedAgent.t) :=
    SelectedAgent.agent_id x = AgentRecord.agent_id a
    /\ SelectedAgent.name x = AgentRecord.name a
    /\ SelectedAgent.url x = AgentRecord.url a in
  (exists route,
     Planner.route_decision (Planner._route_simple_node s) = Some route
     /\ RouteDecision.strategy route = ExecutionStrategy.SINGLE_BEST
     /\ RouteDecision.request_id route
        = ClassificationRequest.request_id (Planner.request s)
     /\ Forall2 selected (firstn 2 agents)
          (RouteDecision.selected_agents route)
     /\ map SelectedAgent.role (RouteDecision.selected_agents route)
        = firstn (List.length agents) [AgentRole.PRIMARY; AgentRole.SECONDARY]
     /\ Forall2 Qeq
          (map SelectedAgent.selection_score
             (RouteDecision.selected_agents route))
          (firstn (List.length agents) [0.95%Q; 0.85%Q]))
  /\ (exists route,
        Planner.route_decision (Planner._route_ensemble_node s) = Some route
        /\ RouteDecision.strategy route
           = ExecutionStrategy.PARALLEL_ENSEMBLE
        /\ RouteDecision.request_id route
           = ClassificationRequest.request_id (Planner.request s)
        /\ Forall2 selected (firstn 3 agents)
             (RouteDecision.selected_agents route)
        /\ (forall x, In x (RouteDecision.selected_agents route) ->
              SelectedAgent.role x = AgentRole.ENSEMBLE)
        /\ Forall2 Qeq
             (map SelectedAgent.selection_score
                (RouteDecision.selected_agents route))
             (firstn (List.length agents) [0.9%Q; 0.8%Q; 0.7%Q]))
  /\ Planner.discovered_agents (Planner._route_simple_node s) = agents
  /\ Planner.discovered_agents (Planner._route_ensemble_node s) = agents.
Proof.
  intros agents selected. subst agents.
  assert (Hsel : forall role score reason a,
            selected a (Planner.select role score reason a)).
  { intros. repeat split. }
  split; [|split; [|split; reflexivity]].
  - unfold Planner._route_simple_node.
    eexists. split; [reflexivity|].
    cbn [RouteDecision.strategy RouteDecision.request_id
         RouteDecision.selected_agents].
    split; [reflexivity|]. split; [reflexivity|].
    destruct (Planner.discovered_agents s) as [|a [|b rest]];
      cbn [firstn app map List.length]; rewrite ?firstn_nil;
      (split;
       [repeat (apply Forall2_cons; [apply Hsel|]); apply Forall2_nil
       |split;
        [reflexivity
        |repeat (apply Forall2_cons; [reflexivity|]); apply Forall2_nil]]).
  - unfold Planner._route_ensemble_node.
    eexists. split; [reflexivity|].
    cbn [RouteDecision.strategy RouteDecision.request_id
         RouteDecision.selected_agents].
    split; [reflexivity|]. split; [reflexivity|].
    destruct (Planner.discovered_agents s) as [|a [|b [|c rest]]];
      cbn [firstn Planner.enumerate List.length seq combine map fst snd];
      rewrite ?firstn_nil.
    all: split;
      [repeat (apply Forall2_cons; [apply Hsel|]); apply Forall2_nil|].
    all: split;
      [|repeat (apply Forall2_cons; [reflexivity|]); apply Forall2_nil].
    + intros x [].
    + intros x [<-|[]]; reflexivity.
    + intros x [<-|[<-|[]]]; reflexivity.
    + intros x [<-|[<-|[<-|[]]]]; reflexivity.
Qed.

(** ** The selection of the supervisor *)

Lemma pick_agents_ids (ids : list string) (all_agents : list AgentRecord.t) :
  map AgentRecord.agent_id (Planner.pick_agents ids all_agents)
  = filter
      (fun id =>
         existsb (fun a => String.eqb (AgentRecord.agent_id a) id) all_agents)
      ids
  /\ forall a, In a (Planner.pick_agents ids all_agents) -> In a all_agents.
Proof.
  unfold Planner.pick_agents.
  induction ids as [|id ids [IHids IHin]].
  - split; [reflexivity|intros a []].
  - cbn [flat_map filter].
    destruct (find (fun a => String.eqb (AgentRecord.agent_id a) id)
                all_agents) as [a|] eqn:Hfind.
    + apply find_some in Hfind as Hsome. destruct Hsome as [Hin Hid].
      apply String.eqb_eq in Hid.
      assert (Hex : existsb
                      (fun a => String.eqb (AgentRecord.agent_id a) id)
                      all_agents = true).
      { apply existsb_exists. exists a. split; [exact Hin|].
        apply String.eqb_eq. exact Hid. }
      rewrite Hex. cbn [app map]. rewrite IHids, Hid.
      split; [reflexivity|].
      intros a' [<-|Ha']; [exact Hin|apply IHin; exact Ha'].
    + assert (Hex : existsb
                      (fun a => String.eqb (AgentRecord.agent_id a) id)
                      all_agents = false).
      { apply Bool.not_true_is_false. intro Hex.
        apply existsb_exists in Hex. destruct Hex as (a & Hin & Hid).
        apply (find_none _ _ Hfind) in Hin. congruence. }
      rewrite Hex. cbn [app]. split; [exact IHids|exact IHin].
Qed.

(** X12.  When the directory lists agents and the language model answers,
    the supervisor hands on the agents that the model named, in the order
    of the model and as often as it named them, the names that no listed
    agent bears being dropped; when none of the names is known it hands on
    all the listed agents.  What it hands on is never empty and holds
    listed agents only; the intent records the domain llm_selected, and the
    error is left as it was. *)
Theorem supervisor_selects_named_agents (w : World) (step : nat)
  (s : Planner.PlannerState) (all_agents : list AgentRecord.t)
  (result : AgentSelection.t) :
  Planner.discover_all w step 10 = Returned all_agents ->
  all_agents <> [] ->
  llm w = true ->
  select_agents w step all_agents
    (ClassificationRequest.prompt (Planner.request s))
  = Returned result ->
  let s' := Planner._supervisor_node w step s in
  let known :=
    filter
      (fun id =>
         existsb (fun a => String.eqb (AgentRecord.agent_id a) id) all_agents)
      (AgentSelection.selected_agent_ids result) in
  map AgentRecord.agent_id (Planner.discovered_agents s')
  = match known with
    | [] => map AgentRecord.agent_id all_agents
    | _ => known
    end
  /\ (forall a, In a (Planner.discovered_agents s') -> In a all_agents)
  /\ Planner.discovered_agents s' <> []
  /\ Py.get (Planner.intent s') "domain" = Some (VStr "llm_selected")
  /\ Planner.error s' = Planner.error s.
Proof.
  intros Hall Hne Hllm Hsel s' known. subst s' known.
  unfold Planner._supervisor_node.
  rewrite Hall.
  destruct all_agents as [|a0 rest0]; [contradiction|].
  cbv iota. rewrite Hllm, Hsel. cbv zeta.
  destruct (pick_agents_ids (AgentSelection.selected_agent_ids result)
              (a0 :: rest0)) as [Hids Hin].
  cbn [Planner.say Planner.set_messages Planner.set_intent
       Planner.set_discovered_agents Planner.discovered_agents
       Planner.intent Planner.error Planner.intent_value Py.get String.eqb].
  destruct (Planner.pick_agents (AgentSelection.selected_agent_ids result)
              (a0 :: rest0)) as [|p picked] eqn:Epick.
  - cbn [map] in Hids. rewrite <- Hids.
    repeat split; auto; discriminate.
  - rewrite <- Hids. cbn [map].
    repeat split; auto; discriminate.
Qed.

(** A model that names an agent twice and an agent that is not listed. *)
Lemma supervisor_selects_named_agents_witness :
  let w := Example.naming_world 3 ["b"; "zzz"; "a"; "b"] in
  map AgentRecord.agent_id
    (Planner.discovered_agents
       (Planner._supervisor_node w 1
          (Planner.initial_state w Sample.request)))
  = ["b"; "a"; "b"].
Proof.
  intro w.
  destruct (supervisor_selects_named_agents w 1
              (Planner.initial_state w Sample.request) (Sample.agents 3)
              {| AgentSelection.selected_agent_ids := ["b"; "zzz"; "a"; "b"];
                 AgentSelection.reasoning := "named";
                 AgentSelection.confidence := 0.9%Q |})
    as [Hids _].
  - reflexivity.
  - discriminate.
  - reflexivity.
  - reflexivity.
  - exact Hids.
Defined.

(** ** The keyword intent *)

Lemma prefix_empty (text : string) : String.prefix "" text = true.
Proof. destruct text; reflexivity. Qed.

Lemma prefix_spec (kw : string) :
  forall text : string,
    String.prefix kw text = true <-> exists after, text = kw ++ after.
Proof.
  induction kw as [|c kw IH]; intro text.
  - rewrite prefix_empty. split; [intros _; exists text; reflexivity|auto].
  - destruct text as [|d text].
    + cbn. split; [discriminate|]. intros [after Heq]. discriminate.
    + cbn [String.prefix append].
      destruct (ascii_dec c d) as [->|Hne].
      * rewrite IH. split.
        -- intros [after ->]. exists after. reflexivity.
        -- intros [after Heq]. exists after. congruence.
      * split; [discriminate|]. intros [after Heq]. congruence.
Qed.

Lemma contains_spec (kw : string) :
  forall text : string,
    Planner.contains text kw = true <-> Text.occurs kw text.
Proof.
  unfold Planner.contains, Text.occurs.
  induction text as [|c text IH].
  - cbn [String.index]. destruct kw as [|k kw].
    + split; [intros _; exists "", ""; reflexivity|reflexivity].
    + split; [discriminate|].
      intros (before & after & Heq).
      destruct before; discriminate.
  - cbn [String.index].
    destruct (String.prefix kw (String c text)) eqn:Hpre.
    + split; [intros _|reflexivity].
      apply prefix_spec in Hpre. destruct Hpre as [after Heq].
      exists "", after. exact Heq.
    + destruct (String.index 0 kw text) as [n|] eqn:Hidx.
      * split; [intros _|reflexivity].
        destruct IH as [IH _]. destruct (IH eq_refl) as (before & after & ->).
        exists (String c before), after. reflexivity.
      * split; [discriminate|].
        intros (before & after & Heq).
        destruct before as [|b before].
        -- cbn [append] in Heq.
           assert (Hp : String.prefix kw (String c text) = true).
           { apply prefix_spec. exists after. exact Heq. }
           congruence.
        -- cbn [append] in Heq. inversion Heq as [[Hc Ht]].
           destruct IH as [_ IH].
           assert (Hfalse : false = true).
           { apply IH. exists before, after. exact Ht. }
           discriminate.
Qed.

Lemma contains_any_spec (kws : list string) (text : string) :
  existsb (Planner.contains text) kws = true <-> Text.occurs_any kws text.
Proof.
  unfold Text.occurs_any. rewrite existsb_exists.
  split; intros (kw & Hin & Hocc); exists kw; split; auto;
    apply contains_spec; exact Hocc.
Qed.

(** X13.  The keyword classification reads the prompt in lower case and
    looks for its terms anywhere in it, inside words too.  A prompt that
    holds one of the medical terms is medical with confidence 0.7, whatever
    else it holds; one that holds none of them and a satellite term is
    satellite with confidence 0.7; every other prompt is general with
    confidence 0.5. *)
Theorem fallback_intent_by_keyword (prompt : string) :
  let text := Py.lower prompt in
  let intent := Planner._fallback_intent_classification prompt in
  (Text.occurs_any Text.medical_terms text ->
   intent
   = Planner.intent_value "medical" 0.7%Q "Keyword match: medical terms")
  /\ (~ Text.occurs_any Text.medical_terms text ->
      Text.occurs_any Text.satellite_terms text ->
      intent
      = Planner.intent_value "satellite" 0.7%Q
          "Keyword match: satellite terms")
  /\ (~ Text.occurs_any Text.medical_terms text ->
      ~ Text.occurs_any Text.satellite_terms text ->
      intent = Planner.intent_value "general" 0.5%Q "Default fallback").
Proof.
  intros text intent. subst intent.
  unfold Planner._fallback_intent_classification. fold text.
  pose proof (contains_any_spec Text.medical_terms text) as Hmed.
  pose proof (contains_any_spec Text.satellite_terms text) as Hsat.
  unfold Text.medical_terms in Hmed at 1.
  unfold Text.satellite_terms in Hsat at 1.
  destruct (existsb (Planner.contains text)
              ["xray"; "x-ray"; "ct"; "mri"; "medical"; "pneumonia";
               "diagnosis"]) eqn:Emed.
  - split; [reflexivity|].
    split; intro Hn; exfalso; apply Hn; apply Hmed; reflexivity.
  - destruct (existsb (Planner.contains text)
                ["satellite"; "aerial"; "landsat"; "urban"; "forest"])
      eqn:Esat.
    + split; [|split; [reflexivity|]].
      * intro Hm. apply Hmed in Hm. discriminate.
      * intros _ Hn. exfalso. apply Hn. apply Hsat. reflexivity.
    + split; [|split; [|reflexivity]].
      * intro Hm. apply Hmed in Hm. discriminate.
      * intros _ Hs. apply Hsat in Hs. discriminate.
Qed.

(** The letters "ct" inside the word "picture", in a prompt about a
    forest. *)
Lemma fallback_intent_by_keyword_witness :
  Planner._fallback_intent_classification "Picture of a forest"
  = Planner.intent_value "medical" 0.7%Q "Keyword match: medical terms".
Proof.
  apply (fallback_intent_by_keyword "Picture of a forest").
  exists "ct". split.
  - simpl. auto.
  - exists "pi", "ure of a forest". reflexivity.
Defined.

(** ** The dispatch *)

Section DispatchProperties.
Context `{Platform}.

(** What the dispatch on the strategy single_best returns. *)
Lemma single_best_dispatch (w : World) (step : nat) (route : RouteDecision.t)
  (primary : SelectedAgent.t) (others : list SelectedAgent.t)
  (prompt : string) :
  RouteDecision.strategy route = ExecutionStrategy.SINGLE_BEST ->
  RouteDecision.selected_agents route = primary :: others ->
  Planner.dispatch w step (Some route) prompt
  = Returned
      match Planner.send_message_to_agent w step 0 (Planner.card_of primary)
              prompt with
      | Returned result =>
          if Planner.is_success result
          then [Planner.parsed w step 0 result
                  (SelectedAgent.agent_id primary)]
          else []
      | Raised _ =>
          match others with
          | secondary :: _ =>
              match Planner.send_message_to_agent w step 1
                      (Planner.card_of secondary) prompt with
              | Returned result =>
                  if Planner.is_success result
                  then [Planner.parsed w step 1 result
                          (SelectedAgent.agent_id secondary)]
                  else []
              | Raised _ => []
              end
          | [] => []
          end
      end.
Proof.
  intros Hstrategy Hselected.
  unfold Planner.dispatch. cbn [of_option bind].
  rewrite Hstrategy, Hselected. cbn [hd_error of_option bind].
  destruct (Planner.send_message_to_agent w step 0 _ prompt) as [r|e];
    [reflexivity|].
  destruct others as [|secondary rest]; [reflexivity|].
  destruct (Planner.send_message_to_agent w step 1 _ prompt);
    reflexivity.
Qed.

(** What the dispatch leaves in the state when it returns. *)
Lemma execute_returned (w : World) (step : nat) (s : Planner.PlannerState)
  (found : list ClassificationResult.t) :
  Planner.dispatch w step (Planner.route_decision s)
    (ClassificationRequest.prompt (Planner.request s))
  = Returned found ->
  let s' := Planner._execute_tasks_node w step s in
  Planner.results s' = found
  /\ (found = [] -> Planner.error s' = "ALL_AGENTS_FAILED")
  /\ (found <> [] -> Planner.error s' = Planner.error s).
Proof.
  intros Hfound s'. subst s'.
  unfold Planner._execute_tasks_node. rewrite Hfound.
  destruct found as [|r found].
  - repeat split; try reflexivity. intro Hn. now destruct Hn.
  - repeat split; try reflexivity. discriminate.
Qed.

(** X14.  Under the strategy single_best the dispatch gives one result at
    most, and the state gets the error ALL_AGENTS_FAILED when it gives
    none.  A primary agent that answers with a text gives the one result,
    parsed from that text under the primary's id, and the error stays as it
    was.  The secondary agent is asked only when the call of the primary
    raises: a primary that answers without a text and without an error
    leaves the results empty, whatever the secondary would have said; a
    primary whose call raises is followed by the secondary, whose text
    gives the one result under the secondary's id. *)
Theorem single_best_asks_secondary_on_exception (w : World) (step : nat)
  (s : Planner.PlannerState) (route : RouteDecision.t)
  (primary : SelectedAgent.t) (others : list SelectedAgent.t) :
  Planner.route_decision s = Some route ->
  RouteDecision.strategy route = ExecutionStrategy.SINGLE_BEST ->
  RouteDecision.selected_agents route = primary :: others ->
  let s' := Planner._execute_tasks_node w step s in
  let prompt := ClassificationRequest.prompt (Planner.request s) in
  let call (pos : nat) (agent : SelectedAgent.t) :=
    send_message w step pos (Planner.card_of agent) prompt in
  let success (text : string) (agent : SelectedAgent.t) : Py.dict pyval :=
    [ ("status", VStr "success"); ("response", VStr text);
      ("agent", VStr (fst (Planner.card_of agent))) ] in
  (List.length (Planner.results s') <= 1)%nat
  /\ (Planner.results s' = [] -> Planner.error s' = "ALL_AGENTS_FAILED")
  /\ (forall response text,
        call 0%nat primary = Returned response ->
        Planner.first_text (A2AResponse.parts response) = Some text ->
        Planner.results s'
        = [Planner.parsed w step 0 (success text primary)
             (SelectedAgent.agent_id primary)]
        /\ Planner.error s' = Planner.error s)
  /\ (forall response,
        call 0%nat primary = Returned response ->
        Planner.first_text (A2AResponse.parts response) = None ->
        A2AResponse.error response = None ->
        Planner.results s' = [])
  /\ (forall e secondary rest response text,
        call 0%nat primary = Raised e ->
        others = secondary :: rest ->
        call 1%nat secondary = Returned response ->
        Planner.first_text (A2AResponse.parts response) = Some text ->
        Planner.results s'
        = [Planner.parsed w step 1 (success text secondary)
             (SelectedAgent.agent_id secondary)]).
Proof.
  intros Hroute Hstrategy Hselected s' prompt call success.
  pose proof (single_best_dispatch w step route primary others prompt
                Hstrategy Hselected) as Hdispatch.
  rewrite <- Hroute in Hdispatch.
  destruct (execute_returned w step s _ Hdispatch) as (Hres & Hnone & Hsome).
  fold s' in Hres, Hnone, Hsome.
  rewrite Hres. clear Hdispatch Hres.
  subst call success.
  split; [|split; [|split; [|split]]].
  - destruct (Planner.send_message_to_agent w step 0 _ prompt) as [r|e].
    + destruct (Planner.is_success r); cbn; lia.
    + destruct others as [|secondary rest]; [cbn; lia|].
      destruct (Planner.send_message_to_agent w step 1 _ prompt) as [r|e'];
        [destruct (Planner.is_success r)|]; cbn; lia.
  - exact Hnone.
  - intros response text Hcall Htext.
    assert (Hsent :
      Planner.send_message_to_agent w step 0 (Planner.card_of primary) prompt
      = Returned [ ("status", VStr "success"); ("response", VStr text);
                   ("agent", VStr (fst (Planner.card_of primary))) ]).
    { unfold Planner.send_message_to_agent. rewrite Hcall, Htext.
      reflexivity. }
    rewrite Hsent in Hsome |- *.
    split; [reflexivity|]. apply Hsome. discriminate.
  - intros response Hcall Htext Herror.
    unfold Planner.send_message_to_agent at 1.
    rewrite Hcall, Htext, Herror. reflexivity.
  - intros e secondary rest response text Hcall Hothers Hcall' Htext.
    subst others.
    unfold Planner.send_message_to_agent at 1. rewrite Hcall.
    unfold Planner.send_message_to_agent at 1. rewrite Hcall', Htext.
    reflexivity.
Qed.

Lemma flat_map_length_le {A B : Type} (f : A -> list B) (l : list A) :
  (forall x, In x l -> (List.length (f x) <= 1)%nat) ->
  (List.length (flat_map f l) <= List.length l)%nat.
Proof.
  induction l as [|x l IH]; intro Hone.
  - reflexivity.
  - cbn [flat_map List.length]. rewrite length_app.
    pose proof (Hone x (or_introl eq_refl)).
    pose proof (IH (fun y Hy => Hone y (or_intror Hy))).
    lia.
Qed.

(** The loop over the answers of a broadcast, from the place [k] on. *)
Lemma collect_answers (w : World) (step : nat)
  (selected_agents : list SelectedAgent.t) (prompt : string)
  (answer : nat * (string * string) -> Py.dict pyval)
  (result : nat * SelectedAgent.t -> list ClassificationResult.t) :
  (forall i agent,
     result (i, agent)
     = if Planner.is_success (answer (i, Planner.card_of agent))
       then [Planner.parsed w step i (answer (i, Planner.card_of agent))
               (SelectedAgent.agent_id agent)]
       else []) ->
  forall (suffix : list SelectedAgent.t) (k : nat)
         (acc : list ClassificationResult.t),
    (forall j, nth_error selected_agents (k + j) = nth_error suffix j) ->
    Planner.collect w step selected_agents
      (combine (seq k (List.length suffix))
         (map answer
            (combine (seq k (List.length suffix))
               (map Planner.card_of suffix))))
      acc
    = Returned
        (acc ++ flat_map result (combine (seq k (List.length suffix)) suffix))%list.
Proof.
  intro Hresult.
  induction suffix as [|agent rest IH]; intros k acc Hnth.
  - cbn. rewrite app_nil_r. reflexivity.
  - cbn [List.length seq map combine Planner.collect flat_map].
    rewrite Hresult.
    assert (Hrest : forall j,
              nth_error selected_agents (S k + j) = nth_error rest j).
    { intro j. specialize (Hnth (S j)). cbn [nth_error] in Hnth.
      rewrite <- Hnth. f_equal. lia. }
    destruct (Planner.is_success (answer (k, Planner.card_of agent))).
    + specialize (Hnth O). rewrite Nat.add_0_r in Hnth.
      cbn [nth_error] in Hnth. rewrite Hnth. cbn [of_option bind].
      rewrite (IH (S k) _ Hrest). rewrite <- app_assoc. reflexivity.
    + rewrite (IH (S k) _ Hrest). reflexivity.
Qed.

(** What the dispatch on the strategy parallel_ensemble returns. *)
Lemma ensemble_dispatch (w : World) (step : nat) (route : RouteDecision.t)
  (prompt : string) :
  RouteDecision.strategy route = ExecutionStrategy.PARALLEL_ENSEMBLE ->
  Planner.dispatch w step (Some route) prompt
  = Returned
      (flat_map
         (fun place : nat * SelectedAgent.t =>
            match Planner.send_message_to_agent w step (fst place)
                    (Planner.card_of (snd place)) prompt with
            | Returned answer =>
                if Planner.is_success answer
                then [Planner.parsed w step (fst place) answer
                        (SelectedAgent.agent_id (snd place))]
                else []
            | Raised _ => []
            end)
         (Planner.enumerate (RouteDecision.selected_agents route))).
Proof.
  intro Hstrategy.
  set (result_of := fun place : nat * SelectedAgent.t => _).
  unfold Planner.dispatch. cbn [of_option bind]. rewrite Hstrategy.
  set (selected_agents := RouteDecision.selected_agents route).
  unfold Planner.broadcast_message_to_agents.
  set (answer := fun ic : nat * (string * string) =>
         match Planner.send_message_to_agent w step (fst ic) (snd ic) prompt
         with
         | Returned r => r
         | Raised e =>
             [ ("status", VStr "error"); ("error", VStr e);
               ("agent", VStr (fst (snd ic))) ]
         end).
  assert (Hresult : forall i agent,
    result_of (i, agent)
    = if Planner.is_success (answer (i, Planner.card_of agent))
      then [Planner.parsed w step i (answer (i, Planner.card_of agent))
              (SelectedAgent.agent_id agent)]
      else []).
  { intros i agent. subst result_of answer. cbn [fst snd].
    destruct (Planner.send_message_to_agent w step i _ prompt);
      reflexivity. }
  pose proof (collect_answers w step selected_agents prompt answer result_of
                Hresult selected_agents O [] (fun j => eq_refl)) as Hcollect.
  unfold Planner.enumerate at 1.
  rewrite length_map.
  unfold Planner.enumerate at 1. rewrite length_combine, length_seq.
  rewrite length_map, Nat.min_id.
  unfold Planner.enumerate at 1. rewrite length_map.
  rewrite Hcollect. reflexivity.
Qed.

(** X15.  Under the strategy parallel_ensemble the dispatch never raises.
    It returns one result for every selected agent that answered with a
    text, in the order of the selection, parsed from the agent's own answer
    under the agent's own id; the agents whose call raised or gave no text
    are passed over.  So the results are never more than the selected
    agents. *)
Theorem ensemble_collects_text_answers (w : World) (step : nat)
  (route : RouteDecision.t) (prompt : string) :
  RouteDecision.strategy route = ExecutionStrategy.PARALLEL_ENSEMBLE ->
  let result_of (place : nat * SelectedAgent.t) :=
    match Planner.send_message_to_agent w step (fst place)
            (Planner.card_of (snd place)) prompt with
    | Returned answer =>
        if Planner.is_success answer
        then [Planner.parsed w step (fst place) answer
                (SelectedAgent.agent_id (snd place))]
        else []
    | Raised _ => []
    end in
  exists results,
    Planner.dispatch w step (Some route) prompt = Returned results
    /\ results
       = flat_map result_of
           (Planner.enumerate (RouteDecision.selected_agents route))
    /\ (List.length results
        <= List.length (RouteDecision.selected_agents route))%nat.
Proof.
  intros Hstrategy result_of.
  eexists. split; [apply ensemble_dispatch; exact Hstrategy|].
  split; [reflexivity|].
  etransitivity.
  - apply flat_map_length_le. intros [i agent] _. cbn [fst snd].
    destruct (Planner.send_message_to_agent w step i _ prompt) as [r|e];
      [destruct (Planner.is_success r)|]; cbn; lia.
  - rewrite enumerate_length. reflexivity.
Qed.

End DispatchProperties.

(** A primary agent that is down and a secondary agent that answers. *)
Lemma single_best_asks_secondary_on_exception_witness :
  let w := Example.flaky_world 2 (Nat.eqb 0) in
  let s' :=
    Planner._execute_tasks_node (H := Sample.platform) w 5
      (Example.routed w 2 false) in
  map ClassificationResult.agent_id (Planner.results s') = ["b"]
  /\ map ClassificationResult.label (Planner.results s') = ["cat"].
Proof.
  intros w s'.
  destruct (single_best_asks_secondary_on_exception (H := Sample.platform)
              w 5 (Example.routed w 2 false)
              {| RouteDecision.request_id := "req-1";
                 RouteDecision.selected_agents :=
                   [ Planner.select AgentRole.PRIMARY 0.95%Q
                       "LLM selected: Highest ranked from discovery"
                       (Sample.agent "a");
                     Planner.select AgentRole.SECONDARY 0.85%Q
                       "Fallback agent" (Sample.agent "b") ];
                 RouteDecision.strategy := ExecutionStrategy.SINGLE_BEST |}
              (Planner.select AgentRole.PRIMARY 0.95%Q
                 "LLM selected: Highest ranked from discovery"
                 (Sample.agent "a"))
              [ Planner.select AgentRole.SECONDARY 0.85%Q "Fallback agent"
                  (Sample.agent "b") ]
              eq_refl eq_refl eq_refl)
    as (_ & _ & _ & _ & Hsecond).
  specialize (Hsecond "timeout"
                (Planner.select AgentRole.SECONDARY 0.85%Q "Fallback agent"
                   (Sample.agent "b"))
                []
                {| A2AResponse.parts := Some [Some Sample.cat_reply];
                   A2AResponse.error := None |}
                Sample.cat_reply eq_refl eq_refl eq_refl eq_refl).
  subst s'. rewrite Hsecond. split; reflexivity.
Defined.

(** Three agents of which the second is down. *)
Lemma ensemble_collects_text_answers_witness :
  let w := Example.flaky_world 3 (Nat.eqb 1) in
  exists results,
    Planner.dispatch (H := Sample.platform) w 5
      (Planner.route_decision (Example.routed w 3 true))
      "Classify this chest X-ray"
    = Returned results
    /\ map ClassificationResult.agent_id results = ["a"; "c"].
Proof.
  intro w.
  destruct (ensemble_collects_text_answers (H := Sample.platform) w 5
              {| RouteDecision.request_id := "req-1";
                 RouteDecision.selected_agents :=
                   [ Planner.select AgentRole.ENSEMBLE (0.9 - 0 * 0.1)%Q
                       "LLM ensemble: Agent 1" (Sample.agent "a");
                     Planner.select AgentRole.ENSEMBLE (0.9 - 1 * 0.1)%Q
                       "LLM ensemble: Agent 2" (Sample.agent "b");
                     Planner.select AgentRole.ENSEMBLE (0.9 - 2 * 0.1)%Q
                       "LLM ensemble: Agent 3" (Sample.agent "c") ];
                 RouteDecision.strategy :=
                   ExecutionStrategy.PARALLEL_ENSEMBLE |}
              "Classify this chest X-ray" eq_refl)
    as (results & Hdispatch & Hresults & _).
  exists results. split.
  - exact Hdispatch.
  - rewrite Hresults. reflexivity.
Defined.

(** ** The reflection *)

Lemma max_from_reaches (m : Q) (l : list Q) :
  forall x : Q,
    Qle_bool m (Planner.max_from x l) = true
    <-> exists y, In y (x :: l) /\ (m <= y)%Q.
Proof.
  unfold Planner.max_from.
  induction l as [|c l IH]; intro x.
  - cbn [fold_left]. rewrite Qle_bool_true. split.
    + intro Hx. exists x. split; [left; reflexivity|exact Hx].
    + intros (y & [<-|[]] & Hy). exact Hy.
  - cbn [fold_left]. rewrite IH. split.
    + intros (y & Hin & Hy).
      destruct (Qle_bool c x) eqn:Hcx.
      * exists y. split; [|exact Hy].
        destruct Hin as [<-|Hin]; [left; reflexivity|right; right; exact Hin].
      * exists y. split; [|exact Hy].
        destruct Hin as [<-|Hin]; [right; left; reflexivity
                                  |right; right; exact Hin].
    + intros (y & Hin & Hy).
      destruct (Qle_bool c x) eqn:Hcx.
      * destruct Hin as [<-|[<-|Hin]].
        -- exists x. split; [left; reflexivity|exact Hy].
        -- apply Qle_bool_true in Hcx. exists x.
           split; [left; reflexivity|]. eapply Qle_trans; eassumption.
        -- exists y. split; [right; exact Hin|exact Hy].
      * destruct Hin as [<-|[<-|Hin]].
        -- apply Qle_bool_false in Hcx. exists c.
           split; [left; reflexivity|].
           eapply Qle_trans; [exact Hy|]. apply Qlt_le_weak. exact Hcx.
        -- exists c. split; [left; reflexivity|exact Hy].
        -- exists y. split; [right; exact Hin|exact Hy].
Qed.

Section ReflectionProperties.
Context `{Platform}.

(** The report that the reflection gets from the planner's verifier. *)
Lemma reflection_report (first : ClassificationResult.t)
  (rest : list ClassificationResult.t) (request : ClassificationRequest.t) :
  exists report,
    Verifier.verify Planner.verifier (first :: rest) request None None
    = Returned report
    /\ VerificationStatus.value (VerificationReport.status report)
       = if Qle_bool 0.75 (ClassificationResult.confidence first)
         then "PASS" else "FAIL".
Proof.
  eexists. split.
  { apply (gate_only_report Planner.verifier first rest request).
    reflexivity. }
  cbn [VerificationReport.status].
  change (Verifier.confidence_gate Planner.verifier)
    with ConfidenceGate.default.
  unfold ConfidenceGate.verify.
  change (ConfidenceGate.pass_threshold ConfidenceGate.default) with 0.75%Q.
  destruct (Qle_bool 0.75 (ClassificationResult.confidence first));
    [reflexivity|].
  destruct (Qle_bool _ (ClassificationResult.confidence first));
    reflexivity.
Qed.

(** The decision of the fallback. *)
Lemma fallback_reflection_decides (s : Planner.PlannerState)
  (first : ClassificationResult.t) (rest : list ClassificationResult.t)
  (request : ClassificationRequest.t) (report : VerificationReport.t) :
  let s' :=
    Planner._fallback_reflection s (first :: rest) request (Some report) in
  let required :=
    ClassificationConstraints.min_confidence
      (ClassificationRequest.constraints request) in
  let passes :=
    (exists r, In r (first :: rest)
               /\ (required <= ClassificationResult.confidence r)%Q)
    \/ VerificationStatus.value (VerificationReport.status report) = "PASS" in
  (passes ->
   Planner.verification_status s' = "PASS"
   /\ Planner.verification_recommendation s' = "success")
  /\ (~ passes ->
      Planner.verification_status s' = "FAIL"
      /\ Planner.verification_recommendation s' = "replan").
Proof.
  intros s' required passes. subst s'.
  unfold Planner._fallback_reflection. fold required.
  cbn [map].
  pose proof (max_from_reaches required
                (map ClassificationResult.confidence rest)
                (ClassificationResult.confidence first)) as Hmax.
  assert (Hsome :
    (exists y,
        In y (ClassificationResult.confidence first
              :: map ClassificationResult.confidence rest)
        /\ (required <= y)%Q)
    <-> exists r, In r (first :: rest)
                  /\ (required <= ClassificationResult.confidence r)%Q).
  { split.
    - intros (y & Hin & Hy).
      change (In y (map ClassificationResult.confidence (first :: rest)))
        in Hin.
      apply in_map_iff in Hin. destruct Hin as (r & <- & Hr).
      exists r. auto.
    - intros (r & Hr & Hy).
      exists (ClassificationResult.confidence r). split; [|exact Hy].
      change (In (ClassificationResult.confidence r)
                (map ClassificationResult.confidence (first :: rest))).
      apply in_map. exact Hr. }
  rewrite Hsome in Hmax. clear Hsome.
  destruct (Qle_bool required
              (Planner.max_from (ClassificationResult.confidence first)
                 (map ClassificationResult.confidence rest))) eqn:Econf.
  - cbn [orb]. split; [intros _; split; reflexivity|].
    intro Hn. exfalso. apply Hn. left. apply Hmax. reflexivity.
  - cbn [orb].
    destruct (String.eqb
                (VerificationStatus.value (VerificationReport.status report))
                "PASS") eqn:Estatus.
    + split; [intros _; split; reflexivity|].
      intro Hn. exfalso. apply Hn. right. apply String.eqb_eq. exact Estatus.
    + split; [|intros _; split; reflexivity].
      intros [Hconf|Hstatus].
      * apply Hmax in Hconf. discriminate.
      * apply String.eqb_eq in Hstatus. congruence.
Qed.

(** X16.  Without a verdict of the language model (there is no model, its
    call raises, or its answer lacks the decision) the reflection on
    results that are not empty decides by rule: the verification passes,
    with the recommendation success, exactly when some result has at least
    the confidence that the request requires or the first result has a
    confidence of 0.75 or more, which is what the verifier checks; otherwise
    it fails with the recommendation replan.  The recommendations of the
    verifier (replan_ensemble, human_review) are not handed on, and the
    mismatch warning is left alone. *)
Theorem reflection_falls_back_on_confidences (w : World) (step : nat)
  (s : Planner.PlannerState) (first : ClassificationResult.t)
  (rest : list ClassificationResult.t) :
  Planner.results s = first :: rest ->
  (llm w = false
   \/ reflect w step (first :: rest) = Returned None
   \/ exists e, reflect w step (first :: rest) = Raised e) ->
  let s' := Planner._reflection_node w step s in
  let required :=
    ClassificationConstraints.min_confidence
      (ClassificationRequest.constraints (Planner.request s)) in
  let passes :=
    (exists r, In r (first :: rest)
               /\ (required <= ClassificationResult.confidence r)%Q)
    \/ (0.75 <= ClassificationResult.confidence first)%Q in
  (passes ->
   Planner.verification_status s' = "PASS"
   /\ Planner.verification_recommendation s' = "success")
  /\ (~ passes ->
      Planner.verification_status s' = "FAIL"
      /\ Planner.verification_recommendation s' = "replan")
  /\ Py.get (Planner.verification_report s') "status"
     = Some (VStr (if Qle_bool 0.75 (ClassificationResult.confidence first)
                   then "PASS" else "FAIL"))
  /\ Planner.mismatch_warning s' = Planner.mismatch_warning s
  /\ Planner.results s' = first :: rest.
Proof.
  intros Hresults Hnone s' required passes.
  destruct (reflection_report first rest (Planner.request s))
    as (report & Hverify & Hstatus).
  set (s1 :=
    Planner.set_verification_report s
      [ ("results_count", VInt (Z.of_nat (List.length (first :: rest))));
        ("status",
          VStr (VerificationStatus.value (VerificationReport.status report)));
        ("tests",
          VList (map (fun t => VStr (VerificationTest.test_name t))
                   (VerificationReport.tests_performed report)));
        ("notes", VStr (VerificationReport.notes report)) ]).
  assert (Hs' :
    s' = Planner._fallback_reflection s1 (first :: rest) (Planner.request s)
           (Some report)).
  { subst s' s1. unfold Planner._reflection_node.
    rewrite Hresults, Hverify.
    destruct Hnone as [Hllm|[Hr|[e Hr]]].
    - rewrite Hllm. reflexivity.
    - rewrite Hr. destruct (llm w); reflexivity.
    - rewrite Hr. destruct (llm w); reflexivity. }
  destruct (fallback_reflection_decides s1 first rest (Planner.request s)
              report) as [Hpass Hfail].
  rewrite <- Hs' in Hpass, Hfail. fold required in Hpass, Hfail.
  assert (Hiff :
    VerificationStatus.value (VerificationReport.status report) = "PASS"
    <-> (0.75 <= ClassificationResult.confidence first)%Q).
  { rewrite Hstatus, <- Qle_bool_true.
    destruct (Qle_bool 0.75 (ClassificationResult.confidence first));
      split; congruence. }
  split; [|split; [|split; [|split]]].
  - intros [Hc|Hv]; apply Hpass; [left; exact Hc|right; apply Hiff; exact Hv].
  - intro Hn. apply Hfail. intros [Hc|Hv]; apply Hn;
      [left; exact Hc|right; apply Hiff; exact Hv].
  - rewrite Hs', <- Hstatus.
    unfold Planner._fallback_reflection.
    destruct (_ || _); reflexivity.
  - rewrite Hs'.
    destruct (fallback_reflection_frame s1 (first :: rest)
                (Planner.request s) (Some report)) as (_ & _ & _ & Hm).
    rewrite Hm. reflexivity.
  - rewrite Hs'.
    destruct (fallback_reflection_frame s1 (first :: rest)
                (Planner.request s) (Some report)) as (_ & _ & Hr & _).
    rewrite Hr. exact Hresults.
Qed.

(** X17.  When the language model answers the reflection on results that
    are not empty and flags no mismatch, its answer alone decides, whatever
    the confidences and the report of the verifier are: the verification
    fails, with the recommendation replan, when the model wants to continue
    and the iteration is below MAX_REPLANS, and passes, with the
    recommendation success, in every other case.  The results and the
    mismatch warning are left alone. *)
Theorem reflection_follows_the_model (w : World) (step : nat)
  (s : Planner.PlannerState) (response : ShouldContinue.t) :
  Planner.results s <> [] ->
  llm w = true ->
  reflect w step (Planner.results s) = Returned (Some response) ->
  ShouldContinue.mismatch_detected response = false ->
  let s' := Planner._reflection_node w step s in
  (ShouldContinue.should_continue response = true ->
   (Planner.iteration s < Planner.MAX_REPLANS)%Z ->
   Planner.verification_status s' = "FAIL"
   /\ Planner.verification_recommendation s' = "replan")
  /\ (ShouldContinue.should_continue response = false
      \/ (Planner.MAX_REPLANS <= Planner.iteration s)%Z ->
      Planner.verification_status s' = "PASS"
      /\ Planner.verification_recommendation s' = "success")
  /\ Planner.mismatch_warning s' = Planner.mismatch_warning s
  /\ Planner.results s' = Planner.results s.
Proof.
  intros Hresults Hllm Hreflect Hmismatch s'. subst s'.
  unfold Planner._reflection_node.
  destruct (Planner.results s) as [|first rest] eqn:Eres; [contradiction|].
  rewrite Hllm, Hreflect, Hmismatch.
  cbn [Planner.iteration Planner.set_verification_report].
  destruct (ShouldContinue.should_continue response) eqn:Econt.
  - destruct (Planner.iteration s <? Planner.MAX_REPLANS)%Z eqn:Eit.
    + cbn [andb]. apply Z.ltb_lt in Eit.
      split; [intros _ _; split; reflexivity|].
      split; [|split; [reflexivity|exact Eres]].
      intros [Hc|Hi]; [discriminate|lia].
    + cbn [andb]. apply Z.ltb_ge in Eit.
      split; [intros _ Hi; lia|].
      split; [intros _; split; reflexivity|].
      split; [reflexivity|exact Eres].
  - cbn [andb].
    split; [discriminate|].
    split; [intros _; split; reflexivity|].
    split; [reflexivity|exact Eres].
Qed.

End ReflectionProperties.

(** No model: a first result below 0.75 and a second one at the required
    confidence. *)
Lemma reflection_falls_back_on_confidences_witness :
  let w := Example.static_world (Raised "down") in
  let s :=
    Planner.set_results (Planner.initial_state w Sample.request)
      [ Sample.result_of "a" "cat" 0.7%Q; Sample.result_of "b" "cat" 0.8%Q ] in
  let s' := Planner._reflection_node (H := Sample.platform) w 6 s in
  Planner.verification_status s' = "PASS"
  /\ Py.get (Planner.verification_report s') "status" = Some (VStr "FAIL").
Proof.
  intros w s s'.
  destruct (reflection_falls_back_on_confidences (H := Sample.platform) w 6 s
              (Sample.result_of "a" "cat" 0.7%Q)
              [Sample.result_of "b" "cat" 0.8%Q] eq_refl
              (or_introl eq_refl))
    as (Hpass & _ & Hreport & _).
  split.
  - apply Hpass. left. exists (Sample.result_of "b" "cat" 0.8%Q).
    split; [right; left; reflexivity|]. vm_compute. discriminate.
  - exact Hreport.
Defined.

(** A model that stops on a result of confidence 0.1. *)
Lemma reflection_follows_the_model_witness :
  let w := Sample.world 1 "Label: cat" (Sample.judged false false "fine") in
  let s :=
    Planner.set_results (Planner.initial_state w Sample.request)
      [Sample.result_of "a" "cat" 0.1%Q] in
  Planner.verification_status
    (Planner._reflection_node (H := Sample.platform) w 6 s) = "PASS".
Proof.
  intros w s.
  destruct (reflection_follows_the_model (H := Sample.platform) w 6 s
              {| ShouldContinue.should_continue := false;
                 ShouldContinue.reason := "fine";
                 ShouldContinue.mismatch_detected := false |})
    as (_ & Hstop & _).
  - discriminate.
  - reflexivity.
  - reflexivity.
  - reflexivity.
  - apply Hstop. left. reflexivity.
Defined.

(** ** The states of a run *)

Lemma keeps_same (s : Planner.PlannerState) : Trace.keeps s s.
Proof.
  repeat split. exists []. symmetry. apply app_nil_r.
Qed.

Section TraceProperties.
Context `{Platform}.

Lemma supervisor_keeps (w : World) (step : nat) (s : Planner.PlannerState) :
  Trace.keeps s (Planner._supervisor_node w step s).
Proof.
  unfold Planner._supervisor_node, Trace.keeps.
  split_cases; simpl; repeat split;
    first [eexists; reflexivity | exists []; symmetry; apply app_nil_r].
Qed.

Lemma discover_keeps (w : World) (step : nat) (s s' : Planner.PlannerState) :
  Planner._discover_agents_node w step s = Returned s' ->
  Trace.keeps s s'.
Proof.
  unfold Planner._discover_agents_node.
  destruct (Planner.discovered_agents s);
    [|intro Hr; inversion Hr; subst s'; apply keeps_same].
  destruct (Py.get (Planner.intent s) "domain"); simpl; [|discriminate].
  unfold Trace.keeps.
  split_cases; intro Hr; inversion Hr; subst s'; simpl; repeat split;
    first [eexists; reflexivity | exists []; symmetry; apply app_nil_r].
Qed.

Lemma execute_keeps (w : World) (step : nat) (s : Planner.PlannerState) :
  Trace.keeps s (Planner._execute_tasks_node w step s).
Proof.
  unfold Planner._execute_tasks_node, Trace.keeps.
  destruct (Planner.dispatch w step _ _) as [[|r results]|e]; simpl;
    repeat split;
    first [eexists; reflexivity | exists []; symmetry; apply app_nil_r].
Qed.

Lemma check_status_keeps_verdict (s : Planner.PlannerState) :
  Trace.keeps s (Planner._check_status_node s).
Proof.
  unfold Planner._check_status_node, Trace.keeps.
  split_cases; simpl; repeat split; eexists; reflexivity.
Qed.

(** What the reflection writes. *)
Lemma reflection_verdict (w : World) (step : nat) (s : Planner.PlannerState) :
  let s' := Planner._reflection_node w step s in
  Planner.request s' = Planner.request s
  /\ (Planner.verification_recommendation s' = "replan"
      \/ Planner.verification_recommendation s' = "success")
  /\ (Planner.verification_status s' = "PASS" -> Planner.results s <> [])
  /\ exists said, Planner.messages s' = (Planner.messages s ++ said)%list.
Proof.
  unfold Planner._reflection_node.
  destruct (Planner.results s) as [|first rest] eqn:Er.
  { simpl. repeat split; try (left; reflexivity); try discriminate.
    eexists; reflexivity. }
  assert (Hfall : forall state report,
    let s' :=
      Planner._fallback_reflection state (first :: rest) (Planner.request s)
        report in
    Planner.request s' = Planner.request state
    /\ (Planner.verification_recommendation s' = "replan"
        \/ Planner.verification_recommendation s' = "success")
    /\ exists said, Planner.messages s' = (Planner.messages state ++ said)%list).
  { intros state report. unfold Planner._fallback_reflection.
    destruct (_ || _); simpl; repeat split;
      solve [left; reflexivity | right; reflexivity | eexists; reflexivity]. }
  destruct (llm w);
    [destruct (reflect w step _) as [[response|]|e]|];
    try match goal with
        | |- context [Planner._fallback_reflection ?a ?b ?c ?d] =>
            destruct (Hfall a d) as (Hq & Hrec & Hsaid);
            cbv zeta; rewrite Hq; repeat split;
              [exact Hrec|discriminate|exact Hsaid]
        end.
  destruct (ShouldContinue.mismatch_detected response);
    [|destruct (_ && _)]; simpl; repeat split;
    solve [left; reflexivity | right; reflexivity | discriminate
          | eexists; reflexivity].
Qed.

Lemma ensemble_selection (a : AgentRecord.t) (agents : list AgentRecord.t)
  (s : Planner.PlannerState) :
  Planner.discovered_agents s = a :: agents ->
  exists route primary others,
    Planner.route_decision (Planner._route_ensemble_node s) = Some route
    /\ RouteDecision.selected_agents route = primary :: others
    /\ RouteDecision.strategy route = ExecutionStrategy.PARALLEL_ENSEMBLE.
Proof.
  intro Hagents. unfold Planner._route_ensemble_node. rewrite Hagents.
  eexists. eexists. eexists. split; [reflexivity|].
  split; [|reflexivity].
  cbn [RouteDecision.selected_agents firstn Planner.enumerate].
  destruct (firstn 2 agents); reflexivity.
Qed.

Lemma simple_selection (a : AgentRecord.t) (agents : list AgentRecord.t)
  (s : Planner.PlannerState) :
  Planner.discovered_agents s = a :: agents ->
  exists route primary others,
    Planner.route_decision (Planner._route_simple_node s) = Some route
    /\ RouteDecision.selected_agents route = primary :: others
    /\ RouteDecision.strategy route = ExecutionStrategy.SINGLE_BEST.
Proof.
  intro Hagents. unfold Planner._route_simple_node. rewrite Hagents.
  eexists. eexists. eexists. split; [reflexivity|].
  split; reflexivity.
Qed.

Lemma route_with_agents (s : Planner.PlannerState) :
  Planner._should_use_ensemble s <> Planner.Route.error ->
  Planner.discovered_agents s <> [].
Proof.
  unfold Planner._should_use_ensemble.
  destruct (negb (String.eqb (Planner.error s) "")); [congruence|].
  destruct (Planner.discovered_agents s); [congruence|discriminate].
Qed.

Lemma route_error (s : Planner.PlannerState) :
  Planner._should_use_ensemble s = Planner.Route.error ->
  Planner.error s <> "" \/ Planner.discovered_agents s = [].
Proof.
  unfold Planner._should_use_ensemble.
  destruct (String.eqb (Planner.error s) "") eqn:Ee.
  - cbn [negb]. destruct (Planner.discovered_agents s); [right; reflexivity|].
    destruct (_ || _); discriminate.
  - intros _. left. apply String.eqb_neq. exact Ee.
Qed.

Lemma sound_next (w : World) (request : ClassificationRequest.t)
  (step : nat) (node node' : Planner.Node.t) (s s' : Planner.PlannerState) :
  Trace.sound request node s ->
  Planner.exec w step node s = Returned s' ->
  Planner.next node s' = Some node' ->
  Trace.sound request node' s'.
Proof.
  unfold Trace.sound.
  intros (Hreq & Hrec & Hpass & (said & Hsaid) & Hnode) Hexec Hnext.
  assert (Hkept : forall node',
    Trace.keeps s s' ->
    Planner.verification_status s <> "PASS" ->
    Planner.request s' = request
    /\ In (Planner.verification_recommendation s') [""; "replan"; "success"]
    /\ (Planner.verification_status s' = "PASS" ->
        Planner.results s' <> []
        /\ (node' = Planner.Node.check_status
            \/ Invariant.closing node' = true))
    /\ exists said',
         Planner.messages s' = ClassificationRequest.prompt request :: said').
  { intros n (Kreq & Kstatus & Krec & (more & Kmore)) Hnot.
    rewrite Kreq, Kstatus, Krec, Kmore, Hsaid.
    split; [exact Hreq|]. split; [exact Hrec|].
    split; [|exists (said ++ more)%list; reflexivity].
    intro Hp. contradiction. }
  destruct node; simpl in Hexec, Hnext; try discriminate.
  - (* supervisor *)
    inversion Hexec; subst s'. inversion Hnext; subst node'.
    destruct (Hkept Planner.Node.discover_agents (supervisor_keeps w step s))
      as (A & B & C & D).
    { intro Hp. destruct (Hpass Hp) as [_ [Hn|Hn]]; discriminate. }
    exact (conj A (conj B (conj C (conj D I)))).
  - (* discover_agents *)
    inversion Hnext; subst node'.
    destruct (Hkept Planner.Node.route_decision
                (discover_keeps w step s s' Hexec)) as (A & B & C & D).
    { intro Hp. destruct (Hpass Hp) as [_ [Hn|Hn]]; discriminate. }
    exact (conj A (conj B (conj C (conj D I)))).
  - (* route_decision *)
    inversion Hexec; subst s'.
    assert (Hk : Trace.keeps s (Planner._route_decision_node s)).
    { repeat split. eexists. reflexivity. }
    pose proof (route_with_agents (Planner._route_decision_node s)) as Hag.
    pose proof (route_error (Planner._route_decision_node s)) as Herr.
    destruct (Planner._should_use_ensemble (Planner._route_decision_node s));
      inversion Hnext; subst node'.
    + destruct (Hkept Planner.Node.route_simple Hk) as (A & B & C & D).
      { intro Hp. destruct (Hpass Hp) as [_ [Hn|Hn]]; discriminate. }
      refine (conj A (conj B (conj C (conj D _)))). apply Hag. discriminate.
    + destruct (Hkept Planner.Node.route_ensemble Hk) as (A & B & C & D).
      { intro Hp. destruct (Hpass Hp) as [_ [Hn|Hn]]; discriminate. }
      refine (conj A (conj B (conj C (conj D _)))). apply Hag. discriminate.
    + destruct (Hkept Planner.Node.handle_error Hk) as (A & B & C & D).
      { intro Hp. destruct (Hpass Hp) as [_ [Hn|Hn]]; discriminate. }
      split; [exact A|]. split; [exact B|]. split; [exact C|].
      split; [exact D|]. apply Herr. reflexivity.
  - (* route_simple *)
    inversion Hexec; subst s'. inversion Hnext; subst node'.
    assert (Hk : Trace.keeps s (Planner._route_simple_node s)).
    { repeat split. eexists. reflexivity. }
    destruct (Hkept Planner.Node.execute_tasks Hk) as (A & B & C & D).
    { intro Hp. destruct (Hpass Hp) as [_ [Hn|Hn]]; discriminate. }
    split; [exact A|]. split; [exact B|]. split; [exact C|].
    split; [exact D|].
    destruct (Planner.discovered_agents s) as [|a agents] eqn:Ea;
      [contradiction|].
    destruct (simple_selection a agents s Ea)
      as (route & primary & others & Hr & Hs & Ht).
    exists route, primary, others. rewrite Ht.
    split; [exact Hr|]. split; [exact Hs|discriminate].
  - (* route_ensemble *)
    inversion Hexec; subst s'. inversion Hnext; subst node'.
    assert (Hk : Trace.keeps s (Planner._route_ensemble_node s)).
    { repeat split. eexists. reflexivity. }
    destruct (Hkept Planner.Node.execute_tasks Hk) as (A & B & C & D).
    { intro Hp. destruct (Hpass Hp) as [_ [Hn|Hn]]; discriminate. }
    split; [exact A|]. split; [exact B|]. split; [exact C|].
    split; [exact D|].
    destruct (Planner.discovered_agents s) as [|a agents] eqn:Ea;
      [contradiction|].
    destruct (ensemble_selection a agents s Ea)
      as (route & primary & others & Hr & Hs & Ht).
    exists route, primary, others. rewrite Ht.
    split; [exact Hr|]. split; [exact Hs|discriminate].
  - (* execute_tasks *)
    inversion Hexec; subst s'. inversion Hnext; subst node'.
    destruct (Hkept Planner.Node.reflection (execute_keeps w step s))
      as (A & B & C & D).
    { intro Hp. destruct (Hpass Hp) as [_ [Hn|Hn]]; discriminate. }
    exact (conj A (conj B (conj C (conj D I)))).
  - (* reflection *)
    inversion Hexec; subst s'. inversion Hnext; subst node'.
    destruct (reflection_verdict w step s) as (Rq & Rrec & Rpass & (more & Rm)).
    destruct (reflection_frame w step s) as (_ & _ & Rres).
    rewrite Rq, Rm, Rres, Hsaid.
    split; [exact Hreq|].
    split; [destruct Rrec as [-> | ->]; simpl; tauto|].
    split; [intro Hp; split; [exact (Rpass Hp)|left; reflexivity]|].
    split; [exists (said ++ more)%list; reflexivity|exact I].
  - (* check_status *)
    inversion Hexec; subst s'.
    destruct (check_status_keeps_verdict s)
      as (Kreq & Kstatus & Krec & (more & Kmore)).
    destruct (check_status_keeps s) as [Kres _].
    destruct (check_status_spec s) as (Kerr & _).
    set (s1 := Planner._check_status_node s) in *.
    rewrite Kreq, Krec, Kstatus, Kres, Kmore, Hsaid.
    assert (Hcommon :
      Planner.request s = request
      /\ In (Planner.verification_recommendation s)
           [""; "replan"; "success"]).
    { split; assumption. }
    assert (Hmsg : exists said',
      (ClassificationRequest.prompt request :: said ++ more)%list
      = ClassificationRequest.prompt request :: said').
    { eexists. reflexivity. }
    unfold Planner._decide_next_action in Hnext.
    destruct (String.eqb (Planner.error s1) "") eqn:Ee.
    2:{ cbn [negb] in Hnext. inversion Hnext; subst node'.
        split; [exact Hreq|]. split; [exact Hrec|].
        split; [intro Hp; split; [apply Hpass; exact Hp|right; reflexivity]|].
        split; [exact Hmsg|]. left. apply String.eqb_neq. exact Ee. }
    cbn [negb] in Hnext. apply String.eqb_eq in Ee.
    rewrite Kstatus, Krec in Hnext.
    destruct (String.eqb (Planner.verification_status s) "PASS") eqn:Es.
    { inversion Hnext; subst node'. apply String.eqb_eq in Es.
      split; [exact Hreq|]. split; [exact Hrec|].
      split; [intro Hp; split; [apply Hpass; exact Hp|right; reflexivity]|].
      split; [exact Hmsg|]. split; [exact Ee|left; exact Es]. }
    apply String.eqb_neq in Es.
    destruct (String.eqb (Planner.verification_recommendation s)
                "human_review") eqn:Er.
    { apply String.eqb_eq in Er. rewrite Er in Hrec. simpl in Hrec.
      destruct Hrec as [Hr|[Hr|[Hr|[]]]]; discriminate. }
    destruct (Planner.MAX_REPLANS <=? Planner.iteration s1)%Z eqn:Ei;
      inversion Hnext; subst node'.
    + apply Z.leb_le in Ei.
      split; [exact Hreq|]. split; [exact Hrec|].
      split; [intro Hp; contradiction|].
      split; [exact Hmsg|]. split; [exact Ee|right; exact Ei].
    + split; [exact Hreq|]. split; [exact Hrec|].
      split; [intro Hp; contradiction|].
      split; [exact Hmsg|exact I].
Qed.

Lemma reaches_sound (w : World) (request : ClassificationRequest.t)
  (step : nat) (node : Planner.Node.t) (s : Planner.PlannerState) :
  Invariant.reaches w request step node s -> Trace.sound request node s.
Proof.
  induction 1 as [|step node node' s s' Hreach IH Hexec Hnext].
  - unfold Trace.sound. simpl.
    split; [reflexivity|]. split; [left; reflexivity|].
    split; [discriminate|]. split; [eexists; reflexivity|exact I].
  - eapply sound_next; eassumption.
Qed.

(** A run ends with the closing node that it enters first. *)
Lemma run_ends (w : World) (request : ClassificationRequest.t) :
  forall (budget step : nat) (node : Planner.Node.t)
         (s : Planner.PlannerState),
    Invariant.reaches w request step node s ->
    (16 - step <= budget)%nat ->
    exists step' node' s0 s',
      Invariant.reaches w request step' node' s0
      /\ Invariant.closing node' = true
      /\ Planner.exec w step' node' s0 = Returned s'
      /\ Planner.run w budget step node s = Returned s'.
Proof.
  induction budget as [|budget IH]; intros step node s Hreach Hbudget.
  - pose proof (on_track_step _ _ _ (reaches_on_track _ _ _ _ _ Hreach)).
    lia.
  - destruct (exec_returns w step node s
                (reaches_on_track _ _ _ _ _ Hreach)) as [s1 Hexec].
    simpl. rewrite Hexec. simpl.
    destruct (Planner.next node s1) as [node'|] eqn:Hnext.
    + apply IH; [|lia]. eapply Invariant.reaches_next; eassumption.
    + exists step, node, s, s1.
      split; [exact Hreach|]. split; [|split; [exact Hexec|reflexivity]].
      destruct node; try discriminate Hnext; reflexivity.
Qed.

(** The response of the entry point is the one that a closing node wrote
    on a state of the run. *)
Lemma response_closes (w : World) (request : ClassificationRequest.t) :
  exists step node s0 s',
    Invariant.reaches w request step node s0
    /\ Invariant.closing node = true
    /\ Planner.exec w step node s0 = Returned s'
    /\ Planner.plan_and_execute w request = Planner.final_response s'.
Proof.
  destruct (run_ends w request Planner.recursion_limit 1
              Planner.Node.supervisor (Planner.initial_state w request))
    as (step & node & s0 & s' & Hreach & Hclosing & Hexec & Hrun).
  - apply Invariant.reaches_start.
  - unfold Planner.recursion_limit. lia.
  - exists step, node, s0, s'.
    split; [exact Hreach|]. split; [exact Hclosing|]. split; [exact Hexec|].
    unfold Planner.plan_and_execute, Planner.ainvoke. rewrite Hrun.
    reflexivity.
Qed.

End TraceProperties.

(** ** Whole runs *)

Section RunProperties.
Context `{Platform}.

Lemma run_step (w : World) (budget step : nat) (node node' : Planner.Node.t)
  (s s' : Planner.PlannerState) :
  Planner.exec w step node s = Returned s' ->
  Planner.next node s' = Some node' ->
  Planner.run w (S budget) step node s
  = Planner.run w budget (S step) node' s'.
Proof.
  intros Hexec Hnext. cbn [Planner.run]. rewrite Hexec. cbn [bind].
  rewrite Hnext. reflexivity.
Qed.

Lemma run_stop (w : World) (budget step : nat) (node : Planner.Node.t)
  (s s' : Planner.PlannerState) :
  Planner.exec w step node s = Returned s' ->
  Planner.next node s' = None ->
  Planner.run w (S budget) step node s = Returned s'.
Proof.
  intros Hexec Hnext. cbn [Planner.run]. rewrite Hexec. cbn [bind].
  rewrite Hnext. reflexivity.
Qed.

(** What a closing node puts into every response. *)
Lemma closing_response (w : World) (step : nat) (node : Planner.Node.t)
  (s s' : Planner.PlannerState) :
  Invariant.closing node = true ->
  Planner.exec w step node s = Returned s' ->
  Py.get (Planner.final_response s') "workflow_messages"
  = Some (Planner.workflow_messages s)
  /\ Py.get (Planner.final_response s') "intent"
     = Some (VDict (Planner.intent s))
  /\ Observe.iterations (Planner.final_response s')
     = Some (VInt (Planner.iteration s))
  /\ exists said, Planner.messages s' = (Planner.messages s ++ said)%list.
Proof.
  intros Hclosing Hexec.
  destruct node; try discriminate Hclosing; simpl in Hexec.
  - unfold Planner._finalize_response_node in Hexec.
    destruct (String.eqb (Planner.verification_status s) "PASS"
              && match Planner.results s with [] => false | _ => true end).
    + destruct (match Planner.results s with
                | [r] => Returned r
                | _ => Verifier.get_ensemble_result Planner.verifier
                         (Planner.results s)
                end) as [final|e]; [|discriminate Hexec].
      cbn [bind] in Hexec.
      destruct (Planner.mismatch_warning s) as [warning|];
        [destruct (String.eqb warning "")|];
        inversion Hexec; subst s'; simpl;
        repeat split; eexists; reflexivity.
    + destruct (String.eqb (Planner.verification_recommendation s)
                  "human_review");
        [|destruct (Planner.MAX_REPLANS <=? Planner.iteration s)%Z];
        inversion Hexec; subst s'; simpl;
        repeat split; eexists; reflexivity.
  - inversion Hexec; subst s'. simpl.
    repeat split. exists []. symmetry. apply app_nil_r.
Qed.

(** The response to a verification that passed. *)
Lemma finalize_completed (w : World) (step : nat)
  (s s' : Planner.PlannerState) :
  Planner.verification_status s = "PASS" ->
  Planner.results s <> [] ->
  Planner._finalize_response_node w step s = Returned s' ->
  let response := Planner.final_response s' in
  (Observe.status response = Some (VStr "COMPLETED")
   \/ Observe.status response = Some (VStr "COMPLETED_WITH_WARNING"))
  /\ (exists result, Py.get response "result" = Some (VDict result))
  /\ Py.get response "error" = None.
Proof.
  intros Hpass Hres. unfold Planner._finalize_response_node.
  rewrite Hpass. simpl String.eqb.
  destruct (Planner.results s) as [|first rest] eqn:Er; [congruence|].
  cbv beta iota delta [andb].
  destruct (match first :: rest with
            | [r] => Returned r
            | _ => Verifier.get_ensemble_result Planner.verifier
                     (first :: rest)
            end) as [final|e]; [|discriminate].
  cbv beta iota delta [bind].
  destruct (Planner.mismatch_warning s) as [warning|];
    [destruct (String.eqb warning "")|];
    intro Hexec; inversion Hexec; subst s'; simpl;
    (split; [auto|]); split; try reflexivity; eexists; reflexivity.
Qed.

(** X18.  Every response of the entry point has one of three shapes.  It
    is COMPLETED or COMPLETED_WITH_WARNING, and then carries a result and
    no error; or it is INCONCLUSIVE, with the error MAX_REPLANS_EXCEEDED
    and three iterations, and carries no result; or it is FAILED, with an
    error and no result.  A response is never NEEDS_REVIEW: the reflection
    writes no recommendation but replan and success, so that the
    human_review branches of the status check and of the final response
    are never taken. *)
Theorem response_has_one_of_three_shapes (w : World)
  (request : ClassificationRequest.t) :
  let response := Planner.plan_and_execute w request in
  ((Observe.status response = Some (VStr "COMPLETED")
    \/ Observe.status response = Some (VStr "COMPLETED_WITH_WARNING"))
   /\ (exists result, Py.get response "result" = Some (VDict result))
   /\ Py.get response "error" = None)
  \/ (Observe.status response = Some (VStr "INCONCLUSIVE")
      /\ Py.get response "error" = Some (VStr "MAX_REPLANS_EXCEEDED")
      /\ Observe.iterations response = Some (VInt 3)
      /\ Py.get response "result" = None)
  \/ (Observe.status response = Some (VStr "FAILED")
      /\ (exists e, Py.get response "error" = Some (VStr e))
      /\ Py.get response "result" = None).
Proof.
  intro response. subst response.
  destruct (response_closes w request)
    as (step & node & s0 & s' & Hreach & Hclosing & Hexec & ->).
  pose proof (reaches_sound w request _ _ _ Hreach)
    as (_ & Hrec & Hpass & _ & Hnode).
  pose proof (reaches_on_track w request _ _ _ Hreach) as [Htrack _].
  rewrite Hclosing in Htrack. destruct Htrack as [Hiter _].
  destruct node; try discriminate Hclosing; simpl in Hexec.
  - (* finalize_response *)
    destruct Hnode as [_ Hwhy].
    destruct (String.eqb (Planner.verification_status s0) "PASS") eqn:Es.
    + apply String.eqb_eq in Es. destruct (Hpass Es) as [Hres _].
      left. exact (finalize_completed w step s0 s' Es Hres Hexec).
    + right. left.
      destruct Hwhy as [Hp|Hmax];
        [rewrite Hp in Es; discriminate|].
      unfold Planner._finalize_response_node in Hexec.
      rewrite Es in Hexec. cbn [andb] in Hexec.
      destruct (String.eqb (Planner.verification_recommendation s0)
                  "human_review") eqn:Er.
      { apply String.eqb_eq in Er. rewrite Er in Hrec. simpl in Hrec.
        destruct Hrec as [Hr|[Hr|[Hr|[]]]]; discriminate. }
      apply Z.leb_le in Hmax. rewrite Hmax in Hexec.
      inversion Hexec; subst s'. simpl.
      apply Z.leb_le in Hmax. unfold Planner.MAX_REPLANS in *.
      assert (Hthree : Planner.iteration s0 = 3%Z) by lia.
      rewrite Hthree. repeat split.
  - (* handle_error *)
    right. right. inversion Hexec; subst s'. simpl.
    repeat split. eexists. reflexivity.
Qed.

(** A state of a run is entered at one step only, and a step is entered
    with one state only. *)
Lemma reaches_from_one (w : World) (request : ClassificationRequest.t)
  (step : nat) (node : Planner.Node.t) (s : Planner.PlannerState) :
  Invariant.reaches w request step node s -> (1 <= step)%nat.
Proof. induction 1; lia. Qed.

Lemma reaches_functional (w : World) (request : ClassificationRequest.t)
  (step : nat) (node : Planner.Node.t) (s : Planner.PlannerState) :
  Invariant.reaches w request step node s ->
  forall node2 s2,
    Invariant.reaches w request step node2 s2 -> node = node2 /\ s = s2.
Proof.
  induction 1 as [|step node node' s s' Hreach IH Hexec Hnext];
    intros node2 s2 Hsecond.
  - inversion Hsecond as [|step0 n0 n0' t0 t0' Hr0 He0 Hn0]; subst.
    + split; reflexivity.
    + apply reaches_from_one in Hr0. lia.
  - inversion Hsecond as [|step0 n0 n0' t0 t0' Hr0 He0 Hn0]; subst.
    + apply reaches_from_one in Hreach. lia.
    + destruct (IH _ _ Hr0) as [E1 E2]. subst.
      assert (Es : s' = s2) by congruence. subst.
      split; congruence.
Qed.

(** Once a run has entered a closing node, it enters no node at a later
    step. *)
Lemma nothing_after_closing (w : World) (request : ClassificationRequest.t)
  (last : nat) (node : Planner.Node.t) (s : Planner.PlannerState) :
  Invariant.reaches w request last node s ->
  Invariant.closing node = true ->
  forall step node' s',
    Invariant.reaches w request step node' s' -> (step <= last)%nat.
Proof.
  intros Hlast Hclosing step node' s' Hreach.
  induction Hreach as [|step n n' t t' Hreach IH Hexec Hnext].
  - exact (reaches_from_one w request _ _ _ Hlast).
  - destruct (Nat.eq_dec step last) as [->|Hne]; [|lia].
    destruct (reaches_functional w request _ _ _ Hlast _ _ Hreach) as [<- _].
    destruct node; try discriminate Hclosing; discriminate Hnext.
Qed.

(** X19.  The agents are dispatched twice at most in a run, although
    MAX_REPLANS is 3: the dispatch is entered at step 5 with iteration 1
    and at step 12 with iteration 2, and at no other step; and a step of a
    run is entered with one node and one state only.  (The status check
    after the second dispatch raises the iteration to 3, on which the run
    closes.) *)
Theorem agents_are_dispatched_twice_at_most (w : World)
  (request : ClassificationRequest.t) :
  (forall step s,
      Invariant.reaches w request step Planner.Node.execute_tasks s ->
      (step = 5%nat /\ Planner.iteration s = 1%Z)
      \/ (step = 12%nat /\ Planner.iteration s = 2%Z))
  /\ (forall step node node' s s',
        Invariant.reaches w request step node s ->
        Invariant.reaches w request step node' s' ->
        node = node' /\ s = s')
  /\ (forall step node s,
        Invariant.reaches w request step node s ->
        Invariant.closing node = false ->
        (Planner.iteration s < Planner.MAX_REPLANS)%Z).
Proof.
  split; [|split].
  - intros step s Hreach.
    destruct (reaches_on_track w request _ _ _ Hreach) as [Htrack _].
    cbv beta iota delta [Invariant.closing Invariant.offset] in Htrack.
    destruct Htrack as [[Hi|Hi] Hstep]; rewrite Hi in Hstep;
      [left|right]; split; solve [lia | exact Hi].
  - intros step node node' s s' H1 H2.
    exact (reaches_functional w request step node s H1 node' s' H2).
  - intros step node s Hreach Hopen.
    destruct (reaches_on_track w request _ _ _ Hreach) as [Htrack _].
    rewrite Hopen in Htrack. unfold Planner.MAX_REPLANS.
    destruct Htrack as [[Hi|Hi] _]; lia.
Qed.

(** X20.  The messages of a run only grow: every node hands on the
    messages that it was given, with what it says added at the end.  So
    the workflow messages of every response begin with the prompt of the
    request. *)
Theorem messages_only_grow (w : World) (request : ClassificationRequest.t) :
  (forall step node s s',
      Invariant.reaches w request step node s ->
      Planner.exec w step node s = Returned s' ->
      exists said, Planner.messages s' = (Planner.messages s ++ said)%list)
  /\ exists said,
       Py.get (Planner.plan_and_execute w request) "workflow_messages"
       = Some (VList (VStr (ClassificationRequest.prompt request)
                        :: map VStr said)).
Proof.
  split.
  - intros step node s s' Hreach Hexec.
    destruct node; simpl in Hexec.
    + inversion Hexec; subst s'.
      destruct (supervisor_keeps w step s) as (_ & _ & _ & Hm). exact Hm.
    + destruct (discover_keeps w step s s' Hexec) as (_ & _ & _ & Hm).
      exact Hm.
    + inversion Hexec; subst s'. eexists. reflexivity.
    + inversion Hexec; subst s'. eexists. reflexivity.
    + inversion Hexec; subst s'. eexists. reflexivity.
    + inversion Hexec; subst s'.
      destruct (execute_keeps w step s) as (_ & _ & _ & Hm). exact Hm.
    + inversion Hexec; subst s'.
      destruct (reflection_verdict w step s) as (_ & _ & _ & Hm). exact Hm.
    + inversion Hexec; subst s'.
      destruct (check_status_keeps_verdict s) as (_ & _ & _ & Hm). exact Hm.
    + destruct (closing_response w step Planner.Node.finalize_response s s'
                  eq_refl Hexec) as (_ & _ & _ & Hm). exact Hm.
    + destruct (closing_response w step Planner.Node.handle_error s s'
                  eq_refl Hexec) as (_ & _ & _ & Hm). exact Hm.
  - destruct (response_closes w request)
      as (step & node & s0 & s' & Hreach & Hclosing & Hexec & ->).
    destruct (closing_response w step node s0 s' Hclosing Hexec)
      as (Hflow & _).
    destruct (reaches_sound w request _ _ _ Hreach)
      as (_ & _ & _ & (said & Hsaid) & _).
    exists said. rewrite Hflow. unfold Planner.workflow_messages.
    rewrite Hsaid. reflexivity.
Qed.

(** An agent that gives no text gives no success answer. *)
Lemma silent_answer (w : World) (step pos : nat) (card : string * string)
  (prompt : string) :
  Trace.silent w step ->
  match Planner.send_message_to_agent w step pos card prompt with
  | Returned answer => Planner.is_success answer = false
  | Raised _ => True
  end.
Proof.
  intro Hsilent. specialize (Hsilent pos card prompt).
  unfold Planner.send_message_to_agent.
  destruct (send_message w step pos card prompt) as [response|e];
    [|exact I].
  rewrite Hsilent.
  destruct (A2AResponse.error response); [exact I|reflexivity].
Qed.

Lemma silent_dispatch (w : World) (step : nat) (route : RouteDecision.t)
  (primary : SelectedAgent.t) (others : list SelectedAgent.t)
  (prompt : string) :
  Trace.silent w step ->
  RouteDecision.selected_agents route = primary :: others ->
  RouteDecision.strategy route <> ExecutionStrategy.SEQUENTIAL_FALLBACK ->
  Planner.dispatch w step (Some route) prompt = Returned [].
Proof.
  intros Hsilent Hselected Hstrategy.
  destruct (RouteDecision.strategy route) eqn:Es; [| |contradiction].
  - rewrite (single_best_dispatch w step route primary others prompt Es
               Hselected).
    f_equal.
    pose proof (silent_answer w step 0 (Planner.card_of primary) prompt
                  Hsilent) as H0.
    destruct (Planner.send_message_to_agent w step 0 _ prompt) as [r|e].
    + rewrite H0. reflexivity.
    + destruct others as [|secondary rest]; [reflexivity|].
      pose proof (silent_answer w step 1 (Planner.card_of secondary) prompt
                    Hsilent) as H1.
      destruct (Planner.send_message_to_agent w step 1 _ prompt) as [r|e'];
        [rewrite H1|]; reflexivity.
  - rewrite (ensemble_dispatch w step route prompt Es). f_equal.
    induction (Planner.enumerate (RouteDecision.selected_agents route))
      as [|[i agent] places IH]; [reflexivity|].
    cbn [flat_map fst snd]. rewrite IH.
    pose proof (silent_answer w step i (Planner.card_of agent) prompt
                  Hsilent) as Hi.
    destruct (Planner.send_message_to_agent w step i _ prompt) as [r|e];
      [rewrite Hi|]; reflexivity.
Qed.

(** X21.  A dispatch on which no agent gives a text ends the run: the
    results are empty, the error is ALL_AGENTS_FAILED, and the response is
    FAILED with that error.  The agents are not asked again, although the
    reflection on the empty results recommends to replan: the run goes
    from the dispatch through the reflection and the status check to the
    error node, three steps later, and enters no node after it, so that
    no dispatch follows the silent one.  The status check still adds one
    to the iteration, so that the response counts one iteration more than
    the pass that failed. *)
Theorem silent_agents_fail_the_run (w : World)
  (request : ClassificationRequest.t) (step : nat)
  (s : Planner.PlannerState) :
  Invariant.reaches w request step Planner.Node.execute_tasks s ->
  Trace.silent w step ->
  let response := Planner.plan_and_execute w request in
  Observe.status response = Some (VStr "FAILED")
  /\ Py.get response "error" = Some (VStr "ALL_AGENTS_FAILED")
  /\ Observe.iterations response = Some (VInt (Planner.iteration s + 1))
  /\ Planner.results (Planner._execute_tasks_node w step s) = []
  /\ Planner.verification_recommendation
       (Planner._reflection_node w (S step)
          (Planner._execute_tasks_node w step s))
     = "replan"
  /\ (exists closed,
        Invariant.reaches w request (3 + step) Planner.Node.handle_error
          closed)
  /\ (forall step' node' s',
        Invariant.reaches w request step' node' s' ->
        (step' <= 3 + step)%nat)
  /\ (forall step' s',
        Invariant.reaches w request step' Planner.Node.execute_tasks s' ->
        (step' <= step)%nat).
Proof.
  intros Hreach Hsilent response. subst response.
  pose proof (run_from_reached w request _ _ _ Hreach) as Hrun.
  destruct (reaches_sound w request _ _ _ Hreach)
    as (Hreq & _ & _ & _ & (route & primary & others & Hroute & Hsel & Hstr)).
  destruct (reaches_on_track w request _ _ _ Hreach) as [Htrack _].
  cbv beta iota delta [Invariant.closing Invariant.offset] in Htrack.
  destruct Htrack as [Hiter Hstep].
  (* the dispatch *)
  set (s1 := Planner._execute_tasks_node w step s).
  assert (Hdispatch :
    Planner.dispatch w step (Planner.route_decision s)
      (ClassificationRequest.prompt (Planner.request s)) = Returned []).
  { rewrite Hroute.
    exact (silent_dispatch w step route primary others _ Hsilent Hsel Hstr). }
  destruct (execute_returned w step s [] Hdispatch) as (Hres1 & Herr1 & _).
  fold s1 in Hres1, Herr1. specialize (Herr1 eq_refl).
  destruct (execute_frame w step s) as [Hit1 _]. fold s1 in Hit1.
  (* the reflection *)
  set (s2 := Planner._reflection_node w (S step) s1).
  destruct (reflection_frame w (S step) s1) as (Hit2 & Herr2 & _).
  fold s2 in Hit2, Herr2.
  assert (Hverdict :
    Planner.verification_status s2 = "FAIL"
    /\ Planner.verification_recommendation s2 = "replan").
  { subst s2. unfold Planner._reflection_node. rewrite Hres1.
    split; reflexivity. }
  destruct Hverdict as [Hst2 Hrec2].
  (* the status check *)
  set (s3 := Planner._check_status_node s2).
  destruct (check_status_spec s2) as (Herr3 & _ & _ & _ & Hinc).
  fold s3 in Herr3, Hinc.
  assert (Hit3 : Planner.iteration s3 = (Planner.iteration s + 1)%Z).
  { rewrite Hinc, Hit2, Hit1; [reflexivity| | |].
    - rewrite Hst2. discriminate.
    - rewrite Hrec2. discriminate.
    - rewrite Hit2, Hit1. unfold Planner.MAX_REPLANS.
      destruct Hiter; lia. }
  assert (Herr : Planner.error s3 = "ALL_AGENTS_FAILED").
  { rewrite Herr3, Herr2. exact Herr1. }
  assert (Hnext : Planner.next Planner.Node.check_status s3
                  = Some Planner.Node.handle_error).
  { cbn [Planner.next]. unfold Planner._decide_next_action.
    rewrite Herr. reflexivity. }
  assert (Hbudget : exists budget,
             (S Planner.recursion_limit - step = 4 + budget)%nat).
  { exists (22 - step)%nat. unfold Planner.recursion_limit.
    destruct Hiter as [Hi|Hi]; rewrite Hi in Hstep; lia. }
  destruct Hbudget as [budget Hbudget].
  unfold Planner.plan_and_execute. rewrite Hrun, Hbudget.
  change (4 + budget)%nat with (S (S (S (S budget)))).
  rewrite (run_step w _ step Planner.Node.execute_tasks
             Planner.Node.reflection s s1 eq_refl eq_refl).
  rewrite (run_step w _ (S step) Planner.Node.reflection
             Planner.Node.check_status s1 s2 eq_refl eq_refl).
  rewrite (run_step w _ (S (S step)) Planner.Node.check_status
             Planner.Node.handle_error s2 s3 eq_refl Hnext).
  rewrite (run_stop w _ (S (S (S step))) Planner.Node.handle_error s3
             (Planner._handle_error_node s3) eq_refl eq_refl).
  cbn [Planner.respond].
  assert (Hclosed :
    Invariant.reaches w request (3 + step) Planner.Node.handle_error s3).
  { apply (Invariant.reaches_next w request (S (S step))
             Planner.Node.check_status Planner.Node.handle_error s2 s3);
      [|reflexivity|exact Hnext].
    apply (Invariant.reaches_next w request (S step)
             Planner.Node.reflection Planner.Node.check_status s1 s2);
      [|reflexivity|reflexivity].
    apply (Invariant.reaches_next w request step
             Planner.Node.execute_tasks Planner.Node.reflection s s1);
      [exact Hreach|reflexivity|reflexivity]. }
  pose proof (nothing_after_closing w request _ _ _ Hclosed eq_refl)
    as Hafter.
  split; [|split; [|split; [|split; [|split; [|split; [|split]]]]]].
  - unfold Planner._handle_error_node. simpl. rewrite Herr. reflexivity.
  - unfold Planner._handle_error_node. simpl. rewrite Herr. reflexivity.
  - unfold Planner._handle_error_node. simpl. rewrite Hit3. reflexivity.
  - exact Hres1.
  - exact Hrec2.
  - exists s3. exact Hclosed.
  - exact Hafter.
  - intros step' s' Hagain.
    pose proof (Hafter _ _ _ Hagain) as Hle.
    destruct (reaches_on_track w request _ _ _ Hagain) as [Hagain' _].
    cbv beta iota delta [Invariant.closing Invariant.offset] in Hagain'.
    destruct Hagain' as [Hiter' Hstep'].
    destruct Hiter as [Hi|Hi]; rewrite Hi in Hstep;
      destruct Hiter' as [Hi'|Hi']; rewrite Hi' in Hstep'; lia.
Qed.

(** The route decision on an error, or without agents, leads to the
    error node. *)
Lemma route_fails (s : Planner.PlannerState) :
  Planner.error s <> "" \/ Planner.discovered_agents s = [] ->
  Planner.next Planner.Node.route_decision (Planner._route_decision_node s)
  = Some Planner.Node.handle_error.
Proof.
  intro Hwhy. cbn [Planner.next]. unfold Planner._should_use_ensemble.
  change (Planner.error (Planner._route_decision_node s))
    with (Planner.error s).
  change (Planner.discovered_agents (Planner._route_decision_node s))
    with (Planner.discovered_agents s).
  destruct (String.eqb (Planner.error s) "") eqn:Ee; [|reflexivity].
  apply String.eqb_eq in Ee. cbn [negb].
  destruct Hwhy as [Hn|Hn]; [contradiction|]. rewrite Hn. reflexivity.
Qed.

Lemma route_closes (w : World) (budget step : nat)
  (s : Planner.PlannerState) :
  Planner.error s <> "" \/ Planner.discovered_agents s = [] ->
  exists s',
    Planner.run w (S (S budget)) step Planner.Node.route_decision s
    = Returned s'
    /\ Observe.status (Planner.final_response s') = Some (VStr "FAILED")
    /\ Py.get (Planner.final_response s') "error"
       = Some (VStr (Planner.error s))
    /\ Observe.iterations (Planner.final_response s')
       = Some (VInt (Planner.iteration s)).
Proof.
  intro Hwhy.
  set (s1 := Planner._route_decision_node s).
  assert (Hnext : Planner.next Planner.Node.route_decision s1
                  = Some Planner.Node.handle_error).
  { cbn [Planner.next]. unfold Planner._should_use_ensemble.
    change (Planner.error s1) with (Planner.error s).
    change (Planner.discovered_agents s1) with (Planner.discovered_agents s).
    destruct (String.eqb (Planner.error s) "") eqn:Ee; [|reflexivity].
    apply String.eqb_eq in Ee. cbn [negb].
    destruct Hwhy as [Hn|Hn]; [contradiction|]. rewrite Hn. reflexivity. }
  exists (Planner._handle_error_node s1).
  rewrite (run_step w _ step Planner.Node.route_decision
             Planner.Node.handle_error s s1 eq_refl Hnext).
  rewrite (run_stop w _ (S step) Planner.Node.handle_error s1
             (Planner._handle_error_node s1) eq_refl eq_refl).
  split; [reflexivity|]. repeat split.
Qed.

(** X22.  When the directory lists no agent for the supervisor (it
    returns the empty list, or its call raises), the run makes no dispatch:
    it enters the error node at step 4, coming from the route decision,
    and no node after it, so that it enters neither a route nor the
    dispatch at any step.  The response is FAILED after one iteration.
    Its error is NO_AGENTS_AVAILABLE, unless the second lookup of the
    directory, by tags, raised: then the error is the text of that
    exception. *)
Theorem empty_directory_fails_the_run (w : World)
  (request : ClassificationRequest.t) :
  Planner.discover_all w 1 10 = Returned []
  \/ (exists e, Planner.discover_all w 1 10 = Raised e) ->
  let response := Planner.plan_and_execute w request in
  Observe.status response = Some (VStr "FAILED")
  /\ Observe.iterations response = Some (VInt 1)
  /\ (Py.get response "error" = Some (VStr "NO_AGENTS_AVAILABLE")
      \/ exists query e,
           discover w 2 query = Raised e
           /\ Py.get response "error" = Some (VStr e))
  /\ (exists closed,
        Invariant.reaches w request 4 Planner.Node.handle_error closed)
  /\ (forall step node s,
        Invariant.reaches w request step node s ->
        (step <= 4)%nat
        /\ node <> Planner.Node.route_simple
        /\ node <> Planner.Node.route_ensemble
        /\ node <> Planner.Node.execute_tasks).
Proof.
  intros Hnone response. subst response.
  set (s0 := Planner.initial_state w request).
  set (s1 := Planner._supervisor_node w 1 s0).
  assert (Hs1 :
    Planner.error s1 = "NO_AGENTS_AVAILABLE"
    /\ Planner.discovered_agents s1 = []
    /\ Planner.iteration s1 = 1%Z
    /\ Py.get (Planner.intent s1) "domain" <> None).
  { subst s1. unfold Planner._supervisor_node.
    destruct Hnone as [Hn|[e Hn]]; rewrite Hn; simpl;
      repeat split; discriminate. }
  destruct Hs1 as (Herr1 & Hag1 & Hit1 & Hdom1).
  destruct (discover_returns w 2 s1 Hdom1) as [s2 Hexec2].
  pose proof (discover_frame w 2 s1 s2 Hexec2) as Hit2.
  assert (Hs2 :
    (Planner.error s2 = "NO_AGENTS_AVAILABLE"
     \/ exists query e,
          discover w 2 query = Raised e
          /\ Planner.error s2 = e /\ Planner.discovered_agents s2 = [])).
  { unfold Planner._discover_agents_node in Hexec2.
    rewrite Hag1 in Hexec2.
    destruct (Py.get (Planner.intent s1) "domain") as [domain|];
      [|contradiction].
    cbn [of_option bind] in Hexec2.
    match type of Hexec2 with
    | context [discover w 2 ?q] =>
        destruct (discover w 2 q) as [[|a found]|e] eqn:Hd
    end; inversion Hexec2; subst s2.
    - left. reflexivity.
    - left. simpl. exact Herr1.
    - right. eexists. exists e. split; [exact Hd|]. split; reflexivity. }
  assert (Hwhy : Planner.error s2 <> "" \/ Planner.discovered_agents s2 = []).
  { destruct Hs2 as [He|(q & e & _ & _ & Ha)];
      [left; rewrite He; discriminate|right; exact Ha]. }
  destruct (route_closes w 21 3 s2 Hwhy) as (s' & Hrun & Hst & Her & Hitr).
  unfold Planner.plan_and_execute, Planner.ainvoke, Planner.recursion_limit.
  fold s0.
  rewrite (run_step w 24 1 Planner.Node.supervisor
             Planner.Node.discover_agents s0 s1 eq_refl eq_refl).
  rewrite (run_step w 23 2 Planner.Node.discover_agents
             Planner.Node.route_decision s1 s2 Hexec2 eq_refl).
  rewrite Hrun. cbn [Planner.respond].
  split; [exact Hst|].
  split; [rewrite Hitr, Hit2, Hit1; reflexivity|].
  split.
  { rewrite Her.
    destruct Hs2 as [He|(q & e & Hd & He & _)].
    - left. rewrite He. reflexivity.
    - right. exists q, e. split; [exact Hd|]. rewrite He. reflexivity. }
  assert (Hclosed :
    Invariant.reaches w request 4 Planner.Node.handle_error
      (Planner._route_decision_node s2)).
  { apply (Invariant.reaches_next w request 3 Planner.Node.route_decision
             Planner.Node.handle_error s2 (Planner._route_decision_node s2));
      [|reflexivity|exact (route_fails s2 Hwhy)].
    apply (Invariant.reaches_next w request 2 Planner.Node.discover_agents
             Planner.Node.route_decision s1 s2);
      [|exact Hexec2|reflexivity].
    apply (Invariant.reaches_next w request 1 Planner.Node.supervisor
             Planner.Node.discover_agents s0 s1);
      [apply Invariant.reaches_start|reflexivity|reflexivity]. }
  split; [eexists; exact Hclosed|].
  intros step node s Hreach.
  pose proof (nothing_after_closing w request _ _ _ Hclosed eq_refl
                _ _ _ Hreach) as Hle.
  split; [exact Hle|].
  destruct (Nat.eq_dec step 4) as [->|Hne].
  - destruct (reaches_functional w request _ _ _ Hclosed _ _ Hreach)
      as [<- _].
    repeat split; discriminate.
  - destruct (reaches_on_track w request _ _ _ Hreach) as [Htrack _].
    repeat split; intros ->;
      cbv beta iota delta [Invariant.closing Invariant.offset] in Htrack;
      destruct Htrack as [[Hi|Hi] Hstep]; rewrite Hi in Hstep; lia.
Qed.

End RunProperties.

(** Two agents that are both down. *)
Lemma silent_agents_fail_the_run_witness :
  let w := Example.flaky_world 2 (fun _ => true) in
  let response :=
    Planner.plan_and_execute (H := Sample.platform) w Sample.request in
  Observe.status response = Some (VStr "FAILED")
  /\ Py.get response "error" = Some (VStr "ALL_AGENTS_FAILED")
  /\ Observe.iterations response = Some (VInt 2)
  /\ (forall step s,
        Invariant.reaches (H := Sample.platform) w Sample.request step
          Planner.Node.execute_tasks s ->
        (step <= 5)%nat).
Proof.
  intros w response.
  assert (Hreach : exists s,
    Invariant.reaches (H := Sample.platform) w Sample.request 5
      Planner.Node.execute_tasks s
    /\ Planner.iteration s = 1%Z).
  { eexists. split.
    - eapply Invariant.reaches_next;
        [eapply Invariant.reaches_next;
          [eapply Invariant.reaches_next;
            [eapply Invariant.reaches_next;
              [apply Invariant.reaches_start|reflexivity|reflexivity]
            |reflexivity|reflexivity]
          |reflexivity|reflexivity]
        |reflexivity|reflexivity].
    - reflexivity. }
  destruct Hreach as (s & Hreach & Hiteration).
  destruct (silent_agents_fail_the_run (H := Sample.platform) w
              Sample.request 5 s Hreach (fun _ _ _ => I))
    as (Hstatus & Herror & Hcount & _ & _ & _ & _ & Honce).
  rewrite Hiteration in Hcount.
  exact (conj Hstatus (conj Herror (conj Hcount Honce))).
Defined.

(** A directory without agents. *)
Lemma empty_directory_fails_the_run_witness :
  let response :=
    Planner.plan_and_execute (H := Sample.platform) Example.empty_world
      Sample.request in
  Observe.status response = Some (VStr "FAILED")
  /\ Observe.iterations response = Some (VInt 1)
  /\ (forall step s,
        ~ Invariant.reaches (H := Sample.platform) Example.empty_world
            Sample.request step Planner.Node.execute_tasks s).
Proof.
  intro response.
  destruct (empty_directory_fails_the_run (H := Sample.platform)
              Example.empty_world Sample.request (or_introl eq_refl))
    as (Hstatus & Hiterations & _ & _ & Hnever).
  split; [exact Hstatus|]. split; [exact Hiterations|].
  intros step s Hreach.
  destruct (Hnever _ _ _ Hreach) as (_ & _ & _ & Hno).
  apply Hno. reflexivity.
Defined.

(** ** The static directory *)

Lemma insert_by_permutation {A : Type} (key : A -> Q) (x : A) (l : list A) :
  Permutation (Pylist.insert_by key x l) (x :: l).
Proof.
  induction l as [|y l IH]; cbn [Pylist.insert_by].
  - apply Permutation_refl.
  - destruct (Qle_bool (key y) (key x)); [apply Permutation_refl|].
    eapply Permutation_trans; [apply perm_skip; exact IH|apply perm_swap].
Qed.

Lemma sort_reverse_permutation {A : Type} (key : A -> Q) (l : list A) :
  Permutation (Pylist.sort_reverse key l) l.
Proof.
  unfold Pylist.sort_reverse.
  induction l as [|x l IH]; cbn [fold_right].
  - apply Permutation_refl.
  - eapply Permutation_trans; [apply insert_by_permutation|].
    apply perm_skip. exact IH.
Qed.




Lemma upto_prefix {A : Type} (n : Z) (l : list A) :
  exists rest, l = (Pylist.upto n l ++ rest)%list.
Proof.
  unfold Pylist.upto.
  destruct (n <? 0)%Z; eexists; symmetry; apply firstn_skipn.
Qed.


Lemma upto_all {A : Type} (n : Z) (l : list A) :
  (Z.of_nat (List.length l) <= n)%Z -> Pylist.upto n l = l.
Proof.
  intro Hn. unfold Pylist.upto.
  destruct (n <? 0)%Z eqn:E; [apply Z.ltb_lt in E; lia|].
  apply firstn_all2. lia.
Qed.

(** An agent that is not passed over has a skill of the queried id with a
    tag of the query, when the query has tags. *)
Lemma kept_shares_a_tag (query : DiscoveryQuery.t) (agent : AgentListing.t) :
  DiscoveryQuery.tags query <> [] ->
  StaticAgentDiscovery.skipped query agent = false
  <-> exists tag skill,
        In tag (DiscoveryQuery.tags query)
        /\ In skill
             (AgentCapabilities.skills (AgentListing.capabilities agent))
        /\ DiscoveryQuery.skill_id query = Some (AgentSkill.id skill)
        /\ In tag (AgentSkill.tags skill).
Proof.
  intro Htags.
  unfold StaticAgentDiscovery.skipped, StaticAgentDiscovery.tag_match_score.
  destruct (StaticAgentDiscovery.query_tags query) as [|t tags] eqn:Eq.
  { exfalso. unfold StaticAgentDiscovery.query_tags, Pyset.of_list in Eq.
    destruct (DiscoveryQuery.tags query) as [|x l]; [congruence|].
    assert (Hin : In x (nodup string_dec (x :: l))).
    { apply nodup_In. left. reflexivity. }
    rewrite Eq in Hin. destruct Hin. }
  rewrite Bool.andb_true_r.
  set (matching :=
    Pyset.intersection (StaticAgentDiscovery.agent_tags query agent)
      (t :: tags)).
  assert (Hzero :
    Qeq_bool
      (inject_Z (Z.of_nat (List.length matching))
       / inject_Z (Z.of_nat (List.length (t :: tags)))) 0 = false
    <-> matching <> []).
  { destruct matching as [|m ms].
    - split; [discriminate|congruence].
    - split; [discriminate|]. intros _. reflexivity. }
  rewrite Hzero. clear Hzero.
  assert (Hmem : forall tag,
    In tag matching
    <-> In tag (DiscoveryQuery.tags query)
        /\ exists skill,
             In skill
               (AgentCapabilities.skills (AgentListing.capabilities agent))
             /\ DiscoveryQuery.skill_id query = Some (AgentSkill.id skill)
             /\ In tag (AgentSkill.tags skill)).
  { intro tag. subst matching. unfold Pyset.intersection.
    rewrite filter_In. unfold Pyset.mem. rewrite existsb_exists.
    assert (Hq : (exists x, In x (t :: tags) /\ String.eqb tag x = true)
                 <-> In tag (DiscoveryQuery.tags query)).
    { rewrite <- Eq. unfold StaticAgentDiscovery.query_tags, Pyset.of_list.
      split.
      - intros (x & Hx & Hex). apply String.eqb_eq in Hex. subst x.
        apply nodup_In in Hx. exact Hx.
      - intro Hin. exists tag. split; [apply nodup_In; exact Hin|].
        apply String.eqb_refl. }
    rewrite Hq.
    unfold StaticAgentDiscovery.agent_tags, Pyset.of_list.
    rewrite nodup_In, in_flat_map.
    split.
    - intros [(skill & Hs & Hin) Hquery]. split; [exact Hquery|].
      exists skill. split; [exact Hs|].
      unfold StaticAgentDiscovery.has_id in Hin.
      destruct (DiscoveryQuery.skill_id query) as [i|]; [|destruct Hin].
      destruct (String.eqb (AgentSkill.id skill) i) eqn:Ei; [|destruct Hin].
      apply String.eqb_eq in Ei. subst i. split; [reflexivity|exact Hin].
    - intros (Hquery & skill & Hs & Hid & Hin). split; [|exact Hquery].
      exists skill. split; [exact Hs|].
      unfold StaticAgentDiscovery.has_id. rewrite Hid, String.eqb_refl.
      exact Hin. }
  split.
  - intro Hne. destruct matching as [|m ms] eqn:Em; [congruence|].
    assert (Hm : In m (m :: ms)) by (left; reflexivity).
    apply Hmem in Hm. destruct Hm as (Hq & skill & Hs & Hid & Hin).
    exists m, skill. auto.
  - intros (tag & skill & Hq & Hs & Hid & Hin).
    assert (Hm : In tag matching).
    { apply Hmem. split; [exact Hq|]. exists skill. auto. }
    intro Hnil. rewrite Hnil in Hm. destruct Hm.
Qed.

Lemma kept_without_tags (query : DiscoveryQuery.t) (agent : AgentListing.t) :
  DiscoveryQuery.tags query = [] ->
  StaticAgentDiscovery.skipped query agent = false.
Proof.
  intro Htags. unfold StaticAgentDiscovery.skipped.
  unfold StaticAgentDiscovery.query_tags. rewrite Htags.
  apply Bool.andb_false_r.
Qed.

Lemma found_is_candidate (self : StaticAgentDiscovery.t)
  (query : DiscoveryQuery.t) (a : AgentListing.t) :
  In a (StaticAgentDiscovery.discover self query) ->
  In a (StaticAgentDiscovery.agents self)
  /\ StaticAgentDiscovery.skipped query a = false.
Proof.
  unfold StaticAgentDiscovery.discover. intro Hin.
  apply in_map_iff in Hin. destruct Hin as ([sc b] & Hb & Hin).
  cbn [snd] in Hb. subst b.
  destruct (upto_prefix (DiscoveryQuery.limit query)
              (Pylist.sort_reverse fst
                 (StaticAgentDiscovery.candidates self query)))
    as [rest Hrest].
  assert (Hsorted : In (sc, a)
            (Pylist.sort_reverse fst
               (StaticAgentDiscovery.candidates self query))).
  { rewrite Hrest. apply in_or_app. left. exact Hin. }
  apply (Permutation_in _ (sort_reverse_permutation fst _)) in Hsorted.
  unfold StaticAgentDiscovery.candidates in Hsorted.
  apply in_map_iff in Hsorted. destruct Hsorted as (b & Hb & Hfilter).
  inversion Hb; subst b.
  apply filter_In in Hfilter. destruct Hfilter as [Hlisted Hkept].
  split; [exact Hlisted|]. apply Bool.negb_true_iff. exact Hkept.
Qed.



(** X24.  A query with tags and without a skill id finds nothing, since
    no skill carries the id that it does not name.  With a limit that is
    not below the number of listed agents, the directory loses no agent:
    it finds every listed agent that has a skill of the queried id with a
    tag of the query, and a query without tags finds all the listed
    agents, whatever their skills.  The thresholds of the query on the
    success rate and on the latency select nothing: two queries with the
    same skill id, tags and limit find the same agents. *)
Theorem discover_keeps_every_match (self : StaticAgentDiscovery.t)
  (query : DiscoveryQuery.t) :
  (DiscoveryQuery.skill_id query = None ->
   DiscoveryQuery.tags query <> [] ->
   StaticAgentDiscovery.discover self query = [])
  /\ ((Z.of_nat (List.length (StaticAgentDiscovery.agents self))
       <= DiscoveryQuery.limit query)%Z ->
      (forall a tag skill,
          In a (StaticAgentDiscovery.agents self) ->
          In tag (DiscoveryQuery.tags query) ->
          In skill (AgentCapabilities.skills (AgentListing.capabilities a)) ->
          DiscoveryQuery.skill_id query = Some (AgentSkill.id skill) ->
          In tag (AgentSkill.tags skill) ->
          In a (StaticAgentDiscovery.discover self query))
      /\ (DiscoveryQuery.tags query = [] ->
          Permutation (StaticAgentDiscovery.discover self query)
            (StaticAgentDiscovery.agents self)))
  /\ (forall query',
        DiscoveryQuery.skill_id query' = DiscoveryQuery.skill_id query ->
        DiscoveryQuery.tags query' = DiscoveryQuery.tags query ->
        DiscoveryQuery.limit query' = DiscoveryQuery.limit query ->
        StaticAgentDiscovery.discover self query'
        = StaticAgentDiscovery.discover self query).
Proof.
  assert (Hperm :
    (Z.of_nat (List.length (StaticAgentDiscovery.agents self))
     <= DiscoveryQuery.limit query)%Z ->
    Permutation (StaticAgentDiscovery.discover self query)
      (filter (fun a => negb (StaticAgentDiscovery.skipped query a))
         (StaticAgentDiscovery.agents self))).
  { intro Hlimit. unfold StaticAgentDiscovery.discover.
    rewrite upto_all.
    - eapply Permutation_trans;
        [apply Permutation_map; apply sort_reverse_permutation|].
      unfold StaticAgentDiscovery.candidates.
      rewrite map_map. cbn [snd]. rewrite map_id. apply Permutation_refl.
    - rewrite (Permutation_length (sort_reverse_permutation fst _)).
      unfold StaticAgentDiscovery.candidates. rewrite length_map.
      pose proof (filter_length_le
                    (fun a => negb (StaticAgentDiscovery.skipped query a))
                    (StaticAgentDiscovery.agents self)).
      lia. }
  split; [|split].
  - intros Hskill Htags.
    destruct (StaticAgentDiscovery.discover self query) as [|a found] eqn:Ef;
      [reflexivity|].
    exfalso.
    assert (Hin : In a (StaticAgentDiscovery.discover self query)).
    { rewrite Ef. left. reflexivity. }
    apply found_is_candidate in Hin. destruct Hin as [_ Hkept].
    apply (kept_shares_a_tag query a Htags) in Hkept.
    destruct Hkept as (tag & skill & _ & _ & Hid & _). congruence.
  - intro Hlimit. specialize (Hperm Hlimit). split.
    + intros a tag skill Ha Htag Hskill Hid Hin.
      apply (Permutation_in _ (Permutation_sym Hperm)).
      apply filter_In. split; [exact Ha|].
      apply Bool.negb_true_iff.
      apply kept_shares_a_tag.
      * intro Hnil. rewrite Hnil in Htag. destruct Htag.
      * exists tag, skill. auto.
    + intro Htags.
      eapply Permutation_trans; [exact Hperm|].
      assert (Hall : forall l : list AgentListing.t,
        filter (fun a => negb (StaticAgentDiscovery.skipped query a)) l = l).
      { induction l as [|a l IH]; [reflexivity|].
        cbn [filter]. rewrite (kept_without_tags query a Htags).
        cbn [negb]. f_equal. exact IH. }
      rewrite Hall. apply Permutation_refl.
  - intros query' Hskill Htags Hlimit.
    unfold StaticAgentDiscovery.discover, StaticAgentDiscovery.candidates,
      StaticAgentDiscovery.skipped, StaticAgentDiscovery.score,
      StaticAgentDiscovery.tag_match_score, StaticAgentDiscovery.query_tags,
      StaticAgentDiscovery.agent_tags.
    rewrite Hskill, Htags, Hlimit. reflexivity.
Qed.


(** The built-in directory, asked for a tag without a skill id. *)
Lemma discover_keeps_every_match_witness :
  StaticAgentDiscovery.discover StaticAgentDiscovery.init
    {| DiscoveryQuery.skill_id := None;
       DiscoveryQuery.tags := ["medical"];
       DiscoveryQuery.min_success_rate := 0%Q;
       DiscoveryQuery.max_latency_ms := None;
       DiscoveryQuery.limit := 10 |}
  = [].
Proof.
  apply (proj1 (discover_keeps_every_match StaticAgentDiscovery.init
           {| DiscoveryQuery.skill_id := None;
              DiscoveryQuery.tags := ["medical"];
              DiscoveryQuery.min_success_rate := 0%Q;
              DiscoveryQuery.max_latency_ms := None;
              DiscoveryQuery.limit := 10 |})).
  - reflexivity.
  - cbn. discriminate.
Defined.

(** ** Image transforms *)

(** [int(side * crop_ratio)] for a side of at most 2^53 pixels and a
    ratio between 0 and 1. *)
Lemma int_of_scaled (side : Z) (ratio : Q) :
  (0 <= side <= 2 ^ 53)%Z -> (0 <= ratio)%Q -> (ratio <= 1)%Q ->
  (0 <= Planner.int_of (Py.fmul (inject_Z side) ratio) <= side)%Z.
Proof.
  intros Hside H0 H1.
  destruct (binary64_unit ratio H0 H1) as [R0 R1].
  pose proof (binary64_int side Hside) as Eside.
  assert (Hpos : (0 <= inject_Z side)%Q).
  { change 0%Q with (inject_Z 0). rewrite <- Zle_Qle. lia. }
  set (s := Py.binary64 (inject_Z side)) in *.
  set (r := Py.binary64 ratio) in *.
  assert (Hs0 : (0 <= s)%Q) by (rewrite Eside; exact Hpos).
  destruct (as_float_between (s * r) 0 side) as [F0 F1];
    [lia|lia| | |].
  - change (inject_Z 0) with 0%Q. apply Qmult_le_0_compat; assumption.
  - rewrite <- Eside. nra.
  - apply (int_of_between _ 0 side); [lia|exact F0|exact F1].
Qed.

Lemma centred (outer inner : Z) :
  (0 <= inner <= outer)%Z ->
  let margin := ((outer - inner) / 2)%Z in
  (0 <= margin)%Z /\ (margin + inner <= outer)%Z
  /\ (margin <= outer - (margin + inner) <= margin + 1)%Z.
Proof.
  intros Hin margin. subst margin.
  pose proof (Z.div_mod (outer - inner) 2 ltac:(lia)) as Hdiv.
  pose proof (Z.mod_pos_bound (outer - inner) 2 ltac:(lia)) as Hmod.
  lia.
Qed.

(** X25.  For an image whose width and height are not negative (and at
    most 2^53) and a crop ratio between 0 and 1, the box that
    [center_crop_and_resize] cuts lies within the image and is centred:
    the margin on the right (below) is the margin on the left (above) or
    one pixel more.  Its width and height are the sides times the ratio,
    multiplied as floats and truncated. *)
Theorem crop_box_is_centred (width height : Z) (crop_ratio : Q) :
  (0 <= width <= 2 ^ 53)%Z -> (0 <= height <= 2 ^ 53)%Z ->
  (0 <= crop_ratio)%Q -> (crop_ratio <= 1)%Q ->
  let '(left_, top, right_, bottom) :=
    ImageTransforms.crop_box width height crop_ratio in
  (0 <= left_ <= right_)%Z /\ (right_ <= width)%Z
  /\ (0 <= top <= bottom)%Z /\ (bottom <= height)%Z
  /\ (right_ - left_
      = Planner.int_of (Py.fmul (inject_Z width) crop_ratio))%Z
  /\ (bottom - top
      = Planner.int_of (Py.fmul (inject_Z height) crop_ratio))%Z
  /\ (left_ <= width - right_ <= left_ + 1)%Z
  /\ (top <= height - bottom <= top + 1)%Z.
Proof.
  intros Hw Hh H0 H1. unfold ImageTransforms.crop_box. cbv zeta.
  pose proof (int_of_scaled width crop_ratio Hw H0 H1) as Hnw.
  pose proof (int_of_scaled height crop_ratio Hh H0 H1) as Hnh.
  pose proof (centred width _ Hnw) as Hcw.
  pose proof (centred height _ Hnh) as Hch.
  cbv zeta in Hcw, Hch. lia.
Qed.

(** An image of 100 by 80 cut to the ratio 0.29: the floats give 28 by
    23 pixels, 36 and 28 pixels from the left and the upper edge. *)
Lemma crop_box_is_centred_witness :
  ImageTransforms.crop_box 100 80 0.29%Q = (36, 28, 64, 51)%Z
  /\ let '(left_, top, right_, bottom) :=
       ImageTransforms.crop_box 100 80 0.29%Q in
     (0 <= left_ <= right_)%Z /\ (right_ <= 100)%Z
     /\ (left_ <= 100 - right_ <= left_ + 1)%Z.
Proof.
  split; [vm_compute; reflexivity|].
  pose proof (crop_box_is_centred 100 80 0.29%Q) as Hbox.
  destruct (ImageTransforms.crop_box 100 80 0.29%Q)
    as [[[left_ top] right_] bottom].
  destruct Hbox as (Hl & Hr & _ & _ & _ & _ & Hc & _).
  - lia.
  - lia.
  - unfold Qle; cbn; lia.
  - unfold Qle; cbn; lia.
  - auto.
Defined.

Section TransformProperties.
Context `{Imaging}.

Lemma unknown_transform (img : image) (transform_name : string) :
  ~ In transform_name ImageTransforms.transform_names ->
  ImageTransforms.apply_transform img transform_name
  = Raised ("Unknown transform: " ++ transform_name).
Proof.
  intro Hout. unfold ImageTransforms.apply_transform.
  repeat match goal with
  | |- context [String.eqb transform_name ?k] =>
      destruct (String.eqb_spec transform_name k) as [Heq|_];
      [exfalso; apply Hout; rewrite Heq;
       unfold ImageTransforms.transform_names; cbn [In]; tauto|]
  end.
  reflexivity.
Qed.

Lemma transform_all_names (img : image) (names : list string)
  (results : list (string * string)) :
  ImageTransforms.transform_all img names = Returned results ->
  map snd results = names
  /\ Forall (fun name => In name ImageTransforms.transform_names) names
  /\ Forall2
       (fun name pair =>
          exists transformed,
            ImageTransforms.apply_transform img name = Returned transformed
            /\ ImageTransforms.image_to_base64 transformed
               = Returned (fst pair))
       names results.
Proof.
  revert results.
  induction names as [|name names IH]; intros results Hall;
    cbn [ImageTransforms.transform_all] in Hall.
  - inversion Hall. subst results. repeat constructor.
  - destruct (ImageTransforms.apply_transform img name)
      as [transformed|e] eqn:Happly; cbn [bind] in Hall; [|discriminate].
    destruct (ImageTransforms.image_to_base64 transformed)
      as [b64|e] eqn:Hsave; cbn [bind] in Hall; [|discriminate].
    destruct (ImageTransforms.transform_all img names)
      as [rest|e] eqn:Hrest; cbn [bind] in Hall; [|discriminate].
    inversion Hall. subst results.
    destruct (IH rest eq_refl) as (Hnames & Hknown & Heach).
    cbn [map snd]. split; [f_equal; exact Hnames|].
    split.
    + constructor; [|exact Hknown].
      destruct (in_dec string_dec name ImageTransforms.transform_names)
        as [Hin|Hout]; [exact Hin|].
      rewrite (unknown_transform img name Hout) in Happly. discriminate.
    + constructor; [|exact Heach].
      exists transformed. cbn [fst]. auto.
Qed.

(** X26.  A transform whose name is not one of the six of the table
    raises the error that names it.  When the transforms of an image url
    return, they return one pair for each name, in the order of the names
    and with the name as second component, whose first component is the
    encoded image of that transform; every name is then one of the table.
    So a list with an unknown name yields no images at all, whatever stands
    before it; the standard augmentations are names of the table. *)
Theorem transforms_keep_names_and_order (image_url : option string)
  (names : list string) :
  (forall img name,
      ~ In name ImageTransforms.transform_names ->
      ImageTransforms.apply_transform img name
      = Raised ("Unknown transform: " ++ name))
  /\ (forall results,
        ImageTransforms.apply_transforms_to_url image_url names
        = Returned results ->
        map snd results = names
        /\ exists img,
             open_url image_url = Returned img
             /\ Forall2
                  (fun name pair =>
                     exists transformed,
                       ImageTransforms.apply_transform img name
                       = Returned transformed
                       /\ ImageTransforms.image_to_base64 transformed
                          = Returned (fst pair))
                  names results)
  /\ ((exists name,
          In name names /\ ~ In name ImageTransforms.transform_names) ->
      exists e,
        ImageTransforms.apply_transforms_to_url image_url names = Raised e)
  /\ incl ImageTransforms.get_standard_augmentations
       ImageTransforms.transform_names.
Proof.
  split; [exact unknown_transform|].
  split; [|split].
  - intros results Hall. unfold ImageTransforms.apply_transforms_to_url in Hall.
    destruct (open_url image_url) as [img|e]; cbn [bind] in Hall;
      [|discriminate].
    destruct (transform_all_names img names results Hall)
      as (Hnames & _ & Heach).
    split; [exact Hnames|]. exists img. auto.
  - intros (name & Hin & Hout).
    destruct (ImageTransforms.apply_transforms_to_url image_url names)
      as [results|e] eqn:Hall; [|exists e; reflexivity].
    exfalso. unfold ImageTransforms.apply_transforms_to_url in Hall.
    destruct (open_url image_url) as [img|e]; cbn [bind] in Hall;
      [|discriminate].
    destruct (transform_all_names img names results Hall)
      as (_ & Hknown & _).
    rewrite Forall_forall in Hknown. apply Hout, Hknown, Hin.
  - intros name Hin.
    unfold ImageTransforms.get_standard_augmentations in Hin.
    unfold ImageTransforms.transform_names. cbn [In] in *. tauto.
Qed.

End TransformProperties.

(** The standard augmentations of an image of 100 by 80, and the same
    list behind a name that the table does not have. *)
Lemma transforms_keep_names_and_order_witness :
  map snd
    (match ImageTransforms.apply_transforms_to_url (H := Example.imaging)
             (Some "http://store/img")
             ImageTransforms.get_standard_augmentations with
     | Returned results => results
     | Raised _ => []
     end)
  = ["rotate_15"; "blur_sigma1"; "brightness_1.1"]
  /\ exists e,
       ImageTransforms.apply_transforms_to_url (H := Example.imaging)
         (Some "http://store/img") ["rotate_15"; "flip"]
       = Raised e.
Proof.
  split; [reflexivity|].
  apply (transforms_keep_names_and_order (H := Example.imaging)
           (Some "http://store/img") ["rotate_15"; "flip"]).
  exists "flip". split; [right; left; reflexivity|].
  unfold ImageTransforms.transform_names. cbn [In].
  intros [E|[E|[E|[E|[E|[E|[]]]]]]]; discriminate.
Defined.
